(** * Weighbridge analytics: the aggregation routine of the Insights page

    A shallow embedding of [computeAdvancedAnalytics] (the advanced Insights
    component), of [computeMetrics] (src/components/Insights.jsx) and of
    the spreadsheet parser that feeds them, with the part of the
    JavaScript runtime they rely on, and the properties of the report
    they build.

    Modelling conventions.
    - Strings are sequences of code units below 256 (Latin-1); [trim],
      [toLowerCase] and the placeholder regular expression are written out
      for that range.
    - Numbers are [NaN], the two infinities, or a finite value kept as an
      exact rational: rounding and overflow of IEEE doubles are not
      modelled, so a statement about a quotient names it by its operands
      or bounds it.  Counters that the code only ever increments by one
      are natural numbers.
    - Objects used as dictionaries are association lists of their own
      properties in insertion order; [Object.keys] and [Object.entries]
      enumerate array-index keys first, in ascending numeric order, then
      the other keys in insertion order.  A dictionary written [{}]
      inherits the members of [Object.prototype]: a read [o[k]] finds
      them when [o] has no own property [k], and an assignment to
      [__proto__] makes no own property.  So the value that the idiom
      [o[k] = (o[k] || 0) + 1] leaves under a key is a number or a string,
      and a value read from a dictionary may also be an inherited member
      ([JsItem.item]).
    - A field of a row holds [undefined], [null], a boolean, a number or
      a string; the assignment mappings hold strings.
    - What the language leaves to the host (time zone, parsing of date
      strings outside the ISO format, locale formatting, the decimal
      rendering of a non-integer number, the source text of a built-in
      function) is a field of [Host].
    - A [TypeError] is a [Throw] of the [result] type.

    Module [Plain] holds the same routines over finite maps, that is
    without the inherited members.  It is what the code computes when no
    key is the name of a member of [Object.prototype] (module
    [Refinement]), and the counting arguments are carried out on it. *)


From Stdlib Require Import List String Ascii Bool Arith ZArith QArith Qabs Qround.
From Stdlib Require Import Lia Permutation Sorted Mergesort Orders.
From Stdlib Require Import DecimalString.
From Stdlib Require Import Lqa.
Import ListNotations.

Set Implicit Arguments.

(** ** Strings *)

Module JsString.

Local Open Scope nat_scope.

Definition isWhiteSpace (c : ascii) : bool :=
  let n := nat_of_ascii c in
  ((9 <=? n) && (n <=? 13)) || (n =? 32) || (n =? 160).

Fixpoint trimStart (s : string) : string :=
  match s with
  | EmptyString => EmptyString
  | String c s' => if isWhiteSpace c then trimStart s' else s
  end.

Fixpoint trimEnd (s : string) : string :=
  match s with
  | EmptyString => EmptyString
  | String c s' =>
      match trimEnd s' with
      | EmptyString => if isWhiteSpace c then EmptyString else String c EmptyString
      | t => String c t
      end
  end.

(** [String.prototype.trim] *)
Definition trim (s : string) : string := trimEnd (trimStart s).

Definition lowerChar (c : ascii) : ascii :=
  let n := nat_of_ascii c in
  if ((65 <=? n) && (n <=? 90))
     || ((192 <=? n) && (n <=? 222) && negb (n =? 215))
  then ascii_of_nat (n + 32) else c.

Fixpoint toLowerCase (s : string) : string :=
  match s with
  | EmptyString => EmptyString
  | String c s' => String (lowerChar c) (toLowerCase s')
  end.

(** Canonicalisation of a code unit by a case-insensitive regular
    expression: upper-casing, where the upper case is one code unit of
    this range. *)
Definition canonicalize (c : ascii) : ascii :=
  let n := nat_of_ascii c in
  if ((97 <=? n) && (n <=? 122))
     || ((224 <=? n) && (n <=? 254) && negb (n =? 247))
  then ascii_of_nat (n - 32) else c.

Definition eqi (pat c : ascii) : bool :=
  Ascii.eqb (canonicalize pat) (canonicalize c).

(** [Array.prototype.includes] on an array of strings *)
Definition includes (l : list string) (s : string) : bool :=
  existsb (String.eqb s) l.

(** [s.split(sep)[0]] for a one-character separator *)
Fixpoint splitHead (sep : ascii) (s : string) : string :=
  match s with
  | EmptyString => EmptyString
  | String c s' => if Ascii.eqb c sep then EmptyString else String c (splitHead sep s')
  end.

Definition isDigit (c : ascii) : bool :=
  let n := nat_of_ascii c in (48 <=? n) && (n <=? 57).

Definition digitVal (c : ascii) : Z := Z.of_nat (nat_of_ascii c) - 48.

(** Value of a run of digits in base [base], most significant first. *)
Definition digitsVal (base : Z) (val : ascii -> Z) (ds : list ascii) : Z :=
  fold_left (fun acc c => acc * base + val c)%Z ds 0%Z.

Fixpoint span (p : ascii -> bool) (l : list ascii) : list ascii * list ascii :=
  match l with
  | [] => ([], [])
  | c :: l' =>
      if p c then let (a, b) := span p l' in (c :: a, b) else ([], l)
  end.

Definition digitChar (z : Z) : ascii := ascii_of_N (48 + Z.to_N (z mod 10)).

Definition ofNat (n : nat) : string := NilZero.string_of_uint (Nat.to_uint n).

Definition ofZ (z : Z) : string := NilZero.string_of_int (Z.to_int z).

Definition pad2 (z : Z) : string :=
  String (digitChar (z / 10)) (String (digitChar z) EmptyString).

Definition pad3 (z : Z) : string :=
  String (digitChar (z / 100)) (pad2 z).

Definition pad4 (z : Z) : string :=
  String (digitChar (z / 1000)) (pad3 z).

Definition pad6 (z : Z) : string :=
  String (digitChar (z / 100000)) (String (digitChar (z / 10000)) (pad4 z)).

End JsString.

(** ** Numbers *)

Module JsNumber.

Inductive number : Type :=
| NaN
| PosInf
| NegInf
| Fin (q : Q).

Definition zero : number := Fin 0.

Definition ofNat (n : nat) : number := Fin (inject_Z (Z.of_nat n)).

Definition isNaN (x : number) : bool :=
  match x with NaN => true | _ => false end.

(** ToBoolean on a number: [0] and [NaN] are falsy. *)
Definition truthy (x : number) : bool :=
  match x with
  | NaN => false
  | Fin q => negb (Qeq_bool q 0)
  | _ => true
  end.

Definition add (x y : number) : number :=
  match x, y with
  | NaN, _ | _, NaN => NaN
  | PosInf, NegInf | NegInf, PosInf => NaN
  | PosInf, _ | _, PosInf => PosInf
  | NegInf, _ | _, NegInf => NegInf
  | Fin a, Fin b => Fin (a + b)
  end.

Definition negInf (neg : bool) : number := if neg then NegInf else PosInf.

Definition mul (x y : number) : number :=
  match x, y with
  | NaN, _ | _, NaN => NaN
  | Fin a, Fin b => Fin (a * b)
  | PosInf, PosInf | NegInf, NegInf => PosInf
  | PosInf, NegInf | NegInf, PosInf => NegInf
  | PosInf, Fin a | Fin a, PosInf =>
      if Qeq_bool a 0 then NaN else negInf (negb (Qle_bool 0 a))
  | NegInf, Fin a | Fin a, NegInf =>
      if Qeq_bool a 0 then NaN else negInf (Qle_bool 0 a)
  end.

Definition div (x y : number) : number :=
  match x, y with
  | NaN, _ | _, NaN => NaN
  | Fin a, Fin b =>
      if Qeq_bool b 0
      then (if Qeq_bool a 0 then NaN else negInf (negb (Qle_bool 0 a)))
      else Fin (a / b)
  | Fin _, _ => Fin 0
  | PosInf, Fin b => negInf (negb (Qle_bool 0 b))
  | NegInf, Fin b => negInf (Qle_bool 0 b)
  | _, _ => NaN
  end.

(** [x > y] *)
Definition gt (x y : number) : bool :=
  match x, y with
  | NaN, _ | _, NaN => false
  | PosInf, PosInf => false
  | PosInf, _ => true
  | _, PosInf => false
  | NegInf, _ => false
  | Fin _, NegInf => true
  | Fin a, Fin b => negb (Qle_bool a b)
  end.

(** [x < y] *)
Definition lt (x y : number) : bool := gt y x.

(** [x || 0] on a number that may be absent *)
Definition orZero (x : option number) : number :=
  match x with
  | Some v => if truthy v then v else zero
  | None => zero
  end.

End JsNumber.

Export JsNumber(number, NaN, PosInf, NegInf, Fin).


(** ** What the host environment decides *)

Record Host : Type := {
  (** [LocalTZA(t, isUTC)]: offset of local time from UTC, in ms *)
  LocalTZA : Z -> bool -> Z;
  (** [Date.parse] on a string outside the ISO date-time format
      ([None] is an invalid date) *)
  legacyDateParse : string -> option Z;
  (** [Date.prototype.toLocaleDateString] of a time value *)
  toLocaleDateString : option Z -> string;
  (** [Number::toString] of a finite number that is not an integer below
      [10^21] in absolute value *)
  finiteToString : Q -> string;
  (** [Function.prototype.toString] of the built-in function that
      [Object.prototype] holds under a name: what follows the keyword
      [function] in its source text *)
  nativeFunction : string -> string
}.


(** ** Values, conversions *)

Module JsValue.

Import JsString JsNumber.
Local Open Scope string_scope.

Inductive value : Type :=
| VUndefined
| VNull
| VBool (b : bool)
| VNum (x : number)
| VStr (s : string).

(** ToBoolean *)
Definition truthy (v : value) : bool :=
  match v with
  | VUndefined | VNull => false
  | VBool b => b
  | VNum x => JsNumber.truthy x
  | VStr s => negb (String.eqb s "")
  end.

(** [a || b] *)
Definition or (a b : value) : value := if truthy a then a else b.

Definition isHexDigit (c : ascii) : bool :=
  let n := nat_of_ascii c in
  (isDigit c || ((65 <=? n) && (n <=? 70)) || ((97 <=? n) && (n <=? 102)))%nat.

Definition hexVal (c : ascii) : Z :=
  let n := Z.of_nat (nat_of_ascii c) in
  (if n <=? 57 then n - 48 else if n <=? 70 then n - 55 else n - 87)%Z.

Definition isOctDigit (c : ascii) : bool :=
  let n := nat_of_ascii c in ((48 <=? n) && (n <=? 55))%nat.

Definition isBinDigit (c : ascii) : bool :=
  let n := nat_of_ascii c in ((48 <=? n) && (n <=? 49))%nat.

Definition allDigits (p : ascii -> bool) (base : Z) (val : ascii -> Z)
    (l : list ascii) : number :=
  match l with
  | [] => NaN
  | _ => if forallb p l then Fin (inject_Z (digitsVal base val l)) else NaN
  end.

(** Optional exponent part, then end of input. *)
Definition exponentPart (l : list ascii) : option Z :=
  match l with
  | [] => Some 0%Z
  | c :: r =>
      if Ascii.eqb c "e" || Ascii.eqb c "E" then
        let '(neg, ds) :=
          match r with
          | "-"%char :: ds => (true, ds)
          | "+"%char :: ds => (false, ds)
          | _ => (false, r)
          end in
        match ds with
        | [] => None
        | _ => if forallb isDigit ds
               then Some (if neg then - digitsVal 10 digitVal ds
                          else digitsVal 10 digitVal ds)%Z
               else None
        end
      else None
  end.

(** StrUnsignedDecimalLiteral *)
Definition unsignedDecimal (l : list ascii) : number :=
  if String.eqb (string_of_list_ascii l) "Infinity" then PosInf else
  let (ip, r1) := span isDigit l in
  let '(fp, r2) :=
    match r1 with
    | "."%char :: r => span isDigit r
    | _ => ([], r1)
    end in
  match (ip ++ fp)%list with
  | [] => NaN
  | ds =>
      match exponentPart r2 with
      | Some e =>
          Fin (inject_Z (digitsVal 10 digitVal ds)
               * Qpower 10 (e - Z.of_nat (List.length fp)))
      | None => NaN
      end
  end.

Definition negate (x : number) : number :=
  match x with
  | NaN => NaN
  | PosInf => NegInf
  | NegInf => PosInf
  | Fin q => Fin (- q)
  end.

(** StringToNumber: the StringNumericLiteral grammar, exact values *)
Definition StringToNumber (s : string) : number :=
  match list_ascii_of_string (trim s) with
  | [] => Fin 0
  | "0"%char :: "x"%char :: r | "0"%char :: "X"%char :: r =>
      allDigits isHexDigit 16 hexVal r
  | "0"%char :: "o"%char :: r | "0"%char :: "O"%char :: r =>
      allDigits isOctDigit 8 digitVal r
  | "0"%char :: "b"%char :: r | "0"%char :: "B"%char :: r =>
      allDigits isBinDigit 2 digitVal r
  | "+"%char :: r => unsignedDecimal r
  | "-"%char :: r => negate (unsignedDecimal r)
  | l => unsignedDecimal l
  end.

(** ToNumber, which is [Number(v)] on these values *)
Definition ToNumber (v : value) : number :=
  match v with
  | VUndefined => NaN
  | VNull => Fin 0
  | VBool b => if b then Fin 1 else Fin 0
  | VNum x => x
  | VStr s => StringToNumber s
  end.

Definition isInteger (q : Q) : bool := (Qden (Qred q) =? 1)%positive.

Definition NumberToString (h : Host) (x : number) : string :=
  match x with
  | NaN => "NaN"
  | PosInf => "Infinity"
  | NegInf => "-Infinity"
  | Fin q =>
      if isInteger q && Qle_bool (Qabs q) (inject_Z (10 ^ 21 - 1))
      then ofZ (Qnum (Qred q))
      else finiteToString h q
  end.

(** ToString, which is [String(v)] on these values *)
Definition ToString (h : Host) (v : value) : string :=
  match v with
  | VUndefined => "undefined"
  | VNull => "null"
  | VBool b => if b then "true" else "false"
  | VNum x => NumberToString h x
  | VStr s => s
  end.

(** [x.toFixed(1)] for [|x| < 10^21]: nearest tenth, ties away from zero *)
Definition toFixed1 (h : Host) (x : number) : string :=
  match x with
  | Fin q =>
      if Qle_bool (inject_Z (10 ^ 21)) (Qabs q) then NumberToString h x else
      let n := Qfloor (Qabs q * 10 + (1 # 2))%Q in
      ((if Qle_bool 0 q then "" else "-")
         ++ ofZ (n / 10) ++ "." ++ ofZ (n mod 10))
  | _ => NumberToString h x
  end.

End JsValue.

Export JsValue(value, VUndefined, VNull, VBool, VNum, VStr).


(** ** Objects used as dictionaries *)

Module JsObject.

Import JsString.

Section Dict.

Variable V : Type.

(** Own string-keyed properties, in insertion order. *)
Definition obj : Type := list (string * V).

Definition empty : obj := [].

(** The own property [k] of [o], which is [o[k]] for a key that is not
    the name of a member of [Object.prototype] *)
Fixpoint get (k : string) (o : obj) : option V :=
  match o with
  | [] => None
  | (k', v) :: o' => if String.eqb k k' then Some v else get k o'
  end.

(** The own property [k] set to [v]: an existing key keeps its place, a
    new one goes last *)
Fixpoint set (k : string) (v : V) (o : obj) : obj :=
  match o with
  | [] => [(k, v)]
  | (k', v') :: o' =>
      if String.eqb k k' then (k, v) :: o' else (k', v') :: set k v o'
  end.

(** An array index: the canonical decimal form of an integer below
    [2^32 - 1]. *)
Definition arrayIndex (k : string) : option Z :=
  match list_ascii_of_string k with
  | [] => None
  | c :: r =>
      if forallb isDigit (c :: r)
         && (negb (Ascii.eqb c "0") || match r with [] => true | _ => false end)
         && (List.length (c :: r) <=? 10)%nat
         && (digitsVal 10 digitVal (c :: r) <? 2 ^ 32 - 1)%Z
      then Some (digitsVal 10 digitVal (c :: r))
      else None
  end.

Definition isArrayIndex (k : string) : bool :=
  match arrayIndex k with Some _ => true | None => false end.

Definition indexOf (k : string) : Z :=
  match arrayIndex k with Some i => i | None => 0%Z end.

Fixpoint insertByIndex (e : string * V) (l : list (string * V)) :
    list (string * V) :=
  match l with
  | [] => [e]
  | x :: l' =>
      if (indexOf (fst e) <=? indexOf (fst x))%Z then e :: l
      else x :: insertByIndex e l'
  end.

Definition sortByIndex (l : list (string * V)) : list (string * V) :=
  fold_right insertByIndex [] l.

(** [Object.entries(o)]: OrdinaryOwnPropertyKeys order *)
Definition entries (o : obj) : list (string * V) :=
  sortByIndex (filter (fun e => isArrayIndex (fst e)) o)
  ++ filter (fun e => negb (isArrayIndex (fst e))) o.


(** [Object.keys(o)] *)
Definition keys (o : obj) : list string := map fst (entries o).

(** [o[k] = v] on an object that has no own property [__proto__]: an
    assignment to that name reaches the setter of [Object.prototype],
    which ignores a value that is not an object and makes no own
    property. *)
Definition assign (k : string) (v : V) (o : obj) : obj :=
  if String.eqb k "__proto__" then o else set k v o.

End Dict.

Arguments empty {V}.

(** What an object written [{}] inherits from [Object.prototype]: the
    prototype itself under [__proto__], and a built-in function under
    each of the other names. *)
Inductive member : Type :=
| ObjectPrototype
| Builtin (name : string).

Definition builtins : list string :=
  ["constructor"; "hasOwnProperty"; "isPrototypeOf"; "propertyIsEnumerable";
   "toLocaleString"; "toString"; "valueOf";
   "__defineGetter__"; "__defineSetter__"; "__lookupGetter__";
   "__lookupSetter__"]%string.

Definition inherited (k : string) : option member :=
  if String.eqb k "__proto__" then Some ObjectPrototype
  else if existsb (String.eqb k) builtins then Some (Builtin k)
  else None.

End JsObject.

(** ** What a dictionary of the report holds *)

Module JsItem.

Import JsString JsNumber JsValue JsObject.
Local Open Scope string_scope.
Local Open Scope nat_scope.

(** A number, a string, or a member of [Object.prototype]. *)
Inductive item (N : Type) : Type :=
| Num (n : N)
| Str (s : string)
| Ref (m : member).

Arguments Num {N} n.
Arguments Str {N} s.
Arguments Ref {N} m.

(** [o[k]]: the own property or else the inherited member; [None] is
    [undefined] *)
Definition valueAt {N : Type} (k : string) (o : obj (item N)) : option (item N) :=
  match get k o with
  | Some c => Some c
  | None => option_map Ref (inherited k)
  end.

(** ToString of a member: [Object.prototype.toString] on the prototype,
    [Function.prototype.toString] on a built-in function. *)
Definition memberText (h : Host) (m : member) : string :=
  match m with
  | ObjectPrototype => "[object Object]"
  | Builtin name => "function" ++ nativeFunction h name
  end.

(** ToPrimitive of an item that is not a number. *)
Definition text {N : Type} (h : Host) (c : item N) : option string :=
  match c with
  | Num _ => None
  | Str s => Some s
  | Ref m => Some (memberText h m)
  end.

(** ToNumber *)
Definition toNumber {N : Type} (num : N -> number) (h : Host) (c : item N) : number :=
  match c with
  | Num n => num n
  | Str s => StringToNumber s
  | Ref m => StringToNumber (memberText h m)
  end.

(** [a > b]: by code units when both operands are strings after
    ToPrimitive, by their numbers otherwise *)
Definition gt {N : Type} (num : N -> number) (h : Host) (a b : item N) : bool :=
  match text h a, text h b with
  | Some s, Some t => String.ltb t s
  | _, _ => JsNumber.gt (toNumber num h a) (toNumber num h b)
  end.

(** Items whose number is a counter. *)
Module Count.

(** [x || 0] *)
Definition orZero (x : option (item nat)) : item nat :=
  match x with
  | Some (Str s) => if String.eqb s "" then Num 0 else Str s
  | Some c => c
  | None => Num 0
  end.

(** [c + 1]: a sum of numbers, or the concatenation that [+] is on a
    string or an object *)
Definition succ (h : Host) (c : item nat) : item nat :=
  match c with
  | Num n => Num (n + 1)
  | Str s => Str (s ++ "1")
  | Ref m => Str (memberText h m ++ "1")
  end.

Definition toNumber : Host -> item nat -> number := JsItem.toNumber JsNumber.ofNat.

Definition gt : Host -> item nat -> item nat -> bool := JsItem.gt JsNumber.ofNat.

End Count.

(** Items whose number is an amount of money. *)
Module Amount.

(** [x || 0] *)
Definition orZero (x : option (item number)) : item number :=
  match x with
  | Some (Num v) => if JsNumber.truthy v then Num v else Num JsNumber.zero
  | Some (Str s) => if String.eqb s "" then Num JsNumber.zero else Str s
  | Some (Ref m) => Ref m
  | None => Num JsNumber.zero
  end.

(** [c + x] for a number [x] *)
Definition plus (h : Host) (c : item number) (x : number) : item number :=
  match c with
  | Num v => Num (JsNumber.add v x)
  | Str s => Str (s ++ NumberToString h x)
  | Ref m => Str (memberText h m ++ NumberToString h x)
  end.

Definition toNumber : Host -> item number -> number := JsItem.toNumber (fun x => x).

Definition gt : Host -> item number -> item number -> bool := JsItem.gt (fun x => x).

End Amount.

End JsItem.

Export JsItem(item, Num, Str, Ref).


(** [Array.prototype.sort()] on strings: ascending code units *)
Module StringOrder <: TotalLeBool.

Definition t := string.

Definition leb := String.leb.

Definition leb_total : forall a b, leb a b = true \/ leb b a = true :=
  String.leb_total.

End StringOrder.

Module StringSort := Sort StringOrder.

(** ** Dates *)

Module JsDate.

Import JsString JsNumber JsValue.
Local Open Scope Z_scope.

Definition msPerDay : Z := 86400000.

Definition maxTime : Z := 8640000000000000.

(** Time values are integers of at most [maxTime] in absolute value;
    [None] is the time value [NaN] of an invalid date. *)
Definition TimeClip (t : Z) : option Z :=
  if Z.abs t <=? maxTime then Some t else None.

Definition isLeapYear (y : Z) : bool :=
  ((y mod 4 =? 0) && negb (y mod 100 =? 0)) || (y mod 400 =? 0).

Definition daysInMonth (y m : Z) : Z :=
  if m =? 2 then (if isLeapYear y then 29 else 28)
  else if (m =? 4) || (m =? 6) || (m =? 9) || (m =? 11) then 30
  else 31.

(** Day number (days since 1970-01-01) of a date of the proleptic
    Gregorian calendar; months and days count from 1. *)
Definition daysFromCivil (y m d : Z) : Z :=
  let y' := if m <=? 2 then y - 1 else y in
  let era := y' / 400 in
  let yoe := y' - era * 400 in
  let mp := if 2 <? m then m - 3 else m + 9 in
  let doy := (153 * mp + 2) / 5 + d - 1 in
  let doe := yoe * 365 + yoe / 4 - yoe / 100 + doy in
  era * 146097 + doe - 719468.

(** Year, month and day of a day number. *)
Definition civilFromDays (days : Z) : Z * Z * Z :=
  let z := days + 719468 in
  let era := z / 146097 in
  let doe := z - era * 146097 in
  let yoe := (doe - doe / 1460 + doe / 36524 - doe / 146096) / 365 in
  let doy := doe - (365 * yoe + yoe / 4 - yoe / 100) in
  let mp := (5 * doy + 2) / 153 in
  let d := doy - (153 * mp + 2) / 5 + 1 in
  let m := if mp <? 10 then mp + 3 else mp - 9 in
  let y := yoe + era * 400 + (if m <=? 2 then 1 else 0) in
  (y, m, d).

Definition Day (t : Z) : Z := t / msPerDay.

Definition TimeWithinDay (t : Z) : Z := t mod msPerDay.

(** The calendar date [YYYY-MM-DD] of a year between 0 and 9999, and the
    expanded form with a sign and six digits of the others. *)
Definition isoDate (ymd : Z * Z * Z) : string :=
  let '(y, m, d) := ymd in
  let year :=
    if (0 <=? y) && (y <=? 9999) then pad4 y
    else ((if Z.ltb y 0 then "-" else "+") ++ pad6 (Z.abs y))%string in
  (year ++ "-" ++ pad2 m ++ "-" ++ pad2 d)%string.

Definition isoTime (ms : Z) : string :=
  (pad2 (ms / 3600000) ++ ":" ++ pad2 (ms / 60000 mod 60) ++ ":"
   ++ pad2 (ms / 1000 mod 60) ++ "." ++ pad3 (ms mod 1000))%string.

(** [Date.prototype.toISOString] of a valid date: always in UTC *)
Definition toISOString (t : Z) : string :=
  (isoDate (civilFromDays (Day t)) ++ "T" ++ isoTime (TimeWithinDay t) ++ "Z")%string.

(** [LocalTime(t)] *)
Definition LocalTime (h : Host) (t : Z) : Z := t + LocalTZA h t true.

(** [UTC(t)] of a local time *)
Definition UTC (h : Host) (t : Z) : Z := t - LocalTZA h t false.

(** The local calendar date of a time value, as [getFullYear],
    [getMonth() + 1] and [getDate] give it. *)
Definition localDate (h : Host) (t : Z) : Z * Z * Z :=
  civilFromDays (Day (LocalTime h t)).

Definition digitsN (n : nat) (l : list ascii) : option (Z * list ascii) :=
  let ds := firstn n l in
  if (List.length ds =? n)%nat && forallb isDigit ds
  then Some (digitsVal 10 digitVal ds, skipn n l) else None.

(** UTC offset at the end of a date-time string: [None] is a string that
    does not conform, [Some None] a local time, [Some (Some o)] an
    offset of [o] ms. *)
Definition isoOffset (l : list ascii) : option (option Z) :=
  match l with
  | [] => Some None
  | ["Z"%char] => Some (Some 0)
  | c :: r =>
      if Ascii.eqb c "+" || Ascii.eqb c "-" then
        match digitsN 2 r with
        | Some (hh, ":"%char :: r') =>
            match digitsN 2 r' with
            | Some (mm, []) =>
                if (hh <=? 23) && (mm <=? 59)
                then Some (Some ((if Ascii.eqb c "-" then -1 else 1)
                                 * (hh * 3600000 + mm * 60000)))
                else None
            | _ => None
            end
        | _ => None
        end
      else None
  end.

(** [HH:mm], [HH:mm:ss] or [HH:mm:ss.sss], then the offset. *)
Definition isoTimeOfDay (l : list ascii) : option (Z * option Z) :=
  match digitsN 2 l with
  | Some (hh, ":"%char :: r) =>
      match digitsN 2 r with
      | Some (mm, r1) =>
          let '(ss, r2) :=
            match r1 with
            | ":"%char :: r' =>
                match digitsN 2 r' with
                | Some (ss, "."%char :: r'') =>
                    match digitsN 3 r'' with
                    | Some (ms, r3) => (Some (ss * 1000 + ms), r3)
                    | None => (None, r'')
                    end
                | Some (ss, r'') => (Some (ss * 1000), r'')
                | None => (None, r')
                end
            | _ => (Some 0, r1)
            end in
          match ss, isoOffset r2 with
          | Some ms, Some off =>
              if (hh <=? 23) && (mm <=? 59) && (ms <? 60000)
              then Some (hh * 3600000 + mm * 60000 + ms, off) else None
          | _, _ => None
          end
      | None => None
      end
  | _ => None
  end.

(** The date-time string format of the language
    ([YYYY-MM-DDTHH:mm:ss.sssZ] and its shorter forms, four-digit years):
    a date alone is UTC, a date and time without an offset is local
    time.  [None] is a string outside this format. *)
Definition parseISO (h : Host) (s : string) : option Z :=
  match digitsN 4 (list_ascii_of_string s) with
  | Some (y, r) =>
      let '(md, r') :=
        match r with
        | "-"%char :: r1 =>
            match digitsN 2 r1 with
            | Some (m, "-"%char :: r2) =>
                match digitsN 2 r2 with
                | Some (d, r3) => (Some (m, d), r3)
                | None => (None, r2)
                end
            | Some (m, r2) => (Some (m, 1), r2)
            | None => (None, r1)
            end
        | _ => (Some (1, 1), r)
        end in
      match md with
      | Some (m, d) =>
          if (1 <=? m) && (m <=? 12) && (1 <=? d) && (d <=? daysInMonth y m)
          then
            let day := daysFromCivil y m d * msPerDay in
            match r' with
            | [] => Some day
            | "T"%char :: r'' =>
                match isoTimeOfDay r'' with
                | Some (ms, Some off) => Some (day + ms - off)
                | Some (ms, None) => Some (UTC h (day + ms))
                | None => None
                end
            | _ => None
            end
          else None
      | None => None
      end
  | None => None
  end.

(** [Date.parse] *)
Definition parse (h : Host) (s : string) : option Z :=
  match parseISO h s with
  | Some t => Some t
  | None => legacyDateParse h s
  end.

(** Time value of [new Date(v)] for one argument that is not a Date. *)
Definition newDate (h : Host) (v : value) : option Z :=
  match v with
  | VStr s =>
      match parse h s with
      | Some t => TimeClip t
      | None => None
      end
  | VUndefined => None
  | _ =>
      match ToNumber v with
      | Fin q => TimeClip (Z.quot (Qnum q) (Z.pos (Qden q)))
      | _ => None
      end
  end.

End JsDate.


(** ** Exceptions *)

Inductive error : Type := TypeError.

Inductive result (A : Type) : Type :=
| Ok (a : A)
| Throw (e : error).

Arguments Ok {A} a.
Arguments Throw {A} e.

Definition bind {A B : Type} (m : result A) (f : A -> result B) : result B :=
  match m with
  | Ok a => f a
  | Throw e => Throw e
  end.

(** A [for ... of] loop whose body may throw. *)
Fixpoint forOf {S R : Type} (body : S -> R -> result S) (rows : list R)
    (s : result S) : result S :=
  match rows with
  | [] => s
  | r :: rows' => forOf body rows' (bind s (fun st => body st r))
  end.

(** ** Records of the data model *)

(** A parsed spreadsheet row, as [parseExcelFile] builds it. *)
Module Row.
Record t : Type := {
  person : value;
  date : value;
  impounded : value;
  truckId : value;
  amountDue : value;
  gvmFine : value;
  d1Fine : value;
  d2Fine : value;
  d3Fine : value;
  d4Fine : value;
  awkwardLoadFine : value;
  amountDueDriver : value;
  _raw : option (JsObject.obj value)
}.

(** [r._raw?.[k]] *)
Definition raw (r : t) (k : string) : value :=
  match _raw r with
  | None => VUndefined
  | Some o =>
      match JsObject.get k o with
      | Some v => v
      | None => VUndefined
      end
  end.
End Row.

(** An entry of [dailyActivity]. *)
Module DayActivity.
Record t : Type := { total : nat; impounded : nat }.
End DayActivity.


(** The group or the shift of a person: [mapping[person] || 'Unassigned']
    is a string, or the inherited member when the person's name is the
    name of one. *)
Inductive label : Type :=
| Name (s : string)
| Member (m : JsObject.member).

(** A row of the per-person table. *)
Module PersonRow.
Record t : Type := {
  person : string;
  group : label;
  shift : label;
  trucks : item nat;
  impounded : item nat;
  revenue : item number
}.
End PersonRow.

Module Alert.
Record t : Type := { type : string; title : string; message : string }.
End Alert.

Module Trends.
Record t : Type := {
  dates : list string;
  dailyCounts : list nat;
  dailyImpounded : list nat
}.
End Trends.

Module TopGroup.
Record t : Type := { name : string; trucks : item nat; percentage : number }.
End TopGroup.

Module TopRevenue.
Record t : Type := { name : string; revenue : item number }.
End TopRevenue.

Module Basic.
Record t : Type := {
  totalTrucks : nat;
  totalImpounded : nat;
  totalRevenue : number;
  perPerson : JsObject.obj (item nat);
  perGroup : JsObject.obj (item nat);
  perShift : JsObject.obj (item nat);
  peopleRows : list PersonRow.t;
  perPersonRevenue : JsObject.obj (item number);
  perGroupRevenue : JsObject.obj (item number);
  perShiftRevenue : JsObject.obj (item number)
}.
End Basic.

Module Stats.
Record t : Type := {
  uniquePeople : nat;
  avgTrucksPerPerson : number;
  impoundedRate : number;
  (** [None] is the empty object [{}] the reduction starts from *)
  topPerformer : option PersonRow.t;
  topGroup : TopGroup.t;
  uniqueTrucks : nat;
  topRevenuePerformer : TopRevenue.t
}.
End Stats.

Module Report.
Record t : Type := {
  basic : Basic.t;
  stats : Stats.t;
  impoundedByShift : JsObject.obj (item nat);
  impoundedByGroup : JsObject.obj (item nat);
  alerts : list Alert.t;
  (** [None] is [null] *)
  trends : option Trends.t;
  dailyActivity : JsObject.obj DayActivity.t
}.
End Report.

(** The local variables of [computeAdvancedAnalytics] that its loop
    updates. *)
Module Acc.
Record t : Type := {
  perPersonCounts : JsObject.obj (item nat);
  perPersonImpounded : JsObject.obj (item nat);
  perPersonRevenue : JsObject.obj (item number);
  perGroupCounts : JsObject.obj (item nat);
  perGroupRevenue : JsObject.obj (item number);
  perShiftCounts : JsObject.obj (item nat);
  perShiftRevenue : JsObject.obj (item number);
  impoundedByShift : JsObject.obj (item nat);
  impoundedByGroup : JsObject.obj (item nat);
  dailyActivity : JsObject.obj DayActivity.t;
  truckIds : list string;
  total : nat;
  totalImpounded : nat;
  totalRevenue : number
}.

Definition init : t := {|
  perPersonCounts := []; perPersonImpounded := []; perPersonRevenue := [];
  perGroupCounts := []; perGroupRevenue := [];
  perShiftCounts := []; perShiftRevenue := [];
  impoundedByShift := []; impoundedByGroup := [];
  dailyActivity := []; truckIds := [];
  total := 0; totalImpounded := 0; totalRevenue := JsNumber.zero
|}.
End Acc.

(** ** [computeAdvancedAnalytics] *)

Module Analytics.

Import JsString JsValue JsDate JsItem.
Local Open Scope string_scope.
Local Open Scope nat_scope.

(** [/^n\.?a\.?$/i.test(s)] *)
Definition naPattern (s : string) : bool :=
  let optDot (l : list ascii) :=
    match l with
    | "."%char :: l' => l'
    | _ => l
    end in
  match list_ascii_of_string s with
  | c :: r =>
      eqi "n" c &&
      match optDot r with
      | c' :: r' =>
          eqi "a" c' && match optDot r' with [] => true | _ => false end
      | [] => false
      end
  | [] => false
  end.

Definition placeholders : list string := ["n/a"; "na"; "none"; "unknown"; "-"].

Section WithInputs.

Variable h : Host.
(** [{ person: groupName }] and [{ person: shiftName }] *)
Variables peopleToGroup peopleToShift : JsObject.obj string.

Definition isPlaceholderName (v : value) : bool :=
  match v with
  | VUndefined | VNull => true
  | _ =>
      let s := trim (ToString h v) in
      if String.eqb s "" then true
      else
        let low := toLowerCase s in
        includes placeholders low || naPattern s
  end.

Definition candidates (r : Row.t) : list value :=
  [Row.person r; Row.raw r "User Full Name"; Row.raw r "Driver Name";
   Row.raw r "Name"; Row.raw r "Driver"; Row.raw r "Owner Name"].

Fixpoint firstName (cs : list value) : string :=
  match cs with
  | [] => "Unknown"
  | c :: cs' =>
      if truthy c && negb (isPlaceholderName c) then trim (ToString h c)
      else firstName cs'
  end.

Definition resolvePersonName (r : Row.t) : string := firstName (candidates r).

(** [mapping[person] || 'Unassigned']: the own property when it is not
    the empty string, else the member that a mapping inherits under the
    person's name, else the default *)
Definition assigned (mapping : JsObject.obj string) (p : string) : label :=
  match JsObject.get p mapping with
  | Some g => if String.eqb g "" then Name "Unassigned" else Name g
  | None =>
      match JsObject.inherited p with
      | Some m => Member m
      | None => Name "Unassigned"
      end
  end.

(** The property key that a group or a shift is used as. *)
Definition keyOf (l : label) : string :=
  match l with
  | Name s => s
  | Member m => JsItem.memberText h m
  end.

(** [l === s] *)
Definition labelIs (l : label) (s : string) : bool :=
  match l with
  | Name t => String.eqb t s
  | Member _ => false
  end.

Definition dateStr (r : Row.t) : value :=
  or (or (or (or (Row.date r) (Row.raw r "date")) (Row.raw r "Date"))
         (Row.raw r "datetime")) (Row.raw r "Datetime").

(** On these values neither [new Date] nor [toISOString] of a valid date
    throws, so the [catch] branch is never taken. *)
Definition dayKey (r : Row.t) : string :=
  if truthy (dateStr r) then
    match newDate h (dateStr r) with
    | Some t => splitHead "T" (toISOString t)
    | None => "Unknown Date"
    end
  else "Unknown Date".

(** [Number(field || fallback || 0) || 0] *)
Definition amount (field fallback : value) : number :=
  let n := ToNumber (or (or field fallback) (VNum (Fin 0))) in
  if JsNumber.truthy n then n else Fin 0.

Definition rowRevenue (r : Row.t) : number :=
  let amt := amount (Row.amountDue r) (Row.raw r "Amount Due") in
  let gvm := amount (Row.gvmFine r) (Row.raw r "GVM Fine") in
  let d1 := amount (Row.d1Fine r) (Row.raw r "D1 Fine") in
  let d2 := amount (Row.d2Fine r) (Row.raw r "D2 Fine") in
  let d3 := amount (Row.d3Fine r) (Row.raw r "D3 Fine") in
  let d4 := amount (Row.d4Fine r) (Row.raw r "D4 Fine") in
  let awk := amount (Row.awkwardLoadFine r) (Row.raw r "Awkward Load Fine") in
  let amtDriver := amount (Row.amountDueDriver r) (Row.raw r "Amount Due Driver") in
  JsNumber.add (JsNumber.add (JsNumber.add (JsNumber.add (JsNumber.add
    (JsNumber.add (JsNumber.add amt gvm) d1) d2) d3) d4) awk) amtDriver.

(** [o[k] = (o[k] || 0) + 1] *)
Definition bump (k : string) (o : JsObject.obj (item nat)) : JsObject.obj (item nat) :=
  JsObject.assign k (Count.succ h (Count.orZero (JsItem.valueAt k o))) o.

(** [o[k] = (o[k] || 0) + x] *)
Definition accrue (k : string) (x : number) (o : JsObject.obj (item number)) :
    JsObject.obj (item number) :=
  JsObject.assign k (Amount.plus h (Amount.orZero (JsItem.valueAt k o)) x) o.

(** [if (!o[k]) o[k] = { total: 0, impounded: 0 }; o[k].total += 1], for
    a key that is not the name of a member of [Object.prototype], as a
    day key is: it is "Unknown Date" or begins with a digit or a sign *)
Definition countDay (k : string) (o : JsObject.obj DayActivity.t) :
    JsObject.obj DayActivity.t :=
  let d := match JsObject.get k o with
           | Some d => d
           | None => {| DayActivity.total := 0; DayActivity.impounded := 0 |}
           end in
  JsObject.set k {| DayActivity.total := DayActivity.total d + 1;
                    DayActivity.impounded := DayActivity.impounded d |} o.

(** [o[k].impounded += 1], for a key that [countDay] has set *)
Definition countDayImpounded (k : string) (o : JsObject.obj DayActivity.t) :
    JsObject.obj DayActivity.t :=
  match JsObject.get k o with
  | Some d =>
      JsObject.set k {| DayActivity.total := DayActivity.total d;
                        DayActivity.impounded := DayActivity.impounded d + 1 |} o
  | None => o
  end.

(** [Set.prototype.add] *)
Definition setAdd (x : string) (l : list string) : list string :=
  if existsb (String.eqb x) l then l else l ++ [x].

(** [if (r.truckId && r.truckId.trim()) truckIds.add(r.truckId.trim())]:
    a truthy [truckId] that is not a string has no [trim] method. *)
Definition trackTruck (r : Row.t) (ids : list string) : result (list string) :=
  if truthy (Row.truckId r) then
    match Row.truckId r with
    | VStr s => Ok (if String.eqb (trim s) "" then ids else setAdd (trim s) ids)
    | _ => Throw TypeError
    end
  else Ok ids.

(** One iteration of the loop over [rows]. *)
Definition processRow (a : Acc.t) (r : Row.t) : result Acc.t :=
  let person := resolvePersonName r in
  let group := keyOf (assigned peopleToGroup person) in
  let shift := keyOf (assigned peopleToShift person) in
  let dayKey := dayKey r in
  let rowRevenue := rowRevenue r in
  let daily := countDay dayKey (Acc.dailyActivity a) in
  bind (trackTruck r (Acc.truckIds a)) (fun ids =>
  let imp := truthy (Row.impounded r) in
  Ok {|
    Acc.perPersonCounts := bump person (Acc.perPersonCounts a);
    Acc.perPersonImpounded :=
      if imp then bump person (Acc.perPersonImpounded a)
      else Acc.perPersonImpounded a;
    Acc.perPersonRevenue := accrue person rowRevenue (Acc.perPersonRevenue a);
    Acc.perGroupCounts := bump group (Acc.perGroupCounts a);
    Acc.perGroupRevenue := accrue group rowRevenue (Acc.perGroupRevenue a);
    Acc.perShiftCounts := bump shift (Acc.perShiftCounts a);
    Acc.perShiftRevenue := accrue shift rowRevenue (Acc.perShiftRevenue a);
    Acc.impoundedByShift :=
      if imp then bump shift (Acc.impoundedByShift a)
      else Acc.impoundedByShift a;
    Acc.impoundedByGroup :=
      if imp then bump group (Acc.impoundedByGroup a)
      else Acc.impoundedByGroup a;
    Acc.dailyActivity := if imp then countDayImpounded dayKey daily else daily;
    Acc.truckIds := ids;
    Acc.total := Acc.total a + 1;
    Acc.totalImpounded :=
      if imp then Acc.totalImpounded a + 1 else Acc.totalImpounded a;
    Acc.totalRevenue := JsNumber.add (Acc.totalRevenue a) rowRevenue
  |}).

(** [Object.keys(perPersonCounts).sort().map(p => ({ ... }))] *)
Definition peopleRows (a : Acc.t) : list PersonRow.t :=
  map (fun p => {|
         PersonRow.person := p;
         PersonRow.group := assigned peopleToGroup p;
         PersonRow.shift := assigned peopleToShift p;
         PersonRow.trucks := Count.orZero (JsItem.valueAt p (Acc.perPersonCounts a));
         PersonRow.impounded :=
           Count.orZero (JsItem.valueAt p (Acc.perPersonImpounded a));
         PersonRow.revenue :=
           Amount.orZero (JsItem.valueAt p (Acc.perPersonRevenue a))
       |})
      (StringSort.sort (JsObject.keys (Acc.perPersonCounts a))).

(** [name && !isPlaceholderName(name) && name !== 'Unknown'] *)
Definition namedPerson (name : string) : bool :=
  negb (String.eqb name "") && negb (isPlaceholderName (VStr name))
  && negb (String.eqb name "Unknown").

Definition uniquePeople (a : Acc.t) : nat :=
  List.length
    (filter (fun p => negb (isPlaceholderName (VStr p)) && negb (String.eqb p "Unknown"))
            (JsObject.keys (Acc.perPersonCounts a))).

Definition avgTrucksPerPerson (a : Acc.t) : number :=
  if 0 <? uniquePeople a
  then JsNumber.div (JsNumber.ofNat (Acc.total a)) (JsNumber.ofNat (uniquePeople a))
  else Fin 0.

Definition impoundedRate (a : Acc.t) : number :=
  if 0 <? Acc.total a
  then JsNumber.mul
         (JsNumber.div (JsNumber.ofNat (Acc.totalImpounded a))
                       (JsNumber.ofNat (Acc.total a)))
         (Fin 100)
  else Fin 0.

(** [(max, person) => person.trucks > (max.trucks || 0) ? person : max] *)
Definition moreTrucks (max : option PersonRow.t) (p : PersonRow.t) :
    option PersonRow.t :=
  if Count.gt h (PersonRow.trucks p) (Count.orZero (option_map PersonRow.trucks max))
  then Some p else max.

Definition topPerformer (a : Acc.t) : option PersonRow.t :=
  fold_left moreTrucks
    (filter (fun p => namedPerson (PersonRow.person p)) (peopleRows a)) None.

(** [(max, [group, count]) => count > (max[1] || 0) ? [group, count] : max] *)
Definition moreCount (max e : string * item nat) : string * item nat :=
  if Count.gt h (snd e) (Count.orZero (Some (snd max))) then e else max.

Definition topGroupEntry (a : Acc.t) : string * item nat :=
  fold_left moreCount (JsObject.entries (Acc.perGroupCounts a)) ("", Num 0).

Definition topGroup (a : Acc.t) : TopGroup.t :=
  let e := topGroupEntry a in
  {| TopGroup.name := fst e;
     TopGroup.trucks := snd e;
     TopGroup.percentage :=
       if 0 <? Acc.total a
       then JsNumber.mul
              (JsNumber.div (Count.toNumber h (snd e)) (JsNumber.ofNat (Acc.total a)))
              (Fin 100)
       else Fin 0 |}.

(** [(max, [name, rev]) => rev > (max[1] || 0) ? [name, rev] : max] *)
Definition moreRevenue (max e : string * item number) : string * item number :=
  if Amount.gt h (snd e) (Amount.orZero (Some (snd max))) then e else max.

Definition topRevenuePerformerEntry (a : Acc.t) : string * item number :=
  fold_left moreRevenue
    (filter (fun e => namedPerson (fst e)) (JsObject.entries (Acc.perPersonRevenue a)))
    ("", Num (Fin 0)).

Definition topRevenuePerformer (a : Acc.t) : TopRevenue.t :=
  let e := topRevenuePerformerEntry a in
  {| TopRevenue.name := if String.eqb (fst e) "" then "Unknown" else fst e;
     TopRevenue.revenue := Amount.orZero (Some (snd e)) |}.

Definition impoundAlert (a : Acc.t) : list Alert.t :=
  if JsNumber.gt (impoundedRate a) (Fin 15) then
    [{| Alert.type := "danger";
        Alert.title := "High Impound Rate Alert";
        Alert.message :=
          "Current impound rate is " ++ toFixed1 h (impoundedRate a)
          ++ "%, which is concerning. Consider reviewing processes." |}]
  else if JsNumber.gt (impoundedRate a) (Fin 10) then
    [{| Alert.type := "warning";
        Alert.title := "Elevated Impound Rate";
        Alert.message :=
          "Impound rate is " ++ toFixed1 h (impoundedRate a)
          ++ "%. Monitor closely to prevent further increases." |}]
  else [].

(** [peopleRows.filter(p => p.trucks < avgTrucksPerPerson * 0.5)] *)
Definition underPerformers (a : Acc.t) : list PersonRow.t :=
  filter (fun p => JsNumber.lt (Count.toNumber h (PersonRow.trucks p))
                     (JsNumber.mul (avgTrucksPerPerson a) (Fin (1 # 2))))
         (peopleRows a).

Definition performanceAlert (a : Acc.t) : list Alert.t :=
  if 0 <? List.length (underPerformers a) then
    [{| Alert.type := "warning";
        Alert.title := "Performance Gap Identified";
        Alert.message :=
          JsString.ofNat (List.length (underPerformers a))
          ++ " team members are performing significantly below average. Consider additional training." |}]
  else [].

(** [peopleRows.filter(p => p.group === 'Unassigned' || p.shift === 'Unassigned').length] *)
Definition unassignedCount (a : Acc.t) : nat :=
  List.length
    (filter (fun p => labelIs (PersonRow.group p) "Unassigned"
                      || labelIs (PersonRow.shift p) "Unassigned")
            (peopleRows a)).

Definition assignmentAlert (a : Acc.t) : list Alert.t :=
  if 0 <? unassignedCount a then
    [{| Alert.type := "info";
        Alert.title := "Assignment Needed";
        Alert.message :=
          JsString.ofNat (unassignedCount a)
          ++ " team members need group or shift assignments for better organization." |}]
  else [].

Definition alerts (a : Acc.t) : list Alert.t :=
  (impoundAlert a ++ performanceAlert a ++ assignmentAlert a)%list.

Definition sortedDates (a : Acc.t) : list string :=
  StringSort.sort (JsObject.keys (Acc.dailyActivity a)).

(** Label of a day in the chart; [toLocaleDateString] does not throw. *)
Definition dateLabel (date : string) : string :=
  if String.eqb date "Unknown Date" then date
  else toLocaleDateString h (newDate h (VStr date)).

(** [dailyActivity[date]], for a key of [dailyActivity] *)
Definition dayOf (a : Acc.t) (date : string) : DayActivity.t :=
  match JsObject.get date (Acc.dailyActivity a) with
  | Some d => d
  | None => {| DayActivity.total := 0; DayActivity.impounded := 0 |}
  end.

Definition trends (a : Acc.t) : option Trends.t :=
  if 1 <? List.length (sortedDates a) then
    Some {| Trends.dates := map dateLabel (sortedDates a);
            Trends.dailyCounts :=
              map (fun date => DayActivity.total (dayOf a date)) (sortedDates a);
            Trends.dailyImpounded :=
              map (fun date => DayActivity.impounded (dayOf a date)) (sortedDates a) |}
  else None.

Definition report (a : Acc.t) : Report.t := {|
  Report.basic := {|
    Basic.totalTrucks := Acc.total a;
    Basic.totalImpounded := Acc.totalImpounded a;
    Basic.totalRevenue := Acc.totalRevenue a;
    Basic.perPerson := Acc.perPersonCounts a;
    Basic.perGroup := Acc.perGroupCounts a;
    Basic.perShift := Acc.perShiftCounts a;
    Basic.peopleRows := peopleRows a;
    Basic.perPersonRevenue := Acc.perPersonRevenue a;
    Basic.perGroupRevenue := Acc.perGroupRevenue a;
    Basic.perShiftRevenue := Acc.perShiftRevenue a |};
  Report.stats := {|
    Stats.uniquePeople := uniquePeople a;
    Stats.avgTrucksPerPerson := avgTrucksPerPerson a;
    Stats.impoundedRate := impoundedRate a;
    Stats.topPerformer := topPerformer a;
    Stats.topGroup := topGroup a;
    Stats.uniqueTrucks := List.length (Acc.truckIds a);
    Stats.topRevenuePerformer := topRevenuePerformer a |};
  Report.impoundedByShift := Acc.impoundedByShift a;
  Report.impoundedByGroup := Acc.impoundedByGroup a;
  Report.alerts := alerts a;
  Report.trends := trends a;
  Report.dailyActivity := Acc.dailyActivity a
|}.

Definition computeAdvancedAnalytics (rows : list Row.t) : result Report.t :=
  bind (forOf processRow rows (Ok Acc.init)) (fun a => Ok (report a)).

End WithInputs.

End Analytics.

(** ** [computeMetrics] of the basic Insights page *)

Module Insights.

Import JsString JsValue JsItem.
Local Open Scope string_scope.
Local Open Scope nat_scope.

Module PersonRow.
Record t : Type := {
  person : string;
  group : label;
  shift : label;
  trucks : item nat;
  impounded : item nat
}.
End PersonRow.

Module Metrics.
Record t : Type := {
  totalTrucks : nat;
  totalImpounded : nat;
  perPerson : JsObject.obj (item nat);
  perGroup : JsObject.obj (item nat);
  perShift : JsObject.obj (item nat);
  peopleRows : list PersonRow.t
}.
End Metrics.

Module Acc.
Record t : Type := {
  perPersonCounts : JsObject.obj (item nat);
  perPersonImpounded : JsObject.obj (item nat);
  perGroupCounts : JsObject.obj (item nat);
  perShiftCounts : JsObject.obj (item nat);
  total : nat;
  totalImpounded : nat
}.
End Acc.

Section WithInputs.

Variable h : Host.
Variables peopleToGroup peopleToShift : JsObject.obj string.

(** [String(r.person || 'Unknown').trim()] *)
Definition personOf (r : Row.t) : string :=
  trim (ToString h (or (Row.person r) (VStr "Unknown"))).

Definition processRow (a : Acc.t) (r : Row.t) : Acc.t :=
  let person := personOf r in
  let group := Analytics.keyOf h (Analytics.assigned peopleToGroup person) in
  let shift := Analytics.keyOf h (Analytics.assigned peopleToShift person) in
  let imp := truthy (Row.impounded r) in
  {| Acc.perPersonCounts := Analytics.bump h person (Acc.perPersonCounts a);
     Acc.perPersonImpounded :=
       if imp then Analytics.bump h person (Acc.perPersonImpounded a)
       else Acc.perPersonImpounded a;
     Acc.perGroupCounts := Analytics.bump h group (Acc.perGroupCounts a);
     Acc.perShiftCounts := Analytics.bump h shift (Acc.perShiftCounts a);
     Acc.total := Acc.total a + 1;
     Acc.totalImpounded :=
       if imp then Acc.totalImpounded a + 1 else Acc.totalImpounded a |}.

Definition computeMetrics (rows : list Row.t) : Metrics.t :=
  let a := fold_left processRow rows
             {| Acc.perPersonCounts := []; Acc.perPersonImpounded := [];
                Acc.perGroupCounts := []; Acc.perShiftCounts := [];
                Acc.total := 0; Acc.totalImpounded := 0 |} in
  {| Metrics.totalTrucks := Acc.total a;
     Metrics.totalImpounded := Acc.totalImpounded a;
     Metrics.perPerson := Acc.perPersonCounts a;
     Metrics.perGroup := Acc.perGroupCounts a;
     Metrics.perShift := Acc.perShiftCounts a;
     Metrics.peopleRows :=
       map (fun p => {|
              PersonRow.person := p;
              PersonRow.group := Analytics.assigned peopleToGroup p;
              PersonRow.shift := Analytics.assigned peopleToShift p;
              PersonRow.trucks :=
                Count.orZero (JsItem.valueAt p (Acc.perPersonCounts a));
              PersonRow.impounded :=
                Count.orZero (JsItem.valueAt p (Acc.perPersonImpounded a)) |})
           (StringSort.sort (JsObject.keys (Acc.perPersonCounts a))) |}.

End WithInputs.

End Insights.

(** ** The spreadsheet parser

    [parseExcelFile] maps each row object that [XLSX.utils.sheet_to_json]
    returns to a record; a cell holds a boolean, a number or a string.
    Of the record, the fields that the Insights pages read are kept. *)

Module Excel.

Import JsString JsNumber JsValue JsObject.
Local Open Scope string_scope.
Local Open Scope nat_scope.

(** [s.startsWith(p)] *)
Fixpoint startsWith (p s : string) : bool :=
  match p, s with
  | EmptyString, _ => true
  | String a p', String b s' => Ascii.eqb a b && startsWith p' s'
  | String _ _, EmptyString => false
  end.

(** [s.includes(p)] *)
Fixpoint contains (p s : string) : bool :=
  startsWith p s
  || match s with
     | EmptyString => false
     | String _ s' => contains p s'
     end.

(** [l.findIndex(p)], [None] for -1 *)
Fixpoint findIndex {A : Type} (p : A -> bool) (l : list A) : option nat :=
  match l with
  | [] => None
  | x :: l' => if p x then Some 0 else option_map S (findIndex p l')
  end.

(** The function [find] of [buildHeaderMap]: the header, under its own
    spelling, whose lower case includes the first candidate that some
    header includes. *)
Fixpoint find (sample : obj value) (candidates : list string) : option string :=
  match candidates with
  | [] => None
  | c :: cs =>
      match findIndex (contains c) (map toLowerCase (keys sample)) with
      | Some idx => nth_error (keys sample) idx
      | None => find sample cs
      end
  end.

Module HeaderMap.
Record t : Type := {
  person : option string;
  impounded : option string;
  date : option string;
  truck : option string;
  amountDue : option string;
  gvmFine : option string;
  d1Fine : option string;
  d2Fine : option string;
  d3Fine : option string;
  d4Fine : option string;
  awkwardLoadFine : option string;
  amountDueDriver : option string
}.
End HeaderMap.

Definition buildHeaderMap (sample : obj value) : HeaderMap.t := {|
  HeaderMap.person :=
    find sample ["user full name"; "full name"; "operator"; "person"; "name";
                 "weighed by"; "user"];
  HeaderMap.impounded :=
    find sample ["in detention"; "detention"; "impound"; "seized"; "held"];
  HeaderMap.date := find sample ["date"; "time"];
  HeaderMap.truck := find sample ["truck"; "vehicle"; "plate"];
  HeaderMap.amountDue :=
    find sample ["amount due"; "total due"; "amount owed"; "total owed"];
  HeaderMap.gvmFine := find sample ["gvm fine"; "gross vehicle mass fine"];
  HeaderMap.d1Fine := find sample ["d1 fine"; "d1fine"];
  HeaderMap.d2Fine := find sample ["d2 fine"; "d2fine"];
  HeaderMap.d3Fine := find sample ["d3 fine"; "d3fine"];
  HeaderMap.d4Fine := find sample ["d4 fine"; "d4fine"];
  HeaderMap.awkwardLoadFine := find sample ["awkward load fine"; "awkward fine"];
  HeaderMap.amountDueDriver :=
    find sample ["amount due driver"; "driver amount"; "driver fine"]
|}.

(** [row[k]] for a constant key *)
Definition cell (row : obj value) (k : string) : value :=
  match get k row with
  | Some v => v
  | None => VUndefined
  end.

(** [row[headerMap.field]]: a field of the map that is [undefined] is
    the property key "undefined" *)
Definition mapped (row : obj value) (k : option string) : value :=
  match k with
  | Some s => cell row s
  | None => cell row "undefined"
  end.

(** [a ?? b] *)
Definition nullish (a b : value) : value :=
  match a with
  | VUndefined | VNull => b
  | _ => a
  end.

Definition normalizeBool (h : Host) (v : value) : bool :=
  match v with
  | VBool b => b
  | VNum x =>
      match x with
      | Fin q => negb (Qeq_bool q 0)
      | _ => true
      end
  | _ =>
      let s := toLowerCase (trim (ToString h (or v (VStr "")))) in
      String.eqb s "yes" || String.eqb s "true" || String.eqb s "1"
      || String.eqb s "y"
  end.

Fixpoint pickFirstNonEmpty (h : Host) (values : list value) : value :=
  match values with
  | [] => VStr ""
  | v :: vs =>
      match v with
      | VUndefined | VNull => pickFirstNonEmpty h vs
      | _ =>
          if 0 <? String.length (trim (ToString h v)) then v
          else pickFirstNonEmpty h vs
      end
  end.

(** Optional exponent of a decimal literal: what does not make one is
    left unread. *)
Definition exponentPrefix (l : list ascii) : Z :=
  match l with
  | c :: r =>
      if Ascii.eqb c "e" || Ascii.eqb c "E" then
        let '(neg, r') :=
          match r with
          | "-"%char :: r' => (true, r')
          | "+"%char :: r' => (false, r')
          | _ => (false, r)
          end in
        match fst (span isDigit r') with
        | [] => 0%Z
        | ds => if neg then (- digitsVal 10 digitVal ds)%Z
                else digitsVal 10 digitVal ds
        end
      else 0%Z
  | [] => 0%Z
  end.

(** The longest prefix that is a [StrUnsignedDecimalLiteral]. *)
Definition decimalPrefix (l : list ascii) : number :=
  if startsWith "Infinity" (string_of_list_ascii l) then PosInf else
  let (ip, r1) := span isDigit l in
  let '(fp, r2) :=
    match r1 with
    | "."%char :: r => span isDigit r
    | _ => ([], r1)
    end in
  match (ip ++ fp)%list with
  | [] => NaN
  | ds =>
      Fin (inject_Z (digitsVal 10 digitVal ds)
           * Qpower 10 (exponentPrefix r2 - Z.of_nat (List.length fp)))
  end.

(** [parseFloat], exact values *)
Definition parseFloat (h : Host) (v : value) : number :=
  match list_ascii_of_string (trimStart (ToString h v)) with
  | "+"%char :: r => decimalPrefix r
  | "-"%char :: r => negate (decimalPrefix r)
  | l => decimalPrefix l
  end.

(** [parseFloat(row[name] || row[headerMap.field] || 0)] *)
Definition amountOf (h : Host) (row : obj value) (name : string)
    (k : option string) : number :=
  parseFloat h (or (or (cell row name) (mapped row k)) (VNum (Fin 0))).

Definition calculateTotalRevenue (h : Host) (row : obj value)
    (headerMap : HeaderMap.t) : number :=
  let amountDue := amountOf h row "Amount Due" (HeaderMap.amountDue headerMap) in
  let gvmFine := amountOf h row "GVM Fine" (HeaderMap.gvmFine headerMap) in
  let d1Fine := amountOf h row "D1 Fine" (HeaderMap.d1Fine headerMap) in
  let d2Fine := amountOf h row "D2 Fine" (HeaderMap.d2Fine headerMap) in
  let d3Fine := amountOf h row "D3 Fine" (HeaderMap.d3Fine headerMap) in
  let d4Fine := amountOf h row "D4 Fine" (HeaderMap.d4Fine headerMap) in
  let awkwardLoadFine :=
    amountOf h row "Awkward Load Fine" (HeaderMap.awkwardLoadFine headerMap) in
  let amountDueDriver :=
    amountOf h row "Amount Due Driver" (HeaderMap.amountDueDriver headerMap) in
  JsNumber.add (JsNumber.add (JsNumber.add (JsNumber.add (JsNumber.add
    (JsNumber.add (JsNumber.add amountDue gvmFine) d1Fine) d2Fine) d3Fine) d4Fine)
    awkwardLoadFine) amountDueDriver.

(** The record made of one row of the sheet. *)
Definition parseRow (h : Host) (headerMap : HeaderMap.t) (row : obj value) : Row.t := {|
  Row.person :=
    pickFirstNonEmpty h
      [cell row "User Full Name"; mapped row (HeaderMap.person headerMap);
       cell row "Operator"; cell row "Person"; cell row "Name"];
  Row.date :=
    or (or (or (mapped row (HeaderMap.date headerMap)) (cell row "Date"))
           (cell row "Datetime")) (VStr "");
  Row.impounded :=
    VBool (normalizeBool h
             (nullish (nullish (cell row "In Detention")
                               (mapped row (HeaderMap.impounded headerMap)))
                      (cell row "Impounded")));
  Row.truckId :=
    or (or (or (or (mapped row (HeaderMap.truck headerMap)) (cell row "Truck"))
               (cell row "Truck No")) (cell row "Truck ID")) (VStr "");
  Row.amountDue :=
    VNum (amountOf h row "Amount Due" (HeaderMap.amountDue headerMap));
  Row.gvmFine := VNum (amountOf h row "GVM Fine" (HeaderMap.gvmFine headerMap));
  Row.d1Fine := VNum (amountOf h row "D1 Fine" (HeaderMap.d1Fine headerMap));
  Row.d2Fine := VNum (amountOf h row "D2 Fine" (HeaderMap.d2Fine headerMap));
  Row.d3Fine := VNum (amountOf h row "D3 Fine" (HeaderMap.d3Fine headerMap));
  Row.d4Fine := VNum (amountOf h row "D4 Fine" (HeaderMap.d4Fine headerMap));
  Row.awkwardLoadFine :=
    VNum (amountOf h row "Awkward Load Fine" (HeaderMap.awkwardLoadFine headerMap));
  Row.amountDueDriver :=
    VNum (amountOf h row "Amount Due Driver" (HeaderMap.amountDueDriver headerMap));
  Row._raw := Some row
|}.

(** The rows of [parseExcelFile], from the row objects of the first
    sheet: [json.map(...)] with the header map of [json[0] || {}]. *)
Definition parseRows (h : Host) (json : list (obj value)) : list Row.t :=
  let headerMap := buildHeaderMap (match json with row :: _ => row | [] => [] end) in
  map (parseRow h headerMap) json.

End Excel.


(** ** What the Insights component derives from a report *)

Module Display.

Import JsString JsValue JsObject JsItem Analytics.
Local Open Scope string_scope.
Local Open Scope nat_scope.

(** [rate > 10 ? 'danger' : rate > 5 ? 'warning' : 'success'], the colour
    of the rate badge and of the quality bar *)
Definition rateVariant (rate : number) : string :=
  if JsNumber.gt rate (Fin 10) then "danger"
  else if JsNumber.gt rate (Fin 5) then "warning"
  else "success".

(** [Object.keys(perShift).map(shift => impoundedByShift[shift] || 0)],
    the impounded series of the shift chart *)
Definition impoundedSeries (rep : Report.t) : list (item nat) :=
  map (fun shift => Count.orZero (valueAt shift (Report.impoundedByShift rep)))
      (keys (Basic.perShift (Report.basic rep))).

(** [((person.trucks - person.impounded) / person.trucks) * 100] *)
Definition successRate (h : Host) (p : PersonRow.t) : number :=
  JsNumber.mul
    (JsNumber.div
       (JsNumber.add (Count.toNumber h (PersonRow.trucks p))
                     (negate (Count.toNumber h (PersonRow.impounded p))))
       (Count.toNumber h (PersonRow.trucks p)))
    (Fin 100).

(** A counter and a label as values of a property. *)
Definition ofCount (c : item nat) : item number :=
  match c with
  | Num n => Num (JsNumber.ofNat n)
  | Str s => Str s
  | Ref m => Ref m
  end.

Definition ofLabel (l : label) : item number :=
  match l with
  | Name s => Str s
  | Member m => Ref m
  end.

(** The own properties of a row of the per-person table. *)
Definition rowObject (p : PersonRow.t) : obj (item number) :=
  [("person", Str (PersonRow.person p));
   ("group", ofLabel (PersonRow.group p));
   ("shift", ofLabel (PersonRow.shift p));
   ("trucks", ofCount (PersonRow.trucks p));
   ("impounded", ofCount (PersonRow.impounded p));
   ("revenue", PersonRow.revenue p)].

(** [stats.topPerformer]: a row of the table, or the [{}] that the
    reduction starts from *)
Definition topPerformerObject (rep : Report.t) : obj (item number) :=
  match Stats.topPerformer (Report.stats rep) with
  | Some p => rowObject p
  | None => []
  end.

(** [x || fallback] *)
Definition orElse (x : option (item number)) (fallback : item number) : item number :=
  match x with
  | Some (Num v) => if JsNumber.truthy v then Num v else fallback
  | Some (Str s) => if String.eqb s "" then fallback else Str s
  | Some (Ref m) => Ref m
  | None => fallback
  end.

(** [analytics.stats.topPerformer.name || 'N/A'] *)
Definition topPerformerName (rep : Report.t) : item number :=
  orElse (valueAt "name" (topPerformerObject rep)) (Str "N/A").

(** [analytics.stats.topPerformer.trucks || 0] *)
Definition topPerformerTrucks (rep : Report.t) : item number :=
  orElse (valueAt "trucks" (topPerformerObject rep)) (Num (Fin 0)).

(** [analytics.stats.topRevenuePerformer.name || 'N/A'] *)
Definition topEarnerName (rep : Report.t) : item number :=
  orElse (Some (Str (TopRevenue.name (Stats.topRevenuePerformer (Report.stats rep)))))
         (Str "N/A").

(** [analytics.stats.topGroup.name || 'N/A'] *)
Definition topGroupName (rep : Report.t) : item number :=
  orElse (Some (Str (TopGroup.name (Stats.topGroup (Report.stats rep)))))
         (Str "N/A").

End Display.

(** ** Sample hosts and rows *)

Module Examples.

Import JsString JsValue JsDate.
Local Open Scope string_scope.

(** A host two hours ahead of UTC all year (South African Standard Time),
    whose parser accepts the ISO format only and whose locale writes
    dates as [YYYY/MM/DD].  No sample renders a number that is not an
    integer, so [finiteToString] is never called; built-in functions
    print as V8 prints them. *)
Definition sast : Host := {|
  LocalTZA := fun _ _ => 7200000%Z;
  legacyDateParse := fun _ => None;
  toLocaleDateString := fun t =>
    match t with
    | Some t =>
        let '(y, m, d) := civilFromDays (Day (t + 7200000)) in
        pad4 y ++ "/" ++ pad2 m ++ "/" ++ pad2 d
    | None => "Invalid Date"
    end;
  finiteToString := fun _ => "NaN";
  nativeFunction := fun name =>
    " " ++ (if String.eqb name "constructor" then "Object" else name)
    ++ "() { [native code] }"
|}.

(** A row with no field set. *)
Definition blank : Row.t := {|
  Row.person := VUndefined; Row.date := VUndefined;
  Row.impounded := VUndefined; Row.truckId := VUndefined;
  Row.amountDue := VUndefined; Row.gvmFine := VUndefined;
  Row.d1Fine := VUndefined; Row.d2Fine := VUndefined;
  Row.d3Fine := VUndefined; Row.d4Fine := VUndefined;
  Row.awkwardLoadFine := VUndefined; Row.amountDueDriver := VUndefined;
  Row._raw := None
|}.

(** [{ person, date, impounded }] *)
Definition entry (person date : string) (impounded : bool) : Row.t := {|
  Row.person := VStr person; Row.date := VStr date;
  Row.impounded := VBool impounded; Row.truckId := VUndefined;
  Row.amountDue := VUndefined; Row.gvmFine := VUndefined;
  Row.d1Fine := VUndefined; Row.d2Fine := VUndefined;
  Row.d3Fine := VUndefined; Row.d4Fine := VUndefined;
  Row.awkwardLoadFine := VUndefined; Row.amountDueDriver := VUndefined;
  Row._raw := None
|}.

(** [{ person, amountDue, gvmFine }] *)
Definition fined (person : string) (amountDue gvmFine : value) : Row.t := {|
  Row.person := VStr person; Row.date := VUndefined;
  Row.impounded := VUndefined; Row.truckId := VUndefined;
  Row.amountDue := amountDue; Row.gvmFine := gvmFine;
  Row.d1Fine := VUndefined; Row.d2Fine := VUndefined;
  Row.d3Fine := VUndefined; Row.d4Fine := VUndefined;
  Row.awkwardLoadFine := VUndefined; Row.amountDueDriver := VUndefined;
  Row._raw := None
|}.

(** The scenario of three records: John twice, Jane once and impounded. *)
Definition scenario : list Row.t :=
  [{| Row.person := VStr "John"; Row.date := VStr "2024-01-01";
      Row.impounded := VUndefined; Row.truckId := VUndefined;
      Row.amountDue := VNum (Fin 100); Row.gvmFine := VUndefined;
      Row.d1Fine := VUndefined; Row.d2Fine := VUndefined;
      Row.d3Fine := VUndefined; Row.d4Fine := VUndefined;
      Row.awkwardLoadFine := VUndefined; Row.amountDueDriver := VUndefined;
      Row._raw := None |};
   {| Row.person := VStr "John"; Row.date := VStr "2024-01-02";
      Row.impounded := VUndefined; Row.truckId := VUndefined;
      Row.amountDue := VUndefined; Row.gvmFine := VNum (Fin 50);
      Row.d1Fine := VUndefined; Row.d2Fine := VUndefined;
      Row.d3Fine := VUndefined; Row.d4Fine := VUndefined;
      Row.awkwardLoadFine := VUndefined; Row.amountDueDriver := VUndefined;
      Row._raw := None |};
   {| Row.person := VStr "Jane"; Row.date := VStr "2024-01-01";
      Row.impounded := VBool true; Row.truckId := VUndefined;
      Row.amountDue := VUndefined; Row.gvmFine := VUndefined;
      Row.d1Fine := VNum (Fin 25); Row.d2Fine := VUndefined;
      Row.d3Fine := VUndefined; Row.d4Fine := VUndefined;
      Row.awkwardLoadFine := VUndefined; Row.amountDueDriver := VUndefined;
      Row._raw := None |}].

(** A record whose fines are in the raw columns only, one of them not a
    number. *)
Definition rawFines : Row.t := {|
  Row.person := VStr "John"; Row.date := VUndefined;
  Row.impounded := VUndefined; Row.truckId := VUndefined;
  Row.amountDue := VNum NaN; Row.gvmFine := VUndefined;
  Row.d1Fine := VUndefined; Row.d2Fine := VUndefined;
  Row.d3Fine := VUndefined; Row.d4Fine := VUndefined;
  Row.awkwardLoadFine := VUndefined; Row.amountDueDriver := VUndefined;
  Row._raw := Some [("Amount Due", VStr "100.50"); ("GVM Fine", VStr "n/a");
                    ("D1 Fine", VNum (Fin 25))]
|}.

(** A record with a numeric truck number. *)
Definition numberedTruck : Row.t := {|
  Row.person := VStr "John"; Row.date := VUndefined;
  Row.impounded := VUndefined; Row.truckId := VNum (Fin 4521);
  Row.amountDue := VUndefined; Row.gvmFine := VUndefined;
  Row.d1Fine := VUndefined; Row.d2Fine := VUndefined;
  Row.d3Fine := VUndefined; Row.d4Fine := VUndefined;
  Row.awkwardLoadFine := VUndefined; Row.amountDueDriver := VUndefined;
  Row._raw := None
|}.

(** One record without a usable date, one with. *)
Definition mixedDates : list Row.t :=
  [entry "John" "not-a-date" false; entry "Jane" "2024-01-01" false].

(** Half past midnight, local time, on New Year's Day. *)
Definition newYearNight : Row.t := entry "John" "2024-01-01T00:30:00" false.

(** Twenty impounded records. *)
Definition twentyImpounded : list Row.t :=
  repeat (entry "John" "2024-01-01" true) 20.

(** A record of a person named as the prototype property is, and one of
    Jane. *)
Definition protoAndJane : list Row.t :=
  [entry "__proto__" "2024-01-01" false; entry "Jane" "2024-01-01" false].

(** Two records of a person named as an inherited function is, and one of
    Jane. *)
Definition constructorTwice : list Row.t :=
  [entry "constructor" "2024-01-01" false; entry "Jane" "2024-01-01" false;
   entry "constructor" "2024-01-02" true].

(** Two people with one record each, the later name first. *)
Definition bobThenAlice : list Row.t :=
  [entry "Bob" "2024-01-01" false; entry "Alice" "2024-01-01" false].

(** Two people with the same revenue. *)
Definition bobAndAliceFined : list Row.t :=
  [fined "Bob" (VNum (Fin 100)) VUndefined;
   fined "Alice" (VNum (Fin 100)) VUndefined].

(** The same, with a name that is an array index seen last. *)
Definition bobAndSeven : list Row.t :=
  [fined "Bob" (VNum (Fin 100)) VUndefined;
   fined "7" (VNum (Fin 100)) VUndefined].

(** A named person and two records without a usable name. *)
Definition withPlaceholders : list Row.t :=
  [fined "N/A" (VNum (Fin 500)) VUndefined;
   fined "Jane" (VNum (Fin 100)) VUndefined;
   fined " - " (VNum (Fin 500)) VUndefined].

End Examples.

(** ** Further sample rows and sheets *)

Module Samples.

Import JsString JsValue.
Local Open Scope string_scope.
Local Open Scope nat_scope.

(** Jane's row of the per-person table of [Examples.scenario]. *)
Definition janeRow : PersonRow.t := {|
  PersonRow.person := "Jane";
  PersonRow.group := Name "Unassigned";
  PersonRow.shift := Name "Unassigned";
  PersonRow.trucks := Num 1;
  PersonRow.impounded := Num 1;
  PersonRow.revenue := Num (Fin 25)
|}.

(** A record dated on a leap day. *)
Definition leapDay : Row.t := Examples.entry "John" "2024-02-29" false.

(** A record whose [person] is a placeholder. *)
Definition notApplicable : Row.t := Examples.entry "N/A" "2024-01-01" false.

(** Two records with truck numbers that differ in white space only, and
    one without. *)
Definition trucks : list Row.t :=
  map (fun id => {|
         Row.person := VStr "John"; Row.date := VStr "2024-01-01";
         Row.impounded := VBool false; Row.truckId := id;
         Row.amountDue := VUndefined; Row.gvmFine := VUndefined;
         Row.d1Fine := VUndefined; Row.d2Fine := VUndefined;
         Row.d3Fine := VUndefined; Row.d4Fine := VUndefined;
         Row.awkwardLoadFine := VUndefined; Row.amountDueDriver := VUndefined;
         Row._raw := None |})
      [VStr "AB 12"; VStr " AB 12 "; VStr "   "].

(** One busy and one idle person, and records without a name. *)
Definition uneven : list Row.t :=
  (repeat (Examples.entry "Ann" "2024-01-01" false) 5
   ++ [Examples.entry "Ben" "2024-01-01" false]
   ++ repeat (Examples.entry "" "2024-01-01" false) 2)%list.

(** A sheet of two rows, as [sheet_to_json] returns it. *)
Definition sheet : list (JsObject.obj value) :=
  [[("User Full Name", VStr "John"); ("In Detention", VStr " Yes ");
    ("W Date Time", VStr "2024-01-01"); ("Truck No", VStr "AB 12")];
   [("User Full Name", VStr "Jane"); ("In Detention", VStr "No");
    ("W Date Time", VStr "2024-01-02"); ("Truck No", VStr "CD 34")]].

(** The same sheet with the second truck number typed as a number. *)
Definition numberedSheet : list (JsObject.obj value) :=
  [[("User Full Name", VStr "John"); ("In Detention", VStr " Yes ");
    ("W Date Time", VStr "2024-01-01"); ("Truck No", VStr "AB 12")];
   [("User Full Name", VStr "Jane"); ("In Detention", VStr "No");
    ("W Date Time", VStr "2024-01-02"); ("Truck No", VNum (Fin 4521))]].

End Samples.

(** * Notions of the specification *)

(** ** Notions the statements use *)

Module Spec.

Import JsString JsValue JsDate JsItem.
Local Open Scope string_scope.
Local Open Scope nat_scope.

(** A key that is not the name of a member of [Object.prototype]. *)
Definition ordinary (k : string) : bool :=
  match JsObject.inherited k with
  | Some _ => false
  | None => true
  end.

(** The number that an item is; an item that is not a number counts
    for 0. *)
Definition countOf (c : item nat) : nat :=
  match c with
  | Num n => n
  | _ => 0
  end.

(** The number [o[k] || 0]. *)
Definition countAt (k : string) (o : JsObject.obj (item nat)) : nat :=
  countOf (Count.orZero (JsItem.valueAt k o)).

(** Sum of the numbers [o[k]] over [Object.keys(o)]. *)
Definition sumOverKeys (o : JsObject.obj (item nat)) : nat :=
  list_sum (map (fun k => countAt k o) (JsObject.keys o)).

(** A [truckId] on which [r.truckId.trim()] is not a function call. *)
Definition noTrim (r : Row.t) : bool :=
  truthy (Row.truckId r)
  && match Row.truckId r with VStr _ => false | _ => true end.

(** The keys of the records seen so far, each once, in the order of its
    first record. *)
Definition firstSeen (names : list string) : list string :=
  fold_left (fun seen n => Analytics.setAdd n seen) names [].

(** [x] comes strictly before [y] in [l]. *)
Definition before {A : Type} (l : list A) (x y : A) : Prop :=
  exists l1 l2, l = (l1 ++ x :: l2)%list /\ ~ In y l1 /\ x <> y.

(** Group or shift bucket of a row under an assignment mapping: the
    property key that its group or shift is used as. *)
Definition bucketOf (h : Host) (mapping : JsObject.obj string) (r : Row.t) : string :=
  Analytics.keyOf h (Analytics.assigned mapping (Analytics.resolvePersonName h r)).

(** The person, the group and the shift of a record are not names of
    members of [Object.prototype]. *)
Definition ordinaryRow (h : Host) (peopleToGroup peopleToShift : JsObject.obj string)
    (r : Row.t) : bool :=
  ordinary (Analytics.resolvePersonName h r)
  && ordinary (bucketOf h peopleToGroup r)
  && ordinary (bucketOf h peopleToShift r).

(** No record has a person, a group or a shift of such a name. *)
Definition ordinaryKeys (h : Host) (peopleToGroup peopleToShift : JsObject.obj string)
    (rows : list Row.t) : bool :=
  forallb (ordinaryRow h peopleToGroup peopleToShift) rows.

(** The same for the basic page, which names a record by
    [Insights.personOf]. *)
Definition basicBucketOf (h : Host) (mapping : JsObject.obj string) (r : Row.t) : string :=
  Analytics.keyOf h (Analytics.assigned mapping (Insights.personOf h r)).

Definition ordinaryBasicRow (h : Host) (peopleToGroup peopleToShift : JsObject.obj string)
    (r : Row.t) : bool :=
  ordinary (Insights.personOf h r)
  && ordinary (basicBucketOf h peopleToGroup r)
  && ordinary (basicBucketOf h peopleToShift r).

Definition ordinaryBasicKeys (h : Host) (peopleToGroup peopleToShift : JsObject.obj string)
    (rows : list Row.t) : bool :=
  forallb (ordinaryBasicRow h peopleToGroup peopleToShift) rows.

(** What [n] records leave under the key [k] of a dictionary of counts:
    nothing under [__proto__], the source text of the inherited function
    followed by [n] digits 1 under the name of one, and the number [n]
    under any other key. *)
Definition tally (h : Host) (k : string) (n : nat) : option (item nat) :=
  match n with
  | O => None
  | S _ =>
      match JsObject.inherited k with
      | None => Some (Num n)
      | Some JsObject.ObjectPrototype => None
      | Some m =>
          Some (Str (Nat.iter n (fun s => s ++ "1") (JsItem.memberText h m)))
      end
  end.

(** What the loop leaves in each accumulator, as a fold of its own. *)
Definition countsBy (h : Host) (key : Row.t -> string) (rows : list Row.t)
    (o : JsObject.obj (item nat)) : JsObject.obj (item nat) :=
  fold_left (fun o r => Analytics.bump h (key r) o) rows o.

Definition revenueBy (h : Host) (key : Row.t -> string) (rows : list Row.t)
    (o : JsObject.obj (item number)) : JsObject.obj (item number) :=
  fold_left (fun o r => Analytics.accrue h (key r) (Analytics.rowRevenue r) o) rows o.

Definition dailyOf (h : Host) (rows : list Row.t)
    (o : JsObject.obj DayActivity.t) : JsObject.obj DayActivity.t :=
  fold_left
    (fun o r =>
       let d := Analytics.countDay (Analytics.dayKey h r) o in
       if truthy (Row.impounded r)
       then Analytics.countDayImpounded (Analytics.dayKey h r) d else d)
    rows o.

Definition impoundedRows (rows : list Row.t) : list Row.t :=
  filter (fun r => truthy (Row.impounded r)) rows.

(** The report with nothing in it. *)
Definition emptyReport : Report.t := {|
  Report.basic := {|
    Basic.totalTrucks := 0;
    Basic.totalImpounded := 0;
    Basic.totalRevenue := Fin 0;
    Basic.perPerson := [];
    Basic.perGroup := [];
    Basic.perShift := [];
    Basic.peopleRows := [];
    Basic.perPersonRevenue := [];
    Basic.perGroupRevenue := [];
    Basic.perShiftRevenue := [] |};
  Report.stats := {|
    Stats.uniquePeople := 0;
    Stats.avgTrucksPerPerson := Fin 0;
    Stats.impoundedRate := Fin 0;
    Stats.topPerformer := None;
    Stats.topGroup :=
      {| TopGroup.name := ""; TopGroup.trucks := Num 0;
         TopGroup.percentage := Fin 0 |};
    Stats.uniqueTrucks := 0;
    Stats.topRevenuePerformer :=
      {| TopRevenue.name := "Unknown"; TopRevenue.revenue := Num (Fin 0) |} |};
  Report.impoundedByShift := [];
  Report.impoundedByGroup := [];
  Report.alerts := [];
  Report.trends := None;
  Report.dailyActivity := []
|}.

(** The value [Number] is applied to: [field || fallback || 0]. *)
Definition chosen (field fallback : value) : value :=
  or (or field fallback) (VNum (Fin 0)).

(** Neither the field nor its raw column holds a truthy value. *)
Definition missing (field fallback : value) : Prop :=
  truthy field = false /\ truthy fallback = false.

(** The eight fine and amount fields of a row, each with the raw column
    it falls back to. *)
Definition fineFields (r : Row.t) : list (value * value) :=
  [(Row.amountDue r, Row.raw r "Amount Due");
   (Row.gvmFine r, Row.raw r "GVM Fine");
   (Row.d1Fine r, Row.raw r "D1 Fine");
   (Row.d2Fine r, Row.raw r "D2 Fine");
   (Row.d3Fine r, Row.raw r "D3 Fine");
   (Row.d4Fine r, Row.raw r "D4 Fine");
   (Row.awkwardLoadFine r, Row.raw r "Awkward Load Fine");
   (Row.amountDueDriver r, Row.raw r "Amount Due Driver")].

(** Sum of a list of numbers from the left, as a chain of [+]. *)
Definition sumFrom (x : number) (l : list number) : number :=
  fold_left JsNumber.add l x.

Definition isFinite (x : number) : bool :=
  match x with Fin _ => true | _ => false end.

(** Alerts by severity and by title. *)
Definition dangerAlerts (l : list Alert.t) : list Alert.t :=
  filter (fun al => String.eqb (Alert.type al) "danger") l.

Definition impoundWarnings (l : list Alert.t) : list Alert.t :=
  filter (fun al => String.eqb (Alert.type al) "warning"
                    && String.eqb (Alert.title al) "Elevated Impound Rate") l.

(** A string that does not start with white space. *)
Definition startsClean (s : string) : bool :=
  match s with
  | EmptyString => true
  | String c _ => negb (isWhiteSpace c)
  end.

(** A candidate that [resolvePersonName] passes over. *)
Definition rejected (h : Host) (c : value) : Prop :=
  truthy c = false \/ Analytics.isPlaceholderName h c = true.

(** A month from 1 to 12 and a day of that month. *)
Definition validDate (ymd : Z * Z * Z) : bool :=
  let '(y, m, d) := ymd in
  ((1 <=? m) && (m <=? 12) && (1 <=? d) && (d <=? daysInMonth y m))%Z.

(** The calendar date of a time value in UTC. *)
Definition utcDate (t : Z) : Z * Z * Z := civilFromDays (Day t).

(** The character [c] does not occur in [s]. *)
Fixpoint lacks (c : ascii) (s : string) : bool :=
  match s with
  | EmptyString => true
  | String x s' => negb (Ascii.eqb x c) && lacks c s'
  end.

(** The day-bucket keys of a record list, each once. *)
Definition dayKeys (h : Host) (rows : list Row.t) : list string :=
  firstSeen (map (Analytics.dayKey h) rows).

End Spec.

(** ** Notions of the further properties *)

Module Tally.

Import JsString JsValue JsDate JsObject JsItem Analytics Spec.
Local Open Scope string_scope.
Local Open Scope nat_scope.

(** The records that fall under the key [k]. *)
Definition recordsOf (key : Row.t -> string) (k : string) (rows : list Row.t) :
    list Row.t :=
  filter (fun r => String.eqb (key r) k) rows.

(** What the loop leaves in an accumulator that only impounded records
    reach. *)
Definition countsIf (h : Host) (key : Row.t -> string) (rows : list Row.t)
    (o : obj (item nat)) : obj (item nat) :=
  fold_left (fun o r => if truthy (Row.impounded r) then bump h (key r) o else o)
            rows o.

(** The truck identifier a record adds to [truckIds], if any. *)
Definition truckIdOf (r : Row.t) : option string :=
  match Row.truckId r with
  | VStr s => if String.eqb (trim s) "" then None else Some (trim s)
  | _ => None
  end.

Definition trackedIds (rows : list Row.t) (ids : list string) : list string :=
  fold_left (fun ids r => match truckIdOf r with
                          | Some t => setAdd t ids
                          | None => ids
                          end) rows ids.

(** The optional dot of the pattern [/^n\.?a\.?$/i]. *)
Definition optDot (l : list ascii) : list ascii :=
  match l with
  | "."%char :: l' => l'
  | _ => l
  end.

(** What [isPlaceholderName] tests of the trimmed and lower-cased string. *)
Definition placeholderText (t : string) : bool :=
  String.eqb t "" || includes placeholders t || naPattern t.

(** Alerts by title. *)
Definition assignmentAlerts (l : list Alert.t) : list Alert.t :=
  filter (fun al => String.eqb (Alert.title al) "Assignment Needed") l.

Definition performanceAlerts (l : list Alert.t) : list Alert.t :=
  filter (fun al => String.eqb (Alert.title al) "Performance Gap Identified") l.

(** A person without a group or without a shift. *)
Definition unassigned (peopleToGroup peopleToShift : obj string) (p : string) : bool :=
  labelIs (assigned peopleToGroup p) "Unassigned"
  || labelIs (assigned peopleToShift p) "Unassigned".

(** A row of fewer trucks than half of [total / people], in whole
    numbers. *)
Definition belowHalf (people total : nat) (p : PersonRow.t) : bool :=
  (0 <? people) && (2 * people * countOf (PersonRow.trucks p) <? total).

(** A row of the advanced per-person table without its revenue: the
    fields of a row of [computeMetrics]. *)
Definition basicRow (p : PersonRow.t) : Insights.PersonRow.t :=
  {| Insights.PersonRow.person := PersonRow.person p;
     Insights.PersonRow.group := PersonRow.group p;
     Insights.PersonRow.shift := PersonRow.shift p;
     Insights.PersonRow.trucks := PersonRow.trucks p;
     Insights.PersonRow.impounded := PersonRow.impounded p |}.

(** A [person] field that [resolvePersonName] accepts. *)
Definition usablePerson (h : Host) (r : Row.t) : bool :=
  truthy (Row.person r) && negb (isPlaceholderName h (Row.person r)).

(** A cell that [pickFirstNonEmpty] passes over. *)
Definition blankCell (h : Host) (v : value) : bool :=
  match v with
  | VUndefined | VNull => true
  | _ => String.eqb (trim (ToString h v)) ""
  end.

(** The cell that becomes the [truckId] of a record:
    [row[headerMap.truck] || row['Truck'] || row['Truck No'] || row['Truck ID']]. *)
Definition truckCell (headerMap : Excel.HeaderMap.t) (row : obj value) : value :=
  or (or (or (Excel.mapped row (Excel.HeaderMap.truck headerMap))
             (Excel.cell row "Truck"))
         (Excel.cell row "Truck No"))
     (Excel.cell row "Truck ID").

(** The cell that decides [impounded]:
    [row['In Detention'] ?? row[headerMap.impounded] ?? row['Impounded']]. *)
Definition detentionCell (headerMap : Excel.HeaderMap.t) (row : obj value) : value :=
  Excel.nullish
    (Excel.nullish (Excel.cell row "In Detention")
                   (Excel.mapped row (Excel.HeaderMap.impounded headerMap)))
    (Excel.cell row "Impounded").

(** A truthy value that is not a string. *)
Definition truthyNonString (v : value) : bool :=
  truthy v && match v with VStr _ => false | _ => true end.

(** The header map that [parseExcelFile] builds for a sheet. *)
Definition headerMapOf (json : list (obj value)) : Excel.HeaderMap.t :=
  Excel.buildHeaderMap (match json with row :: _ => row | [] => [] end).

(** The words that [normalizeBool] reads as true. *)
Definition yesWords : list string := ["yes"; "true"; "1"; "y"].

(** [o[k]], or the entry that [countDay] starts from. *)
Definition dayAt (o : obj DayActivity.t) (k : string) : DayActivity.t :=
  match get k o with
  | Some d => d
  | None => {| DayActivity.total := 0; DayActivity.impounded := 0 |}
  end.

End Tally.

(** * The routines over finite maps *)

Module Plain.

Import JsString JsNumber JsValue JsDate Analytics.

(** A row of the per-person table. *)
Module PersonRow.
Record t : Type := {
  person : string;
  group : string;
  shift : string;
  trucks : nat;
  impounded : nat;
  revenue : number
}.
End PersonRow.

Module TopGroup.
Record t : Type := { name : string; trucks : nat; percentage : number }.
End TopGroup.

Module TopRevenue.
Record t : Type := { name : string; revenue : number }.
End TopRevenue.

Module Basic.
Record t : Type := {
  totalTrucks : nat;
  totalImpounded : nat;
  totalRevenue : number;
  perPerson : JsObject.obj nat;
  perGroup : JsObject.obj nat;
  perShift : JsObject.obj nat;
  peopleRows : list PersonRow.t;
  perPersonRevenue : JsObject.obj number;
  perGroupRevenue : JsObject.obj number;
  perShiftRevenue : JsObject.obj number
}.
End Basic.

Module Stats.
Record t : Type := {
  uniquePeople : nat;
  avgTrucksPerPerson : number;
  impoundedRate : number;
  (** [None] is the empty object [{}] the reduction starts from *)
  topPerformer : option PersonRow.t;
  topGroup : TopGroup.t;
  uniqueTrucks : nat;
  topRevenuePerformer : TopRevenue.t
}.
End Stats.

Module Report.
Record t : Type := {
  basic : Basic.t;
  stats : Stats.t;
  impoundedByShift : JsObject.obj nat;
  impoundedByGroup : JsObject.obj nat;
  alerts : list Alert.t;
  (** [None] is [null] *)
  trends : option Trends.t;
  dailyActivity : JsObject.obj DayActivity.t
}.
End Report.

(** The local variables of [computeAdvancedAnalytics] that its loop
    updates. *)
Module Acc.
Record t : Type := {
  perPersonCounts : JsObject.obj nat;
  perPersonImpounded : JsObject.obj nat;
  perPersonRevenue : JsObject.obj number;
  perGroupCounts : JsObject.obj nat;
  perGroupRevenue : JsObject.obj number;
  perShiftCounts : JsObject.obj nat;
  perShiftRevenue : JsObject.obj number;
  impoundedByShift : JsObject.obj nat;
  impoundedByGroup : JsObject.obj nat;
  dailyActivity : JsObject.obj DayActivity.t;
  truckIds : list string;
  total : nat;
  totalImpounded : nat;
  totalRevenue : number
}.

Definition init : t := {|
  perPersonCounts := []; perPersonImpounded := []; perPersonRevenue := [];
  perGroupCounts := []; perGroupRevenue := [];
  perShiftCounts := []; perShiftRevenue := [];
  impoundedByShift := []; impoundedByGroup := [];
  dailyActivity := []; truckIds := [];
  total := 0; totalImpounded := 0; totalRevenue := JsNumber.zero
|}.
End Acc.

(** [computeAdvancedAnalytics] over finite maps. *)
Module Analytics.

Local Open Scope string_scope.
Local Open Scope nat_scope.

Section WithInputs.

Variable h : Host.
Variables peopleToGroup peopleToShift : JsObject.obj string.

(** [mapping[person] || 'Unassigned'], the mapping read as a finite map *)
Definition assigned (mapping : JsObject.obj string) (p : string) : string :=
  match JsObject.get p mapping with
  | Some g => if String.eqb g "" then "Unassigned" else g
  | None => "Unassigned"
  end.

(** One more under the key [k]. *)
Definition bump (k : string) (o : JsObject.obj nat) : JsObject.obj nat :=
  JsObject.set k (match JsObject.get k o with Some n => n | None => 0 end + 1) o.

(** [x] more under the key [k], from 0 when the sum so far is [NaN]. *)
Definition accrue (k : string) (x : number) (o : JsObject.obj number) :
    JsObject.obj number :=
  JsObject.set k (JsNumber.add (JsNumber.orZero (JsObject.get k o)) x) o.

(** One iteration of the loop over [rows]. *)
Definition processRow (a : Acc.t) (r : Row.t) : result Acc.t :=
  let person := resolvePersonName h r in
  let group := assigned peopleToGroup person in
  let shift := assigned peopleToShift person in
  let dayKey := dayKey h r in
  let rowRevenue := rowRevenue r in
  let daily := countDay dayKey (Acc.dailyActivity a) in
  bind (trackTruck r (Acc.truckIds a)) (fun ids =>
  let imp := truthy (Row.impounded r) in
  Ok {|
    Acc.perPersonCounts := bump person (Acc.perPersonCounts a);
    Acc.perPersonImpounded :=
      if imp then bump person (Acc.perPersonImpounded a)
      else Acc.perPersonImpounded a;
    Acc.perPersonRevenue := accrue person rowRevenue (Acc.perPersonRevenue a);
    Acc.perGroupCounts := bump group (Acc.perGroupCounts a);
    Acc.perGroupRevenue := accrue group rowRevenue (Acc.perGroupRevenue a);
    Acc.perShiftCounts := bump shift (Acc.perShiftCounts a);
    Acc.perShiftRevenue := accrue shift rowRevenue (Acc.perShiftRevenue a);
    Acc.impoundedByShift :=
      if imp then bump shift (Acc.impoundedByShift a)
      else Acc.impoundedByShift a;
    Acc.impoundedByGroup :=
      if imp then bump group (Acc.impoundedByGroup a)
      else Acc.impoundedByGroup a;
    Acc.dailyActivity := if imp then countDayImpounded dayKey daily else daily;
    Acc.truckIds := ids;
    Acc.total := Acc.total a + 1;
    Acc.totalImpounded :=
      if imp then Acc.totalImpounded a + 1 else Acc.totalImpounded a;
    Acc.totalRevenue := JsNumber.add (Acc.totalRevenue a) rowRevenue
  |}).

Definition natOr0 (x : option nat) : nat :=
  match x with Some n => n | None => 0 end.

Definition peopleRows (a : Acc.t) : list PersonRow.t :=
  map (fun p => {|
         PersonRow.person := p;
         PersonRow.group := assigned peopleToGroup p;
         PersonRow.shift := assigned peopleToShift p;
         PersonRow.trucks := natOr0 (JsObject.get p (Acc.perPersonCounts a));
         PersonRow.impounded := natOr0 (JsObject.get p (Acc.perPersonImpounded a));
         PersonRow.revenue := JsNumber.orZero (JsObject.get p (Acc.perPersonRevenue a))
       |})
      (StringSort.sort (JsObject.keys (Acc.perPersonCounts a))).

Definition uniquePeople (a : Acc.t) : nat :=
  List.length
    (filter (fun p => negb (isPlaceholderName h (VStr p)) && negb (String.eqb p "Unknown"))
            (JsObject.keys (Acc.perPersonCounts a))).

Definition avgTrucksPerPerson (a : Acc.t) : number :=
  if 0 <? uniquePeople a
  then JsNumber.div (JsNumber.ofNat (Acc.total a)) (JsNumber.ofNat (uniquePeople a))
  else Fin 0.

Definition impoundedRate (a : Acc.t) : number :=
  if 0 <? Acc.total a
  then JsNumber.mul
         (JsNumber.div (JsNumber.ofNat (Acc.totalImpounded a))
                       (JsNumber.ofNat (Acc.total a)))
         (Fin 100)
  else Fin 0.

(** [(max, person) => person.trucks > (max.trucks || 0) ? person : max] *)
Definition moreTrucks (max : option PersonRow.t) (p : PersonRow.t) :
    option PersonRow.t :=
  if natOr0 (option_map PersonRow.trucks max) <? PersonRow.trucks p
  then Some p else max.

Definition topPerformer (a : Acc.t) : option PersonRow.t :=
  fold_left moreTrucks
    (filter (fun p => namedPerson h (PersonRow.person p)) (peopleRows a)) None.

(** [(max, [group, count]) => count > (max[1] || 0) ? [group, count] : max] *)
Definition moreCount (max e : string * nat) : string * nat :=
  if snd max <? snd e then e else max.

Definition topGroupEntry (a : Acc.t) : string * nat :=
  fold_left moreCount (JsObject.entries (Acc.perGroupCounts a)) ("", 0).

Definition topGroup (a : Acc.t) : TopGroup.t :=
  let e := topGroupEntry a in
  {| TopGroup.name := fst e;
     TopGroup.trucks := snd e;
     TopGroup.percentage :=
       if 0 <? Acc.total a
       then JsNumber.mul
              (JsNumber.div (JsNumber.ofNat (snd e)) (JsNumber.ofNat (Acc.total a)))
              (Fin 100)
       else Fin 0 |}.

(** [(max, [name, rev]) => rev > (max[1] || 0) ? [name, rev] : max] *)
Definition moreRevenue (max e : string * number) : string * number :=
  if JsNumber.gt (snd e) (JsNumber.orZero (Some (snd max))) then e else max.

Definition topRevenuePerformerEntry (a : Acc.t) : string * number :=
  fold_left moreRevenue
    (filter (fun e => namedPerson h (fst e)) (JsObject.entries (Acc.perPersonRevenue a)))
    ("", Fin 0).

Definition topRevenuePerformer (a : Acc.t) : TopRevenue.t :=
  let e := topRevenuePerformerEntry a in
  {| TopRevenue.name := if String.eqb (fst e) "" then "Unknown" else fst e;
     TopRevenue.revenue := JsNumber.orZero (Some (snd e)) |}.

Definition impoundAlert (a : Acc.t) : list Alert.t :=
  if JsNumber.gt (impoundedRate a) (Fin 15) then
    [{| Alert.type := "danger";
        Alert.title := "High Impound Rate Alert";
        Alert.message :=
          "Current impound rate is " ++ toFixed1 h (impoundedRate a)
          ++ "%, which is concerning. Consider reviewing processes." |}]
  else if JsNumber.gt (impoundedRate a) (Fin 10) then
    [{| Alert.type := "warning";
        Alert.title := "Elevated Impound Rate";
        Alert.message :=
          "Impound rate is " ++ toFixed1 h (impoundedRate a)
          ++ "%. Monitor closely to prevent further increases." |}]
  else [].

Definition underPerformers (a : Acc.t) : list PersonRow.t :=
  filter (fun p => JsNumber.lt (JsNumber.ofNat (PersonRow.trucks p))
                     (JsNumber.mul (avgTrucksPerPerson a) (Fin (1 # 2))))
         (peopleRows a).

Definition performanceAlert (a : Acc.t) : list Alert.t :=
  if 0 <? List.length (underPerformers a) then
    [{| Alert.type := "warning";
        Alert.title := "Performance Gap Identified";
        Alert.message :=
          JsString.ofNat (List.length (underPerformers a))
          ++ " team members are performing significantly below average. Consider additional training." |}]
  else [].

Definition unassignedCount (a : Acc.t) : nat :=
  List.length
    (filter (fun p => String.eqb (PersonRow.group p) "Unassigned"
                      || String.eqb (PersonRow.shift p) "Unassigned")
            (peopleRows a)).

Definition assignmentAlert (a : Acc.t) : list Alert.t :=
  if 0 <? unassignedCount a then
    [{| Alert.type := "info";
        Alert.title := "Assignment Needed";
        Alert.message :=
          JsString.ofNat (unassignedCount a)
          ++ " team members need group or shift assignments for better organization." |}]
  else [].

Definition alerts (a : Acc.t) : list Alert.t :=
  (impoundAlert a ++ performanceAlert a ++ assignmentAlert a)%list.

Definition sortedDates (a : Acc.t) : list string :=
  StringSort.sort (JsObject.keys (Acc.dailyActivity a)).

(** [dailyActivity[date]], for a key of [dailyActivity] *)
Definition dayOf (a : Acc.t) (date : string) : DayActivity.t :=
  match JsObject.get date (Acc.dailyActivity a) with
  | Some d => d
  | None => {| DayActivity.total := 0; DayActivity.impounded := 0 |}
  end.

Definition trends (a : Acc.t) : option Trends.t :=
  if 1 <? List.length (sortedDates a) then
    Some {| Trends.dates := map (dateLabel h) (sortedDates a);
            Trends.dailyCounts :=
              map (fun date => DayActivity.total (dayOf a date)) (sortedDates a);
            Trends.dailyImpounded :=
              map (fun date => DayActivity.impounded (dayOf a date)) (sortedDates a) |}
  else None.

Definition report (a : Acc.t) : Report.t := {|
  Report.basic := {|
    Basic.totalTrucks := Acc.total a;
    Basic.totalImpounded := Acc.totalImpounded a;
    Basic.totalRevenue := Acc.totalRevenue a;
    Basic.perPerson := Acc.perPersonCounts a;
    Basic.perGroup := Acc.perGroupCounts a;
    Basic.perShift := Acc.perShiftCounts a;
    Basic.peopleRows := peopleRows a;
    Basic.perPersonRevenue := Acc.perPersonRevenue a;
    Basic.perGroupRevenue := Acc.perGroupRevenue a;
    Basic.perShiftRevenue := Acc.perShiftRevenue a |};
  Report.stats := {|
    Stats.uniquePeople := uniquePeople a;
    Stats.avgTrucksPerPerson := avgTrucksPerPerson a;
    Stats.impoundedRate := impoundedRate a;
    Stats.topPerformer := topPerformer a;
    Stats.topGroup := topGroup a;
    Stats.uniqueTrucks := List.length (Acc.truckIds a);
    Stats.topRevenuePerformer := topRevenuePerformer a |};
  Report.impoundedByShift := Acc.impoundedByShift a;
  Report.impoundedByGroup := Acc.impoundedByGroup a;
  Report.alerts := alerts a;
  Report.trends := trends a;
  Report.dailyActivity := Acc.dailyActivity a
|}.

Definition computeAdvancedAnalytics (rows : list Row.t) : result Report.t :=
  bind (forOf processRow rows (Ok Acc.init)) (fun a => Ok (report a)).

End WithInputs.

End Analytics.

(** [computeMetrics] over finite maps. *)
Module Insights.

Local Open Scope string_scope.
Local Open Scope nat_scope.

Module PersonRow.
Record t : Type := {
  person : string;
  group : string;
  shift : string;
  trucks : nat;
  impounded : nat
}.
End PersonRow.

Module Metrics.
Record t : Type := {
  totalTrucks : nat;
  totalImpounded : nat;
  perPerson : JsObject.obj nat;
  perGroup : JsObject.obj nat;
  perShift : JsObject.obj nat;
  peopleRows : list PersonRow.t
}.
End Metrics.

Module Acc.
Record t : Type := {
  perPersonCounts : JsObject.obj nat;
  perPersonImpounded : JsObject.obj nat;
  perGroupCounts : JsObject.obj nat;
  perShiftCounts : JsObject.obj nat;
  total : nat;
  totalImpounded : nat
}.
End Acc.

Section WithInputs.

Variable h : Host.
Variables peopleToGroup peopleToShift : JsObject.obj string.

Definition processRow (a : Acc.t) (r : Row.t) : Acc.t :=
  let person := Insights.personOf h r in
  let group := Analytics.assigned peopleToGroup person in
  let shift := Analytics.assigned peopleToShift person in
  let imp := truthy (Row.impounded r) in
  {| Acc.perPersonCounts := Analytics.bump person (Acc.perPersonCounts a);
     Acc.perPersonImpounded :=
       if imp then Analytics.bump person (Acc.perPersonImpounded a)
       else Acc.perPersonImpounded a;
     Acc.perGroupCounts := Analytics.bump group (Acc.perGroupCounts a);
     Acc.perShiftCounts := Analytics.bump shift (Acc.perShiftCounts a);
     Acc.total := Acc.total a + 1;
     Acc.totalImpounded :=
       if imp then Acc.totalImpounded a + 1 else Acc.totalImpounded a |}.

Definition computeMetrics (rows : list Row.t) : Metrics.t :=
  let a := fold_left processRow rows
             {| Acc.perPersonCounts := []; Acc.perPersonImpounded := [];
                Acc.perGroupCounts := []; Acc.perShiftCounts := [];
                Acc.total := 0; Acc.totalImpounded := 0 |} in
  {| Metrics.totalTrucks := Acc.total a;
     Metrics.totalImpounded := Acc.totalImpounded a;
     Metrics.perPerson := Acc.perPersonCounts a;
     Metrics.perGroup := Acc.perGroupCounts a;
     Metrics.perShift := Acc.perShiftCounts a;
     Metrics.peopleRows :=
       map (fun p => {|
              PersonRow.person := p;
              PersonRow.group := Analytics.assigned peopleToGroup p;
              PersonRow.shift := Analytics.assigned peopleToShift p;
              PersonRow.trucks :=
                Analytics.natOr0 (JsObject.get p (Acc.perPersonCounts a));
              PersonRow.impounded :=
                Analytics.natOr0 (JsObject.get p (Acc.perPersonImpounded a)) |})
           (StringSort.sort (JsObject.keys (Acc.perPersonCounts a))) |}.

End WithInputs.

End Insights.

(** The derived values over finite maps. *)
Module Display.

Import JsObject Analytics.
Local Open Scope string_scope.
Local Open Scope nat_scope.

(** [Object.keys(perShift).map(shift => impoundedByShift[shift] || 0)],
    the impounded series of the shift chart *)
Definition impoundedSeries (rep : Report.t) : list nat :=
  map (fun shift => natOr0 (get shift (Report.impoundedByShift rep)))
      (keys (Basic.perShift (Report.basic rep))).

(** [((person.trucks - person.impounded) / person.trucks) * 100] *)
Definition successRate (p : PersonRow.t) : number :=
  JsNumber.mul
    (JsNumber.div
       (Fin (inject_Z (Z.of_nat (PersonRow.trucks p))
             - inject_Z (Z.of_nat (PersonRow.impounded p))))
       (JsNumber.ofNat (PersonRow.trucks p)))
    (Fin 100).

(** The own properties of a row of the per-person table. *)
Definition rowObject (p : PersonRow.t) : obj value :=
  [("person", VStr (PersonRow.person p));
   ("group", VStr (PersonRow.group p));
   ("shift", VStr (PersonRow.shift p));
   ("trucks", VNum (JsNumber.ofNat (PersonRow.trucks p)));
   ("impounded", VNum (JsNumber.ofNat (PersonRow.impounded p)));
   ("revenue", VNum (PersonRow.revenue p))].

(** [stats.topPerformer]: a row of the table, or the [{}] that the
    reduction starts from *)
Definition topPerformerObject (rep : Report.t) : obj value :=
  match Stats.topPerformer (Report.stats rep) with
  | Some p => rowObject p
  | None => []
  end.

(** [o.k] *)
Definition prop (o : obj value) (k : string) : value :=
  match get k o with
  | Some v => v
  | None => VUndefined
  end.

(** [analytics.stats.topPerformer.name || 'N/A'] *)
Definition topPerformerName (rep : Report.t) : value :=
  or (prop (topPerformerObject rep) "name") (VStr "N/A").

(** [analytics.stats.topPerformer.trucks || 0] *)
Definition topPerformerTrucks (rep : Report.t) : value :=
  or (prop (topPerformerObject rep) "trucks") (VNum (Fin 0)).

(** [analytics.stats.topRevenuePerformer.name || 'N/A'] *)
Definition topEarnerName (rep : Report.t) : value :=
  or (VStr (TopRevenue.name (Stats.topRevenuePerformer (Report.stats rep))))
     (VStr "N/A").

(** [analytics.stats.topGroup.name || 'N/A'] *)
Definition topGroupName (rep : Report.t) : value :=
  or (VStr (TopGroup.name (Stats.topGroup (Report.stats rep)))) (VStr "N/A").

End Display.

(** The notions of the statements over finite maps. *)
Module Spec.

Local Open Scope string_scope.
Local Open Scope nat_scope.

(** Sum of [o[k]] over [Object.keys(o)]. *)
Definition sumOverKeys (o : JsObject.obj nat) : nat :=
  list_sum (map (fun k => Analytics.natOr0 (JsObject.get k o)) (JsObject.keys o)).

(** Group or shift bucket of a row under an assignment mapping. *)
Definition bucketOf (h : Host) (mapping : JsObject.obj string) (r : Row.t) : string :=
  Analytics.assigned mapping (Analytics.resolvePersonName h r).

(** What the loop leaves in each accumulator, as a fold of its own. *)
Definition countsBy (key : Row.t -> string) (rows : list Row.t)
    (o : JsObject.obj nat) : JsObject.obj nat :=
  fold_left (fun o r => Analytics.bump (key r) o) rows o.

Definition revenueBy (key : Row.t -> string) (rows : list Row.t)
    (o : JsObject.obj number) : JsObject.obj number :=
  fold_left (fun o r => Analytics.accrue (key r) (Analytics.rowRevenue r) o) rows o.

(** The report with nothing in it. *)
Definition emptyReport : Report.t := {|
  Report.basic := {|
    Basic.totalTrucks := 0;
    Basic.totalImpounded := 0;
    Basic.totalRevenue := Fin 0;
    Basic.perPerson := [];
    Basic.perGroup := [];
    Basic.perShift := [];
    Basic.peopleRows := [];
    Basic.perPersonRevenue := [];
    Basic.perGroupRevenue := [];
    Basic.perShiftRevenue := [] |};
  Report.stats := {|
    Stats.uniquePeople := 0;
    Stats.avgTrucksPerPerson := Fin 0;
    Stats.impoundedRate := Fin 0;
    Stats.topPerformer := None;
    Stats.topGroup :=
      {| TopGroup.name := ""; TopGroup.trucks := 0; TopGroup.percentage := Fin 0 |};
    Stats.uniqueTrucks := 0;
    Stats.topRevenuePerformer :=
      {| TopRevenue.name := "Unknown"; TopRevenue.revenue := Fin 0 |} |};
  Report.impoundedByShift := [];
  Report.impoundedByGroup := [];
  Report.alerts := [];
  Report.trends := None;
  Report.dailyActivity := []
|}.

(** [max.trucks || 0] *)
Definition trucksOf (max : option PersonRow.t) : nat :=
  Analytics.natOr0 (option_map PersonRow.trucks max).

(** A running maximum of the revenue reduction: the 0 it starts from
    or a positive number. *)
Definition okMax (m : string * number) : Prop :=
  snd m = Fin 0 \/ JsNumber.gt (snd m) (Fin 0) = true.

End Spec.

(** The notions of the further properties over finite maps. *)
Module Tally.

Import JsObject Analytics Spec.
Local Open Scope string_scope.
Local Open Scope nat_scope.

(** What the loop leaves in an accumulator that only impounded records
    reach. *)
Definition countsIf (key : Row.t -> string) (rows : list Row.t)
    (o : obj nat) : obj nat :=
  fold_left (fun o r => if truthy (Row.impounded r) then bump (key r) o else o)
            rows o.

(** A person without a group or without a shift. *)
Definition unassigned (peopleToGroup peopleToShift : obj string) (p : string) : bool :=
  String.eqb (assigned peopleToGroup p) "Unassigned"
  || String.eqb (assigned peopleToShift p) "Unassigned".

(** A row of fewer trucks than half of [total / people], in whole
    numbers. *)
Definition belowHalf (people total : nat) (p : PersonRow.t) : bool :=
  (0 <? people) && (2 * people * PersonRow.trucks p <? total).

(** A row of the advanced per-person table without its revenue: the
    fields of a row of [computeMetrics]. *)
Definition basicRow (p : PersonRow.t) : Insights.PersonRow.t :=
  {| Insights.PersonRow.person := PersonRow.person p;
     Insights.PersonRow.group := PersonRow.group p;
     Insights.PersonRow.shift := PersonRow.shift p;
     Insights.PersonRow.trucks := PersonRow.trucks p;
     Insights.PersonRow.impounded := PersonRow.impounded p |}.

End Tally.

End Plain.

(** * From finite maps to the dictionaries of the code *)

Module Lift.

Import JsString JsObject JsItem.
Local Open Scope string_scope.
Local Open Scope nat_scope.

(** The dictionary that holds the numbers of a finite map. *)
Definition numbered {N : Type} (o : obj N) : obj (item N) :=
  map (fun e => (fst e, Num (snd e))) o.

(** What the counting idiom leaves for an entry of a table of counts:
    nothing under [__proto__], a string under the name of an inherited
    function, the number under any other key. *)
Definition counted (h : Host) (e : string * nat) : list (string * item nat) :=
  match inherited (fst e) with
  | None => [(fst e, Num (snd e))]
  | Some ObjectPrototype => []
  | Some m =>
      [(fst e, Str (Nat.iter (snd e) (fun s => s ++ "1") (memberText h m)))]
  end.

Definition rendered (h : Host) (o : obj nat) : obj (item nat) :=
  flat_map (counted h) o.

(** The source text of a built-in function, and what is appended to
    it. *)
Definition native (s : string) : Prop := exists t, s = "function" ++ t.

(** A dictionary as the loop leaves it: no member is stored, and a
    string is the text of a function with something appended. *)
Definition clean {N : Type} (o : obj (item N)) : Prop :=
  forall k c, In (k, c) o ->
    match c with
    | Num _ => True
    | Str s => native s
    | Ref _ => False
    end.

Definition row (p : Plain.PersonRow.t) : PersonRow.t := {|
  PersonRow.person := Plain.PersonRow.person p;
  PersonRow.group := Name (Plain.PersonRow.group p);
  PersonRow.shift := Name (Plain.PersonRow.shift p);
  PersonRow.trucks := Num (Plain.PersonRow.trucks p);
  PersonRow.impounded := Num (Plain.PersonRow.impounded p);
  PersonRow.revenue := Num (Plain.PersonRow.revenue p)
|}.

Definition basic (b : Plain.Basic.t) : Basic.t := {|
  Basic.totalTrucks := Plain.Basic.totalTrucks b;
  Basic.totalImpounded := Plain.Basic.totalImpounded b;
  Basic.totalRevenue := Plain.Basic.totalRevenue b;
  Basic.perPerson := numbered (Plain.Basic.perPerson b);
  Basic.perGroup := numbered (Plain.Basic.perGroup b);
  Basic.perShift := numbered (Plain.Basic.perShift b);
  Basic.peopleRows := map row (Plain.Basic.peopleRows b);
  Basic.perPersonRevenue := numbered (Plain.Basic.perPersonRevenue b);
  Basic.perGroupRevenue := numbered (Plain.Basic.perGroupRevenue b);
  Basic.perShiftRevenue := numbered (Plain.Basic.perShiftRevenue b)
|}.

Definition stats (s : Plain.Stats.t) : Stats.t := {|
  Stats.uniquePeople := Plain.Stats.uniquePeople s;
  Stats.avgTrucksPerPerson := Plain.Stats.avgTrucksPerPerson s;
  Stats.impoundedRate := Plain.Stats.impoundedRate s;
  Stats.topPerformer := option_map row (Plain.Stats.topPerformer s);
  Stats.topGroup :=
    {| TopGroup.name := Plain.TopGroup.name (Plain.Stats.topGroup s);
       TopGroup.trucks := Num (Plain.TopGroup.trucks (Plain.Stats.topGroup s));
       TopGroup.percentage := Plain.TopGroup.percentage (Plain.Stats.topGroup s) |};
  Stats.uniqueTrucks := Plain.Stats.uniqueTrucks s;
  Stats.topRevenuePerformer :=
    {| TopRevenue.name := Plain.TopRevenue.name (Plain.Stats.topRevenuePerformer s);
       TopRevenue.revenue :=
         Num (Plain.TopRevenue.revenue (Plain.Stats.topRevenuePerformer s)) |}
|}.

Definition report (r : Plain.Report.t) : Report.t := {|
  Report.basic := basic (Plain.Report.basic r);
  Report.stats := stats (Plain.Report.stats r);
  Report.impoundedByShift := numbered (Plain.Report.impoundedByShift r);
  Report.impoundedByGroup := numbered (Plain.Report.impoundedByGroup r);
  Report.alerts := Plain.Report.alerts r;
  Report.trends := Plain.Report.trends r;
  Report.dailyActivity := Plain.Report.dailyActivity r
|}.

Definition acc (a : Plain.Acc.t) : Acc.t := {|
  Acc.perPersonCounts := numbered (Plain.Acc.perPersonCounts a);
  Acc.perPersonImpounded := numbered (Plain.Acc.perPersonImpounded a);
  Acc.perPersonRevenue := numbered (Plain.Acc.perPersonRevenue a);
  Acc.perGroupCounts := numbered (Plain.Acc.perGroupCounts a);
  Acc.perGroupRevenue := numbered (Plain.Acc.perGroupRevenue a);
  Acc.perShiftCounts := numbered (Plain.Acc.perShiftCounts a);
  Acc.perShiftRevenue := numbered (Plain.Acc.perShiftRevenue a);
  Acc.impoundedByShift := numbered (Plain.Acc.impoundedByShift a);
  Acc.impoundedByGroup := numbered (Plain.Acc.impoundedByGroup a);
  Acc.dailyActivity := Plain.Acc.dailyActivity a;
  Acc.truckIds := Plain.Acc.truckIds a;
  Acc.total := Plain.Acc.total a;
  Acc.totalImpounded := Plain.Acc.totalImpounded a;
  Acc.totalRevenue := Plain.Acc.totalRevenue a
|}.

(** Accumulators that agree on what does not go through a dictionary of
    counts or of revenue. *)
Definition agree (a : Acc.t) (a' : Plain.Acc.t) : Prop :=
  Acc.total a = Plain.Acc.total a'
  /\ Acc.totalImpounded a = Plain.Acc.totalImpounded a'
  /\ Acc.totalRevenue a = Plain.Acc.totalRevenue a'
  /\ Acc.dailyActivity a = Plain.Acc.dailyActivity a'
  /\ Acc.truckIds a = Plain.Acc.truckIds a'.

(** The outcome of a call, lifted. *)
Definition outcome {A B : Type} (f : A -> B) (r : result A) : result B :=
  match r with
  | Ok a => Ok (f a)
  | Throw e => Throw e
  end.

Definition basicRow (p : Plain.Insights.PersonRow.t) : Insights.PersonRow.t := {|
  Insights.PersonRow.person := Plain.Insights.PersonRow.person p;
  Insights.PersonRow.group := Name (Plain.Insights.PersonRow.group p);
  Insights.PersonRow.shift := Name (Plain.Insights.PersonRow.shift p);
  Insights.PersonRow.trucks := Num (Plain.Insights.PersonRow.trucks p);
  Insights.PersonRow.impounded := Num (Plain.Insights.PersonRow.impounded p)
|}.

Definition metrics (m : Plain.Insights.Metrics.t) : Insights.Metrics.t := {|
  Insights.Metrics.totalTrucks := Plain.Insights.Metrics.totalTrucks m;
  Insights.Metrics.totalImpounded := Plain.Insights.Metrics.totalImpounded m;
  Insights.Metrics.perPerson := numbered (Plain.Insights.Metrics.perPerson m);
  Insights.Metrics.perGroup := numbered (Plain.Insights.Metrics.perGroup m);
  Insights.Metrics.perShift := numbered (Plain.Insights.Metrics.perShift m);
  Insights.Metrics.peopleRows := map basicRow (Plain.Insights.Metrics.peopleRows m)
|}.

Definition basicAcc (a : Plain.Insights.Acc.t) : Insights.Acc.t := {|
  Insights.Acc.perPersonCounts := numbered (Plain.Insights.Acc.perPersonCounts a);
  Insights.Acc.perPersonImpounded := numbered (Plain.Insights.Acc.perPersonImpounded a);
  Insights.Acc.perGroupCounts := numbered (Plain.Insights.Acc.perGroupCounts a);
  Insights.Acc.perShiftCounts := numbered (Plain.Insights.Acc.perShiftCounts a);
  Insights.Acc.total := Plain.Insights.Acc.total a;
  Insights.Acc.totalImpounded := Plain.Insights.Acc.totalImpounded a
|}.

End Lift.

(** * Properties of the runtime and of the routines over finite maps *)

Module Base.

Import Analytics Spec Tally.
Import Plain.

(** ** The calendar *)

Module DateFacts.

Import JsString JsDate Spec.
Local Open Scope string_scope.
Local Open Scope Z_scope.

Example epoch : toISOString 0 = "1970-01-01T00:00:00.000Z".
Proof. reflexivity. Qed.

Example before_epoch : toISOString (-1) = "1969-12-31T23:59:59.999Z".
Proof. reflexivity. Qed.

Example leap_day : toISOString 951782400000 = "2000-02-29T00:00:00.000Z".
Proof. vm_compute. reflexivity. Qed.

Example last_four_digit_year :
  toISOString 253402300799999 = "9999-12-31T23:59:59.999Z"
  /\ toISOString 253402300800000 = "+010000-01-01T00:00:00.000Z".
Proof. split; vm_compute; reflexivity. Qed.

Example parse_date_only : parse Examples.sast "2024-01-01" = Some 1704067200000.
Proof. vm_compute. reflexivity. Qed.

Example parse_local_time :
  parse Examples.sast "2024-01-01T00:30:00" = Some 1704061800000
  /\ parse Examples.sast "2024-01-01T00:30:00Z" = Some 1704069000000
  /\ parse Examples.sast "2024-01-01T00:30:00+02:00" = Some 1704061800000.
Proof. repeat split; vm_compute; reflexivity. Qed.

End DateFacts.

(** ** Facts on dictionaries *)

Module ObjFacts.

Import JsObject.

Lemma existsb_eqb_In (k : string) (l : list string) :
  existsb (String.eqb k) l = true <-> In k l.
Proof.
  rewrite existsb_exists. split.
  - intros [x [Hin Heq]]. apply String.eqb_eq in Heq. now subst.
  - intros Hin. exists k. split; [assumption | apply String.eqb_refl].
Qed.

Lemma setAdd_In (k x : string) (l : list string) :
  In x (Analytics.setAdd k l) <-> x = k \/ In x l.
Proof.
  unfold Analytics.setAdd.
  destruct (existsb (String.eqb k) l) eqn:E.
  - apply existsb_eqb_In in E. split; [now right | intros [-> | H]; assumption].
  - rewrite in_app_iff. simpl. intuition.
Qed.

Lemma setAdd_NoDup (k : string) (l : list string) :
  NoDup l -> NoDup (Analytics.setAdd k l).
Proof.
  intros Hnd. unfold Analytics.setAdd.
  destruct (existsb (String.eqb k) l) eqn:E; [assumption|].
  assert (Hk : ~ In k l).
  { intros Hin. apply existsb_eqb_In in Hin. congruence. }
  clear E. induction l as [|a l IH]; simpl.
  - constructor; [intros [] | constructor].
  - inversion Hnd as [|? ? Ha Hl]; subst. constructor.
    + rewrite in_app_iff. simpl. intros [H | [H | []]]; [now apply Ha|].
      apply Hk. now left.
    + apply IH; [assumption|]. intros H. apply Hk. now right.
Qed.

Section Dict.

Variable V : Type.
Implicit Types (o : obj V) (k : string) (v : V).

Lemma get_set_same k v o : get k (set k v o) = Some v.
Proof.
  induction o as [|[k' v'] o IH]; simpl.
  - now rewrite String.eqb_refl.
  - destruct (String.eqb k k') eqn:E; simpl; rewrite ?String.eqb_refl, ?E; auto.
Qed.

Lemma get_set_other k k' v o : k <> k' -> get k' (set k v o) = get k' o.
Proof.
  intros Hne. induction o as [|[k0 v0] o IH]; simpl.
  - destruct (String.eqb k' k) eqn:E; [|reflexivity].
    apply String.eqb_eq in E. congruence.
  - destruct (String.eqb k k0) eqn:E; simpl.
    + apply String.eqb_eq in E. subst k0.
      destruct (String.eqb k' k) eqn:E'; [|reflexivity].
      apply String.eqb_eq in E'. congruence.
    + now rewrite IH.
Qed.

Lemma get_None_iff k o : get k o = None <-> ~ In k (map fst o).
Proof.
  induction o as [|[k' v'] o IH]; simpl.
  - intuition.
  - destruct (String.eqb k k') eqn:E.
    + apply String.eqb_eq in E. subst. split; [discriminate | intros H; exfalso; auto].
    + apply String.eqb_neq in E. rewrite IH. intuition congruence.
Qed.

Lemma get_Some_In k v o : get k o = Some v -> In (k, v) o.
Proof.
  induction o as [|[k' v'] o IH]; simpl; [discriminate|].
  destruct (String.eqb k k') eqn:E.
  - apply String.eqb_eq in E. intros [= ->]. subst. now left.
  - intros H. right. auto.
Qed.

Lemma In_get k v o : NoDup (map fst o) -> In (k, v) o -> get k o = Some v.
Proof.
  induction o as [|[k' v'] o IH]; simpl; [intros _ []|].
  intros Hnd [Heq | Hin].
  - inversion Heq; subst. now rewrite String.eqb_refl.
  - inversion Hnd as [|? ? Hk Hnd']; subst.
    destruct (String.eqb k k') eqn:E; [|auto].
    apply String.eqb_eq in E. subst. exfalso. apply Hk.
    change k' with (fst (k', v)). now apply in_map.
Qed.

(** Assignment keeps the order of the keys and puts a new key last. *)
Lemma keys_set k v o : map fst (set k v o) = Analytics.setAdd k (map fst o).
Proof.
  unfold Analytics.setAdd. induction o as [|[k' v'] o IH]; simpl; [reflexivity|].
  destruct (String.eqb k k') eqn:E; simpl.
  - apply String.eqb_eq in E. now subst.
  - rewrite IH. now destruct (existsb (String.eqb k) (map fst o)).
Qed.

Lemma insertByIndex_perm (e : string * V) l :
  Permutation (insertByIndex e l) (e :: l).
Proof.
  induction l as [|x l IH]; simpl; [reflexivity|].
  destruct (Z.leb _ _); [reflexivity|].
  rewrite IH. apply perm_swap.
Qed.

Lemma sortByIndex_perm (l : list (string * V)) : Permutation (sortByIndex l) l.
Proof.
  induction l as [|x l IH]; simpl; [reflexivity|].
  rewrite insertByIndex_perm. now constructor.
Qed.

Lemma filter_partition_perm (A : Type) (p : A -> bool) (l : list A) :
  Permutation (filter p l ++ filter (fun x => negb (p x)) l) l.
Proof.
  induction l as [|x l IH]; simpl; [reflexivity|].
  destruct (p x); simpl.
  - now constructor.
  - rewrite <- Permutation_middle. now constructor.
Qed.

(** [Object.entries] lists every property once. *)
Lemma entries_perm o : Permutation (entries o) o.
Proof.
  unfold entries. rewrite sortByIndex_perm.
  apply (filter_partition_perm (fun e : string * V => isArrayIndex (fst e))).
Qed.

Lemma keys_perm o : Permutation (keys o) (map fst o).
Proof. unfold keys. apply Permutation_map, entries_perm. Qed.

Lemma keys_In k o : In k (keys o) <-> In k (map fst o).
Proof.
  split; apply Permutation_in; [|symmetry]; apply keys_perm.
Qed.

Lemma keys_NoDup o : NoDup (map fst o) -> NoDup (keys o).
Proof.
  intros H. eapply Permutation_NoDup; [symmetry; apply keys_perm | assumption].
Qed.

Lemma keys_length o : List.length (keys o) = List.length o.
Proof.
  rewrite (Permutation_length (keys_perm o)). apply length_map.
Qed.

(** Without array-index keys the enumeration is the insertion order. *)
Lemma entries_no_index o :
  (forall k, In k (map fst o) -> isArrayIndex k = false) -> entries o = o.
Proof.
  intros H. unfold entries.
  assert (Hf : filter (fun e : string * V => isArrayIndex (fst e)) o = []).
  { induction o as [|[k v] o IH]; simpl; [reflexivity|].
    rewrite (H k) by (now left). apply IH. intros k' Hk'. apply H. now right. }
  rewrite Hf. simpl.
  induction o as [|[k v] o IH]; simpl; [reflexivity|].
  rewrite (H k) by (now left). simpl. f_equal. apply IH.
  - intros k' Hk'. apply H. now right.
  - simpl in Hf. rewrite (H k) in Hf by (now left). assumption.
Qed.

End Dict.

Lemma list_sum_perm (l l' : list nat) :
  Permutation l l' -> list_sum l = list_sum l'.
Proof. induction 1; simpl; lia. Qed.

Lemma map_get_keys (o : obj nat) :
  NoDup (map fst o) ->
  map (fun k => Analytics.natOr0 (get k o)) (map fst o) = map snd o.
Proof.
  intros Hnd. rewrite map_map. apply map_ext_in. intros [k v] Hin.
  simpl. now rewrite (In_get k v o Hnd Hin).
Qed.

(** Summing [o[k]] over the enumerated keys adds up every stored value. *)
Lemma sumOverKeys_values (o : obj nat) :
  NoDup (map fst o) -> Spec.sumOverKeys o = list_sum (map snd o).
Proof.
  intros Hnd. unfold Spec.sumOverKeys.
  rewrite <- (map_get_keys o Hnd).
  apply list_sum_perm, Permutation_map, keys_perm.
Qed.

End ObjFacts.

(** ** The loop of [computeAdvancedAnalytics] *)

Module LoopFacts.

Import JsValue Analytics Spec.
Local Open Scope nat_scope.

Section WithInputs.

Variable h : Host.
Variables peopleToGroup peopleToShift : JsObject.obj string.

Local Notation "'processRow'" :=
  (Analytics.processRow h peopleToGroup peopleToShift) (only parsing).

Lemma forOf_Throw (S R : Type) (body : S -> R -> result S) rows e :
  forOf body rows (Throw e) = Throw e.
Proof. induction rows as [|r rows IH]; simpl; auto. Qed.

Lemma trackTruck_Ok r ids : noTrim r = false -> exists ids', trackTruck r ids = Ok ids'.
Proof.
  unfold noTrim, trackTruck. destruct (truthy (Row.truckId r)); [|eauto].
  destruct (Row.truckId r); simpl; try discriminate; eauto.
Qed.

Lemma trackTruck_Throw r ids e : trackTruck r ids = Throw e -> noTrim r = true.
Proof.
  unfold noTrim, trackTruck. destruct (truthy (Row.truckId r)); [|discriminate].
  destruct (Row.truckId r); simpl; try discriminate; reflexivity.
Qed.

Lemma processRow_returns a r :
  noTrim r = false -> exists a', processRow a r = Ok a'.
Proof.
  intros H. unfold Analytics.processRow.
  destruct (trackTruck_Ok r (Acc.truckIds a) H) as [ids ->]. simpl. eauto.
Qed.

Lemma processRow_throws a r e :
  processRow a r = Throw e -> e = TypeError /\ noTrim r = true.
Proof.
  unfold Analytics.processRow.
  destruct (trackTruck r (Acc.truckIds a)) eqn:E; simpl; [discriminate|].
  intros [= <-]. split; [now destruct e0 | eapply trackTruck_Throw; eauto].
Qed.

(** The loop runs to its end exactly when no row has a truthy
    [truckId] that is not a string. *)
Lemma loop_returns rows a :
  existsb noTrim rows = false -> exists a', forOf processRow rows (Ok a) = Ok a'.
Proof.
  revert a. induction rows as [|r rows IH]; simpl; intros a H; [eauto|].
  apply orb_false_iff in H as [Hr Hrows].
  destruct (processRow_returns a r Hr) as [a1 ->]. now apply IH.
Qed.

Lemma loop_throws rows a e :
  forOf processRow rows (Ok a) = Throw e ->
  e = TypeError /\ exists r, In r rows /\ noTrim r = true.
Proof.
  revert a. induction rows as [|r rows IH]; simpl; intros a H; [discriminate|].
  destruct (processRow a r) as [a1|e1] eqn:E; simpl in H.
  - destruct (IH _ H) as [-> [r' [Hin Hr']]]. split; [reflexivity|].
    exists r'. auto.
  - rewrite forOf_Throw in H. injection H as <-.
    destruct (processRow_throws _ _ E) as [-> Hr]. split; [reflexivity|].
    exists r. auto.
Qed.

(** The accumulators at the end of the loop. *)
Lemma loop_fields rows : forall a a',
  forOf processRow rows (Ok a) = Ok a' ->
  Acc.total a' = Acc.total a + List.length rows
  /\ Acc.totalImpounded a' = Acc.totalImpounded a + List.length (impoundedRows rows)
  /\ Acc.perPersonCounts a' =
       countsBy (resolvePersonName h) rows (Acc.perPersonCounts a)
  /\ Acc.perGroupCounts a' =
       countsBy (bucketOf h peopleToGroup) rows (Acc.perGroupCounts a)
  /\ Acc.perShiftCounts a' =
       countsBy (bucketOf h peopleToShift) rows (Acc.perShiftCounts a)
  /\ Acc.perPersonRevenue a' =
       revenueBy (resolvePersonName h) rows (Acc.perPersonRevenue a)
  /\ Acc.dailyActivity a' = dailyOf h rows (Acc.dailyActivity a).
Proof.
  induction rows as [|r rows IH]; simpl; intros a a' H.
  - injection H as <-. repeat split; lia.
  - destruct (Analytics.processRow h peopleToGroup peopleToShift a r) as [a1|e1] eqn:E; simpl in H;
      [|rewrite forOf_Throw in H; discriminate].
    destruct (IH _ _ H) as (H1 & H2 & H3 & H4 & H5 & H6 & H7).
    unfold Analytics.processRow in E.
    destruct (trackTruck r (Acc.truckIds a)) as [ids|]; simpl in E; [|discriminate].
    injection E as <-. simpl in *.
    unfold impoundedRows in *. simpl.
    destruct (truthy (Row.impounded r)); simpl; repeat split; try assumption; lia.
Qed.

End WithInputs.

End LoopFacts.

(** ** Buckets are keyed by first appearance and count every row *)

Module BucketFacts.

Import JsValue JsObject Analytics Spec ObjFacts.
Local Open Scope nat_scope.

Lemma firstSeen_from_NoDup names : forall seen,
  NoDup seen -> NoDup (fold_left (fun seen n => setAdd n seen) names seen).
Proof.
  induction names as [|n names IH]; simpl; intros seen H; [assumption|].
  apply IH, setAdd_NoDup, H.
Qed.

Lemma firstSeen_from_In names : forall seen x,
  In x (fold_left (fun seen n => setAdd n seen) names seen)
  <-> In x seen \/ In x names.
Proof.
  induction names as [|n names IH]; simpl; intros seen x; [intuition|].
  rewrite IH, setAdd_In. intuition.
Qed.

Lemma firstSeen_NoDup names : NoDup (firstSeen names).
Proof. apply firstSeen_from_NoDup. constructor. Qed.

Lemma firstSeen_In names x : In x (firstSeen names) <-> In x names.
Proof. unfold firstSeen. rewrite firstSeen_from_In. simpl. intuition. Qed.


Lemma bump_sum k (o : obj nat) :
  list_sum (map snd (bump k o)) = list_sum (map snd o) + 1.
Proof.
  unfold bump. induction o as [|[k' v'] o IH]; simpl; [reflexivity|].
  destruct (String.eqb k k') eqn:E; simpl; [lia|].
  unfold natOr0 in *. rewrite IH. lia.
Qed.

Lemma countsBy_sum key rows : forall o,
  list_sum (map snd (countsBy key rows o)) = list_sum (map snd o) + List.length rows.
Proof.
  induction rows as [|r rows IH]; simpl; intros o; [lia|].
  unfold countsBy in *. simpl. rewrite IH, bump_sum. lia.
Qed.

Lemma countsBy_keys key rows : forall o,
  map fst (countsBy key rows o)
  = fold_left (fun seen n => setAdd n seen) (map key rows) (map fst o).
Proof.
  induction rows as [|r rows IH]; simpl; intros o; [reflexivity|].
  unfold countsBy in *. simpl. rewrite IH. unfold bump. now rewrite keys_set.
Qed.

Lemma revenueBy_keys key rows : forall o,
  map fst (revenueBy key rows o)
  = fold_left (fun seen n => setAdd n seen) (map key rows) (map fst o).
Proof.
  induction rows as [|r rows IH]; simpl; intros o; [reflexivity|].
  unfold revenueBy in *. simpl. rewrite IH. unfold accrue. now rewrite keys_set.
Qed.

Lemma countDayImpounded_keys k (o : obj DayActivity.t) :
  map fst (countDayImpounded k o) = map fst o.
Proof.
  unfold countDayImpounded. destruct (get k o) eqn:E; [|reflexivity].
  rewrite keys_set. unfold setAdd.
  assert (Hin : In k (map fst o)).
  { destruct (in_dec string_dec k (map fst o)) as [H|H]; [assumption|].
    apply get_None_iff in H. congruence. }
  apply existsb_eqb_In in Hin. now rewrite Hin.
Qed.

Lemma dailyOf_keys h rows : forall o,
  map fst (dailyOf h rows o)
  = fold_left (fun seen n => setAdd n seen) (map (dayKey h) rows) (map fst o).
Proof.
  induction rows as [|r rows IH]; simpl; intros o; [reflexivity|].
  unfold dailyOf in *. simpl. rewrite IH. f_equal.
  destruct (truthy (Row.impounded r)); rewrite ?countDayImpounded_keys;
    unfold countDay; now rewrite keys_set.
Qed.

Lemma countsBy_get_from key rows k : forall o n,
  get k o = Some n -> 1 <= n ->
  exists n', get k (countsBy key rows o) = Some n' /\ 1 <= n'.
Proof.
  induction rows as [|r rows IH]; simpl; intros o n Hget Hn; [eauto|].
  unfold countsBy in *. simpl.
  destruct (string_dec (key r) k) as [E | E].
  - apply (IH _ (natOr0 (get (key r) o) + 1)); [|lia].
    unfold bump. rewrite E. apply get_set_same.
  - apply (IH _ n); [|assumption].
    unfold bump. now rewrite get_set_other.
Qed.

(** The bucket of a row holds at least that row. *)
Lemma countsBy_get key rows r :
  In r rows -> exists n, get (key r) (countsBy key rows []) = Some n /\ 1 <= n.
Proof.
  generalize (@nil (string * nat)).
  induction rows as [|r' rows IH]; simpl; intros o Hin; [destruct Hin|].
  unfold countsBy in *. simpl. destruct Hin as [-> | Hin]; [|now apply IH].
  apply (countsBy_get_from key rows (key r) (bump (key r) o)
           (n:=natOr0 (get (key r) o) + 1)); [|lia].
  unfold bump. apply get_set_same.
Qed.

(** Every bucket mapping adds up to the number of rows. *)
Lemma countsBy_sumOverKeys key rows :
  sumOverKeys (countsBy key rows []) = List.length rows.
Proof.
  rewrite sumOverKeys_values.
  - now rewrite countsBy_sum.
  - rewrite countsBy_keys. apply firstSeen_NoDup.
Qed.

End BucketFacts.

(** ** From the loop to the report *)

Module ReportFacts.

Import JsValue Analytics Spec LoopFacts.
Local Open Scope nat_scope.

Section WithInputs.

Variable h : Host.
Variables peopleToGroup peopleToShift : JsObject.obj string.

Lemma compute_Ok rows rep :
  computeAdvancedAnalytics h peopleToGroup peopleToShift rows = Ok rep ->
  exists a,
    forOf (processRow h peopleToGroup peopleToShift) rows (Ok Acc.init) = Ok a
    /\ rep = report h peopleToGroup peopleToShift a.
Proof.
  unfold computeAdvancedAnalytics.
  destruct (forOf _ rows (Ok Acc.init)) as [a|e]; simpl; [|discriminate].
  intros [= <-]. eauto.
Qed.

(** The call returns a report, or throws on a [truckId] without [trim]. *)
Lemma compute_cases rows :
  (exists a,
      forOf (processRow h peopleToGroup peopleToShift) rows (Ok Acc.init) = Ok a
      /\ computeAdvancedAnalytics h peopleToGroup peopleToShift rows
         = Ok (report h peopleToGroup peopleToShift a))
  \/ (computeAdvancedAnalytics h peopleToGroup peopleToShift rows = Throw TypeError
      /\ exists r, In r rows /\ noTrim r = true).
Proof.
  unfold computeAdvancedAnalytics.
  destruct (forOf _ rows (Ok Acc.init)) as [a|e] eqn:E; simpl.
  - left. eauto.
  - right. destruct (loop_throws _ _ _ _ _ E) as [-> H]. auto.
Qed.

Lemma compute_returns rows :
  existsb noTrim rows = false ->
  exists rep, computeAdvancedAnalytics h peopleToGroup peopleToShift rows = Ok rep.
Proof.
  intros H. unfold computeAdvancedAnalytics.
  destruct (loop_returns h peopleToGroup peopleToShift rows Acc.init H) as [a ->].
  simpl. eauto.
Qed.

(** The accumulators behind a report. *)
Lemma final_fields rows a :
  forOf (processRow h peopleToGroup peopleToShift) rows (Ok Acc.init) = Ok a ->
  Acc.total a = List.length rows
  /\ Acc.totalImpounded a = List.length (impoundedRows rows)
  /\ Acc.perPersonCounts a = countsBy (resolvePersonName h) rows []
  /\ Acc.perGroupCounts a = countsBy (bucketOf h peopleToGroup) rows []
  /\ Acc.perShiftCounts a = countsBy (bucketOf h peopleToShift) rows []
  /\ Acc.perPersonRevenue a = revenueBy (resolvePersonName h) rows []
  /\ Acc.dailyActivity a = dailyOf h rows [].
Proof. intros H. apply loop_fields in H. exact H. Qed.

End WithInputs.

End ReportFacts.

(** From a returned report to the accumulators it was built from. *)
Ltac open_report Hrep a Hloop :=
  apply ReportFacts.compute_Ok in Hrep as [a [Hloop ->]].

(** The two outcomes of a call: the throw closes the goal by its right
    disjunct, the report is left to prove. *)
Ltac returned_or_thrown h g s rows a Hloop Hrep :=
  destruct (ReportFacts.compute_cases h g s rows) as [[a [Hloop Hrep]] | ?Hthrow];
  [left | now right].

(** * The report over finite maps *)

Import JsString JsNumber JsValue JsDate JsObject Analytics Spec.
Local Open Scope string_scope.
Local Open Scope nat_scope.

(** Whatever the rows and the assignment mappings, the report that
    [computeAdvancedAnalytics] returns has per-person counts that add up,
    over all person keys, to the total number of records, and likewise
    the per-group and the per-shift counts; the total is the number of
    rows, and each row is counted in the bucket of its person, of its
    group and of its shift.  No report is returned only when the call
    throws a [TypeError] on a row whose [truckId] is truthy and not a
    string. *)
Theorem bucket_counts_sum_to_total_on_maps
    (h : Host) (peopleToGroup peopleToShift : obj string) (rows : list Row.t) :
  (exists rep,
      computeAdvancedAnalytics h peopleToGroup peopleToShift rows = Ok rep
      /\ Basic.totalTrucks (Report.basic rep) = List.length rows
      /\ sumOverKeys (Basic.perPerson (Report.basic rep))
         = Basic.totalTrucks (Report.basic rep)
      /\ sumOverKeys (Basic.perGroup (Report.basic rep))
         = Basic.totalTrucks (Report.basic rep)
      /\ sumOverKeys (Basic.perShift (Report.basic rep))
         = Basic.totalTrucks (Report.basic rep)
      /\ forall r,
           In r rows ->
           (exists n, get (resolvePersonName h r) (Basic.perPerson (Report.basic rep))
                      = Some n /\ 1 <= n)
           /\ (exists n, get (bucketOf h peopleToGroup r)
                            (Basic.perGroup (Report.basic rep)) = Some n /\ 1 <= n)
           /\ (exists n, get (bucketOf h peopleToShift r)
                            (Basic.perShift (Report.basic rep)) = Some n /\ 1 <= n))
  \/ (computeAdvancedAnalytics h peopleToGroup peopleToShift rows = Throw TypeError
      /\ exists r, In r rows /\ noTrim r = true).
Proof.
  returned_or_thrown h peopleToGroup peopleToShift rows a Hloop Hrep.
  exists (report h peopleToGroup peopleToShift a). split; [assumption|].
  destruct (ReportFacts.final_fields h peopleToGroup peopleToShift rows Hloop)
    as (Ht & _ & Hp & Hg & Hs & _).
  simpl. rewrite Ht, Hp, Hg, Hs.
  rewrite !BucketFacts.countsBy_sumOverKeys.
  repeat split; try reflexivity; now apply BucketFacts.countsBy_get.
Qed.

(** The same sums hold for [computeMetrics] of the basic Insights page,
    which never throws. *)
Lemma computeMetrics_counts_sum_to_total
    (h : Host) (peopleToGroup peopleToShift : obj string) (rows : list Row.t) :
  let m := Insights.computeMetrics h peopleToGroup peopleToShift rows in
  Insights.Metrics.totalTrucks m = List.length rows
  /\ sumOverKeys (Insights.Metrics.perPerson m) = List.length rows
  /\ sumOverKeys (Insights.Metrics.perGroup m) = List.length rows
  /\ sumOverKeys (Insights.Metrics.perShift m) = List.length rows.
Proof.
  unfold Insights.computeMetrics. simpl.
  set (a0 := {| Insights.Acc.perPersonCounts := [] |}).
  assert (H : forall rows a,
    let a' := fold_left (Insights.processRow h peopleToGroup peopleToShift) rows a in
    Insights.Acc.total a' = Insights.Acc.total a + List.length rows
    /\ Insights.Acc.perPersonCounts a'
       = countsBy (Insights.personOf h) rows (Insights.Acc.perPersonCounts a)
    /\ Insights.Acc.perGroupCounts a'
       = countsBy (fun r => assigned peopleToGroup (Insights.personOf h r)) rows
           (Insights.Acc.perGroupCounts a)
    /\ Insights.Acc.perShiftCounts a'
       = countsBy (fun r => assigned peopleToShift (Insights.personOf h r)) rows
           (Insights.Acc.perShiftCounts a)).
  { clear. induction rows as [|r rows IH]; simpl; intros a.
    - repeat split; lia.
    - destruct (IH (Insights.processRow h peopleToGroup peopleToShift a r))
        as (H1 & H2 & H3 & H4).
      rewrite H1, H2, H3, H4. simpl. repeat split; lia. }
  destruct (H rows a0) as (H1 & H2 & H3 & H4).
  rewrite H1, H2, H3, H4. subst a0. simpl.
  now rewrite !BucketFacts.countsBy_sumOverKeys.
Qed.

(** On the empty record list, with any assignment mappings, the call
    returns (it does not throw) the report in which every count and the
    revenue are zero, the per-person, per-group and per-shift mappings
    and the alert list are empty, and [uniquePeople],
    [avgTrucksPerPerson] and [impoundedRate] are 0. *)
Theorem empty_rows_give_zero_report_on_maps
    (h : Host) (peopleToGroup peopleToShift : obj string) :
  computeAdvancedAnalytics h peopleToGroup peopleToShift [] = Ok emptyReport
  /\ Basic.totalTrucks (Report.basic emptyReport) = 0
  /\ Basic.totalImpounded (Report.basic emptyReport) = 0
  /\ Basic.totalRevenue (Report.basic emptyReport) = Fin 0
  /\ Basic.perPerson (Report.basic emptyReport) = []
  /\ Basic.perGroup (Report.basic emptyReport) = []
  /\ Basic.perShift (Report.basic emptyReport) = []
  /\ Report.alerts emptyReport = []
  /\ Stats.uniquePeople (Report.stats emptyReport) = 0
  /\ Stats.avgTrucksPerPerson (Report.stats emptyReport) = Fin 0
  /\ Stats.impoundedRate (Report.stats emptyReport) = Fin 0.
Proof. repeat split. Qed.

(** ** Row revenue *)

Module RevenueFacts.

Lemma amount_not_NaN (f fb : value) : JsNumber.isNaN (amount f fb) = false.
Proof.
  unfold amount. destruct (ToNumber _) as [| | |q]; simpl; try reflexivity.
  now destruct (negb (Qeq_bool q 0)).
Qed.

Lemma chosen_missing (f fb : value) : missing f fb -> chosen f fb = VNum (Fin 0).
Proof. intros [Hf Hfb]. unfold chosen, or. now rewrite Hf, Hfb. Qed.

Lemma amount_missing (f fb : value) : missing f fb -> amount f fb = Fin 0.
Proof.
  intros H. unfold amount. fold (chosen f fb). now rewrite (chosen_missing H).
Qed.

Lemma amount_falsy (f fb : value) :
  JsNumber.truthy (ToNumber (chosen f fb)) = false -> amount f fb = Fin 0.
Proof. intros H. unfold amount. fold (chosen f fb). now rewrite H. Qed.

Lemma amount_truthy (f fb : value) :
  JsNumber.truthy (ToNumber (chosen f fb)) = true ->
  amount f fb = ToNumber (chosen f fb).
Proof. intros H. unfold amount. fold (chosen f fb). now rewrite H. Qed.

Lemma add_finite (x y : number) :
  isFinite x = true -> isFinite y = true -> isFinite (JsNumber.add x y) = true.
Proof. destruct x, y; simpl; congruence. Qed.

(** The sum is a number as soon as no field amounts to an infinity. *)
Lemma rowRevenue_finite (r : Row.t) :
  (forall f fb, In (f, fb) (fineFields r) -> isFinite (amount f fb) = true) ->
  isFinite (rowRevenue r) = true.
Proof.
  intros H. unfold rowRevenue.
  repeat apply add_finite; apply H; simpl; tauto.
Qed.

End RevenueFacts.

(** ** Rates *)

Module RateFacts.

Local Open Scope Q_scope.

Lemma ofNat_nonzero (n : nat) :
  (0 < n)%nat -> Qeq_bool (inject_Z (Z.of_nat n)) 0 = false.
Proof.
  intros H. destruct (Qeq_bool _ _) eqn:E; [|reflexivity].
  apply Qeq_bool_eq in E. unfold Qeq in E. simpl in E. lia.
Qed.

Lemma div_ofNat (k n : nat) :
  (0 < n)%nat ->
  JsNumber.div (JsNumber.ofNat k) (JsNumber.ofNat n)
  = Fin (inject_Z (Z.of_nat k) / inject_Z (Z.of_nat n)).
Proof. intros H. unfold JsNumber.div, JsNumber.ofNat. now rewrite ofNat_nonzero. Qed.

(** A part of a whole, as a percentage. *)
Lemma percentage_bounds (k n : nat) :
  (0 < n)%nat -> (k <= n)%nat ->
  0 <= inject_Z (Z.of_nat k) / inject_Z (Z.of_nat n) * 100 <= 100.
Proof.
  intros Hn Hk.
  assert (Hn' : 0 < inject_Z (Z.of_nat n)).
  { unfold Qlt. simpl. lia. }
  assert (Hk0 : 0 <= inject_Z (Z.of_nat k)).
  { unfold Qle. simpl. lia. }
  assert (Hkn : inject_Z (Z.of_nat k) <= inject_Z (Z.of_nat n)).
  { unfold Qle. simpl. lia. }
  assert (H0 : 0 <= inject_Z (Z.of_nat k) / inject_Z (Z.of_nat n)).
  { apply Qle_shift_div_l; [assumption|]. now rewrite Qmult_0_l. }
  assert (H1 : inject_Z (Z.of_nat k) / inject_Z (Z.of_nat n) <= 1).
  { apply Qle_shift_div_r; [assumption|]. now rewrite Qmult_1_l. }
  split.
  - apply Qmult_le_0_compat; [assumption | discriminate].
  - setoid_replace 100 with (1 * 100) at 2 by reflexivity.
    apply Qmult_le_compat_r; [assumption | discriminate].
Qed.

Lemma percentage_whole (n : nat) :
  (0 < n)%nat -> inject_Z (Z.of_nat n) / inject_Z (Z.of_nat n) * 100 == 100.
Proof.
  intros Hn. field. intros E. unfold Qeq in E. simpl in E. lia.
Qed.

Lemma impoundedRows_length (rows : list Row.t) :
  (List.length (impoundedRows rows) <= List.length rows)%nat.
Proof. apply filter_length_le. Qed.

End RateFacts.

(** In the report returned for a record list, [impoundedRate] is
    the number of impounded records divided by the number of records,
    times 100, when there is at least one record, and 0 for the empty
    list; it is always a number between 0 and 100.  No report is
    returned only when the call throws on a [truckId] without [trim]. *)
Theorem impounded_rate_is_percentage_on_maps
    (h : Host) (peopleToGroup peopleToShift : obj string) (rows : list Row.t) :
  (exists rep,
      computeAdvancedAnalytics h peopleToGroup peopleToShift rows = Ok rep
      /\ Basic.totalTrucks (Report.basic rep) = List.length rows
      /\ Basic.totalImpounded (Report.basic rep) = List.length (impoundedRows rows)
      /\ Stats.impoundedRate (Report.stats rep)
         = (if 0 <? List.length rows
            then Fin (inject_Z (Z.of_nat (List.length (impoundedRows rows)))
                      / inject_Z (Z.of_nat (List.length rows)) * 100)
            else Fin 0)
      /\ (rows = [] -> Stats.impoundedRate (Report.stats rep) = Fin 0)
      /\ exists q, Stats.impoundedRate (Report.stats rep) = Fin q
                   /\ (0 <= q <= 100)%Q)
  \/ (computeAdvancedAnalytics h peopleToGroup peopleToShift rows = Throw TypeError
      /\ exists r, In r rows /\ noTrim r = true).
Proof.
  returned_or_thrown h peopleToGroup peopleToShift rows a Hloop Hrep.
  exists (report h peopleToGroup peopleToShift a). split; [assumption|].
  destruct (ReportFacts.final_fields h peopleToGroup peopleToShift rows Hloop)
    as (Ht & Hi & _).
  simpl. unfold impoundedRate. rewrite Ht, Hi.
  split; [reflexivity|]. split; [reflexivity|].
  destruct (0 <? List.length rows) eqn:E.
  - apply Nat.ltb_lt in E. rewrite (RateFacts.div_ofNat _ E). simpl.
    split; [reflexivity|]. split.
    + intros ->. simpl in E. lia.
    + eexists. split; [reflexivity|].
      apply RateFacts.percentage_bounds; [assumption|].
      apply RateFacts.impoundedRows_length.
  - split; [reflexivity|]. split; [reflexivity|].
    exists 0%Q. split; [reflexivity|]. split; discriminate.
Qed.

(** ** Alerts *)

Module AlertFacts.

Section WithInputs.

Variable h : Host.
Variables peopleToGroup peopleToShift : obj string.

Local Notation "'alertsOf'" := (alerts h peopleToGroup peopleToShift) (only parsing).
Local Notation "'rateOf'" := (impoundedRate) (only parsing).

Lemma danger_performance a :
  dangerAlerts (performanceAlert h peopleToGroup peopleToShift a) = [].
Proof. unfold performanceAlert. now destruct (0 <? _). Qed.

Lemma danger_assignment a :
  dangerAlerts (assignmentAlert peopleToGroup peopleToShift a) = [].
Proof. unfold assignmentAlert. now destruct (0 <? _). Qed.

Lemma warning_performance a :
  impoundWarnings (performanceAlert h peopleToGroup peopleToShift a) = [].
Proof. unfold performanceAlert. now destruct (0 <? _). Qed.

Lemma warning_assignment a :
  impoundWarnings (assignmentAlert peopleToGroup peopleToShift a) = [].
Proof. unfold assignmentAlert. now destruct (0 <? _). Qed.

Lemma dangerAlerts_alerts a :
  dangerAlerts (alertsOf a) = dangerAlerts (impoundAlert h a).
Proof.
  unfold alerts, dangerAlerts. rewrite !filter_app.
  fold (dangerAlerts (performanceAlert h peopleToGroup peopleToShift a)).
  fold (dangerAlerts (assignmentAlert peopleToGroup peopleToShift a)).
  now rewrite danger_performance, danger_assignment, !app_nil_r.
Qed.

Lemma impoundWarnings_alerts a :
  impoundWarnings (alertsOf a) = impoundWarnings (impoundAlert h a).
Proof.
  unfold alerts, impoundWarnings. rewrite !filter_app.
  fold (impoundWarnings (performanceAlert h peopleToGroup peopleToShift a)).
  fold (impoundWarnings (assignmentAlert peopleToGroup peopleToShift a)).
  now rewrite warning_performance, warning_assignment, !app_nil_r.
Qed.

Lemma danger_count a :
  List.length (dangerAlerts (alertsOf a))
  = if JsNumber.gt (rateOf a) (Fin 15) then 1 else 0.
Proof.
  rewrite dangerAlerts_alerts. unfold impoundAlert.
  destruct (JsNumber.gt (rateOf a) (Fin 15)); [reflexivity|].
  now destruct (JsNumber.gt (rateOf a) (Fin 10)).
Qed.

Lemma warning_count a :
  List.length (impoundWarnings (alertsOf a))
  = if JsNumber.gt (rateOf a) (Fin 15) then 0
    else if JsNumber.gt (rateOf a) (Fin 10) then 1 else 0.
Proof.
  rewrite impoundWarnings_alerts. unfold impoundAlert.
  destruct (JsNumber.gt (rateOf a) (Fin 15)); [reflexivity|].
  now destruct (JsNumber.gt (rateOf a) (Fin 10)).
Qed.

Lemma danger_title a al :
  In al (dangerAlerts (alertsOf a)) -> Alert.title al = "High Impound Rate Alert".
Proof.
  rewrite dangerAlerts_alerts. unfold impoundAlert.
  destruct (JsNumber.gt (rateOf a) (Fin 15)); simpl; [intros [<- | []]; reflexivity|].
  destruct (JsNumber.gt (rateOf a) (Fin 10)); simpl; intros [].
Qed.

End WithInputs.

Lemma all_impounded (rows : list Row.t) :
  (forall r, In r rows -> truthy (Row.impounded r) = true) ->
  impoundedRows rows = rows.
Proof.
  intros H. unfold impoundedRows. induction rows as [|r rows IH]; simpl; [reflexivity|].
  rewrite (H r) by (now left). f_equal. apply IH. intros r' Hr'. apply H. now right.
Qed.

Lemma gt_of_Qeq (q a b : Q) :
  (q == a)%Q -> (b < a)%Q -> JsNumber.gt (Fin q) (Fin b) = true.
Proof.
  intros Hq Hlt. simpl. destruct (Qle_bool q b) eqn:E; [|reflexivity].
  apply Qle_bool_iff in E. rewrite Hq in E. exfalso.
  apply (Qlt_not_le _ _ Hlt E).
Qed.

End AlertFacts.

(** The report carries one "danger" alert, the impound-rate one,
    when [impoundedRate > 15], otherwise one "warning" impound-rate alert
    when [impoundedRate > 10], otherwise neither, and never both.  For
    20 records that are all impounded the rate is 100, there is exactly
    one "danger" alert and no "warning" impound-rate alert. *)
Theorem impound_alert_tiers_on_maps
    (h : Host) (peopleToGroup peopleToShift : obj string) (rows : list Row.t) :
  (exists rep,
      computeAdvancedAnalytics h peopleToGroup peopleToShift rows = Ok rep
      /\ List.length (dangerAlerts (Report.alerts rep))
         = (if JsNumber.gt (Stats.impoundedRate (Report.stats rep)) (Fin 15)
            then 1 else 0)
      /\ List.length (impoundWarnings (Report.alerts rep))
         = (if JsNumber.gt (Stats.impoundedRate (Report.stats rep)) (Fin 15)
            then 0
            else if JsNumber.gt (Stats.impoundedRate (Report.stats rep)) (Fin 10)
                 then 1 else 0)
      /\ (forall al, In al (dangerAlerts (Report.alerts rep)) ->
                     Alert.title al = "High Impound Rate Alert")
      /\ List.length (dangerAlerts (Report.alerts rep))
         + List.length (impoundWarnings (Report.alerts rep)) <= 1
      /\ (List.length rows = 20 ->
          (forall r, In r rows -> truthy (Row.impounded r) = true) ->
          (exists q, Stats.impoundedRate (Report.stats rep) = Fin q /\ (q == 100)%Q)
          /\ List.length (dangerAlerts (Report.alerts rep)) = 1
          /\ List.length (impoundWarnings (Report.alerts rep)) = 0))
  \/ (computeAdvancedAnalytics h peopleToGroup peopleToShift rows = Throw TypeError
      /\ exists r, In r rows /\ noTrim r = true).
Proof.
  returned_or_thrown h peopleToGroup peopleToShift rows a Hloop Hrep.
  exists (report h peopleToGroup peopleToShift a). split; [assumption|].
  destruct (ReportFacts.final_fields h peopleToGroup peopleToShift rows Hloop)
    as (Ht & Hi & _).
  simpl.
  rewrite AlertFacts.danger_count, AlertFacts.warning_count.
  split; [reflexivity|]. split; [reflexivity|].
  split; [apply AlertFacts.danger_title|].
  split.
  { destruct (JsNumber.gt (impoundedRate a) (Fin 15)); [simpl; lia|].
    destruct (JsNumber.gt (impoundedRate a) (Fin 10)); simpl; lia. }
  intros Hlen Hall.
  assert (Hrate : impoundedRate a
                  = Fin (inject_Z (Z.of_nat 20) / inject_Z (Z.of_nat 20) * 100)).
  { unfold impoundedRate. rewrite Ht, Hi, (AlertFacts.all_impounded _ Hall), Hlen.
    reflexivity. }
  assert (Hq : (inject_Z (Z.of_nat 20) / inject_Z (Z.of_nat 20) * 100 == 100)%Q)
    by reflexivity.
  rewrite Hrate.
  rewrite (AlertFacts.gt_of_Qeq (a:=100) (b:=15) Hq) by reflexivity.
  split; [|split; reflexivity].
  eexists. split; [reflexivity | exact Hq].
Qed.

(** ** Day buckets and the trend series *)

Module DayFacts.

Import ObjFacts BucketFacts.


Section WithInputs.

Variable h : Host.
Variables peopleToGroup peopleToShift : obj string.
Variable rows : list Row.t.
Variable a : Acc.t.
Hypothesis Hloop :
  forOf (processRow h peopleToGroup peopleToShift) rows (Ok Acc.init) = Ok a.

Lemma daily_keys : map fst (Acc.dailyActivity a) = dayKeys h rows.
Proof.
  destruct (ReportFacts.final_fields h peopleToGroup peopleToShift rows Hloop)
    as (_ & _ & _ & _ & _ & _ & Hd).
  rewrite Hd, dailyOf_keys. reflexivity.
Qed.

Lemma sortedDates_perm : Permutation (sortedDates a) (dayKeys h rows).
Proof.
  unfold sortedDates. rewrite <- daily_keys, <- StringSort.Permuted_sort.
  apply keys_perm.
Qed.

Lemma sortedDates_length : List.length (sortedDates a) = List.length (dayKeys h rows).
Proof. apply Permutation_length, sortedDates_perm. Qed.

Lemma sortedDates_In k : In k (sortedDates a) <-> exists r, In r rows /\ dayKey h r = k.
Proof.
  split.
  - intros H. apply (Permutation_in _ sortedDates_perm) in H.
    apply firstSeen_In, in_map_iff in H. destruct H as [r [Hk Hr]]. eauto.
  - intros [r [Hr Hk]].
    apply (Permutation_in _ (Permutation_sym sortedDates_perm)).
    apply firstSeen_In, in_map_iff. eauto.
Qed.

Lemma trends_None : trends h a = None <-> List.length (dayKeys h rows) <= 1.
Proof.
  unfold trends. rewrite sortedDates_length.
  destruct (1 <? List.length (dayKeys h rows)) eqn:E.
  - apply Nat.ltb_lt in E. split; [discriminate | lia].
  - apply Nat.ltb_ge in E. tauto.
Qed.

Lemma trends_Some tr :
  trends h a = Some tr ->
  2 <= List.length (dayKeys h rows)
  /\ Trends.dates tr = map (dateLabel h) (sortedDates a)
  /\ List.length (Trends.dates tr) = List.length (dayKeys h rows)
  /\ List.length (Trends.dailyCounts tr) = List.length (dayKeys h rows)
  /\ List.length (Trends.dailyImpounded tr) = List.length (dayKeys h rows).
Proof.
  unfold trends. destruct (1 <? List.length (sortedDates a)) eqn:E; [|discriminate].
  apply Nat.ltb_lt in E. intros [= <-]. simpl.
  rewrite !length_map, <- sortedDates_length. repeat split; lia.
Qed.

End WithInputs.

Lemma dayKey_unusable (h : Host) (r : Row.t) :
  truthy (dateStr r) = false \/ newDate h (dateStr r) = None ->
  dayKey h r = "Unknown Date".
Proof.
  unfold dayKey. intros [-> | H]; [reflexivity|].
  rewrite H. now destruct (truthy (dateStr r)).
Qed.

End DayFacts.


(** Records whose date is missing or does not parse fall in the
    "Unknown Date" bucket and still count toward [totalTrucks].  The
    bucket is not left out of the trend series: when the report has a
    series, "Unknown Date" is one of its labels; it is absent only when
    [trends] is [null].  A single record with date "not-a-date", on a
    host that does not parse it, is counted, has day key "Unknown Date",
    and [trends] is [null]. *)
Theorem unknown_date_bucket_on_maps
    (h : Host) (peopleToGroup peopleToShift : obj string) (rows : list Row.t)
    (rep : Report.t) :
  computeAdvancedAnalytics h peopleToGroup peopleToShift rows = Ok rep ->
  Basic.totalTrucks (Report.basic rep) = List.length rows
  /\ (forall r,
        In r rows ->
        truthy (dateStr r) = false \/ newDate h (dateStr r) = None ->
        dayKey h r = "Unknown Date"
        /\ In "Unknown Date" (keys (Report.dailyActivity rep))
        /\ (forall tr, Report.trends rep = Some tr ->
                       In "Unknown Date" (Trends.dates tr)))
  /\ (forall r,
        rows = [r] ->
        Row.date r = VStr "not-a-date" ->
        legacyDateParse h "not-a-date" = None ->
        Basic.totalTrucks (Report.basic rep) = 1
        /\ dayKey h r = "Unknown Date"
        /\ Report.trends rep = None).
Proof.
  intros Hrep. open_report Hrep a Hloop. simpl.
  destruct (ReportFacts.final_fields h peopleToGroup peopleToShift rows Hloop)
    as (Ht & _).
  split; [assumption|]. split.
  - intros r Hr Hbad. pose proof (DayFacts.dayKey_unusable h r Hbad) as Hkey.
    assert (Hin : In "Unknown Date" (sortedDates a)).
    { apply (@DayFacts.sortedDates_In h peopleToGroup peopleToShift rows a Hloop).
      eauto. }
    split; [assumption|]. split.
    + unfold sortedDates in Hin.
      eapply Permutation_in; [symmetry; apply StringSort.Permuted_sort | exact Hin].
    + intros tr Htr.
      destruct (@DayFacts.trends_Some h peopleToGroup peopleToShift rows a Hloop tr Htr)
        as (_ & -> & _).
      change "Unknown Date" with (dateLabel h "Unknown Date").
      now apply in_map.
  - intros r -> Hdate Hlegacy.
    assert (Hkey : dayKey h r = "Unknown Date").
    { unfold dayKey, dateStr. rewrite Hdate. simpl. unfold parse. simpl.
      now rewrite Hlegacy. }
    split; [rewrite Ht; reflexivity|]. split; [assumption|].
    apply (@DayFacts.trends_None h peopleToGroup peopleToShift [r] a Hloop).
    unfold dayKeys. simpl. lia.
Qed.

(** ** The key of a day bucket *)

Module DayKeyFacts.

Lemma digitChar_not_T (z : Z) : Ascii.eqb (digitChar z) "T" = false.
Proof.
  unfold digitChar. pose proof (Z.mod_pos_bound z 10 eq_refl) as Hb.
  assert (H : (z mod 10 = 0 \/ z mod 10 = 1 \/ z mod 10 = 2 \/ z mod 10 = 3
               \/ z mod 10 = 4 \/ z mod 10 = 5 \/ z mod 10 = 6 \/ z mod 10 = 7
               \/ z mod 10 = 8 \/ z mod 10 = 9)%Z) by lia.
  repeat (destruct H as [-> | H]; [reflexivity|]). now rewrite H.
Qed.

Lemma lacks_app (c : ascii) (s1 s2 : string) :
  lacks c (s1 ++ s2) = lacks c s1 && lacks c s2.
Proof.
  induction s1 as [|x s1 IH]; simpl; [reflexivity|].
  now rewrite IH, andb_assoc.
Qed.

Lemma lacks_pad2 (z : Z) : lacks "T" (pad2 z) = true.
Proof. unfold pad2. simpl. now rewrite !digitChar_not_T. Qed.

Lemma lacks_pad4 (z : Z) : lacks "T" (pad4 z) = true.
Proof. unfold pad4, pad3, pad2. simpl. now rewrite !digitChar_not_T. Qed.

Lemma lacks_pad6 (z : Z) : lacks "T" (pad6 z) = true.
Proof. unfold pad6, pad4, pad3, pad2. simpl. now rewrite !digitChar_not_T. Qed.

Lemma lacks_isoDate (ymd : Z * Z * Z) : lacks "T" (isoDate ymd) = true.
Proof.
  destruct ymd as [[y m] d]. unfold isoDate.
  rewrite !lacks_app, !lacks_pad2. simpl.
  destruct ((0 <=? y)%Z && (y <=? 9999)%Z).
  - now rewrite lacks_pad4.
  - rewrite lacks_app, lacks_pad6. now destruct (Z.ltb y 0).
Qed.

Lemma splitHead_app (sep : ascii) (s rest : string) :
  lacks sep s = true -> splitHead sep (s ++ String sep rest) = s.
Proof.
  induction s as [|x s IH]; simpl.
  - now rewrite Ascii.eqb_refl.
  - intros H. apply andb_true_iff in H as [Hx Hs].
    apply negb_true_iff in Hx. rewrite Hx. f_equal. now apply IH.
Qed.

(** The part of the ISO string before its [T] is the UTC date. *)
Lemma splitHead_toISOString (t : Z) :
  splitHead "T" (toISOString t) = isoDate (utcDate t).
Proof. unfold toISOString, utcDate. apply splitHead_app, lacks_isoDate. Qed.

End DayKeyFacts.

(** ** Person names *)

Module PersonFacts.

Import ObjFacts BucketFacts.

Lemma trimStart_clean (s : string) : startsClean (trimStart s) = true.
Proof.
  induction s as [|c s IH]; simpl; [reflexivity|].
  destruct (isWhiteSpace c) eqn:E; [assumption|]. simpl. now rewrite E.
Qed.

Lemma trimEnd_clean (s : string) : startsClean s = true -> startsClean (trimEnd s) = true.
Proof.
  destruct s as [|c s]; simpl; [reflexivity|]. intros H.
  destruct (trimEnd s); simpl; [|assumption].
  apply negb_true_iff in H. now rewrite H; simpl; rewrite H.
Qed.

Lemma trimStart_of_clean (s : string) : startsClean s = true -> trimStart s = s.
Proof.
  destruct s as [|c s]; simpl; [reflexivity|]. intros H.
  apply negb_true_iff in H. now rewrite H.
Qed.

Lemma trimEnd_idem (s : string) : trimEnd (trimEnd s) = trimEnd s.
Proof.
  induction s as [|c s IH]; simpl; [reflexivity|].
  destruct (trimEnd s) as [|c' t] eqn:E.
  - destruct (isWhiteSpace c) eqn:Ew; simpl; [reflexivity|]. now rewrite Ew.
  - simpl in *. now rewrite IH.
Qed.

Lemma trim_idem (s : string) : trim (trim s) = trim s.
Proof.
  unfold trim.
  rewrite (trimStart_of_clean (trimEnd (trimStart s))).
  - apply trimEnd_idem.
  - apply trimEnd_clean, trimStart_clean.
Qed.

Section WithHost.

Variable h : Host.

Lemma placeholder_Unknown : isPlaceholderName h (VStr "Unknown") = true.
Proof. reflexivity. Qed.

Lemma placeholder_empty : isPlaceholderName h (VStr "") = true.
Proof. reflexivity. Qed.

(** The name made of an accepted candidate is itself accepted. *)
Lemma accepted_name (c : value) :
  isPlaceholderName h c = false ->
  isPlaceholderName h (VStr (trim (ToString h c))) = false
  /\ trim (ToString h c) <> ""
  /\ trim (ToString h c) <> "Unknown".
Proof.
  intros H.
  assert (Hs : isPlaceholderName h (VStr (trim (ToString h c))) = false).
  { destruct c; try discriminate; unfold isPlaceholderName in *; simpl ToString in *;
      rewrite trim_idem; exact H. }
  split; [assumption|]. split.
  - intros E. rewrite E in Hs. discriminate.
  - intros E. rewrite E in Hs. discriminate.
Qed.

Lemma firstName_cases (cs : list value) :
  firstName h cs = "Unknown"
  \/ exists c, In c cs /\ truthy c = true /\ isPlaceholderName h c = false
               /\ firstName h cs = trim (ToString h c).
Proof.
  induction cs as [|c cs IH]; simpl; [now left|].
  destruct (truthy c) eqn:Et; simpl.
  - destruct (isPlaceholderName h c) eqn:Ep; simpl.
    + destruct IH as [IH | [c' [Hin H]]]; [now left|]. right. exists c'. tauto.
    + right. exists c. tauto.
  - destruct IH as [IH | [c' [Hin H]]]; [now left|]. right. exists c'. tauto.
Qed.

Lemma firstName_rejected (cs : list value) :
  (forall c, In c cs -> rejected h c) -> firstName h cs = "Unknown".
Proof.
  induction cs as [|c cs IH]; simpl; intros H; [reflexivity|].
  destruct (H c (or_introl eq_refl)) as [-> | ->]; simpl;
    [|rewrite andb_false_r]; apply IH; intros c' Hc'; apply H; now right.
Qed.

(** A resolved name is "Unknown" or a name that passes every filter. *)
Lemma resolved_cases (r : Row.t) :
  resolvePersonName h r = "Unknown" \/ namedPerson h (resolvePersonName h r) = true.
Proof.
  unfold resolvePersonName.
  destruct (firstName_cases (candidates r)) as [H | [c [_ [_ [Hp ->]]]]]; [now left|].
  right. destruct (accepted_name c Hp) as (H1 & H2 & H3).
  unfold namedPerson. rewrite H1.
  apply String.eqb_neq in H2. apply String.eqb_neq in H3. now rewrite H2, H3.
Qed.

Lemma namedPerson_not_Unknown (p : string) :
  namedPerson h p = true -> p <> "Unknown" /\ isPlaceholderName h (VStr p) = false.
Proof.
  unfold namedPerson. intros H.
  apply andb_true_iff in H as [H H3]. apply andb_true_iff in H as [_ H2].
  apply negb_true_iff in H2. apply negb_true_iff in H3.
  apply String.eqb_neq in H3. tauto.
Qed.

(** Only the literal "Unknown" is a resolved name that the placeholder
    test rejects. *)
Lemma resolved_placeholder (r : Row.t) :
  resolvePersonName h r = "Unknown"
  \/ isPlaceholderName h (VStr (resolvePersonName h r)) = true
  \/ (forall c, In c (candidates r) -> rejected h c) ->
  resolvePersonName h r = "Unknown".
Proof.
  intros [H | [H | H]]; [assumption | | now apply firstName_rejected].
  destruct (resolved_cases r) as [Hu | Hn]; [assumption|].
  apply namedPerson_not_Unknown in Hn as [_ Hn]. congruence.
Qed.

End WithHost.

Lemma filter_all_but_one (A : Type) (p : A -> bool) (x : A) (l : list A) :
  NoDup l -> In x l -> p x = false ->
  (forall y, In y l -> y <> x -> p y = true) ->
  List.length (filter p l) + 1 = List.length l.
Proof.
  induction l as [|a l IH]; simpl; intros Hnd Hin Hx Hall; [destruct Hin|].
  inversion Hnd as [|? ? Ha Hl]; subst.
  destruct Hin as [-> | Hin].
  - rewrite Hx. f_equal.
    assert (E : filter p l = l).
    { apply forallb_filter_id. apply forallb_forall. intros y Hy.
      apply Hall; [now right|]. intros ->. contradiction. }
    rewrite E. lia.
  - rewrite (Hall a) by (auto; intros ->; contradiction).
    simpl. f_equal. apply IH; auto.
Qed.

End PersonFacts.

(** ** Reductions that pick a maximum *)

Module SelectionFacts.

Lemma gtQ_iff (a b : Q) : negb (Qle_bool a b) = true <-> (b < a)%Q.
Proof.
  rewrite negb_true_iff. split.
  - intros H. apply Qnot_le_lt. intros Hle. apply Qle_bool_iff in Hle. congruence.
  - intros H. destruct (Qle_bool a b) eqn:E; [|reflexivity].
    apply Qle_bool_iff in E. exfalso. exact (Qlt_not_le _ _ H E).
Qed.

Lemma gt_trans (x y z : number) :
  JsNumber.gt x y = true -> JsNumber.gt y z = true -> JsNumber.gt x z = true.
Proof.
  destruct x as [| | |a], y as [| | |b], z as [| | |c]; simpl;
    try discriminate; try reflexivity.
  rewrite !gtQ_iff. intros H1 H2. now apply Qlt_trans with b.
Qed.

(** What does not exceed something smaller is smaller. *)
Lemma gt_of_not_gt (w m x : number) :
  JsNumber.gt w m = true -> JsNumber.gt x m = false ->
  JsNumber.gt w x = true \/ x = NaN.
Proof.
  destruct w as [| | |a], m as [| | |b], x as [| | |c]; simpl;
    try discriminate; auto.
  rewrite gtQ_iff. intros H1 H2. left. apply gtQ_iff.
  apply negb_false_iff, Qle_bool_iff in H2. now apply Qle_lt_trans with b.
Qed.

Lemma orZero_okMax (m : string * number) :
  okMax m -> JsNumber.orZero (Some (snd m)) = snd m.
Proof.
  unfold okMax, JsNumber.orZero. intros [-> | H]; [reflexivity|].
  destruct (snd m) as [| | |q]; simpl in *; try discriminate; try reflexivity.
  apply gtQ_iff in H. destruct (Qeq_bool q 0) eqn:E; [|reflexivity].
  apply Qeq_bool_eq in E. rewrite E in H. exfalso. exact (Qlt_irrefl _ H).
Qed.

Lemma okMax_beats (m e : string * number) :
  okMax m -> JsNumber.gt (snd e) (snd m) = true -> okMax e.
Proof.
  intros [Hm | Hm] H; right; [now rewrite Hm in H|].
  now apply gt_trans with (snd m).
Qed.

(** The revenue reduction keeps the first entry of the greatest revenue
    above its starting value. *)
Lemma revenue_first_max (l : list (string * number)) : forall m,
  okMax m ->
  (fold_left moreRevenue l m = m
   /\ forall e, In e l -> JsNumber.gt (snd e) (snd m) = false)
  \/ exists l1 w l2,
       l = (l1 ++ w :: l2)%list
       /\ fold_left moreRevenue l m = w
       /\ JsNumber.gt (snd w) (snd m) = true
       /\ (forall e, In e l1 -> JsNumber.gt (snd w) (snd e) = true \/ snd e = NaN)
       /\ (forall e, In e l2 -> JsNumber.gt (snd e) (snd w) = false).
Proof.
  induction l as [|x l IH]; simpl; intros m Hm.
  - left. split; [reflexivity | intros e []].
  - unfold moreRevenue at 2 4. rewrite (orZero_okMax Hm).
    destruct (JsNumber.gt (snd x) (snd m)) eqn:E.
    + right. destruct (IH x (okMax_beats x Hm E))
        as [[Hres Hall] | (l1 & w & l2 & -> & Hres & Hw & H1 & H2)].
      * exists [], x, l. simpl.
        split; [reflexivity|]. split; [assumption|]. split; [assumption|].
        split; [intros e [] | assumption].
      * exists (x :: l1), w, l2. simpl.
        split; [reflexivity|]. split; [assumption|].
        split; [now apply gt_trans with (snd x)|].
        split; [|assumption]. intros e [<- | He]; auto.
    + destruct (IH m Hm) as [[Hres Hall] | (l1 & w & l2 & -> & Hres & Hw & H1 & H2)].
      * left. split; [assumption|]. intros e [<- | He]; auto.
      * right. exists (x :: l1), w, l2. simpl.
        split; [reflexivity|]. split; [assumption|]. split; [assumption|].
        split; [|assumption]. intros e [<- | He]; auto.
        now apply gt_of_not_gt with (snd m).
Qed.

(** The truck-count reduction keeps the first row of the greatest count. *)
Lemma trucks_first_max (l : list PersonRow.t) : forall max,
  (fold_left moreTrucks l max = max
   /\ forall p, In p l -> PersonRow.trucks p <= trucksOf max)
  \/ exists l1 w l2,
       l = (l1 ++ w :: l2)%list
       /\ fold_left moreTrucks l max = Some w
       /\ trucksOf max < PersonRow.trucks w
       /\ (forall p, In p l1 -> PersonRow.trucks p < PersonRow.trucks w)
       /\ (forall p, In p l2 -> PersonRow.trucks p <= PersonRow.trucks w).
Proof.
  induction l as [|x l IH]; simpl; intros max.
  - left. split; [reflexivity | intros p []].
  - unfold moreTrucks at 2 4. fold (trucksOf max).
    destruct (trucksOf max <? PersonRow.trucks x) eqn:E.
    + apply Nat.ltb_lt in E. right.
      destruct (IH (Some x)) as [[Hres Hall] | (l1 & w & l2 & -> & Hres & Hw & H1 & H2)].
      * exists [], x, l. simpl.
        split; [reflexivity|]. split; [assumption|]. split; [assumption|].
        split; [intros p [] | assumption].
      * exists (x :: l1), w, l2. unfold trucksOf in Hw. simpl in Hw. simpl.
        split; [reflexivity|]. split; [assumption|]. split; [lia|].
        split; [|assumption]. intros p [<- | Hp]; auto.
    + apply Nat.ltb_ge in E.
      destruct (IH max) as [[Hres Hall] | (l1 & w & l2 & -> & Hres & Hw & H1 & H2)].
      * left. split; [assumption|]. intros p [<- | Hp]; auto.
      * right. exists (x :: l1), w, l2. simpl.
        split; [reflexivity|]. split; [assumption|]. split; [assumption|].
        split; [|assumption]. intros p [<- | Hp]; auto. lia.
Qed.

End SelectionFacts.

(** ** The person keys of a report *)

Module KeyFacts.

Import ObjFacts BucketFacts PersonFacts.

Section WithInputs.

Variable h : Host.
Variables peopleToGroup peopleToShift : obj string.
Variable rows : list Row.t.
Variable a : Acc.t.
Hypothesis Hloop :
  forOf (processRow h peopleToGroup peopleToShift) rows (Ok Acc.init) = Ok a.

Lemma person_keys :
  map fst (Acc.perPersonCounts a) = firstSeen (map (resolvePersonName h) rows).
Proof.
  destruct (ReportFacts.final_fields h peopleToGroup peopleToShift rows Hloop)
    as (_ & _ & Hp & _).
  rewrite Hp, countsBy_keys. reflexivity.
Qed.

Lemma revenue_keys :
  map fst (Acc.perPersonRevenue a) = firstSeen (map (resolvePersonName h) rows).
Proof.
  destruct (ReportFacts.final_fields h peopleToGroup peopleToShift rows Hloop)
    as (_ & _ & _ & _ & _ & Hr & _).
  rewrite Hr, revenueBy_keys. reflexivity.
Qed.

Lemma person_keys_NoDup : NoDup (keys (Acc.perPersonCounts a)).
Proof. apply keys_NoDup. rewrite person_keys. apply firstSeen_NoDup. Qed.

Lemma person_key_In k :
  In k (keys (Acc.perPersonCounts a))
  <-> exists r, In r rows /\ resolvePersonName h r = k.
Proof.
  rewrite keys_In, person_keys, firstSeen_In, in_map_iff.
  split; intros [r [H1 H2]]; exists r; auto.
Qed.

Lemma revenue_key_In k :
  In k (map fst (Acc.perPersonRevenue a))
  <-> exists r, In r rows /\ resolvePersonName h r = k.
Proof.
  rewrite revenue_keys, firstSeen_In, in_map_iff.
  split; intros [r [H1 H2]]; exists r; auto.
Qed.

(** Every person key but "Unknown" passes the filter of the statistics. *)
Lemma person_key_named k :
  In k (keys (Acc.perPersonCounts a)) -> k <> "Unknown" -> namedPerson h k = true.
Proof.
  intros Hk Hne. apply person_key_In in Hk as [r [_ <-]].
  destruct (resolved_cases h r); [contradiction | assumption].
Qed.

Lemma uniquePeople_with_Unknown :
  In "Unknown" (keys (Acc.perPersonCounts a)) ->
  uniquePeople h a + 1 = List.length (keys (Acc.perPersonCounts a)).
Proof.
  intros Hin. unfold uniquePeople.
  apply filter_all_but_one with (x := "Unknown");
    [apply person_keys_NoDup | assumption | reflexivity |].
  intros y Hy Hne. pose proof (@person_key_named y Hy Hne) as Hn.
  apply namedPerson_not_Unknown in Hn as [Hn1 Hn2].
  apply String.eqb_neq in Hn1. now rewrite Hn1, Hn2.
Qed.

Lemma uniquePeople_without_Unknown :
  ~ In "Unknown" (keys (Acc.perPersonCounts a)) ->
  uniquePeople h a = List.length (keys (Acc.perPersonCounts a)).
Proof.
  intros Hin. unfold uniquePeople. f_equal.
  apply forallb_filter_id, forallb_forall. intros y Hy.
  assert (Hne : y <> "Unknown") by (intros ->; contradiction).
  pose proof (@person_key_named y Hy Hne) as Hn.
  apply namedPerson_not_Unknown in Hn as [Hn1 Hn2].
  apply String.eqb_neq in Hn1. now rewrite Hn1, Hn2.
Qed.

Lemma person_count r :
  In r rows ->
  exists n, get (resolvePersonName h r) (Acc.perPersonCounts a) = Some n /\ 1 <= n.
Proof.
  destruct (ReportFacts.final_fields h peopleToGroup peopleToShift rows Hloop)
    as (_ & _ & Hp & _).
  rewrite Hp. apply BucketFacts.countsBy_get.
Qed.

(** Every person key has its row in the per-person table. *)
Lemma peopleRows_In k :
  In k (keys (Acc.perPersonCounts a)) ->
  exists row,
    In row (peopleRows peopleToGroup peopleToShift a)
    /\ PersonRow.person row = k
    /\ PersonRow.trucks row = natOr0 (get k (Acc.perPersonCounts a)).
Proof.
  intros Hk. unfold peopleRows.
  eexists. split.
  - apply in_map. eapply Permutation_in; [apply StringSort.Permuted_sort | exact Hk].
  - split; reflexivity.
Qed.


End WithInputs.

End KeyFacts.

(** ** Top performers *)

Module TopFacts.

Import ObjFacts PersonFacts SelectionFacts.

Section WithInputs.

Variable h : Host.
Variables peopleToGroup peopleToShift : obj string.
Variable a : Acc.t.

(** The top performer is one of the named rows of the table. *)
Lemma topPerformer_named w :
  topPerformer h peopleToGroup peopleToShift a = Some w ->
  In w (peopleRows peopleToGroup peopleToShift a)
  /\ namedPerson h (PersonRow.person w) = true.
Proof.
  unfold topPerformer. intros H.
  destruct (trucks_first_max
              (filter (fun p => namedPerson h (PersonRow.person p))
                      (peopleRows peopleToGroup peopleToShift a)) None)
    as [[Hres _] | (l1 & w' & l2 & Hl & Hres & _)].
  - rewrite Hres in H. discriminate.
  - rewrite Hres in H. injection H as ->.
    assert (Hin : In w (filter (fun p => namedPerson h (PersonRow.person p))
                               (peopleRows peopleToGroup peopleToShift a))).
    { rewrite Hl. apply in_or_app. right. now left. }
    now apply filter_In in Hin.
Qed.

(** The top revenue performer is the default, or a named key of
    [perPersonRevenue] with its revenue. *)
Lemma topRevenuePerformer_cases :
  (TopRevenue.name (topRevenuePerformer h a) = "Unknown"
   /\ TopRevenue.revenue (topRevenuePerformer h a) = Fin 0)
  \/ (namedPerson h (TopRevenue.name (topRevenuePerformer h a)) = true
      /\ In (TopRevenue.name (topRevenuePerformer h a),
             TopRevenue.revenue (topRevenuePerformer h a))
            (Acc.perPersonRevenue a)).
Proof.
  unfold topRevenuePerformer, topRevenuePerformerEntry.
  assert (H0 : okMax ("", Fin 0)) by (now left).
  destruct (revenue_first_max
              (filter (fun e => namedPerson h (fst e)) (entries (Acc.perPersonRevenue a)))
              H0)
    as [[Hres _] | (l1 & w & l2 & Hl & Hres & Hw & _)]; rewrite Hres; simpl.
  - now left.
  - right.
    assert (Hin : In w (filter (fun e => namedPerson h (fst e))
                               (entries (Acc.perPersonRevenue a)))).
    { rewrite Hl. apply in_or_app. right. now left. }
    apply filter_In in Hin as [Hin Hnamed].
    assert (Hne : String.eqb (fst w) "" = false).
    { unfold namedPerson in Hnamed.
      apply andb_true_iff in Hnamed as [Hn _]. apply andb_true_iff in Hn as [Hn _].
      now apply negb_true_iff in Hn. }
    rewrite Hne.
    change (if JsNumber.truthy (snd w) then snd w else JsNumber.zero)
      with (JsNumber.orZero (Some (snd w))).
    rewrite (orZero_okMax (okMax_beats w H0 Hw)).
    split; [assumption|].
    rewrite <- surjective_pairing.
    eapply Permutation_in; [apply entries_perm | exact Hin].
Qed.

End WithInputs.

End TopFacts.

(** A record whose person name resolves to "Unknown", which is what
    every rejected candidate (empty, white space, [n/a], [na], [none],
    [unknown], [-] in any case) leads to, is counted under the person key
    "Unknown".  That key is left out of [uniquePeople], which counts all
    the other keys, and out of the selection of [topPerformer] and of
    [topRevenuePerformer] (whose name is "Unknown" only as the default of
    an empty selection, with revenue 0); the record is still counted in
    [totalTrucks], and the per-person table has a row for "Unknown". *)
Theorem unknown_person_bucket_on_maps
    (h : Host) (peopleToGroup peopleToShift : obj string) (rows : list Row.t)
    (rep : Report.t) (r : Row.t) :
  computeAdvancedAnalytics h peopleToGroup peopleToShift rows = Ok rep ->
  In r rows ->
  resolvePersonName h r = "Unknown"
  \/ isPlaceholderName h (VStr (resolvePersonName h r)) = true
  \/ (forall c, In c (candidates r) -> rejected h c) ->
  resolvePersonName h r = "Unknown"
  /\ Basic.totalTrucks (Report.basic rep) = List.length rows
  /\ (exists n,
        get "Unknown" (Basic.perPerson (Report.basic rep)) = Some n /\ 1 <= n
        /\ exists row,
             In row (Basic.peopleRows (Report.basic rep))
             /\ PersonRow.person row = "Unknown" /\ PersonRow.trucks row = n)
  /\ In "Unknown" (keys (Basic.perPerson (Report.basic rep)))
  /\ Stats.uniquePeople (Report.stats rep) + 1
     = List.length (keys (Basic.perPerson (Report.basic rep)))
  /\ (forall w,
        Stats.topPerformer (Report.stats rep) = Some w ->
        PersonRow.person w <> "Unknown"
        /\ isPlaceholderName h (VStr (PersonRow.person w)) = false)
  /\ ((TopRevenue.name (Stats.topRevenuePerformer (Report.stats rep)) = "Unknown"
       /\ TopRevenue.revenue (Stats.topRevenuePerformer (Report.stats rep)) = Fin 0)
      \/ (TopRevenue.name (Stats.topRevenuePerformer (Report.stats rep)) <> "Unknown"
          /\ isPlaceholderName h
               (VStr (TopRevenue.name (Stats.topRevenuePerformer (Report.stats rep))))
             = false
          /\ In (TopRevenue.name (Stats.topRevenuePerformer (Report.stats rep)),
                 TopRevenue.revenue (Stats.topRevenuePerformer (Report.stats rep)))
                (Basic.perPersonRevenue (Report.basic rep)))).
Proof.
  intros Hrep Hr Hname.
  apply PersonFacts.resolved_placeholder in Hname.
  open_report Hrep a Hloop. simpl.
  destruct (ReportFacts.final_fields h peopleToGroup peopleToShift rows Hloop)
    as (Ht & _).
  assert (Hkey : In "Unknown" (keys (Acc.perPersonCounts a))).
  { apply (@KeyFacts.person_key_In h peopleToGroup peopleToShift rows a Hloop).
    eauto. }
  split; [assumption|]. split; [assumption|]. split; [|split; [assumption|split]].
  - destruct (@KeyFacts.person_count h peopleToGroup peopleToShift rows a Hloop r Hr)
      as [n [Hn H1]].
    rewrite Hname in Hn. exists n. split; [assumption|]. split; [assumption|].
    destruct (@KeyFacts.peopleRows_In peopleToGroup peopleToShift a "Unknown" Hkey)
      as [row [Hrow [Hp Htr]]].
    exists row. rewrite Htr, Hn. auto.
  - apply (@KeyFacts.uniquePeople_with_Unknown h peopleToGroup peopleToShift rows a Hloop).
    assumption.
  - split.
    + intros w Hw. apply TopFacts.topPerformer_named in Hw as [_ Hw].
      now apply PersonFacts.namedPerson_not_Unknown in Hw.
    + destruct (TopFacts.topRevenuePerformer_cases h a) as [H | [Hn Hin]];
        [now left | right].
      apply PersonFacts.namedPerson_not_Unknown in Hn as [Hn1 Hn2]. auto.
Qed.

(** ** Orders of enumeration *)

Module OrderFacts.

Import ObjFacts BucketFacts.
Local Open Scope list_scope.

Lemma ascii_compare_refl (c : ascii) : Ascii.compare c c = Eq.
Proof. unfold Ascii.compare. apply N.compare_refl. Qed.

Lemma ascii_compare_Lt_trans (a b c : ascii) :
  Ascii.compare a b = Lt -> Ascii.compare b c = Lt -> Ascii.compare a c = Lt.
Proof.
  unfold Ascii.compare. rewrite !N.compare_lt_iff. apply N.lt_trans.
Qed.

Lemma compare_Lt_trans (a : string) : forall b c,
  String.compare a b = Lt -> String.compare b c = Lt -> String.compare a c = Lt.
Proof.
  induction a as [|x a IH]; intros [|y b] [|z c]; simpl;
    try discriminate; try reflexivity.
  destruct (Ascii.compare x y) eqn:E1; try discriminate;
    destruct (Ascii.compare y z) eqn:E2; try discriminate; intros H1 H2.
  - apply Ascii.compare_eq_iff in E1, E2. subst.
    rewrite ascii_compare_refl. now apply IH with b.
  - apply Ascii.compare_eq_iff in E1. subst. now rewrite E2.
  - apply Ascii.compare_eq_iff in E2. subst. now rewrite E1.
  - now rewrite (ascii_compare_Lt_trans _ _ _ E1 E2).
Qed.

Lemma leb_cases (a b : string) :
  String.leb a b = true <-> a = b \/ String.compare a b = Lt.
Proof.
  unfold String.leb. destruct (String.compare a b) eqn:E.
  - apply String.compare_eq_iff in E. tauto.
  - tauto.
  - split; [discriminate|]. intros [-> | H]; [|discriminate].
    assert (String.compare b b = Eq).
    { clear. induction b as [|c b IH]; simpl; [reflexivity|].
      now rewrite ascii_compare_refl. }
    congruence.
Qed.

Lemma leb_trans (a b c : string) :
  String.leb a b = true -> String.leb b c = true -> String.leb a c = true.
Proof.
  rewrite !leb_cases. intros [-> | H1] [-> | H2]; auto.
  right. now apply compare_Lt_trans with b.
Qed.

(** [sort()] leaves every string before the greater ones. *)
Lemma sort_StronglySorted (l : list string) :
  StronglySorted (fun x y => String.leb x y = true) (StringSort.sort l).
Proof.
  apply StringSort.StronglySorted_sort.
  intros x y z. unfold is_true. apply leb_trans.
Qed.







Lemma NoDup_fst_entries (V : Type) (o : obj V) :
  NoDup (map fst o) -> NoDup (map fst (entries o)).
Proof. apply keys_NoDup. Qed.

Lemma NoDup_app_disjoint (A : Type) (l l' : list A) (x : A) :
  NoDup (l ++ l') -> In x l -> ~ In x l'.
Proof.
  induction l as [|a l IH]; simpl; intros Hnd Hin; [destruct Hin|].
  inversion Hnd as [|? ? Ha Hl]; subst. destruct Hin as [-> | Hin].
  - intros H. apply Ha. apply in_or_app. now right.
  - now apply IH.
Qed.

(** Keys are not repeated, so an entry found on one side of a split is
    not on the other. *)
Lemma NoDup_fst_split (V : Type) (l1 l2 : list (string * V)) (w : string * V) k v :
  NoDup (map fst (l1 ++ w :: l2)) ->
  In (k, v) (l1 ++ w :: l2) -> k <> fst w ->
  (In (k, v) l1 /\ ~ In k (map fst l2)) \/ (In (k, v) l2 /\ ~ In k (map fst l1)).
Proof.
  intros Hnd Hin Hne.
  rewrite map_app in Hnd. simpl in Hnd. apply NoDup_remove_1 in Hnd.
  apply in_app_or in Hin as [Hin | [-> | Hin]].
  - left. split; [assumption|].
    apply (NoDup_app_disjoint _ _ k Hnd).
    change k with (fst (k, v)). now apply in_map.
  - simpl in Hne. contradiction.
  - right. split; [assumption|]. intros Hk.
    apply (NoDup_app_disjoint _ _ k Hnd Hk).
    change k with (fst (k, v)). now apply in_map.
Qed.

End OrderFacts.

(** ** Ties between top performers *)

Module TieFacts.

Import ObjFacts BucketFacts PersonFacts SelectionFacts OrderFacts.
Local Open Scope list_scope.



Section WithInputs.

Variable h : Host.
Variables peopleToGroup peopleToShift : obj string.
Variable rows : list Row.t.
Variable a : Acc.t.
Hypothesis Hloop :
  forOf (processRow h peopleToGroup peopleToShift) rows (Ok Acc.init) = Ok a.





End WithInputs.

End TieFacts.


(** * Further properties over finite maps *)


Import Tally.

Module TallyFacts.

Import ObjFacts BucketFacts.

Lemma countsIf_countsBy key rows : forall o,
  countsIf key rows o = countsBy key (impoundedRows rows) o.
Proof.
  induction rows as [|r rows IH]; simpl; intros o; [reflexivity|].
  unfold countsIf, countsBy, impoundedRows in *. simpl.
  destruct (truthy (Row.impounded r)); simpl; apply IH.
Qed.


(** A counter holds, for each key, the number of records under it. *)
Lemma countsBy_get_count key k rows : forall o,
  natOr0 (get k (countsBy key rows o))
  = natOr0 (get k o) + List.length (recordsOf key k rows).
Proof.
  induction rows as [|r rows IH]; simpl; intros o; [lia|].
  unfold countsBy in *. simpl fold_left. rewrite IH. unfold bump, recordsOf.
  simpl filter. destruct (String.eqb (key r) k) eqn:E.
  - apply String.eqb_eq in E. rewrite E, get_set_same.
    unfold natOr0. destruct (get k o); simpl; lia.
  - apply String.eqb_neq in E. rewrite get_set_other by assumption. reflexivity.
Qed.

Lemma countsBy_get_None key k rows :
  get k (countsBy key rows []) = None <-> recordsOf key k rows = [].
Proof.
  rewrite get_None_iff, countsBy_keys. simpl.
  fold (firstSeen (map key rows)). rewrite firstSeen_In, in_map_iff.
  split.
  - intros H. unfold recordsOf.
    destruct (filter _ rows) as [|r l] eqn:E; [reflexivity|]. exfalso.
    assert (Hr : In r (filter (fun r => String.eqb (key r) k) rows))
      by (rewrite E; now left).
    apply filter_In in Hr as [Hr Hk]. apply String.eqb_eq in Hk. eauto.
  - intros H [r [Hk Hr]].
    assert (Hin : In r (recordsOf key k rows)).
    { apply filter_In. split; [assumption|]. now apply String.eqb_eq. }
    rewrite H in Hin. destruct Hin.
Qed.

Lemma countsBy_get_exact key k rows :
  get k (countsBy key rows [])
  = match recordsOf key k rows with
    | [] => None
    | l => Some (List.length l)
    end.
Proof.
  pose proof (countsBy_get_count key k rows []) as Hc. simpl in Hc.
  destruct (recordsOf key k rows) as [|r l] eqn:E.
  - now apply countsBy_get_None.
  - destruct (get k (countsBy key rows [])) as [n|] eqn:G.
    + simpl in Hc. now rewrite Hc.
    + apply countsBy_get_None in G. congruence.
Qed.

Lemma recordsOf_cons_length key k r rows :
  List.length (recordsOf key k (r :: rows))
  = List.length (recordsOf key k rows) + (if String.eqb (key r) k then 1 else 0).
Proof.
  unfold recordsOf. simpl. destruct (String.eqb (key r) k); simpl; lia.
Qed.

Lemma recordsOf_cons_sum key r rows (ks : list string) :
  NoDup ks ->
  list_sum (map (fun k => List.length (recordsOf key k (r :: rows))) ks)
  = list_sum (map (fun k => List.length (recordsOf key k rows)) ks)
    + (if in_dec string_dec (key r) ks then 1 else 0).
Proof.
  induction ks as [|k ks IHk]; intros Hnd; [reflexivity|].
  inversion Hnd as [|? ? Hk Hnd']; subst.
  change (List.length (recordsOf key k (r :: rows))
          + list_sum (map (fun k => List.length (recordsOf key k (r :: rows))) ks)
          = List.length (recordsOf key k rows)
            + list_sum (map (fun k => List.length (recordsOf key k rows)) ks)
            + (if in_dec string_dec (key r) (k :: ks) then 1 else 0)).
  rewrite (IHk Hnd'), recordsOf_cons_length.
  destruct (String.eqb (key r) k) eqn:E.
  - apply String.eqb_eq in E. subst k.
    destruct (in_dec string_dec (key r) (key r :: ks)) as [_|N];
      [|exfalso; apply N; now left].
    destruct (in_dec string_dec (key r) ks); [contradiction|]. lia.
  - apply String.eqb_neq in E.
    destruct (in_dec string_dec (key r) ks) as [H|H];
      destruct (in_dec string_dec (key r) (k :: ks)) as [H'|H']; try lia.
    + exfalso. apply H'. now right.
    + exfalso. destruct H' as [H'|H']; [congruence | contradiction].
Qed.

(** Summing the numbers of records over keys that cover all the records,
    each once, counts every record. *)
Lemma recordsOf_partition key (ks : list string) rows :
  NoDup ks -> (forall r, In r rows -> In (key r) ks) ->
  list_sum (map (fun k => List.length (recordsOf key k rows)) ks) = List.length rows.
Proof.
  intros Hnd. induction rows as [|r rows IH]; intros Hcov.
  - simpl. clear. induction ks as [|k ks IHk]; simpl; [reflexivity|]. assumption.
  - rewrite (recordsOf_cons_sum key r rows Hnd), IH
      by (intros r' Hr'; apply Hcov; now right).
    destruct (in_dec string_dec (key r) ks) as [_|N]; [simpl; lia|].
    exfalso. apply N, Hcov. now left.
Qed.

End TallyFacts.

(** ** More of the loop *)

Module MoreLoopFacts.

Import ObjFacts BucketFacts LoopFacts TallyFacts.

Section WithInputs.

Variable h : Host.
Variables peopleToGroup peopleToShift : obj string.

Lemma trackTruck_ids r ids ids' :
  trackTruck r ids = Ok ids' ->
  ids' = match truckIdOf r with Some t => setAdd t ids | None => ids end.
Proof.
  unfold trackTruck, truckIdOf.
  destruct (Row.truckId r) as [| |b|x|s]; simpl.
  - now intros [= <-].
  - now intros [= <-].
  - destruct b; [discriminate | now intros [= <-]].
  - destruct (JsNumber.truthy x); [discriminate | now intros [= <-]].
  - destruct (String.eqb s "") eqn:E; simpl.
    + apply String.eqb_eq in E. subst s. now intros [= <-].
    + intros [= <-]. now destruct (String.eqb (trim s) "").
Qed.

Lemma processRow_noTrim a r a' :
  processRow h peopleToGroup peopleToShift a r = Ok a' -> noTrim r = false.
Proof.
  intros H. destruct (noTrim r) eqn:E; [|reflexivity].
  unfold processRow, trackTruck in H. unfold noTrim in E.
  apply andb_true_iff in E as [E1 E2]. rewrite E1 in H.
  destruct (Row.truckId r); simpl in *; discriminate.
Qed.

(** A loop that runs to its end met no [truckId] without [trim]. *)
Lemma loop_Ok_noTrim rows : forall a a',
  forOf (processRow h peopleToGroup peopleToShift) rows (Ok a) = Ok a' ->
  existsb noTrim rows = false.
Proof.
  induction rows as [|r rows IH]; simpl; intros a a' H; [reflexivity|].
  destruct (processRow h peopleToGroup peopleToShift a r) as [a1|e] eqn:E;
    simpl in H; [|rewrite forOf_Throw in H; discriminate].
  rewrite (processRow_noTrim _ _ E). simpl. eapply IH; eauto.
Qed.

Lemma loop_fields_more rows : forall a a',
  forOf (processRow h peopleToGroup peopleToShift) rows (Ok a) = Ok a' ->
  Acc.perPersonImpounded a'
  = countsIf (resolvePersonName h) rows (Acc.perPersonImpounded a)
  /\ Acc.impoundedByShift a'
     = countsIf (bucketOf h peopleToShift) rows (Acc.impoundedByShift a)
  /\ Acc.impoundedByGroup a'
     = countsIf (bucketOf h peopleToGroup) rows (Acc.impoundedByGroup a)
  /\ Acc.truckIds a' = trackedIds rows (Acc.truckIds a)
  /\ Acc.perGroupRevenue a'
     = revenueBy (bucketOf h peopleToGroup) rows (Acc.perGroupRevenue a)
  /\ Acc.perShiftRevenue a'
     = revenueBy (bucketOf h peopleToShift) rows (Acc.perShiftRevenue a)
  /\ Acc.totalRevenue a'
     = fold_left JsNumber.add (map rowRevenue rows) (Acc.totalRevenue a).
Proof.
  induction rows as [|r rows IH]; simpl; intros a a' H.
  - injection H as <-. repeat split.
  - destruct (processRow h peopleToGroup peopleToShift a r) as [a1|e1] eqn:E;
      simpl in H; [|rewrite forOf_Throw in H; discriminate].
    destruct (IH _ _ H) as (H1 & H2 & H3 & H4 & H5 & H6 & H7).
    unfold processRow in E.
    destruct (trackTruck r (Acc.truckIds a)) as [ids|] eqn:Et; simpl in E;
      [|discriminate].
    apply trackTruck_ids in Et.
    injection E as <-. simpl in *.
    rewrite H1, H2, H3, H4, H5, H6, H7, Et.
    unfold countsIf, trackedIds, revenueBy, bucketOf. simpl.
    destruct (truthy (Row.impounded r)); repeat split.
Qed.

End WithInputs.

End MoreLoopFacts.

(** The call returns a report unless a record carries a truthy
    [truckId] that is not a string, and then it throws a [TypeError]
    whatever the other records are. *)
Theorem throws_exactly_on_truckId_without_trim_on_maps
    (h : Host) (peopleToGroup peopleToShift : obj string) (rows : list Row.t) :
  if existsb noTrim rows
  then computeAdvancedAnalytics h peopleToGroup peopleToShift rows = Throw TypeError
  else exists rep,
         computeAdvancedAnalytics h peopleToGroup peopleToShift rows = Ok rep.
Proof.
  destruct (existsb noTrim rows) eqn:E.
  - destruct (ReportFacts.compute_cases h peopleToGroup peopleToShift rows)
      as [[a [Hloop _]] | [Hthrow _]]; [|assumption].
    apply MoreLoopFacts.loop_Ok_noTrim in Hloop. congruence.
  - now apply ReportFacts.compute_returns.
Qed.

(** ** What each counter holds *)

Module CountFacts.

Import ObjFacts BucketFacts LoopFacts TallyFacts MoreLoopFacts.

Lemma Permutation_filter (A : Type) (f : A -> bool) (l l' : list A) :
  Permutation l l' -> Permutation (filter f l) (filter f l').
Proof.
  induction 1 as [|x l l' _ IH|x y l|l l' l'' _ IH1 _ IH2]; simpl.
  - constructor.
  - destruct (f x); [now constructor | assumption].
  - destruct (f x), (f y); try reflexivity. apply perm_swap.
  - now transitivity (filter f l').
Qed.

Lemma existsb_Permutation (A : Type) (f : A -> bool) (l l' : list A) :
  Permutation l l' -> existsb f l = existsb f l'.
Proof.
  intros HP. destruct (existsb f l') eqn:E.
  - apply existsb_exists in E as [x [Hx Hf]]. apply existsb_exists.
    exists x. split; [|assumption].
    eapply Permutation_in; [symmetry; exact HP | exact Hx].
  - destruct (existsb f l) eqn:E'; [|reflexivity].
    apply existsb_exists in E' as [x [Hx Hf]].
    assert (existsb f l' = true); [|congruence].
    apply existsb_exists. exists x. split; [|assumption].
    eapply Permutation_in; [exact HP | exact Hx].
Qed.

Section WithInputs.

Variable h : Host.
Variables peopleToGroup peopleToShift : obj string.
Variable rows : list Row.t.
Variable a : Acc.t.
Hypothesis Hloop :
  forOf (processRow h peopleToGroup peopleToShift) rows (Ok Acc.init) = Ok a.

Lemma person_count_exact k :
  get k (Acc.perPersonCounts a)
  = match recordsOf (resolvePersonName h) k rows with
    | [] => None
    | l => Some (List.length l)
    end.
Proof.
  destruct (ReportFacts.final_fields h peopleToGroup peopleToShift rows Hloop)
    as (_ & _ & Hp & _).
  rewrite Hp. apply countsBy_get_exact.
Qed.

Lemma group_count_exact k :
  get k (Acc.perGroupCounts a)
  = match recordsOf (bucketOf h peopleToGroup) k rows with
    | [] => None
    | l => Some (List.length l)
    end.
Proof.
  destruct (ReportFacts.final_fields h peopleToGroup peopleToShift rows Hloop)
    as (_ & _ & _ & Hg & _).
  rewrite Hg. apply countsBy_get_exact.
Qed.

Lemma shift_count_exact k :
  get k (Acc.perShiftCounts a)
  = match recordsOf (bucketOf h peopleToShift) k rows with
    | [] => None
    | l => Some (List.length l)
    end.
Proof.
  destruct (ReportFacts.final_fields h peopleToGroup peopleToShift rows Hloop)
    as (_ & _ & _ & _ & Hs & _).
  rewrite Hs. apply countsBy_get_exact.
Qed.

End WithInputs.


Lemma exact_Permutation (l l' : list Row.t) :
  Permutation l l' ->
  match l with [] => None | r :: t => Some (List.length (r :: t)) end
  = match l' with [] => None | r :: t => Some (List.length (r :: t)) end.
Proof.
  intros HP. pose proof (Permutation_length HP) as Hlen.
  destruct l, l'; simpl in *; try discriminate; congruence.
Qed.

End CountFacts.

(** In a returned report the count stored under a person, group or
    shift key is the number of records that resolve to that key, and a
    key under which no record falls is absent. *)
Theorem bucket_count_is_number_of_records_on_maps
    (h : Host) (peopleToGroup peopleToShift : obj string) (rows : list Row.t)
    (rep : Report.t) (k : string) :
  computeAdvancedAnalytics h peopleToGroup peopleToShift rows = Ok rep ->
  get k (Basic.perPerson (Report.basic rep))
  = match recordsOf (resolvePersonName h) k rows with
    | [] => None
    | l => Some (List.length l)
    end
  /\ get k (Basic.perGroup (Report.basic rep))
     = match recordsOf (bucketOf h peopleToGroup) k rows with
       | [] => None
       | l => Some (List.length l)
       end
  /\ get k (Basic.perShift (Report.basic rep))
     = match recordsOf (bucketOf h peopleToShift) k rows with
       | [] => None
       | l => Some (List.length l)
       end.
Proof.
  intros Hrep. open_report Hrep a Hloop. simpl.
  split; [|split].
  - apply (@CountFacts.person_count_exact h peopleToGroup peopleToShift rows a Hloop).
  - apply (@CountFacts.group_count_exact h peopleToGroup peopleToShift rows a Hloop).
  - apply (@CountFacts.shift_count_exact h peopleToGroup peopleToShift rows a Hloop).
Qed.


(** The totals and the per-key counts of a report do not depend on
    the order of the records. *)
Theorem counts_ignore_record_order_on_maps
    (h : Host) (peopleToGroup peopleToShift : obj string)
    (rows rows' : list Row.t) (rep : Report.t) :
  Permutation rows rows' ->
  computeAdvancedAnalytics h peopleToGroup peopleToShift rows = Ok rep ->
  exists rep',
    computeAdvancedAnalytics h peopleToGroup peopleToShift rows' = Ok rep'
    /\ Basic.totalTrucks (Report.basic rep') = Basic.totalTrucks (Report.basic rep)
    /\ Basic.totalImpounded (Report.basic rep')
       = Basic.totalImpounded (Report.basic rep)
    /\ forall k,
         get k (Basic.perPerson (Report.basic rep'))
         = get k (Basic.perPerson (Report.basic rep))
         /\ get k (Basic.perGroup (Report.basic rep'))
            = get k (Basic.perGroup (Report.basic rep))
         /\ get k (Basic.perShift (Report.basic rep'))
            = get k (Basic.perShift (Report.basic rep)).
Proof.
  intros HP Hrep. open_report Hrep a Hloop.
  assert (Hno : existsb noTrim rows' = false).
  { rewrite <- (CountFacts.existsb_Permutation noTrim HP).
    exact (MoreLoopFacts.loop_Ok_noTrim _ _ _ _ _ Hloop). }
  destruct (ReportFacts.compute_returns h peopleToGroup peopleToShift _ Hno)
    as [rep' Hrep'].
  exists rep'. split; [assumption|].
  open_report Hrep' a' Hloop'. simpl.
  destruct (ReportFacts.final_fields h peopleToGroup peopleToShift _ Hloop)
    as (Ht & Hi & _).
  destruct (ReportFacts.final_fields h peopleToGroup peopleToShift _ Hloop')
    as (Ht' & Hi' & _).
  rewrite Ht, Hi, Ht', Hi'. unfold impoundedRows.
  split; [symmetry; now apply Permutation_length|].
  split; [symmetry; now apply Permutation_length, CountFacts.Permutation_filter|].
  intros k.
  rewrite (@CountFacts.person_count_exact h peopleToGroup peopleToShift _ a Hloop),
    (@CountFacts.person_count_exact h peopleToGroup peopleToShift _ a' Hloop'),
    (@CountFacts.group_count_exact h peopleToGroup peopleToShift _ a Hloop),
    (@CountFacts.group_count_exact h peopleToGroup peopleToShift _ a' Hloop'),
    (@CountFacts.shift_count_exact h peopleToGroup peopleToShift _ a Hloop),
    (@CountFacts.shift_count_exact h peopleToGroup peopleToShift _ a' Hloop').
  repeat split; apply CountFacts.exact_Permutation; symmetry;
    now apply CountFacts.Permutation_filter.
Qed.

(** ** Impounded records *)

Module ImpoundFacts.

Import ObjFacts BucketFacts LoopFacts TallyFacts MoreLoopFacts.

Lemma recordsOf_impounded key k rows :
  recordsOf key k (impoundedRows rows) = impoundedRows (recordsOf key k rows).
Proof.
  unfold recordsOf, impoundedRows.
  induction rows as [|r rows IH]; simpl; [reflexivity|].
  destruct (truthy (Row.impounded r)) eqn:Ei, (String.eqb (key r) k) eqn:Ek;
    simpl; rewrite ?Ei, ?Ek, IH; reflexivity.
Qed.

Lemma recordsOf_impounded_le key k rows :
  List.length (recordsOf key k (impoundedRows rows))
  <= List.length (recordsOf key k rows).
Proof. rewrite recordsOf_impounded. apply filter_length_le. Qed.

Lemma countsIf_get key k rows :
  natOr0 (get k (countsIf key rows []))
  = List.length (recordsOf key k (impoundedRows rows)).
Proof. rewrite countsIf_countsBy, countsBy_get_count. reflexivity. Qed.

Lemma countsIf_sumOverKeys key rows :
  sumOverKeys (countsIf key rows []) = List.length (impoundedRows rows).
Proof. rewrite countsIf_countsBy. apply countsBy_sumOverKeys. Qed.

(** Summing an impounded counter over the keys of the counter of all
    records misses no impounded record. *)
Lemma countsIf_sum_over key rows (ks : list string) :
  Permutation ks (firstSeen (map key rows)) ->
  list_sum (map (fun k => natOr0 (get k (countsIf key rows []))) ks)
  = List.length (impoundedRows rows).
Proof.
  intros HP.
  rewrite (map_ext _ (fun k => List.length (recordsOf key k (impoundedRows rows))))
    by (intros k; apply countsIf_get).
  apply recordsOf_partition.
  - eapply Permutation_NoDup; [symmetry; exact HP | apply firstSeen_NoDup].
  - intros r Hr. eapply Permutation_in; [symmetry; exact HP|].
    apply firstSeen_In, in_map. unfold impoundedRows in Hr.
    now apply filter_In in Hr as [Hr _].
Qed.

Lemma countsBy_sum_over key rows (ks : list string) :
  Permutation ks (firstSeen (map key rows)) ->
  list_sum (map (fun k => natOr0 (get k (countsBy key rows []))) ks)
  = List.length rows.
Proof.
  intros HP.
  rewrite (map_ext _ (fun k => List.length (recordsOf key k rows)))
    by (intros k; now rewrite countsBy_get_count).
  apply recordsOf_partition.
  - eapply Permutation_NoDup; [symmetry; exact HP | apply firstSeen_NoDup].
  - intros r Hr. eapply Permutation_in; [symmetry; exact HP|].
    now apply firstSeen_In, in_map.
Qed.

Lemma keys_countsBy key rows :
  Permutation (keys (countsBy key rows [])) (firstSeen (map key rows)).
Proof. rewrite keys_perm, countsBy_keys. reflexivity. Qed.

End ImpoundFacts.

(** The impounded trucks are part of the trucks: the total, and each
    group's and each shift's impounded count, is at most the matching
    count of all records; such a count is the number of impounded records
    of that bucket, and the counts of either breakdown add up to the
    impounded total. *)
Theorem impounded_counts_are_within_counts_on_maps
    (h : Host) (peopleToGroup peopleToShift : obj string) (rows : list Row.t)
    (rep : Report.t) :
  computeAdvancedAnalytics h peopleToGroup peopleToShift rows = Ok rep ->
  Basic.totalImpounded (Report.basic rep) <= Basic.totalTrucks (Report.basic rep)
  /\ sumOverKeys (Report.impoundedByGroup rep) = Basic.totalImpounded (Report.basic rep)
  /\ sumOverKeys (Report.impoundedByShift rep) = Basic.totalImpounded (Report.basic rep)
  /\ forall k,
       natOr0 (get k (Report.impoundedByGroup rep))
       = List.length (recordsOf (bucketOf h peopleToGroup) k (impoundedRows rows))
       /\ natOr0 (get k (Report.impoundedByGroup rep))
          <= natOr0 (get k (Basic.perGroup (Report.basic rep)))
       /\ natOr0 (get k (Report.impoundedByShift rep))
          = List.length (recordsOf (bucketOf h peopleToShift) k (impoundedRows rows))
       /\ natOr0 (get k (Report.impoundedByShift rep))
          <= natOr0 (get k (Basic.perShift (Report.basic rep))).
Proof.
  intros Hrep. open_report Hrep a Hloop. simpl.
  destruct (ReportFacts.final_fields h peopleToGroup peopleToShift _ Hloop)
    as (Ht & Hi & _ & Hg & Hs & _).
  destruct (MoreLoopFacts.loop_fields_more h peopleToGroup peopleToShift _ _ Hloop)
    as (_ & Hbs & Hbg & _).
  simpl in Hbs, Hbg. rewrite Ht, Hi, Hg, Hs, Hbs, Hbg.
  rewrite !ImpoundFacts.countsIf_sumOverKeys.
  split; [apply RateFacts.impoundedRows_length|].
  split; [reflexivity|]. split; [reflexivity|].
  intros k. rewrite !ImpoundFacts.countsIf_get, !TallyFacts.countsBy_get_count.
  simpl. repeat split; apply ImpoundFacts.recordsOf_impounded_le.
Qed.

(** The impounded series of the shift chart, which reads
    [impoundedByShift] at the keys of [perShift], has one entry for each
    shift and adds up to the impounded total. *)
Theorem shift_chart_shows_every_impounded_truck_on_maps
    (h : Host) (peopleToGroup peopleToShift : obj string) (rows : list Row.t)
    (rep : Report.t) :
  computeAdvancedAnalytics h peopleToGroup peopleToShift rows = Ok rep ->
  List.length (Display.impoundedSeries rep)
  = List.length (keys (Basic.perShift (Report.basic rep)))
  /\ list_sum (Display.impoundedSeries rep)
     = Basic.totalImpounded (Report.basic rep).
Proof.
  intros Hrep. open_report Hrep a Hloop. unfold Display.impoundedSeries. simpl.
  split; [apply length_map|].
  destruct (ReportFacts.final_fields h peopleToGroup peopleToShift _ Hloop)
    as (_ & Hi & _ & _ & Hs & _).
  destruct (MoreLoopFacts.loop_fields_more h peopleToGroup peopleToShift _ _ Hloop)
    as (_ & Hbs & _).
  simpl in Hbs. rewrite Hi, Hs, Hbs.
  apply ImpoundFacts.countsIf_sum_over, ImpoundFacts.keys_countsBy.
Qed.

(** ** The per-person table *)

Module TableFacts.

Import ObjFacts BucketFacts LoopFacts TallyFacts MoreLoopFacts ImpoundFacts OrderFacts.

Lemma StronglySorted_strict (l : list string) :
  StronglySorted (fun x y => String.leb x y = true) l -> NoDup l ->
  StronglySorted (fun x y => String.compare x y = Lt) l.
Proof.
  induction 1 as [|x l Hl IH Hx]; intros Hnd; constructor.
  - apply IH. now inversion Hnd.
  - inversion Hnd as [|? ? Hnot _]; subst.
    rewrite Forall_forall in *. intros y Hy.
    destruct (proj1 (leb_cases x y) (Hx y Hy)) as [-> | Hlt];
      [contradiction | assumption].
Qed.

Section WithInputs.

Variable h : Host.
Variables peopleToGroup peopleToShift : obj string.
Variable rows : list Row.t.
Variable a : Acc.t.
Hypothesis Hloop :
  forOf (processRow h peopleToGroup peopleToShift) rows (Ok Acc.init) = Ok a.

Lemma names_perm :
  Permutation (map PersonRow.person (peopleRows peopleToGroup peopleToShift a))
              (firstSeen (map (resolvePersonName h) rows)).
Proof.
  unfold peopleRows. rewrite map_map. simpl. rewrite map_id.
  rewrite <- StringSort.Permuted_sort.
  destruct (ReportFacts.final_fields h peopleToGroup peopleToShift rows Hloop)
    as (_ & _ & Hp & _).
  rewrite Hp. apply keys_countsBy.
Qed.

Lemma names_strictly_sorted :
  StronglySorted (fun x y => String.compare x y = Lt)
    (map PersonRow.person (peopleRows peopleToGroup peopleToShift a)).
Proof.
  apply StronglySorted_strict.
  - unfold peopleRows. rewrite map_map. simpl. rewrite map_id.
    apply sort_StronglySorted.
  - eapply Permutation_NoDup; [symmetry; apply names_perm | apply firstSeen_NoDup].
Qed.

Lemma row_trucks p :
  In p (peopleRows peopleToGroup peopleToShift a) ->
  PersonRow.trucks p
  = List.length (recordsOf (resolvePersonName h) (PersonRow.person p) rows).
Proof.
  unfold peopleRows. intros H. apply in_map_iff in H as [k [<- _]]. simpl.
  destruct (ReportFacts.final_fields h peopleToGroup peopleToShift rows Hloop)
    as (_ & _ & Hp & _).
  rewrite Hp. now rewrite countsBy_get_count.
Qed.

Lemma row_impounded p :
  In p (peopleRows peopleToGroup peopleToShift a) ->
  PersonRow.impounded p
  = List.length
      (recordsOf (resolvePersonName h) (PersonRow.person p) (impoundedRows rows)).
Proof.
  unfold peopleRows. intros H. apply in_map_iff in H as [k [<- _]]. simpl.
  destruct (loop_fields_more h peopleToGroup peopleToShift _ _ Hloop) as (Hi & _).
  simpl in Hi. rewrite Hi. apply countsIf_get.
Qed.

Lemma row_has_record p :
  In p (peopleRows peopleToGroup peopleToShift a) ->
  exists r, In r rows /\ resolvePersonName h r = PersonRow.person p.
Proof.
  intros H.
  assert (Hn : In (PersonRow.person p)
                  (map PersonRow.person (peopleRows peopleToGroup peopleToShift a)))
    by now apply in_map.
  eapply Permutation_in in Hn; [|apply names_perm].
  apply firstSeen_In, in_map_iff in Hn as [r [Hr Hin]]. eauto.
Qed.

Lemma row_trucks_positive p :
  In p (peopleRows peopleToGroup peopleToShift a) -> 1 <= PersonRow.trucks p.
Proof.
  intros H. rewrite (row_trucks _ H).
  destruct (row_has_record _ H) as [r [Hr Hk]].
  assert (Hin : In r (recordsOf (resolvePersonName h) (PersonRow.person p) rows)).
  { apply filter_In. split; [assumption|]. now apply String.eqb_eq. }
  destruct (recordsOf _ _ rows); [destruct Hin | simpl; lia].
Qed.

Lemma row_impounded_le p :
  In p (peopleRows peopleToGroup peopleToShift a) ->
  PersonRow.impounded p <= PersonRow.trucks p.
Proof.
  intros H. rewrite (row_trucks _ H), (row_impounded _ H).
  apply recordsOf_impounded_le.
Qed.

Lemma trucks_sum :
  list_sum (map PersonRow.trucks (peopleRows peopleToGroup peopleToShift a))
  = List.length rows.
Proof.
  unfold peopleRows. rewrite map_map. simpl.
  destruct (ReportFacts.final_fields h peopleToGroup peopleToShift rows Hloop)
    as (_ & _ & Hp & _).
  rewrite Hp. apply countsBy_sum_over.
  rewrite <- StringSort.Permuted_sort. apply keys_countsBy.
Qed.

Lemma impounded_sum :
  list_sum (map PersonRow.impounded (peopleRows peopleToGroup peopleToShift a))
  = List.length (impoundedRows rows).
Proof.
  unfold peopleRows. rewrite map_map. simpl.
  destruct (ReportFacts.final_fields h peopleToGroup peopleToShift rows Hloop)
    as (_ & _ & Hp & _).
  destruct (loop_fields_more h peopleToGroup peopleToShift _ _ Hloop) as (Hi & _).
  simpl in Hi. rewrite Hp, Hi. apply countsIf_sum_over.
  rewrite <- StringSort.Permuted_sort. apply keys_countsBy.
Qed.

End WithInputs.

End TableFacts.

(** The per-person table has one row for each person that some record
    resolves to, in strictly ascending order of the names, so no name
    comes twice. *)
Theorem people_table_lists_each_person_once_on_maps
    (h : Host) (peopleToGroup peopleToShift : obj string) (rows : list Row.t)
    (rep : Report.t) :
  computeAdvancedAnalytics h peopleToGroup peopleToShift rows = Ok rep ->
  StronglySorted (fun x y => String.compare x y = Lt)
    (map PersonRow.person (Basic.peopleRows (Report.basic rep)))
  /\ (forall k,
        In k (map PersonRow.person (Basic.peopleRows (Report.basic rep)))
        <-> exists r, In r rows /\ resolvePersonName h r = k)
  /\ List.length (Basic.peopleRows (Report.basic rep))
     = List.length (keys (Basic.perPerson (Report.basic rep))).
Proof.
  intros Hrep. open_report Hrep a Hloop. simpl.
  split; [|split].
  - apply (@TableFacts.names_strictly_sorted h peopleToGroup peopleToShift rows a Hloop).
  - intros k.
    pose proof (@TableFacts.names_perm h peopleToGroup peopleToShift rows a Hloop) as HP.
    split.
    + intros Hk. eapply Permutation_in in Hk; [|exact HP].
      apply BucketFacts.firstSeen_In, in_map_iff in Hk as [r [Hr Hin]]. eauto.
    + intros [r [Hr <-]]. eapply Permutation_in; [symmetry; exact HP|].
      now apply BucketFacts.firstSeen_In, in_map.
  - unfold peopleRows. rewrite length_map.
    apply Permutation_length. symmetry. apply StringSort.Permuted_sort.
Qed.

(** A row of the per-person table holds the number of the person's
    records and the number of the impounded ones among them: at least one
    truck, and no more impounded trucks than trucks.  The truck column of
    the table adds up to the total and the impounded column to the
    impounded total. *)
Theorem people_table_row_counts_on_maps
    (h : Host) (peopleToGroup peopleToShift : obj string) (rows : list Row.t)
    (rep : Report.t) :
  computeAdvancedAnalytics h peopleToGroup peopleToShift rows = Ok rep ->
  (forall p,
     In p (Basic.peopleRows (Report.basic rep)) ->
     PersonRow.trucks p
     = List.length (recordsOf (resolvePersonName h) (PersonRow.person p) rows)
     /\ PersonRow.impounded p
        = List.length
            (recordsOf (resolvePersonName h) (PersonRow.person p) (impoundedRows rows))
     /\ 1 <= PersonRow.trucks p
     /\ PersonRow.impounded p <= PersonRow.trucks p)
  /\ list_sum (map PersonRow.trucks (Basic.peopleRows (Report.basic rep)))
     = Basic.totalTrucks (Report.basic rep)
  /\ list_sum (map PersonRow.impounded (Basic.peopleRows (Report.basic rep)))
     = Basic.totalImpounded (Report.basic rep).
Proof.
  intros Hrep. open_report Hrep a Hloop. simpl.
  split; [|split].
  - intros p Hp. split; [|split; [|split]].
    + apply (@TableFacts.row_trucks h peopleToGroup peopleToShift rows a Hloop p Hp).
    + apply (@TableFacts.row_impounded h peopleToGroup peopleToShift rows a Hloop p Hp).
    + apply (@TableFacts.row_trucks_positive h peopleToGroup peopleToShift rows a
               Hloop p Hp).
    + apply (@TableFacts.row_impounded_le h peopleToGroup peopleToShift rows a
               Hloop p Hp).
  - destruct (ReportFacts.final_fields h peopleToGroup peopleToShift _ Hloop)
      as (Ht & _).
    rewrite Ht.
    apply (@TableFacts.trucks_sum h peopleToGroup peopleToShift rows a Hloop).
  - destruct (ReportFacts.final_fields h peopleToGroup peopleToShift _ Hloop)
      as (_ & Hi & _).
    rewrite Hi.
    apply (@TableFacts.impounded_sum h peopleToGroup peopleToShift rows a Hloop).
Qed.

(** The success rate that the table shows for a person,
    [(trucks - impounded) / trucks * 100], divides by a count that is not
    zero: it is a number from 0 to 100, and 100 exactly when none of the
    person's trucks was impounded. *)
Theorem success_rate_is_a_percentage_on_maps
    (h : Host) (peopleToGroup peopleToShift : obj string) (rows : list Row.t)
    (rep : Report.t) (p : PersonRow.t) :
  computeAdvancedAnalytics h peopleToGroup peopleToShift rows = Ok rep ->
  In p (Basic.peopleRows (Report.basic rep)) ->
  exists q, Display.successRate p = Fin q
            /\ (0 <= q <= 100)%Q
            /\ ((q == 100)%Q <-> PersonRow.impounded p = 0).
Proof.
  intros Hrep. open_report Hrep a Hloop. simpl. intros Hp.
  pose proof (@TableFacts.row_trucks_positive h peopleToGroup peopleToShift rows a
                Hloop p Hp) as Hpos.
  pose proof (@TableFacts.row_impounded_le h peopleToGroup peopleToShift rows a
                Hloop p Hp) as Hle.
  unfold Display.successRate, JsNumber.ofNat.
  set (t := PersonRow.trucks p) in *. set (i := PersonRow.impounded p) in *.
  simpl. rewrite (RateFacts.ofNat_nonzero Hpos).
  eexists. split; [reflexivity|].
  assert (Ht : (0 < inject_Z (Z.of_nat t))%Q).
  { rewrite <- (Zlt_Qlt 0). lia. }
  assert (Hi0 : (0 <= inject_Z (Z.of_nat i))%Q).
  { rewrite <- (Zle_Qle 0). lia. }
  assert (Hit : (inject_Z (Z.of_nat i) <= inject_Z (Z.of_nat t))%Q).
  { rewrite <- Zle_Qle. lia. }
  assert (Hne : ~ (inject_Z (Z.of_nat t) == 0)%Q).
  { intros E. rewrite E in Ht. now apply Qlt_irrefl in Ht. }
  set (T := inject_Z (Z.of_nat t)) in *. set (I := inject_Z (Z.of_nat i)) in *.
  assert (Heq : ((T - I) / T * 100 == 100 - I / T * 100)%Q) by (field; exact Hne).
  assert (Hfrac0 : (0 <= I / T)%Q).
  { apply Qle_shift_div_l; [assumption|]. now rewrite Qmult_0_l. }
  assert (Hfrac1 : (I / T <= 1)%Q).
  { apply Qle_shift_div_r; [assumption|]. now rewrite Qmult_1_l. }
  assert (HIF : (I == I / T * T)%Q) by (field; exact Hne).
  set (F := (I / T)%Q) in *.
  split; [|split].
  - rewrite Heq. split; lra.
  - intros E. rewrite Heq in E.
    assert (HF : (F == 0)%Q) by lra.
    rewrite HF, Qmult_0_l in HIF.
    unfold I, Qeq in HIF. simpl in HIF. lia.
  - intros E. rewrite Heq.
    assert (HF : (F == 0)%Q).
    { unfold F, I. rewrite E. simpl. field. exact Hne. }
    lra.
Qed.

(** ** The daily buckets *)

Module DailyFacts.

Import ObjFacts BucketFacts LoopFacts TallyFacts MoreLoopFacts ImpoundFacts DayFacts.

Lemma dayAt_set_same k d (o : obj DayActivity.t) : dayAt (set k d o) k = d.
Proof. unfold dayAt. now rewrite get_set_same. Qed.

Lemma dayAt_set_other k k' d (o : obj DayActivity.t) :
  k <> k' -> dayAt (set k d o) k' = dayAt o k'.
Proof. intros H. unfold dayAt. now rewrite get_set_other. Qed.

Lemma dayAt_countDay k k' (o : obj DayActivity.t) :
  dayAt (countDay k o) k'
  = if String.eqb k k'
    then {| DayActivity.total := DayActivity.total (dayAt o k') + 1;
            DayActivity.impounded := DayActivity.impounded (dayAt o k') |}
    else dayAt o k'.
Proof.
  unfold countDay. destruct (String.eqb k k') eqn:E.
  - apply String.eqb_eq in E. subst k'. rewrite dayAt_set_same. reflexivity.
  - apply String.eqb_neq in E. now apply dayAt_set_other.
Qed.

Lemma dayAt_countDayImpounded k k' (o : obj DayActivity.t) :
  get k o <> None ->
  dayAt (countDayImpounded k o) k'
  = if String.eqb k k'
    then {| DayActivity.total := DayActivity.total (dayAt o k');
            DayActivity.impounded := DayActivity.impounded (dayAt o k') + 1 |}
    else dayAt o k'.
Proof.
  intros Hk. unfold countDayImpounded.
  destruct (get k o) as [d|] eqn:G; [|contradiction].
  destruct (String.eqb k k') eqn:E.
  - apply String.eqb_eq in E. subst k'. rewrite dayAt_set_same.
    unfold dayAt. now rewrite G.
  - apply String.eqb_neq in E. now apply dayAt_set_other.
Qed.

Lemma countDay_has k (o : obj DayActivity.t) : get k (countDay k o) <> None.
Proof. unfold countDay. now rewrite get_set_same. Qed.

(** A day bucket holds the number of the day's records and the number of
    the impounded ones among them. *)
Lemma dailyOf_dayAt h k rows : forall o,
  DayActivity.total (dayAt (dailyOf h rows o) k)
  = DayActivity.total (dayAt o k) + List.length (recordsOf (dayKey h) k rows)
  /\ DayActivity.impounded (dayAt (dailyOf h rows o) k)
     = DayActivity.impounded (dayAt o k)
       + List.length (recordsOf (dayKey h) k (impoundedRows rows)).
Proof.
  induction rows as [|r rows IH]; intros o; [simpl; lia|].
  unfold dailyOf in *. simpl fold_left.
  match goal with
  | |- context [fold_left _ rows ?o'] => destruct (IH o') as [IH1 IH2]
  end.
  rewrite IH1, IH2. unfold recordsOf, impoundedRows. simpl filter.
  destruct (truthy (Row.impounded r)) eqn:Ei; simpl filter.
  - rewrite dayAt_countDayImpounded by apply countDay_has.
    rewrite dayAt_countDay.
    destruct (String.eqb (dayKey h r) k); simpl; lia.
  - rewrite dayAt_countDay.
    destruct (String.eqb (dayKey h r) k); simpl; lia.
Qed.

Lemma dailyOf_get_None h k rows :
  get k (dailyOf h rows []) = None <-> recordsOf (dayKey h) k rows = [].
Proof.
  rewrite get_None_iff, dailyOf_keys. simpl.
  fold (firstSeen (map (dayKey h) rows)).
  rewrite <- (countsBy_get_None (dayKey h) k rows), get_None_iff, countsBy_keys.
  reflexivity.
Qed.

Lemma dailyOf_get h k rows :
  get k (dailyOf h rows [])
  = match recordsOf (dayKey h) k rows with
    | [] => None
    | r :: l =>
        Some {| DayActivity.total := List.length (r :: l);
                DayActivity.impounded := List.length (impoundedRows (r :: l)) |}
    end.
Proof.
  destruct (dailyOf_dayAt h k rows []) as [H1 H2].
  rewrite recordsOf_impounded in H2.
  destruct (recordsOf (dayKey h) k rows) as [|r l] eqn:E.
  - now apply dailyOf_get_None.
  - unfold dayAt in H1, H2.
    destruct (get k (dailyOf h rows [])) as [[t i]|] eqn:G.
    + simpl in H1, H2. now rewrite H1, H2.
    + apply dailyOf_get_None in G. congruence.
Qed.

Section WithInputs.

Variable h : Host.
Variables peopleToGroup peopleToShift : obj string.
Variable rows : list Row.t.
Variable a : Acc.t.
Hypothesis Hloop :
  forOf (processRow h peopleToGroup peopleToShift) rows (Ok Acc.init) = Ok a.

Lemma daily_is_dailyOf : Acc.dailyActivity a = dailyOf h rows [].
Proof.
  now destruct (ReportFacts.final_fields h peopleToGroup peopleToShift rows Hloop)
    as (_ & _ & _ & _ & _ & _ & Hd).
Qed.

Lemma daily_total_sum (ks : list string) :
  Permutation ks (dayKeys h rows) ->
  list_sum (map (fun date => DayActivity.total (dayOf a date)) ks) = List.length rows.
Proof.
  intros HP.
  rewrite (map_ext _ (fun k => List.length (recordsOf (dayKey h) k rows))).
  - apply recordsOf_partition.
    + eapply Permutation_NoDup; [symmetry; exact HP | apply firstSeen_NoDup].
    + intros r Hr. eapply Permutation_in; [symmetry; exact HP|].
      now apply firstSeen_In, in_map.
  - intros k. unfold dayOf. rewrite daily_is_dailyOf.
    destruct (dailyOf_dayAt h k rows []) as [H1 _]. exact H1.
Qed.

Lemma daily_impounded_sum (ks : list string) :
  Permutation ks (dayKeys h rows) ->
  list_sum (map (fun date => DayActivity.impounded (dayOf a date)) ks)
  = List.length (impoundedRows rows).
Proof.
  intros HP.
  rewrite (map_ext _ (fun k => List.length (recordsOf (dayKey h) k (impoundedRows rows)))).
  - apply recordsOf_partition.
    + eapply Permutation_NoDup; [symmetry; exact HP | apply firstSeen_NoDup].
    + intros r Hr. eapply Permutation_in; [symmetry; exact HP|].
      apply firstSeen_In, in_map. unfold impoundedRows in Hr.
      now apply filter_In in Hr as [Hr _].
  - intros k. unfold dayOf. rewrite daily_is_dailyOf.
    destruct (dailyOf_dayAt h k rows []) as [_ H2]. exact H2.
Qed.

End WithInputs.

Lemma Forall2_map_le (A : Type) (f g : A -> nat) (l : list A) :
  (forall x, f x <= g x) -> Forall2 le (map f l) (map g l).
Proof. intros H. induction l; simpl; constructor; auto. Qed.

End DailyFacts.

(** The entry of [dailyActivity] under a day key holds the number of
    records of that day and the number of impounded ones among them, and
    a day without a record has no entry. *)
Theorem daily_activity_counts_the_days_records_on_maps
    (h : Host) (peopleToGroup peopleToShift : obj string) (rows : list Row.t)
    (rep : Report.t) (k : string) :
  computeAdvancedAnalytics h peopleToGroup peopleToShift rows = Ok rep ->
  get k (Report.dailyActivity rep)
  = match recordsOf (dayKey h) k rows with
    | [] => None
    | r :: l =>
        Some {| DayActivity.total := List.length (r :: l);
                DayActivity.impounded := List.length (impoundedRows (r :: l)) |}
    end.
Proof.
  intros Hrep. open_report Hrep a Hloop. simpl.
  rewrite (@DailyFacts.daily_is_dailyOf h peopleToGroup peopleToShift rows a Hloop).
  apply DailyFacts.dailyOf_get.
Qed.

(** A trend series accounts for every record: the daily counts add up
    to the total, the daily impounded counts to the impounded total, and
    on no day are there more impounded trucks than trucks. *)
Theorem trend_series_sum_to_totals_on_maps
    (h : Host) (peopleToGroup peopleToShift : obj string) (rows : list Row.t)
    (rep : Report.t) (tr : Trends.t) :
  computeAdvancedAnalytics h peopleToGroup peopleToShift rows = Ok rep ->
  Report.trends rep = Some tr ->
  list_sum (Trends.dailyCounts tr) = Basic.totalTrucks (Report.basic rep)
  /\ list_sum (Trends.dailyImpounded tr) = Basic.totalImpounded (Report.basic rep)
  /\ Forall2 le (Trends.dailyImpounded tr) (Trends.dailyCounts tr).
Proof.
  intros Hrep. open_report Hrep a Hloop. simpl. intros Htr.
  destruct (ReportFacts.final_fields h peopleToGroup peopleToShift _ Hloop)
    as (Ht & Hi & _).
  pose proof (@DayFacts.sortedDates_perm h peopleToGroup peopleToShift rows a Hloop)
    as HP.
  unfold trends in Htr. destruct (1 <? _); [|discriminate].
  injection Htr as <-. simpl. rewrite Ht, Hi.
  split; [|split].
  - apply (@DailyFacts.daily_total_sum h peopleToGroup peopleToShift rows a Hloop _ HP).
  - apply (@DailyFacts.daily_impounded_sum h peopleToGroup peopleToShift rows a Hloop _ HP).
  - apply DailyFacts.Forall2_map_le. intros k. unfold dayOf.
    rewrite (@DailyFacts.daily_is_dailyOf h peopleToGroup peopleToShift rows a Hloop).
    destruct (DailyFacts.dailyOf_dayAt h k rows []) as [H1 H2].
    unfold dayAt in H1, H2. rewrite H1, H2. simpl.
    apply ImpoundFacts.recordsOf_impounded_le.
Qed.

(** ** The most productive group *)

Module GroupFacts.

Import ObjFacts BucketFacts LoopFacts TallyFacts OrderFacts.
Local Open Scope list_scope.

(** The count reduction keeps the first entry of the greatest count. *)
Lemma count_first_max (l : list (string * nat)) : forall m,
  (fold_left moreCount l m = m /\ forall e, In e l -> snd e <= snd m)
  \/ exists l1 w l2,
       l = l1 ++ w :: l2
       /\ fold_left moreCount l m = w
       /\ snd m < snd w
       /\ (forall e, In e l1 -> snd e < snd w)
       /\ (forall e, In e l2 -> snd e <= snd w).
Proof.
  induction l as [|x l IH]; simpl; intros m.
  - left. split; [reflexivity | intros e []].
  - unfold moreCount at 2 4.
    destruct (snd m <? snd x) eqn:E.
    + apply Nat.ltb_lt in E. right.
      destruct (IH x) as [[Hres Hall] | (l1 & w & l2 & -> & Hres & Hw & H1 & H2)].
      * exists [], x, l. simpl. repeat split; try assumption. intros e [].
      * exists (x :: l1), w, l2. simpl.
        split; [reflexivity|]. split; [assumption|]. split; [lia|].
        split; [|assumption]. intros e [<- | He]; auto.
    + apply Nat.ltb_ge in E.
      destruct (IH m) as [[Hres Hall] | (l1 & w & l2 & -> & Hres & Hw & H1 & H2)].
      * left. split; [assumption|]. intros e [<- | He]; auto.
      * right. exists (x :: l1), w, l2. simpl.
        split; [reflexivity|]. split; [assumption|]. split; [assumption|].
        split; [|assumption]. intros e [<- | He]; auto. lia.
Qed.

Lemma get_In_entries (V : Type) (o : obj V) k v :
  get k o = Some v -> In (k, v) (entries o).
Proof.
  intros H. apply get_Some_In in H.
  eapply Permutation_in; [symmetry; apply entries_perm | exact H].
Qed.

Lemma In_entries_get (V : Type) (o : obj V) k v :
  NoDup (map fst o) -> In (k, v) (entries o) -> get k o = Some v.
Proof.
  intros Hnd H. apply In_get; [assumption|].
  eapply Permutation_in; [apply entries_perm | exact H].
Qed.

Lemma countsBy_NoDup key rows : NoDup (map fst (countsBy key rows [])).
Proof. rewrite countsBy_keys. apply firstSeen_NoDup. Qed.

Lemma recordsOf_length_le key k rows :
  List.length (recordsOf key k rows) <= List.length rows.
Proof. apply filter_length_le. Qed.

(** Among the entries of a counter of a list that is not empty, the
    reduction selects one of the greatest count, and the first of them. *)
Lemma top_entry key (rows : list Row.t) :
  rows <> [] ->
  let o := countsBy key rows [] in
  let w := fold_left moreCount (entries o) ("", 0) in
  get (fst w) o = Some (snd w)
  /\ 1 <= snd w <= List.length rows
  /\ forall g n,
       get g o = Some n ->
       n <= snd w /\ (n = snd w -> g <> fst w -> before (keys o) (fst w) g).
Proof.
  intros Hne o w.
  pose proof (countsBy_NoDup key rows) as Hnd. fold o in Hnd.
  destruct (count_first_max (entries o) ("", 0))
    as [[Hres Hall] | (l1 & x & l2 & Hl & Hres & Hx & H1 & H2)].
  - exfalso. destruct rows as [|r rows]; [congruence|].
    destruct (countsBy_get key (r :: rows) r (or_introl eq_refl)) as [n [Hg Hn]].
    fold o in Hg. apply get_In_entries, Hall in Hg. simpl in Hg. lia.
  - fold w in Hres. rewrite Hres.
    assert (Hxin : In x (entries o)).
    { rewrite Hl. apply in_or_app. right. now left. }
    assert (Hgx : get (fst x) o = Some (snd x)).
    { apply In_entries_get; [assumption|]. now destruct x. }
    split; [assumption|]. split.
    + simpl in Hx. split; [lia|].
      pose proof (countsBy_get_count key (fst x) rows []) as Hc.
      fold o in Hc. rewrite Hgx in Hc. simpl in Hc. rewrite Hc.
      apply recordsOf_length_le.
    + intros g n Hg. apply get_In_entries in Hg. rewrite Hl in Hg.
      assert (Hnd' : NoDup (map fst (l1 ++ x :: l2))).
      { rewrite <- Hl. now apply NoDup_fst_entries. }
      split.
      * apply in_app_or in Hg as [Hg | [Hg | Hg]].
        -- apply H1 in Hg. simpl in Hg. lia.
        -- rewrite Hg. simpl. lia.
        -- now apply H2 in Hg.
      * intros Hn Hgx'.
        destruct (@NoDup_fst_split _ l1 l2 x g n Hnd' Hg Hgx') as [[Hg1 _] | [_ Hg1]].
        -- apply H1 in Hg1. simpl in Hg1. lia.
        -- exists (map fst l1), (map fst l2). unfold keys.
           rewrite Hl, map_app. simpl. auto.
Qed.

Lemma percentage_positive (k n : nat) :
  0 < k -> 0 < n -> (0 < inject_Z (Z.of_nat k) / inject_Z (Z.of_nat n) * 100)%Q.
Proof.
  intros Hk Hn.
  assert (HK : (0 < inject_Z (Z.of_nat k))%Q) by (rewrite <- (Zlt_Qlt 0); lia).
  assert (HN : (0 < inject_Z (Z.of_nat n))%Q) by (rewrite <- (Zlt_Qlt 0); lia).
  apply Qmult_lt_0_compat; [|reflexivity].
  apply Qlt_shift_div_l; [assumption|]. now rewrite Qmult_0_l.
Qed.

Lemma countsBy_key_In key rows k :
  In k (map fst (countsBy key rows [])) <-> exists r, In r rows /\ key r = k.
Proof.
  rewrite countsBy_keys. simpl. fold (firstSeen (map key rows)).
  rewrite firstSeen_In, in_map_iff. split; intros [r [H1 H2]]; eauto.
Qed.

Lemma assigned_not_empty (mapping : obj string) (p : string) :
  assigned mapping p <> "".
Proof.
  unfold assigned. destruct (get p mapping) as [g|]; [|discriminate].
  destruct (String.eqb g "") eqn:E; [discriminate|]. now apply String.eqb_neq.
Qed.

End GroupFacts.

(** When there are records, [topGroup] is a group of the greatest
    record count, first among the groups of that count in the order in
    which [Object.entries(perGroupCounts)] lists them; it has at least
    one truck, and its percentage of the total is above 0 and at most
    100. *)
Theorem top_group_has_the_most_trucks_on_maps
    (h : Host) (peopleToGroup peopleToShift : obj string) (rows : list Row.t)
    (rep : Report.t) :
  computeAdvancedAnalytics h peopleToGroup peopleToShift rows = Ok rep ->
  rows <> [] ->
  let top := Stats.topGroup (Report.stats rep) in
  get (TopGroup.name top) (Basic.perGroup (Report.basic rep))
  = Some (TopGroup.trucks top)
  /\ 1 <= TopGroup.trucks top <= Basic.totalTrucks (Report.basic rep)
  /\ (forall g n,
        get g (Basic.perGroup (Report.basic rep)) = Some n ->
        n <= TopGroup.trucks top
        /\ (n = TopGroup.trucks top -> g <> TopGroup.name top ->
            before (keys (Basic.perGroup (Report.basic rep))) (TopGroup.name top) g))
  /\ exists q, TopGroup.percentage top = Fin q /\ (0 < q <= 100)%Q.
Proof.
  intros Hrep Hne. open_report Hrep a Hloop. simpl.
  destruct (ReportFacts.final_fields h peopleToGroup peopleToShift _ Hloop)
    as (Ht & _ & _ & Hg & _).
  unfold topGroupEntry. rewrite Ht, Hg.
  destruct (GroupFacts.top_entry (bucketOf h peopleToGroup) Hne) as (H1 & H2 & H3).
  split; [exact H1|]. split; [exact H2|]. split; [exact H3|].
  assert (Hpos : 0 < List.length rows) by (destruct rows; [congruence | simpl; lia]).
  apply Nat.ltb_lt in Hpos as Hpos'. rewrite Hpos'.
  rewrite (RateFacts.ofNat_nonzero Hpos). simpl.
  eexists. split; [reflexivity|]. split.
  - apply GroupFacts.percentage_positive; lia.
  - apply RateFacts.percentage_bounds; lia.
Qed.

(** ** The average per person *)

Module AverageFacts.

Import ObjFacts BucketFacts LoopFacts TallyFacts KeyFacts.

Lemma firstSeen_length (l : list string) : List.length (firstSeen l) <= List.length l.
Proof.
  apply NoDup_incl_length; [apply firstSeen_NoDup|].
  intros x Hx. now apply firstSeen_In.
Qed.

Section WithInputs.

Variable h : Host.
Variables peopleToGroup peopleToShift : obj string.
Variable rows : list Row.t.
Variable a : Acc.t.
Hypothesis Hloop :
  forOf (processRow h peopleToGroup peopleToShift) rows (Ok Acc.init) = Ok a.

Lemma person_keys_length :
  List.length (keys (Acc.perPersonCounts a)) <= List.length rows.
Proof.
  rewrite keys_length, <- (length_map fst).
  rewrite (@person_keys h peopleToGroup peopleToShift rows a Hloop).
  rewrite <- (length_map (resolvePersonName h) rows). apply firstSeen_length.
Qed.

Lemma uniquePeople_le : uniquePeople h a <= List.length rows.
Proof.
  etransitivity; [|apply person_keys_length].
  unfold uniquePeople. apply filter_length_le.
Qed.

Lemma uniquePeople_zero :
  uniquePeople h a = 0 -> forall r, In r rows -> resolvePersonName h r = "Unknown".
Proof.
  intros Hz r Hr.
  assert (Hk : In (resolvePersonName h r) (keys (Acc.perPersonCounts a))).
  { apply (@person_key_In h peopleToGroup peopleToShift rows a Hloop). eauto. }
  destruct (in_dec string_dec "Unknown" (keys (Acc.perPersonCounts a))) as [Hin | Hout].
  - pose proof (@uniquePeople_with_Unknown h peopleToGroup peopleToShift rows a
                  Hloop Hin) as Hlen.
    rewrite Hz in Hlen. simpl in Hlen.
    destruct (keys (Acc.perPersonCounts a)) as [|k [|k' t]]; simpl in *;
      try discriminate.
    destruct Hin as [<- | []]. destruct Hk as [<- | []]. reflexivity.
  - pose proof (@uniquePeople_without_Unknown h peopleToGroup peopleToShift rows a
                  Hloop Hout) as Hlen.
    rewrite Hz in Hlen.
    destruct (keys (Acc.perPersonCounts a)); [destruct Hk | discriminate].
Qed.

Lemma uniquePeople_positive r :
  In r rows -> resolvePersonName h r <> "Unknown" -> 0 < uniquePeople h a.
Proof.
  intros Hr Hne. destruct (uniquePeople h a) eqn:E; [|lia].
  exfalso. apply Hne. now apply uniquePeople_zero.
Qed.

End WithInputs.

End AverageFacts.

(** [uniquePeople] never exceeds the number of records.  When no
    record resolves to a name other than "Unknown" it is 0 and the
    average is 0; otherwise the average is the total number of records,
    those of "Unknown" included, divided by the number of named persons,
    and is at least 1. *)
Theorem average_is_zero_or_at_least_one_on_maps
    (h : Host) (peopleToGroup peopleToShift : obj string) (rows : list Row.t)
    (rep : Report.t) :
  computeAdvancedAnalytics h peopleToGroup peopleToShift rows = Ok rep ->
  Stats.uniquePeople (Report.stats rep) <= Basic.totalTrucks (Report.basic rep)
  /\ ((Stats.uniquePeople (Report.stats rep) = 0
       /\ Stats.avgTrucksPerPerson (Report.stats rep) = Fin 0
       /\ forall r, In r rows -> resolvePersonName h r = "Unknown")
      \/ (0 < Stats.uniquePeople (Report.stats rep)
          /\ (exists r, In r rows /\ resolvePersonName h r <> "Unknown")
          /\ exists q,
               Stats.avgTrucksPerPerson (Report.stats rep) = Fin q
               /\ (q * inject_Z (Z.of_nat (Stats.uniquePeople (Report.stats rep)))
                   == inject_Z (Z.of_nat (List.length rows)))%Q
               /\ (1 <= q)%Q)).
Proof.
  intros Hrep. open_report Hrep a Hloop. simpl.
  destruct (ReportFacts.final_fields h peopleToGroup peopleToShift _ Hloop)
    as (Ht & _).
  pose proof (@AverageFacts.uniquePeople_le h peopleToGroup peopleToShift rows a Hloop)
    as Hle.
  rewrite Ht. split; [assumption|].
  unfold avgTrucksPerPerson. rewrite Ht.
  destruct (uniquePeople h a) as [|u] eqn:Eu.
  - left. split; [reflexivity|]. split; [reflexivity|].
    now apply (@AverageFacts.uniquePeople_zero h peopleToGroup peopleToShift rows a Hloop).
  - right. split; [lia|]. split.
    + destruct (existsb (fun r => negb (String.eqb (resolvePersonName h r) "Unknown"))
                        rows) eqn:Ex.
      * apply existsb_exists in Ex as [r [Hr Hn]]. exists r. split; [assumption|].
        apply negb_true_iff in Hn. now apply String.eqb_neq.
      * exfalso.
        assert (Hall : forall r, In r rows -> resolvePersonName h r = "Unknown").
        { intros r Hr. destruct (String.eqb (resolvePersonName h r) "Unknown") eqn:E.
          - now apply String.eqb_eq.
          - assert (existsb
                      (fun r => negb (String.eqb (resolvePersonName h r) "Unknown"))
                      rows = true); [|congruence].
            apply existsb_exists. exists r. split; [assumption|]. now rewrite E. }
        pose proof (@KeyFacts.person_key_In h peopleToGroup peopleToShift rows a Hloop)
          as Hkey.
        assert (Hf : filter (fun p => negb (isPlaceholderName h (VStr p))
                                      && negb (String.eqb p "Unknown"))
                            (keys (Acc.perPersonCounts a)) = []).
        { destruct (filter _ _) as [|k l] eqn:E; [reflexivity|]. exfalso.
          assert (Hk : In k (filter (fun p => negb (isPlaceholderName h (VStr p))
                                              && negb (String.eqb p "Unknown"))
                                    (keys (Acc.perPersonCounts a))))
            by (rewrite E; now left).
          apply filter_In in Hk as [Hk Hp]. apply Hkey in Hk as [r [Hr Hres]].
          rewrite <- Hres, (Hall r Hr) in Hp. discriminate. }
        unfold uniquePeople in Eu. rewrite Hf in Eu. discriminate.
    + assert (Hpos : 0 < S u) by lia.
      change (0 <? S u) with true. cbv iota.
      rewrite (RateFacts.div_ofNat _ Hpos).
      eexists. split; [reflexivity|].
      assert (HU : (0 < inject_Z (Z.of_nat (S u)))%Q) by (rewrite <- (Zlt_Qlt 0); lia).
      assert (Hne : ~ (inject_Z (Z.of_nat (S u)) == 0)%Q).
      { intros E. rewrite E in HU. now apply Qlt_irrefl in HU. }
      split; [field; exact Hne|].
      apply Qle_shift_div_l; [assumption|]. rewrite Qmult_1_l.
      rewrite <- Zle_Qle. lia.
Qed.

(** ** Truck identifiers *)

Module TruckFacts.

Import ObjFacts BucketFacts LoopFacts TallyFacts MoreLoopFacts.

Lemma trackedIds_NoDup rows : forall ids, NoDup ids -> NoDup (trackedIds rows ids).
Proof.
  induction rows as [|r rows IH]; simpl; intros ids H; [assumption|].
  unfold trackedIds in *. simpl. apply IH.
  destruct (truckIdOf r); [now apply setAdd_NoDup | assumption].
Qed.

Lemma trackedIds_In rows t : forall ids,
  In t (trackedIds rows ids)
  <-> In t ids \/ exists r, In r rows /\ truckIdOf r = Some t.
Proof.
  induction rows as [|r rows IH]; intros ids.
  - simpl. split; [auto | intros [H | [r [[] _]]]; assumption].
  - unfold trackedIds in *. simpl fold_left. rewrite IH. split.
    + intros [H | [r' [Hr' Ht]]].
      * destruct (truckIdOf r) as [t'|] eqn:E; [|now left].
        apply setAdd_In in H as [-> | H]; [|now left].
        right. exists r. split; [now left | assumption].
      * right. exists r'. split; [now right | assumption].
    + intros [H | [r' [[<- | Hr'] Ht]]].
      * left. destruct (truckIdOf r); [apply setAdd_In; now right | assumption].
      * left. rewrite Ht. apply setAdd_In. now left.
      * right. eauto.
Qed.

Lemma trackedIds_length rows : forall ids,
  List.length (trackedIds rows ids) <= List.length ids + List.length rows.
Proof.
  induction rows as [|r rows IH]; intros ids; [simpl; lia|].
  unfold trackedIds in *. simpl fold_left.
  etransitivity; [apply IH|]. simpl.
  destruct (truckIdOf r); [|lia].
  unfold setAdd. destruct (existsb _ ids); [lia|]. rewrite length_app. simpl. lia.
Qed.

Lemma truckIdOf_Some r t :
  truckIdOf r = Some t
  <-> exists s, Row.truckId r = VStr s /\ trim s = t /\ t <> "".
Proof.
  unfold truckIdOf. split.
  - destruct (Row.truckId r) as [| | | |s]; try discriminate.
    destruct (String.eqb (trim s) "") eqn:E; [discriminate|].
    intros [= <-]. exists s. apply String.eqb_neq in E. auto.
  - intros [s [-> [<- Hne]]]. apply String.eqb_neq in Hne. now rewrite Hne.
Qed.

End TruckFacts.

(** [uniqueTrucks] is the number of distinct truck identifiers of the
    records, an identifier being the trimmed [truckId] string of a record
    when that is not empty; it never exceeds the number of records. *)
Theorem unique_trucks_counts_distinct_identifiers_on_maps
    (h : Host) (peopleToGroup peopleToShift : obj string) (rows : list Row.t)
    (rep : Report.t) :
  computeAdvancedAnalytics h peopleToGroup peopleToShift rows = Ok rep ->
  Stats.uniqueTrucks (Report.stats rep) <= Basic.totalTrucks (Report.basic rep)
  /\ exists ids,
       List.length ids = Stats.uniqueTrucks (Report.stats rep)
       /\ NoDup ids
       /\ forall t,
            In t ids
            <-> exists r s,
                  In r rows /\ Row.truckId r = VStr s /\ trim s = t /\ t <> "".
Proof.
  intros Hrep. open_report Hrep a Hloop. simpl.
  destruct (ReportFacts.final_fields h peopleToGroup peopleToShift _ Hloop)
    as (Ht & _).
  destruct (MoreLoopFacts.loop_fields_more h peopleToGroup peopleToShift _ _ Hloop)
    as (_ & _ & _ & Hids & _).
  simpl in Hids. rewrite Ht, Hids. split.
  - apply (TruckFacts.trackedIds_length rows []).
  - exists (trackedIds rows []). split; [reflexivity|]. split.
    + apply TruckFacts.trackedIds_NoDup. constructor.
    + intros t. rewrite TruckFacts.trackedIds_In. split.
      * intros [[] | [r [Hr Hid]]]. apply TruckFacts.truckIdOf_Some in Hid as [s Hs].
        eauto.
      * intros [r [s [Hr Hs]]]. right. exists r. split; [assumption|].
        apply TruckFacts.truckIdOf_Some. eauto.
Qed.

(** ** Keys of the revenue breakdowns *)

Module RevenueKeyFacts.

Import ObjFacts.

(** [Object.keys] depends on the keys and their order of insertion
    alone. *)
Lemma insertByIndex_fst (V W : Type) (e : string * V) (e' : string * W)
    (l : list (string * V)) (l' : list (string * W)) :
  fst e = fst e' -> map fst l = map fst l' ->
  map fst (insertByIndex e l) = map fst (insertByIndex e' l').
Proof.
  intros He. revert l'. induction l as [|x l IH]; intros [|x' l'] Hl;
    try discriminate Hl.
  - simpl. now rewrite He.
  - simpl in Hl. injection Hl as Hx Hl. simpl insertByIndex.
    rewrite <- He, <- Hx.
    destruct (indexOf (fst e) <=? indexOf (fst x))%Z.
    + simpl. now rewrite He, Hx, Hl.
    + simpl. rewrite Hx. f_equal. now apply IH.
Qed.

Lemma sortByIndex_fst (V W : Type) (l : list (string * V)) :
  forall l' : list (string * W),
  map fst l = map fst l' -> map fst (sortByIndex l) = map fst (sortByIndex l').
Proof.
  induction l as [|x l IH]; intros [|x' l'] Hl; try discriminate Hl;
    [reflexivity|].
  simpl in Hl. injection Hl as Hx Hl. simpl.
  apply insertByIndex_fst; [assumption | now apply IH].
Qed.

Lemma filter_fst (V W : Type) (p : string -> bool) (l : list (string * V)) :
  forall l' : list (string * W),
  map fst l = map fst l' ->
  map fst (filter (fun e => p (fst e)) l) = map fst (filter (fun e => p (fst e)) l').
Proof.
  induction l as [|x l IH]; intros [|x' l'] Hl; try discriminate Hl;
    [reflexivity|].
  simpl in Hl. injection Hl as Hx Hl. simpl. rewrite <- Hx.
  destruct (p (fst x)); simpl; [rewrite Hx; f_equal|]; now apply IH.
Qed.

Lemma keys_agree (V W : Type) (o : obj V) (o' : obj W) :
  map fst o = map fst o' -> keys o = keys o'.
Proof.
  intros H. unfold keys, entries. rewrite !map_app. f_equal.
  - apply sortByIndex_fst. now apply (filter_fst isArrayIndex).
  - now apply (filter_fst (fun k => negb (isArrayIndex k))).
Qed.

End RevenueKeyFacts.

(** The revenue breakdowns follow the count breakdowns: each person,
    group and shift with a count has a revenue entry and the other way
    round, the keys coming in the same order; the total revenue is the
    sum of the row revenues, added from the left to 0 in the order of the
    records. *)
Theorem revenue_breakdowns_follow_the_counts_on_maps
    (h : Host) (peopleToGroup peopleToShift : obj string) (rows : list Row.t)
    (rep : Report.t) :
  computeAdvancedAnalytics h peopleToGroup peopleToShift rows = Ok rep ->
  keys (Basic.perPersonRevenue (Report.basic rep))
  = keys (Basic.perPerson (Report.basic rep))
  /\ keys (Basic.perGroupRevenue (Report.basic rep))
     = keys (Basic.perGroup (Report.basic rep))
  /\ keys (Basic.perShiftRevenue (Report.basic rep))
     = keys (Basic.perShift (Report.basic rep))
  /\ Basic.totalRevenue (Report.basic rep) = sumFrom (Fin 0) (map rowRevenue rows).
Proof.
  intros Hrep. open_report Hrep a Hloop. simpl.
  destruct (ReportFacts.final_fields h peopleToGroup peopleToShift _ Hloop)
    as (_ & _ & Hp & Hg & Hs & Hpr & _).
  destruct (MoreLoopFacts.loop_fields_more h peopleToGroup peopleToShift _ _ Hloop)
    as (_ & _ & _ & _ & Hgr & Hsr & Htot).
  simpl in Hgr, Hsr, Htot. rewrite Hp, Hg, Hs, Hpr, Hgr, Hsr, Htot.
  repeat split; apply RevenueKeyFacts.keys_agree;
    now rewrite BucketFacts.revenueBy_keys, BucketFacts.countsBy_keys.
Qed.

(** ** Resolution of the person name *)

Module NameFacts.

Import PersonFacts.
Local Open Scope list_scope.

Section WithHost.

Variable h : Host.

(** The name is that of the first candidate that is accepted. *)
Lemma firstName_first (cs : list value) :
  (firstName h cs = "Unknown" /\ forall c, In c cs -> rejected h c)
  \/ exists pre c post,
       cs = pre ++ c :: post
       /\ (forall c', In c' pre -> rejected h c')
       /\ truthy c = true /\ isPlaceholderName h c = false
       /\ firstName h cs = trim (ToString h c).
Proof.
  induction cs as [|c cs IH]; simpl.
  - left. split; [reflexivity | intros c []].
  - destruct (truthy c) eqn:Et; simpl.
    + destruct (isPlaceholderName h c) eqn:Ep; simpl.
      * destruct IH as [[Hu Hall] | (pre & c0 & post & -> & Hpre & H1 & H2 & H3)].
        -- left. split; [assumption|]. intros c' [<- | Hc']; [now right | auto].
        -- right. exists (c :: pre), c0, post. simpl.
           split; [reflexivity|]. split; [|auto].
           intros c' [<- | Hc']; [now right | auto].
      * right. exists [], c, cs. simpl. split; [reflexivity|].
        split; [intros c' []|]. auto.
    + destruct IH as [[Hu Hall] | (pre & c0 & post & -> & Hpre & H1 & H2 & H3)].
      * left. split; [assumption|]. intros c' [<- | Hc']; [now left | auto].
      * right. exists (c :: pre), c0, post. simpl.
        split; [reflexivity|]. split; [|auto].
        intros c' [<- | Hc']; [now left | auto].
Qed.

Lemma accepted_not_empty (c : value) :
  isPlaceholderName h c = false -> trim (ToString h c) <> "".
Proof.
  unfold isPlaceholderName. intros H E.
  destruct c; try discriminate; rewrite E in H; discriminate.
Qed.

End WithHost.

End NameFacts.

(** ** The placeholder test *)

Module PlaceholderFacts.

Ltac each_char c := destruct c as [[] [] [] [] [] [] [] []]; reflexivity.

Lemma canonicalize_lower (c : ascii) : canonicalize (lowerChar c) = canonicalize c.
Proof. each_char c. Qed.

Lemma lower_dot (c : ascii) : Ascii.eqb (lowerChar c) "." = Ascii.eqb c ".".
Proof. each_char c. Qed.

Lemma optDot_cons (c : ascii) (l : list ascii) :
  optDot (c :: l) = if Ascii.eqb c "." then l else c :: l.
Proof. each_char c. Qed.

Lemma eqi_lower (pat c : ascii) : eqi pat (lowerChar c) = eqi pat c.
Proof. unfold eqi. now rewrite canonicalize_lower. Qed.

Lemma optDot_lower (l : list ascii) :
  optDot (map lowerChar l) = map lowerChar (optDot l).
Proof.
  destruct l as [|c l]; [reflexivity|]. cbn [map].
  rewrite !optDot_cons, lower_dot. now destruct (Ascii.eqb c ".").
Qed.

Lemma list_of_lower (s : string) :
  list_ascii_of_string (toLowerCase s) = map lowerChar (list_ascii_of_string s).
Proof. induction s as [|c s IH]; simpl; [reflexivity | now rewrite IH]. Qed.

Lemma naPattern_optDot (s : string) :
  naPattern s
  = match list_ascii_of_string s with
    | c :: r =>
        eqi "n" c &&
        match optDot r with
        | c' :: r' => eqi "a" c' && match optDot r' with [] => true | _ => false end
        | [] => false
        end
    | [] => false
    end.
Proof. reflexivity. Qed.

(** The pattern has the flag [i]. *)
Lemma naPattern_lower (s : string) : naPattern (toLowerCase s) = naPattern s.
Proof.
  rewrite !naPattern_optDot, list_of_lower.
  destruct (list_ascii_of_string s) as [|c r]; [reflexivity|]. cbn [map].
  rewrite eqi_lower, optDot_lower.
  destruct (optDot r) as [|c' r']; [reflexivity|]. cbn [map].
  rewrite eqi_lower, optDot_lower.
  now destruct (optDot r').
Qed.

Lemma lower_empty (s : string) : String.eqb (toLowerCase s) "" = String.eqb s "".
Proof. now destruct s. Qed.

(** The test depends on the trimmed and lower-cased string alone. *)
Lemma isPlaceholderName_text (h : Host) (s : string) :
  isPlaceholderName h (VStr s) = placeholderText (toLowerCase (trim s)).
Proof.
  unfold isPlaceholderName, placeholderText. simpl ToString.
  rewrite lower_empty, naPattern_lower.
  now destruct (String.eqb (trim s) "").
Qed.

End PlaceholderFacts.

(** ** The assignment and the performance alert *)

Module MoreAlertFacts.

Import ObjFacts BucketFacts LoopFacts TallyFacts KeyFacts CountFacts TableFacts.

Section WithInputs.

Variable h : Host.
Variables peopleToGroup peopleToShift : obj string.

Local Notation "'alertsOf'" := (alerts h peopleToGroup peopleToShift) (only parsing).

Lemma assignmentAlerts_alerts a :
  assignmentAlerts (alertsOf a) = assignmentAlert peopleToGroup peopleToShift a.
Proof.
  unfold alerts, assignmentAlerts. rewrite !filter_app.
  unfold impoundAlert, performanceAlert, assignmentAlert.
  destruct (JsNumber.gt _ (Fin 15)); [|destruct (JsNumber.gt _ (Fin 10))];
    destruct (0 <? List.length _); destruct (0 <? unassignedCount _ _ _);
    reflexivity.
Qed.

Lemma performanceAlerts_alerts a :
  performanceAlerts (alertsOf a) = performanceAlert h peopleToGroup peopleToShift a.
Proof.
  unfold alerts, performanceAlerts. rewrite !filter_app.
  unfold impoundAlert, performanceAlert, assignmentAlert.
  destruct (JsNumber.gt _ (Fin 15)); [|destruct (JsNumber.gt _ (Fin 10))];
    destruct (0 <? List.length _); destruct (0 <? unassignedCount _ _ _);
    reflexivity.
Qed.

Lemma alerts_length a : List.length (alertsOf a) <= 3.
Proof.
  unfold alerts. rewrite !length_app.
  unfold impoundAlert, performanceAlert, assignmentAlert.
  destruct (JsNumber.gt _ (Fin 15)); [|destruct (JsNumber.gt _ (Fin 10))];
    destruct (0 <? List.length _); destruct (0 <? unassignedCount _ _ _);
    simpl; lia.
Qed.

Lemma filter_map (A B : Type) (f : A -> B) (p : B -> bool) (l : list A) :
  filter p (map f l) = map f (filter (fun x => p (f x)) l).
Proof.
  induction l as [|x l IH]; simpl; [reflexivity|].
  destruct (p (f x)); simpl; now rewrite IH.
Qed.

Lemma filter_nonempty (A : Type) (p : A -> bool) (l : list A) :
  (0 <? List.length (filter p l)) = existsb p l.
Proof.
  induction l as [|x l IH]; simpl; [reflexivity|].
  destruct (p x); simpl; [reflexivity | assumption].
Qed.

Lemma existsb_map (A B : Type) (f : A -> B) (p : B -> bool) (l : list A) :
  existsb p (map f l) = existsb (fun x => p (f x)) l.
Proof. induction l as [|x l IH]; simpl; [reflexivity | now rewrite IH]. Qed.

Lemma existsb_firstSeen (p : string -> bool) (l : list string) :
  existsb p (firstSeen l) = existsb p l.
Proof.
  destruct (existsb p l) eqn:E.
  - apply existsb_exists in E as [x [Hx Hp]]. apply existsb_exists.
    exists x. split; [now apply firstSeen_In | assumption].
  - destruct (existsb p (firstSeen l)) eqn:E'; [|reflexivity].
    apply existsb_exists in E' as [x [Hx Hp]].
    assert (existsb p l = true); [|congruence].
    apply existsb_exists. exists x. split; [now apply firstSeen_In | assumption].
Qed.

Variable rows : list Row.t.
Variable a : Acc.t.
Hypothesis Hloop :
  forOf (processRow h peopleToGroup peopleToShift) rows (Ok Acc.init) = Ok a.

Lemma sorted_keys_perm :
  Permutation (StringSort.sort (keys (Acc.perPersonCounts a)))
              (firstSeen (map (resolvePersonName h) rows)).
Proof.
  rewrite <- StringSort.Permuted_sort.
  destruct (ReportFacts.final_fields h peopleToGroup peopleToShift rows Hloop)
    as (_ & _ & Hp & _).
  rewrite Hp. apply ImpoundFacts.keys_countsBy.
Qed.

Lemma unassignedCount_names :
  unassignedCount peopleToGroup peopleToShift a
  = List.length (filter (unassigned peopleToGroup peopleToShift)
                        (firstSeen (map (resolvePersonName h) rows))).
Proof.
  unfold unassignedCount, peopleRows. rewrite filter_map, length_map. simpl.
  apply Permutation_length, Permutation_filter, sorted_keys_perm.
Qed.

Lemma assignment_alert_present :
  List.length (assignmentAlert peopleToGroup peopleToShift a)
  = if existsb (fun r => unassigned peopleToGroup peopleToShift (resolvePersonName h r))
               rows
    then 1 else 0.
Proof.
  unfold assignmentAlert. rewrite unassignedCount_names, filter_nonempty.
  rewrite existsb_firstSeen, existsb_map.
  now destruct (existsb _ rows).
Qed.

End WithInputs.

(** The comparison [trucks < average * 0.5] in whole numbers. *)
Lemma lt_half_average (t u total : nat) :
  0 < u ->
  JsNumber.lt (JsNumber.ofNat t)
    (JsNumber.mul (JsNumber.div (JsNumber.ofNat total) (JsNumber.ofNat u))
                  (Fin (1 # 2)))
  = (2 * u * t <? total).
Proof.
  intros Hu. rewrite (RateFacts.div_ofNat _ Hu).
  unfold JsNumber.ofNat, JsNumber.lt, JsNumber.mul, JsNumber.gt.
  assert (HU : (0 < inject_Z (Z.of_nat u))%Q) by (rewrite <- (Zlt_Qlt 0); lia).
  assert (Hne : ~ (inject_Z (Z.of_nat u) == 0)%Q).
  { intros E. rewrite E in HU. now apply Qlt_irrefl in HU. }
  assert (Hdouble :
    (inject_Z (Z.of_nat total) / inject_Z (Z.of_nat u) * (1 # 2) * 2
     == inject_Z (Z.of_nat total) / inject_Z (Z.of_nat u))%Q) by (field; exact Hne).
  destruct (Nat.ltb_spec (2 * u * t) total) as [E | E].
  - apply SelectionFacts.gtQ_iff.
    apply (Qmult_lt_r _ _ 2); [reflexivity|]. rewrite Hdouble.
    apply Qlt_shift_div_l; [assumption|].
    change 2%Q with (inject_Z 2).
    rewrite <- !inject_Z_mult, <- Zlt_Qlt. lia.
  - apply negb_false_iff, Qle_bool_iff.
    apply (Qmult_le_r _ _ 2); [reflexivity|]. rewrite Hdouble.
    apply Qle_shift_div_r; [assumption|].
    change 2%Q with (inject_Z 2).
    rewrite <- !inject_Z_mult, <- Zle_Qle. lia.
Qed.

End MoreAlertFacts.

(** An alert titled "Assignment Needed" is raised exactly when some
    record resolves to a person, "Unknown" included, that the group or
    the shift mapping leaves unassigned; its message counts these
    persons, not their records.  A report has at most three alerts. *)
Theorem assignment_alert_counts_unassigned_people_on_maps
    (h : Host) (peopleToGroup peopleToShift : obj string) (rows : list Row.t)
    (rep : Report.t) :
  computeAdvancedAnalytics h peopleToGroup peopleToShift rows = Ok rep ->
  List.length (Report.alerts rep) <= 3
  /\ List.length (assignmentAlerts (Report.alerts rep))
     = (if existsb (fun r => unassigned peopleToGroup peopleToShift
                               (resolvePersonName h r)) rows
        then 1 else 0)
  /\ forall al,
       In al (assignmentAlerts (Report.alerts rep)) ->
       Alert.type al = "info"
       /\ Alert.message al
          = JsString.ofNat
              (List.length (filter (unassigned peopleToGroup peopleToShift)
                                   (firstSeen (map (resolvePersonName h) rows))))
            ++ " team members need group or shift assignments for better organization.".
Proof.
  intros Hrep. open_report Hrep a Hloop. simpl.
  split; [apply MoreAlertFacts.alerts_length|].
  rewrite MoreAlertFacts.assignmentAlerts_alerts.
  split.
  - apply (@MoreAlertFacts.assignment_alert_present h peopleToGroup peopleToShift
             rows a Hloop).
  - intros al Hal. unfold assignmentAlert in Hal.
    rewrite (@MoreAlertFacts.unassignedCount_names h peopleToGroup peopleToShift
               rows a Hloop) in Hal.
    destruct (0 <? _); [|destruct Hal].
    destruct Hal as [<- | []]. split; reflexivity.
Qed.

(** An alert titled "Performance Gap Identified" is raised exactly
    when there is a named person and some row of the per-person table
    has fewer than half of [total / uniquePeople] trucks, which is
    [2 * uniquePeople * trucks < total]; this is never the case of every
    row. *)
Theorem performance_alert_is_below_half_the_average_on_maps
    (h : Host) (peopleToGroup peopleToShift : obj string) (rows : list Row.t)
    (rep : Report.t) :
  computeAdvancedAnalytics h peopleToGroup peopleToShift rows = Ok rep ->
  rows <> [] ->
  let below :=
    belowHalf (Stats.uniquePeople (Report.stats rep))
              (Basic.totalTrucks (Report.basic rep)) in
  List.length (performanceAlerts (Report.alerts rep))
  = (if existsb below (Basic.peopleRows (Report.basic rep)) then 1 else 0)
  /\ exists p, In p (Basic.peopleRows (Report.basic rep)) /\ below p = false.
Proof.
  intros Hrep Hne. open_report Hrep a Hloop. simpl.
  rewrite MoreAlertFacts.performanceAlerts_alerts.
  assert (Hunder : underPerformers h peopleToGroup peopleToShift a
                   = filter (belowHalf (uniquePeople h a) (Acc.total a))
                            (peopleRows peopleToGroup peopleToShift a)).
  { unfold underPerformers. apply filter_ext. intros p.
    unfold avgTrucksPerPerson, belowHalf.
    destruct (Nat.ltb_spec 0 (uniquePeople h a)) as [Hu | Hu].
    - now rewrite MoreAlertFacts.lt_half_average.
    - simpl. unfold JsNumber.lt, JsNumber.gt, JsNumber.ofNat, JsNumber.mul.
      apply negb_false_iff, Qle_bool_iff.
      rewrite Qmult_0_l. rewrite <- (Zle_Qle 0). lia. }
  split.
  - unfold performanceAlert. rewrite Hunder, MoreAlertFacts.filter_nonempty.
    now destruct (existsb _ _).
  - destruct (existsb (fun p => negb (belowHalf (uniquePeople h a) (Acc.total a) p))
                      (peopleRows peopleToGroup peopleToShift a)) eqn:Ex.
    + apply existsb_exists in Ex as [p [Hp Hb]]. exists p.
      split; [assumption|]. now apply negb_true_iff.
    + exfalso.
      assert (Hall : forall p, In p (peopleRows peopleToGroup peopleToShift a) ->
                               belowHalf (uniquePeople h a) (Acc.total a) p = true).
      { intros p Hp.
        destruct (belowHalf (uniquePeople h a) (Acc.total a) p) eqn:E;
          [reflexivity|].
        assert (existsb
                  (fun p => negb (belowHalf (uniquePeople h a) (Acc.total a) p))
                  (peopleRows peopleToGroup peopleToShift a) = true); [|congruence].
        apply existsb_exists. exists p. split; [assumption|]. now rewrite E. }
      destruct (ReportFacts.final_fields h peopleToGroup peopleToShift _ Hloop)
        as (Ht & _).
      pose proof (@TableFacts.trucks_sum h peopleToGroup peopleToShift rows a Hloop)
        as Hsum.
      assert (Hlen : List.length (peopleRows peopleToGroup peopleToShift a)
                     <= uniquePeople h a + 1).
      { unfold peopleRows. rewrite length_map.
        rewrite <- (Permutation_length (StringSort.Permuted_sort _)).
        destruct (in_dec string_dec "Unknown" (keys (Acc.perPersonCounts a)))
          as [Hin | Hout].
        - rewrite <- (@KeyFacts.uniquePeople_with_Unknown h peopleToGroup
                        peopleToShift rows a Hloop Hin). lia.
        - rewrite <- (@KeyFacts.uniquePeople_without_Unknown h peopleToGroup
                        peopleToShift rows a Hloop Hout). lia. }
      assert (Hpos : 0 < List.length rows)
        by (destruct rows; [congruence | simpl; lia]).
      rewrite Ht in Hall.
      assert (Hbound : forall l : list PersonRow.t,
                (forall p, In p l ->
                           belowHalf (uniquePeople h a) (List.length rows) p = true) ->
                l <> [] ->
                2 * uniquePeople h a * list_sum (map PersonRow.trucks l)
                < List.length l * List.length rows).
      { clear -Hpos. induction l as [|p l IH]; intros Hl Hn; [congruence|].
        assert (Hp : 2 * uniquePeople h a * PersonRow.trucks p < List.length rows).
        { specialize (Hl p (or_introl eq_refl)). unfold belowHalf in Hl.
          apply andb_true_iff in Hl as [_ Hl]. now apply Nat.ltb_lt in Hl. }
        destruct l as [|q l]; [simpl in *; lia|].
        assert (IH' := IH (fun x Hx => Hl x (or_intror Hx)) ltac:(discriminate)).
        change (list_sum (map PersonRow.trucks (p :: q :: l)))
          with (PersonRow.trucks p + list_sum (map PersonRow.trucks (q :: l))).
        change (List.length (p :: q :: l)) with (S (List.length (q :: l))).
        nia. }
      assert (Hrows : peopleRows peopleToGroup peopleToShift a <> []).
      { intros E. rewrite E in Hsum. simpl in Hsum. lia. }
      specialize (Hbound _ Hall Hrows). rewrite Hsum in Hbound.
      assert (Hu : 0 < uniquePeople h a).
      { destruct (peopleRows peopleToGroup peopleToShift a) as [|p l] eqn:E;
          [congruence|].
        specialize (Hall p (or_introl eq_refl)). unfold belowHalf in Hall.
        apply andb_true_iff in Hall as [Hall _]. now apply Nat.ltb_lt in Hall. }
      nia.
Qed.

(** The rate badge is coloured 'danger' exactly when the report holds
    an impound alert of either severity, the 'warning' alert included;
    with a 'warning' or 'success' badge there is no impound alert. *)
Theorem danger_badge_goes_with_an_impound_alert_on_maps
    (h : Host) (peopleToGroup peopleToShift : obj string) (rows : list Row.t)
    (rep : Report.t) :
  computeAdvancedAnalytics h peopleToGroup peopleToShift rows = Ok rep ->
  List.length (dangerAlerts (Report.alerts rep))
  + List.length (impoundWarnings (Report.alerts rep))
  = if String.eqb (Display.rateVariant (Stats.impoundedRate (Report.stats rep)))
                  "danger"
    then 1 else 0.
Proof.
  intros Hrep. open_report Hrep a Hloop. simpl.
  rewrite AlertFacts.danger_count, AlertFacts.warning_count.
  unfold Display.rateVariant.
  destruct (JsNumber.gt (impoundedRate a) (Fin 15)) eqn:E15.
  - assert (E10 : JsNumber.gt (impoundedRate a) (Fin 10) = true).
    { apply SelectionFacts.gt_trans with (Fin 15); [assumption | reflexivity]. }
    now rewrite E10.
  - destruct (JsNumber.gt (impoundedRate a) (Fin 10)); [reflexivity|].
    now destruct (JsNumber.gt (impoundedRate a) (Fin 5)).
Qed.

(** The overview cards.  The object in [stats.topPerformer] has no
    property [name], so the card of the top performer always shows
    'N/A' under the performer's truck count.  The name of the top earner
    is never empty, so its fallback is never shown, and the name of the
    most productive group is empty, and replaced by 'N/A', only when
    there are no records. *)
Theorem top_performer_card_never_shows_a_name_on_maps
    (h : Host) (peopleToGroup peopleToShift : obj string) (rows : list Row.t)
    (rep : Report.t) :
  computeAdvancedAnalytics h peopleToGroup peopleToShift rows = Ok rep ->
  Display.topPerformerName rep = VStr "N/A"
  /\ Display.topPerformerTrucks rep
     = VNum (JsNumber.ofNat (trucksOf (Stats.topPerformer (Report.stats rep))))
  /\ Display.topEarnerName rep
     = VStr (TopRevenue.name (Stats.topRevenuePerformer (Report.stats rep)))
  /\ Display.topGroupName rep
     = match rows with
       | [] => VStr "N/A"
       | _ => VStr (TopGroup.name (Stats.topGroup (Report.stats rep)))
       end.
Proof.
  intros Hrep. open_report Hrep a Hloop.
  split; [|split; [|split]].
  - unfold Display.topPerformerName, Display.topPerformerObject.
    now destruct (Stats.topPerformer _).
  - unfold Display.topPerformerTrucks, Display.topPerformerObject. simpl.
    destruct (topPerformer h peopleToGroup peopleToShift a) as [w|] eqn:Ew;
      [|reflexivity].
    destruct (TopFacts.topPerformer_named _ _ _ _ Ew) as [Hin _].
    pose proof (@TableFacts.row_trucks_positive h peopleToGroup peopleToShift rows a
                  Hloop w Hin) as Hpos.
    unfold Display.prop, Display.rowObject, or. simpl.
    unfold trucksOf. simpl.
    now rewrite (RateFacts.ofNat_nonzero Hpos).
  - unfold Display.topEarnerName, or. simpl.
    unfold topRevenuePerformer. simpl.
    destruct (String.eqb (fst (topRevenuePerformerEntry h a)) "") eqn:E;
      [reflexivity|]. now rewrite E.
  - unfold Display.topGroupName, or. simpl. unfold topGroupEntry.
    destruct (ReportFacts.final_fields h peopleToGroup peopleToShift _ Hloop)
      as (_ & _ & _ & Hg & _).
    rewrite Hg. destruct rows as [|r rows']; [reflexivity|].
    assert (Hne : r :: rows' <> []) by discriminate.
    destruct (GroupFacts.top_entry (bucketOf h peopleToGroup) Hne) as (H1 & _).
    set (w := fold_left moreCount _ _) in *.
    destruct (String.eqb (fst w) "") eqn:E; [|reflexivity]. exfalso.
    apply String.eqb_eq in E. apply ObjFacts.get_Some_In in H1.
    assert (Hk : In (fst w) (map fst (countsBy (bucketOf h peopleToGroup)
                                               (r :: rows') []))).
    { change (fst w) with (fst (fst w, snd w)). now apply in_map. }
    apply GroupFacts.countsBy_key_In in Hk as [r' [_ Hk]].
    rewrite E in Hk. now apply GroupFacts.assigned_not_empty in Hk.
Qed.

(** ** Dates without a time *)

Module CalendarFacts.
Local Open Scope Z_scope.

(** The year of the era is found back from the day of the era. *)
Lemma yoe_recovered (yoe doy : Z) :
  0 <= yoe < 400 -> 0 <= doy <= 365 ->
  (doy = 365 ->
   (yoe + 1) mod 4 = 0 /\ ((yoe + 1) mod 100 <> 0 \/ (yoe + 1) mod 400 = 0)) ->
  let doe := yoe * 365 + yoe / 4 - yoe / 100 + doy in
  (doe - doe / 1460 + doe / 36524 - doe / 146096) / 365 = yoe.
Proof.
  intros Hy Hd Hleap doe. subst doe. Z.div_mod_to_equations. lia.
Qed.

Lemma doe_bounds (yoe doy : Z) :
  0 <= yoe < 400 -> 0 <= doy <= 365 ->
  (doy = 365 ->
   (yoe + 1) mod 4 = 0 /\ ((yoe + 1) mod 100 <> 0 \/ (yoe + 1) mod 400 = 0)) ->
  0 <= yoe * 365 + yoe / 4 - yoe / 100 + doy < 146097.
Proof. intros Hy Hd Hleap. Z.div_mod_to_equations. lia. Qed.

(** The month, counted from March, is found back from the day of the
    year. *)
Lemma mp_recovered (mp d : Z) :
  0 <= mp <= 11 -> 1 <= d <= (153 * (mp + 1) + 2) / 5 - (153 * mp + 2) / 5 ->
  (5 * ((153 * mp + 2) / 5 + d - 1) + 2) / 153 = mp.
Proof. intros Hmp Hd. Z.div_mod_to_equations. lia. Qed.

(** The date of a day number built from a year [Y] that begins in March,
    a month [mp] counted from March and a day of that month. *)
Lemma march_round_trip (Y mp d : Z) :
  0 <= mp <= 11 ->
  1 <= d <= (153 * (mp + 1) + 2) / 5 - (153 * mp + 2) / 5 ->
  (153 * mp + 2) / 5 + d - 1 <= 365 ->
  ((153 * mp + 2) / 5 + d - 1 = 365 ->
   (Y + 1) mod 4 = 0 /\ ((Y + 1) mod 100 <> 0 \/ (Y + 1) mod 400 = 0)) ->
  civilFromDays
    (Y / 400 * 146097
     + ((Y - Y / 400 * 400) * 365 + (Y - Y / 400 * 400) / 4
        - (Y - Y / 400 * 400) / 100 + ((153 * mp + 2) / 5 + d - 1))
     - 719468)
  = (Y + (if mp <? 10 then 0 else 1), (if mp <? 10 then mp + 3 else mp - 9), d).
Proof.
  intros Hmp Hd Hdoy Hleap.
  set (era := Y / 400). set (yoe := Y - era * 400).
  set (doy := (153 * mp + 2) / 5 + d - 1).
  assert (Hyoe : 0 <= yoe < 400) by (unfold yoe, era; Z.div_mod_to_equations; lia).
  assert (Hdoy0 : 0 <= doy <= 365) by (unfold doy; Z.div_mod_to_equations; lia).
  assert (Hleap' : doy = 365 ->
            (yoe + 1) mod 4 = 0 /\ ((yoe + 1) mod 100 <> 0 \/ (yoe + 1) mod 400 = 0)).
  { intros E. specialize (Hleap E). unfold yoe, era.
    Z.div_mod_to_equations. lia. }
  pose proof (yoe_recovered Hyoe Hdoy0 Hleap') as Hy. cbv zeta in Hy.
  pose proof (doe_bounds Hyoe Hdoy0 Hleap') as Hb.
  set (doe := yoe * 365 + yoe / 4 - yoe / 100 + doy) in *.
  unfold civilFromDays.
  replace (era * 146097 + doe - 719468 + 719468) with (doe + era * 146097) by ring.
  rewrite Z.div_add by lia. rewrite (Z.div_small doe 146097) by lia.
  replace (doe + era * 146097 - (0 + era) * 146097) with doe by ring.
  cbv zeta. rewrite Hy.
  replace (doe - (365 * yoe + yoe / 4 - yoe / 100)) with doy by (unfold doe; ring).
  assert (Hmp' : (5 * doy + 2) / 153 = mp)
    by (unfold doy; apply mp_recovered; assumption).
  rewrite !Hmp'.
  replace (doy - (153 * mp + 2) / 5 + 1) with d by (unfold doy; ring).
  destruct (mp <? 10) eqn:E.
  - replace (mp + 3 <=? 2) with false by (symmetry; apply Z.leb_gt; lia).
    f_equal. f_equal. unfold yoe. ring.
  - apply Z.ltb_ge in E.
    replace (mp - 9 <=? 2) with true by (symmetry; apply Z.leb_le; lia).
    f_equal. f_equal. unfold yoe. ring.
Qed.

Lemma isLeapYear_true (y : Z) :
  isLeapYear y = true ->
  y mod 4 = 0 /\ (y mod 100 <> 0 \/ y mod 400 = 0).
Proof.
  unfold isLeapYear. intros H. apply orb_true_iff in H as [H | H].
  - apply andb_true_iff in H as [H4 H100].
    apply Z.eqb_eq in H4. apply negb_true_iff, Z.eqb_neq in H100. auto.
  - apply Z.eqb_eq in H. split; [|now right].
    Z.div_mod_to_equations. lia.
Qed.

(** The date of the day number of a valid date is that date, in every
    year. *)
Lemma civil_round_trip (y m d : Z) :
  validDate (y, m, d) = true -> civilFromDays (daysFromCivil y m d) = (y, m, d).
Proof.
  intros Hv. unfold validDate in Hv.
  apply andb_true_iff in Hv as [Hv Hd]. apply andb_true_iff in Hv as [Hv Hd1].
  apply andb_true_iff in Hv as [Hm1 Hm12].
  apply Z.leb_le in Hm1, Hm12, Hd1, Hd.
  unfold daysFromCivil. cbv zeta.
  set (Y := if m <=? 2 then y - 1 else y).
  set (mp := if 2 <? m then m - 3 else m + 9).
  assert (Hfacts :
    0 <= mp <= 11
    /\ d <= (153 * (mp + 1) + 2) / 5 - (153 * mp + 2) / 5
    /\ (153 * mp + 2) / 5 + d - 1 <= 365
    /\ ((153 * mp + 2) / 5 + d - 1 = 365 ->
        (Y + 1) mod 4 = 0 /\ ((Y + 1) mod 100 <> 0 \/ (Y + 1) mod 400 = 0))
    /\ Y + (if mp <? 10 then 0 else 1) = y
    /\ (if mp <? 10 then mp + 3 else mp - 9) = m).
  { assert (HY : (m <= 2 /\ Y = y - 1) \/ (2 < m /\ Y = y))
      by (subst Y; destruct (Z.leb_spec m 2); lia).
    assert (Hmp : (2 < m /\ mp = m - 3) \/ (m <= 2 /\ mp = m + 9))
      by (subst mp; destruct (Z.ltb_spec 2 m); lia).
    assert (Hdim : d <= 31
                   /\ (m = 2 -> d <= 29 /\ (d = 29 -> isLeapYear y = true))
                   /\ (m = 4 \/ m = 6 \/ m = 9 \/ m = 11 -> d <= 30)).
    { unfold daysInMonth in Hd.
      destruct (Z.eqb_spec m 2) as [E2 | E2].
      - destruct (isLeapYear y); repeat split; try lia; intros; try lia; reflexivity.
      - destruct (Z.eqb_spec m 4), (Z.eqb_spec m 6), (Z.eqb_spec m 9),
          (Z.eqb_spec m 11); simpl in Hd; repeat split; intros; lia. }
    clearbody Y mp. destruct Hdim as (Hd31 & HFeb & H30).
    assert (Hm : m = 1 \/ m = 2 \/ m = 3 \/ m = 4 \/ m = 5 \/ m = 6 \/ m = 7
                 \/ m = 8 \/ m = 9 \/ m = 10 \/ m = 11 \/ m = 12) by lia.
    split; [lia|]. split; [|split; [|split; [|split]]].
    - repeat (destruct Hm as [Hm | Hm]; [subst m; Z.div_mod_to_equations; lia|]).
      subst m. Z.div_mod_to_equations. lia.
    - Z.div_mod_to_equations. lia.
    - intros E.
      assert (Hm2 : m = 2 /\ d = 29) by (Z.div_mod_to_equations; lia).
      destruct Hm2 as [-> ->]. destruct (HFeb eq_refl) as [_ HL].
      specialize (HL eq_refl). apply isLeapYear_true in HL.
      replace (Y + 1) with y by lia. exact HL.
    - destruct (Z.ltb_spec mp 10); lia.
    - destruct (Z.ltb_spec mp 10); lia. }
  destruct Hfacts as (H1 & H2 & H3 & H4 & H5 & H6).
  rewrite march_round_trip by (try assumption; lia).
  now rewrite H5, H6.
Qed.

End CalendarFacts.

Module IsoFacts.

Import DayKeyFacts.
Local Open Scope Z_scope.

Ltac each_digit z :=
  unfold digitChar;
  let Hb := fresh "Hb" in
  let H := fresh "H" in
  pose proof (Z.mod_pos_bound z 10 eq_refl) as Hb;
  assert (H : z mod 10 = 0 \/ z mod 10 = 1 \/ z mod 10 = 2 \/ z mod 10 = 3
              \/ z mod 10 = 4 \/ z mod 10 = 5 \/ z mod 10 = 6 \/ z mod 10 = 7
              \/ z mod 10 = 8 \/ z mod 10 = 9) by lia;
  repeat (destruct H as [-> | H]; [reflexivity|]); now rewrite H.

Lemma isDigit_digitChar (z : Z) : isDigit (digitChar z) = true.
Proof. each_digit z. Qed.

Lemma digitVal_digitChar (z : Z) : digitVal (digitChar z) = z mod 10.
Proof. each_digit z. Qed.

Lemma list_of_app (s1 s2 : string) :
  list_ascii_of_string (s1 ++ s2)
  = (list_ascii_of_string s1 ++ list_ascii_of_string s2)%list.
Proof. induction s1 as [|c s1 IH]; simpl; [reflexivity | now rewrite IH]. Qed.

Lemma digitsN_pad2 (z : Z) (rest : list ascii) :
  0 <= z <= 99 ->
  digitsN 2 (list_ascii_of_string (pad2 z) ++ rest) = Some (z, rest).
Proof.
  intros Hz. unfold digitsN, pad2.
  cbn [list_ascii_of_string app firstn skipn List.length Nat.eqb forallb andb].
  rewrite !isDigit_digitChar. cbn [andb].
  unfold digitsVal. cbn [fold_left]. rewrite !digitVal_digitChar.
  do 2 f_equal. 
  pose proof (Z.div_mod z 10 ltac:(lia)).
  pose proof (Z.mod_pos_bound z 10 ltac:(lia)).
  assert ((z / 10) mod 10 = z / 10).
  { apply Z.mod_small. split; [apply Z.div_pos; lia|].
    apply Z.div_lt_upper_bound; lia. }
  lia.
Qed.

Lemma digitsN_pad4 (z : Z) (rest : list ascii) :
  0 <= z <= 9999 ->
  digitsN 4 (list_ascii_of_string (pad4 z) ++ rest) = Some (z, rest).
Proof.
  intros Hz. unfold digitsN, pad4, pad3, pad2.
  cbn [list_ascii_of_string app firstn skipn List.length Nat.eqb forallb andb].
  rewrite !isDigit_digitChar. cbn [andb].
  unfold digitsVal. cbn [fold_left]. rewrite !digitVal_digitChar.
  do 2 f_equal.
  assert (H1000 : (z / 1000) mod 10 = z / 1000).
  { apply Z.mod_small. split; [apply Z.div_pos; lia|].
    apply Z.div_lt_upper_bound; lia. }
  rewrite H1000.
  assert (H100 : (z / 100) mod 10 = z / 100 - 10 * (z / 1000)).
  { replace (z / 1000) with (z / 100 / 10) by (rewrite Z.div_div by lia; reflexivity).
    pose proof (Z.div_mod (z / 100) 10 ltac:(lia)). lia. }
  assert (H10 : (z / 10) mod 10 = z / 10 - 10 * (z / 100)).
  { replace (z / 100) with (z / 10 / 10) by (rewrite Z.div_div by lia; reflexivity).
    pose proof (Z.div_mod (z / 10) 10 ltac:(lia)). lia. }
  pose proof (Z.div_mod z 10 ltac:(lia)).
  lia.
Qed.

(** A date alone, in the date-time format, is read as midnight UTC. *)
Lemma parseISO_date_only (h : Host) (y m d : Z) :
  0 <= y <= 9999 -> validDate (y, m, d) = true ->
  parseISO h (isoDate (y, m, d)) = Some (daysFromCivil y m d * msPerDay).
Proof.
  intros Hy Hv.
  assert (Hv' := Hv). unfold validDate in Hv'.
  apply andb_true_iff in Hv' as [Hv' Hd]. apply andb_true_iff in Hv' as [Hv' Hd1].
  apply andb_true_iff in Hv' as [Hm1 Hm12].
  apply Z.leb_le in Hm1, Hm12, Hd1, Hd.
  assert (Hd31 : d <= 31).
  { unfold daysInMonth in Hd.
    destruct (m =? 2); [destruct (isLeapYear y); lia|].
    destruct (_ || _); lia. }
  unfold isoDate.
  replace ((0 <=? y) && (y <=? 9999)) with true
    by (symmetry; apply andb_true_iff; split; apply Z.leb_le; lia).
  unfold parseISO. rewrite !list_of_app.
  rewrite digitsN_pad4 by lia.
  cbn [list_ascii_of_string app].
  rewrite digitsN_pad2 by lia.
  rewrite <- (app_nil_r (list_ascii_of_string (pad2 d))).
  rewrite digitsN_pad2 by lia.
  unfold validDate in Hv. rewrite Hv. reflexivity.
Qed.

Lemma daysFromCivil_bounds (y m d : Z) :
  0 <= y <= 9999 -> 1 <= m <= 12 -> 1 <= d <= 31 ->
  -720000 <= daysFromCivil y m d <= 3000000.
Proof.
  intros Hy Hm Hd. unfold daysFromCivil.
  destruct (m <=? 2) eqn:E1; destruct (2 <? m) eqn:E2; cbv zeta;
    Z.div_mod_to_equations; lia.
Qed.

Lemma newDate_date_only (h : Host) (y m d : Z) :
  0 <= y <= 9999 -> validDate (y, m, d) = true ->
  newDate h (VStr (isoDate (y, m, d))) = Some (daysFromCivil y m d * msPerDay).
Proof.
  intros Hy Hv. unfold newDate, parse.
  rewrite (@parseISO_date_only h y m d Hy Hv). unfold TimeClip.
  assert (Hv' := Hv). unfold validDate in Hv'.
  apply andb_true_iff in Hv' as [Hv' Hd]. apply andb_true_iff in Hv' as [Hv' Hd1].
  apply andb_true_iff in Hv' as [Hm1 Hm12].
  apply Z.leb_le in Hm1, Hm12, Hd1, Hd.
  assert (Hd31 : d <= 31).
  { unfold daysInMonth in Hd.
    destruct (m =? 2); [destruct (isLeapYear y); lia|].
    destruct (_ || _); lia. }
  pose proof (@daysFromCivil_bounds y m d Hy (conj Hm1 Hm12) (conj Hd1 Hd31)) as Hb.
  replace (Z.abs (daysFromCivil y m d * msPerDay) <=? maxTime) with true;
    [reflexivity|].
  symmetry. apply Z.leb_le. unfold msPerDay, maxTime. lia.
Qed.

Lemma isoDate_not_empty (ymd : Z * Z * Z) : String.eqb (isoDate ymd) "" = false.
Proof.
  destruct ymd as [[y m] d]. unfold isoDate.
  destruct ((0 <=? y) && (y <=? 9999)); [reflexivity|].
  now destruct (y <? 0).
Qed.

End IsoFacts.

(** ** [computeMetrics] *)

Module MetricsFacts.

Import ObjFacts BucketFacts LoopFacts TallyFacts MoreLoopFacts ImpoundFacts.

Lemma countsBy_ext key1 key2 rows :
  (forall r, In r rows -> key1 r = key2 r) ->
  forall o, countsBy key1 rows o = countsBy key2 rows o.
Proof.
  unfold countsBy. induction rows as [|r rows IH]; intros H o; [reflexivity|].
  simpl. rewrite (H r (or_introl eq_refl)). apply IH.
  intros r' Hr'. apply H. now right.
Qed.

Lemma countsIf_ext key1 key2 rows :
  (forall r, In r rows -> key1 r = key2 r) ->
  forall o, countsIf key1 rows o = countsIf key2 rows o.
Proof.
  unfold countsIf. induction rows as [|r rows IH]; intros H o; [reflexivity|].
  simpl. rewrite (H r (or_introl eq_refl)). apply IH.
  intros r' Hr'. apply H. now right.
Qed.

Section WithInputs.

Variable h : Host.
Variables peopleToGroup peopleToShift : obj string.

(** What the loop of [computeMetrics] leaves in its accumulators. *)
Lemma metrics_loop rows : forall a,
  let a' := fold_left (Insights.processRow h peopleToGroup peopleToShift) rows a in
  Insights.Acc.total a' = Insights.Acc.total a + List.length rows
  /\ Insights.Acc.totalImpounded a'
     = Insights.Acc.totalImpounded a + List.length (impoundedRows rows)
  /\ Insights.Acc.perPersonCounts a'
     = countsBy (Insights.personOf h) rows (Insights.Acc.perPersonCounts a)
  /\ Insights.Acc.perPersonImpounded a'
     = countsIf (Insights.personOf h) rows (Insights.Acc.perPersonImpounded a)
  /\ Insights.Acc.perGroupCounts a'
     = countsBy (fun r => assigned peopleToGroup (Insights.personOf h r)) rows
         (Insights.Acc.perGroupCounts a)
  /\ Insights.Acc.perShiftCounts a'
     = countsBy (fun r => assigned peopleToShift (Insights.personOf h r)) rows
         (Insights.Acc.perShiftCounts a).
Proof.
  induction rows as [|r rows IH]; simpl; intros a.
  - repeat split; lia.
  - destruct (IH (Insights.processRow h peopleToGroup peopleToShift a r))
      as (H1 & H2 & H3 & H4 & H5 & H6).
    rewrite H1, H2, H3, H4, H5, H6. unfold impoundedRows, countsIf. simpl.
    destruct (truthy (Row.impounded r)); simpl; repeat split; lia.
Qed.

(** On a usable [person] field the two pages read the same name. *)
Lemma personOf_resolve (r : Row.t) :
  usablePerson h r = true -> Insights.personOf h r = resolvePersonName h r.
Proof.
  unfold usablePerson, Insights.personOf, resolvePersonName, candidates, or.
  intros H. apply andb_true_iff in H as [Ht Hp]. simpl firstName.
  now rewrite Ht, Hp.
Qed.

End WithInputs.

End MetricsFacts.

(** [computeMetrics] of the basic page and [computeAdvancedAnalytics]
    report the same totals; when the [person] field of every record is
    truthy and not a placeholder they also build the same per-person,
    per-group and per-shift counts, in the same key order, and the same
    per-person table up to the revenue column. *)
Theorem basic_metrics_agree_with_advanced_report_on_maps
    (h : Host) (peopleToGroup peopleToShift : obj string) (rows : list Row.t)
    (rep : Report.t) :
  computeAdvancedAnalytics h peopleToGroup peopleToShift rows = Ok rep ->
  let m := Insights.computeMetrics h peopleToGroup peopleToShift rows in
  Insights.Metrics.totalTrucks m = Basic.totalTrucks (Report.basic rep)
  /\ Insights.Metrics.totalImpounded m = Basic.totalImpounded (Report.basic rep)
  /\ (forallb (usablePerson h) rows = true ->
      Insights.Metrics.perPerson m = Basic.perPerson (Report.basic rep)
      /\ Insights.Metrics.perGroup m = Basic.perGroup (Report.basic rep)
      /\ Insights.Metrics.perShift m = Basic.perShift (Report.basic rep)
      /\ Insights.Metrics.peopleRows m
         = map basicRow (Basic.peopleRows (Report.basic rep))).
Proof.
  intros Hrep m. open_report Hrep a Hloop. subst m.
  unfold Insights.computeMetrics. simpl.
  destruct (MetricsFacts.metrics_loop h peopleToGroup peopleToShift rows
              {| Insights.Acc.perPersonCounts := []; Insights.Acc.perPersonImpounded := [];
                 Insights.Acc.perGroupCounts := []; Insights.Acc.perShiftCounts := [];
                 Insights.Acc.total := 0; Insights.Acc.totalImpounded := 0 |})
    as (M1 & M2 & M3 & M4 & M5 & M6).
  cbv zeta in M1, M2, M3, M4, M5, M6. simpl in M1, M2, M3, M4, M5, M6.
  destruct (ReportFacts.final_fields h peopleToGroup peopleToShift _ Hloop)
    as (Ht & Hi & Hp & Hg & Hs & _).
  destruct (MoreLoopFacts.loop_fields_more h peopleToGroup peopleToShift _ _ Hloop)
    as (Hpi & _).
  simpl in Hpi.
  rewrite M1, M2, M3, M4, M5, M6, Ht, Hi, Hp, Hg, Hs.
  split; [reflexivity|]. split; [reflexivity|].
  intros Hall. rewrite forallb_forall in Hall.
  assert (Hkey : forall r, In r rows -> Insights.personOf h r = resolvePersonName h r).
  { intros r Hr. apply MetricsFacts.personOf_resolve. now apply Hall. }
  rewrite (MetricsFacts.countsBy_ext _ _ rows Hkey).
  rewrite (MetricsFacts.countsIf_ext _ _ rows Hkey).
  rewrite (MetricsFacts.countsBy_ext
             (fun r => assigned peopleToGroup (Insights.personOf h r))
             (bucketOf h peopleToGroup) rows)
    by (intros r Hr; unfold bucketOf; now rewrite Hkey).
  rewrite (MetricsFacts.countsBy_ext
             (fun r => assigned peopleToShift (Insights.personOf h r))
             (bucketOf h peopleToShift) rows)
    by (intros r Hr; unfold bucketOf; now rewrite Hkey).
  repeat split.
  unfold peopleRows. rewrite map_map, Hp, Hpi. reflexivity.
Qed.

(** The basic page does not look for placeholders.  A record whose
    [person] is truthy but a placeholder, and whose raw columns offer no
    name, is counted by [computeAdvancedAnalytics] under "Unknown" and by
    [computeMetrics] under the trimmed placeholder itself. *)
Theorem basic_page_keeps_placeholder_names_on_maps (h : Host) (r : Row.t) :
  truthy (Row.person r) = true ->
  (forall c, In c (candidates r) -> rejected h c) ->
  resolvePersonName h r = "Unknown"
  /\ Insights.personOf h r = trim (ToString h (Row.person r))
  /\ isPlaceholderName h (VStr (Insights.personOf h r)) = true.
Proof.
  intros Ht Hrej.
  split; [now apply PersonFacts.firstName_rejected|].
  unfold Insights.personOf, or. rewrite Ht. split; [reflexivity|].
  destruct (Hrej (Row.person r) (or_introl eq_refl)) as [Hf | Hp]; [congruence|].
  destruct (Row.person r) as [| |b|x|s]; try discriminate;
    unfold isPlaceholderName in *; simpl ToString in *;
    rewrite PersonFacts.trim_idem; exact Hp.
Qed.

(** In the result of [computeMetrics], which never throws, a count is
    the number of records under its key, the key of a record being its
    trimmed [person], or "Unknown" when that is falsy; a row of the table
    holds the person's records and the impounded ones among them, and the
    columns of the table add up to the totals. *)
Theorem basic_metrics_count_records_on_maps
    (h : Host) (peopleToGroup peopleToShift : obj string) (rows : list Row.t) :
  let m := Insights.computeMetrics h peopleToGroup peopleToShift rows in
  Insights.Metrics.totalTrucks m = List.length rows
  /\ Insights.Metrics.totalImpounded m = List.length (impoundedRows rows)
  /\ (forall k,
        natOr0 (get k (Insights.Metrics.perPerson m))
        = List.length (recordsOf (Insights.personOf h) k rows)
        /\ natOr0 (get k (Insights.Metrics.perGroup m))
           = List.length
               (recordsOf (fun r => assigned peopleToGroup (Insights.personOf h r))
                          k rows)
        /\ natOr0 (get k (Insights.Metrics.perShift m))
           = List.length
               (recordsOf (fun r => assigned peopleToShift (Insights.personOf h r))
                          k rows))
  /\ (forall p,
        In p (Insights.Metrics.peopleRows m) ->
        Insights.PersonRow.trucks p
        = List.length (recordsOf (Insights.personOf h)
                                 (Insights.PersonRow.person p) rows)
        /\ Insights.PersonRow.impounded p
           = List.length (recordsOf (Insights.personOf h)
                                    (Insights.PersonRow.person p)
                                    (impoundedRows rows))
        /\ Insights.PersonRow.impounded p <= Insights.PersonRow.trucks p)
  /\ list_sum (map Insights.PersonRow.trucks (Insights.Metrics.peopleRows m))
     = List.length rows
  /\ list_sum (map Insights.PersonRow.impounded (Insights.Metrics.peopleRows m))
     = List.length (impoundedRows rows).
Proof.
  intros m. subst m. unfold Insights.computeMetrics. simpl.
  destruct (MetricsFacts.metrics_loop h peopleToGroup peopleToShift rows
              {| Insights.Acc.perPersonCounts := []; Insights.Acc.perPersonImpounded := [];
                 Insights.Acc.perGroupCounts := []; Insights.Acc.perShiftCounts := [];
                 Insights.Acc.total := 0; Insights.Acc.totalImpounded := 0 |})
    as (M1 & M2 & M3 & M4 & M5 & M6).
  cbv zeta in M1, M2, M3, M4, M5, M6. simpl in M1, M2, M3, M4, M5, M6.
  rewrite M1, M2, M3, M4, M5, M6.
  split; [reflexivity|]. split; [reflexivity|]. split; [|split; [|split]].
  - intros k. now rewrite !TallyFacts.countsBy_get_count.
  - intros p Hp. apply in_map_iff in Hp as [k [<- _]]. simpl.
    rewrite TallyFacts.countsBy_get_count, ImpoundFacts.countsIf_get. simpl.
    repeat split. apply ImpoundFacts.recordsOf_impounded_le.
  - rewrite map_map. simpl. apply ImpoundFacts.countsBy_sum_over.
    rewrite <- StringSort.Permuted_sort. apply ImpoundFacts.keys_countsBy.
  - rewrite map_map. simpl. apply ImpoundFacts.countsIf_sum_over.
    rewrite <- StringSort.Permuted_sort. apply ImpoundFacts.keys_countsBy.
Qed.

(** ** The spreadsheet parser *)

Module ExcelFacts.

Local Open Scope list_scope.

Section WithHost.

Variable h : Host.

Lemma length_empty (s : string) : (0 <? String.length s) = negb (String.eqb s "").
Proof. now destruct s. Qed.

(** A cell that is not blank is truthy unless it is [false], 0 or NaN. *)
Lemma usable_not_blank (v : value) :
  truthy v = true -> isPlaceholderName h v = false -> blankCell h v = false.
Proof.
  unfold isPlaceholderName, blankCell.
  destruct v; try discriminate; intros _ H;
    destruct (String.eqb (trim _) ""); congruence.
Qed.

Lemma normalizeBool_string (s : string) :
  Excel.normalizeBool h (VStr s) = includes yesWords (toLowerCase (trim s)).
Proof.
  unfold Excel.normalizeBool, or, includes, yesWords. simpl truthy.
  destruct (String.eqb s "") eqn:E; simpl.
  - apply String.eqb_eq in E. subst s. reflexivity.
  - now rewrite orb_false_r, !orb_assoc.
Qed.

End WithHost.

Lemma noTrim_parseRow (h : Host) (headerMap : Excel.HeaderMap.t) (row : obj value) :
  noTrim (Excel.parseRow h headerMap row) = truthyNonString (truckCell headerMap row).
Proof.
  unfold noTrim, truthyNonString. simpl Row.truckId. fold (truckCell headerMap row).
  unfold or at 1 2. destruct (truthy (truckCell headerMap row)) eqn:E.
  - now rewrite E.
  - reflexivity.
Qed.

Lemma filter_map_length (A B : Type) (f : A -> B) (p : B -> bool) (l : list A) :
  List.length (filter p (map f l)) = List.length (filter (fun x => p (f x)) l).
Proof.
  induction l as [|x l IH]; simpl; [reflexivity|].
  destruct (p (f x)); simpl; now rewrite IH.
Qed.

(** The header found is a header of the sheet that includes one of the
    candidates, the first such header for the first candidate that any
    header includes. *)
Lemma findIndex_Some (A : Type) (p : A -> bool) (l : list A) (i : nat) :
  Excel.findIndex p l = Some i ->
  exists pre x post,
    l = pre ++ x :: post /\ List.length pre = i /\ p x = true
    /\ forall y, In y pre -> p y = false.
Proof.
  revert i. induction l as [|x l IH]; simpl; intros i H; [discriminate|].
  destruct (p x) eqn:E.
  - injection H as <-. exists [], x, l. simpl. repeat split; auto. intros y [].
  - destruct (Excel.findIndex p l) as [j|]; [|discriminate].
    injection H as <-.
    destruct (IH j eq_refl) as (pre & y & post & -> & Hlen & Hy & Hpre).
    exists (x :: pre), y, post. simpl. repeat split; auto.
    intros z [<- | Hz]; auto.
Qed.

Lemma findIndex_None (A : Type) (p : A -> bool) (l : list A) :
  Excel.findIndex p l = None -> forall y, In y l -> p y = false.
Proof.
  induction l as [|x l IH]; simpl; intros H y Hy; [destruct Hy|].
  destruct (p x) eqn:E; [discriminate|].
  destruct (Excel.findIndex p l); [discriminate|].
  destruct Hy as [<- | Hy]; auto.
Qed.

End ExcelFacts.

(** The Insights page fails on a sheet with a truck number that is
    not text.  On the records of [parseExcelFile],
    [computeAdvancedAnalytics] throws a [TypeError] exactly when, in some
    row, the first truthy cell among the mapped truck column, 'Truck',
    'Truck No' and 'Truck ID' is a number or a boolean; otherwise it
    returns a report. *)
Theorem numeric_truck_cell_makes_the_analytics_throw_on_maps
    (h : Host) (peopleToGroup peopleToShift : obj string) (json : list (obj value)) :
  if existsb (fun row => truthyNonString (truckCell (headerMapOf json) row)) json
  then computeAdvancedAnalytics h peopleToGroup peopleToShift (Excel.parseRows h json)
       = Throw TypeError
  else exists rep,
         computeAdvancedAnalytics h peopleToGroup peopleToShift (Excel.parseRows h json)
         = Ok rep.
Proof.
  assert (Hex : existsb noTrim (Excel.parseRows h json)
                = existsb (fun row => truthyNonString (truckCell (headerMapOf json) row))
                          json).
  { unfold Excel.parseRows. fold (headerMapOf json). rewrite MoreAlertFacts.existsb_map.
    induction json as [|row l IH]; [reflexivity|].
    clear IH. generalize (headerMapOf (row :: l)). intros hm.
    induction (row :: l) as [|x l' IH']; simpl; [reflexivity|].
    now rewrite ExcelFacts.noTrim_parseRow, IH'. }
  rewrite <- Hex.
  destruct (existsb noTrim (Excel.parseRows h json)) eqn:E.
  - destruct (ReportFacts.compute_cases h peopleToGroup peopleToShift
                (Excel.parseRows h json)) as [[a [Hloop _]] | [Hthrow _]];
      [|assumption].
    apply MoreLoopFacts.loop_Ok_noTrim in Hloop. congruence.
  - now apply ReportFacts.compute_returns.
Qed.

(** [normalizeBool] makes [impounded] a boolean: [true] for the cell
    [true], for a number other than 0 (NaN included) and for a string
    that is yes, true, 1 or y up to case and surrounding white space.
    So a report on the records of [parseExcelFile] counts as impounded
    the rows whose detention cell is one of these. *)
Theorem impounded_flag_of_a_parsed_row_on_maps
    (h : Host) (peopleToGroup peopleToShift : obj string) (json : list (obj value))
    (rep : Report.t) :
  computeAdvancedAnalytics h peopleToGroup peopleToShift (Excel.parseRows h json)
  = Ok rep ->
  Basic.totalTrucks (Report.basic rep) = List.length json
  /\ Basic.totalImpounded (Report.basic rep)
     = List.length
         (filter (fun row => Excel.normalizeBool h (detentionCell (headerMapOf json) row))
                 json)
  /\ (forall s, Excel.normalizeBool h (VStr s)
                = includes yesWords (toLowerCase (trim s)))
  /\ (forall x, Excel.normalizeBool h (VNum x)
                = match x with Fin q => negb (Qeq_bool q 0) | _ => true end)
  /\ (forall b, Excel.normalizeBool h (VBool b) = b)
  /\ Excel.normalizeBool h VUndefined = false
  /\ Excel.normalizeBool h VNull = false.
Proof.
  intros Hrep. open_report Hrep a Hloop. simpl.
  destruct (ReportFacts.final_fields h peopleToGroup peopleToShift _ Hloop)
    as (Ht & Hi & _).
  rewrite Ht, Hi. unfold Excel.parseRows. fold (headerMapOf json).
  rewrite length_map. split; [reflexivity|]. split.
  - unfold impoundedRows. rewrite ExcelFacts.filter_map_length. reflexivity.
  - split; [apply ExcelFacts.normalizeBool_string|]. repeat split.
Qed.

(** A row of the sheet whose 'User Full Name' cell is truthy and not a
    placeholder is counted, by both pages, under the trimmed string of
    that cell, whatever the other columns hold. *)
Theorem user_full_name_cell_names_the_record_on_maps
    (h : Host) (headerMap : Excel.HeaderMap.t) (row : obj value) :
  truthy (Excel.cell row "User Full Name") = true ->
  isPlaceholderName h (Excel.cell row "User Full Name") = false ->
  Row.person (Excel.parseRow h headerMap row) = Excel.cell row "User Full Name"
  /\ resolvePersonName h (Excel.parseRow h headerMap row)
     = trim (ToString h (Excel.cell row "User Full Name"))
  /\ Insights.personOf h (Excel.parseRow h headerMap row)
     = trim (ToString h (Excel.cell row "User Full Name")).
Proof.
  intros Ht Hp.
  pose proof (ExcelFacts.usable_not_blank h _ Ht Hp) as Hb.
  assert (Hperson : Row.person (Excel.parseRow h headerMap row)
                    = Excel.cell row "User Full Name").
  { simpl Row.person. unfold blankCell in Hb.
    set (v := Excel.cell row "User Full Name") in *.
    simpl. destruct v; try discriminate;
      rewrite ExcelFacts.length_empty, Hb; reflexivity. }
  split; [assumption|].
  assert (Hu : usablePerson h (Excel.parseRow h headerMap row) = true).
  { unfold usablePerson. now rewrite Hperson, Ht, Hp. }
  rewrite (MetricsFacts.personOf_resolve h _ Hu).
  assert (Hres : resolvePersonName h (Excel.parseRow h headerMap row)
                 = trim (ToString h (Excel.cell row "User Full Name"))).
  { unfold resolvePersonName, candidates. cbn [firstName].
    rewrite Hperson, Ht, Hp. reflexivity. }
  now rewrite Hres.
Qed.

End Base.

(** * The code and the routines over finite maps *)

(** ** Dictionaries and finite maps *)

Module ItemFacts.

Import JsString JsNumber JsValue JsObject JsItem Analytics Spec Lift.
Import Base.ObjFacts.
Local Open Scope string_scope.
Local Open Scope nat_scope.

Lemma ordinary_inherited k : ordinary k = true <-> inherited k = None.
Proof. unfold ordinary. destruct (inherited k); split; congruence. Qed.

Lemma ordinary_not_proto k : ordinary k = true -> String.eqb k "__proto__" = false.
Proof.
  unfold ordinary, inherited.
  destruct (String.eqb k "__proto__"); [discriminate | reflexivity].
Qed.

Lemma inherited_proto k :
  inherited k = Some ObjectPrototype <-> k = "__proto__".
Proof.
  unfold inherited. destruct (String.eqb k "__proto__") eqn:E.
  - apply String.eqb_eq in E. tauto.
  - apply String.eqb_neq in E.
    destruct (existsb (String.eqb k) builtins); split; congruence.
Qed.

Lemma inherited_Builtin k name :
  inherited k = Some (Builtin name) -> name = k /\ k <> "__proto__".
Proof.
  unfold inherited. destruct (String.eqb k "__proto__") eqn:E; [discriminate|].
  apply String.eqb_neq in E.
  destruct (existsb (String.eqb k) builtins); [|discriminate].
  intros [= <-]. auto.
Qed.

Lemma assign_ordinary (V : Type) k (v : V) o :
  ordinary k = true -> assign k v o = set k v o.
Proof. intros H. unfold assign. now rewrite (ordinary_not_proto k H). Qed.

Lemma get_numbered (N : Type) k (o : obj N) :
  get k (numbered o) = option_map Num (get k o).
Proof.
  induction o as [|[k' v] o IH]; simpl; [reflexivity|].
  now destruct (String.eqb k k').
Qed.

Lemma set_numbered (N : Type) k (n : N) (o : obj N) :
  set k (Num n) (numbered o) = numbered (set k n o).
Proof.
  induction o as [|[k' v] o IH]; simpl; [reflexivity|].
  destruct (String.eqb k k'); simpl; [reflexivity | now rewrite IH].
Qed.

Lemma fst_numbered (N : Type) (o : obj N) : map fst (numbered o) = map fst o.
Proof. unfold numbered. rewrite map_map. reflexivity. Qed.

Lemma keys_numbered (N : Type) (o : obj N) : keys (numbered o) = keys o.
Proof. apply Base.RevenueKeyFacts.keys_agree, fst_numbered. Qed.

Lemma valueAt_numbered (N : Type) k (o : obj N) :
  ordinary k = true -> valueAt k (numbered o) = option_map Num (get k o).
Proof.
  intros H. unfold valueAt. rewrite get_numbered.
  destruct (get k o); [reflexivity|].
  apply ordinary_inherited in H. now rewrite H.
Qed.

Lemma valueAt_own (N : Type) k (o : obj (item N)) c :
  get k o = Some c -> valueAt k o = Some c.
Proof. intros H. unfold valueAt. now rewrite H. Qed.

Lemma orZero_Num (x : option nat) :
  Count.orZero (option_map Num x) = Num (Plain.Analytics.natOr0 x).
Proof. now destruct x. Qed.

Lemma orZero_amount (x : option number) :
  Amount.orZero (option_map Num x) = Num (JsNumber.orZero x).
Proof.
  destruct x as [v|]; simpl; [|reflexivity].
  now destruct (JsNumber.truthy v).
Qed.

Lemma bump_numbered h k (o : obj nat) :
  ordinary k = true ->
  bump h k (numbered o) = numbered (Plain.Analytics.bump k o).
Proof.
  intros H. unfold bump, Plain.Analytics.bump.
  rewrite assign_ordinary, valueAt_numbered, orZero_Num by assumption.
  simpl. apply set_numbered.
Qed.

Lemma accrue_numbered h k x (o : obj number) :
  ordinary k = true ->
  accrue h k x (numbered o) = numbered (Plain.Analytics.accrue k x o).
Proof.
  intros H. unfold accrue, Plain.Analytics.accrue.
  rewrite assign_ordinary, valueAt_numbered, orZero_amount by assumption.
  simpl. apply set_numbered.
Qed.

(** [Object.entries] of the numbered map. *)
Lemma insertByIndex_numbered (N : Type) (e : string * N) l :
  insertByIndex (fst e, Num (snd e)) (numbered l) = numbered (insertByIndex e l).
Proof.
  induction l as [|x l IH]; simpl; [reflexivity|].
  destruct (indexOf (fst e) <=? indexOf (fst x))%Z; simpl; [reflexivity|].
  now rewrite IH.
Qed.

Lemma sortByIndex_numbered (N : Type) (l : list (string * N)) :
  sortByIndex (numbered l) = numbered (sortByIndex l).
Proof.
  induction l as [|x l IH]; simpl; [reflexivity|].
  rewrite IH. apply insertByIndex_numbered.
Qed.

Lemma filter_numbered (N : Type) (p : string -> bool) (l : list (string * N)) :
  filter (fun e => p (fst e)) (numbered l) = numbered (filter (fun e => p (fst e)) l).
Proof.
  induction l as [|x l IH]; simpl; [reflexivity|].
  destruct (p (fst x)); simpl; now rewrite IH.
Qed.

Lemma entries_numbered (N : Type) (o : obj N) :
  entries (numbered o) = numbered (entries o).
Proof.
  unfold entries.
  rewrite (filter_numbered isArrayIndex),
    (filter_numbered (fun k => negb (isArrayIndex k))), sortByIndex_numbered.
  unfold numbered. now rewrite map_app.
Qed.

End ItemFacts.

(** ** The loop on ordinary keys *)

Module Refinement.

Import JsString JsNumber JsValue JsObject JsItem Analytics Spec Tally Lift ItemFacts.
Local Open Scope string_scope.
Local Open Scope nat_scope.

Lemma assigned_ordinary mapping p :
  ordinary p = true -> assigned mapping p = Name (Plain.Analytics.assigned mapping p).
Proof.
  intros H. unfold assigned, Plain.Analytics.assigned.
  destruct (get p mapping) as [g|].
  - now destruct (String.eqb g "").
  - apply ordinary_inherited in H. now rewrite H.
Qed.

Lemma bucketOf_ordinary h mapping r :
  ordinary (resolvePersonName h r) = true ->
  bucketOf h mapping r = Plain.Spec.bucketOf h mapping r.
Proof.
  intros H. unfold bucketOf, Plain.Spec.bucketOf.
  now rewrite assigned_ordinary by assumption.
Qed.

Section WithInputs.

Variable h : Host.
Variables peopleToGroup peopleToShift : obj string.

Lemma ordinaryRow_keys r :
  ordinaryRow h peopleToGroup peopleToShift r = true ->
  ordinary (resolvePersonName h r) = true
  /\ keyOf h (assigned peopleToGroup (resolvePersonName h r))
     = Plain.Analytics.assigned peopleToGroup (resolvePersonName h r)
  /\ keyOf h (assigned peopleToShift (resolvePersonName h r))
     = Plain.Analytics.assigned peopleToShift (resolvePersonName h r)
  /\ ordinary (Plain.Analytics.assigned peopleToGroup (resolvePersonName h r)) = true
  /\ ordinary (Plain.Analytics.assigned peopleToShift (resolvePersonName h r)) = true.
Proof.
  unfold ordinaryRow, bucketOf. intros H.
  apply andb_true_iff in H as [H Hs]. apply andb_true_iff in H as [Hp Hg].
  rewrite (@assigned_ordinary peopleToGroup _ Hp) in Hg.
  rewrite (@assigned_ordinary peopleToShift _ Hp) in Hs.
  rewrite !assigned_ordinary by assumption. simpl in *. auto.
Qed.

(** One iteration on a record of ordinary keys. *)
Lemma processRow_acc a r :
  ordinaryRow h peopleToGroup peopleToShift r = true ->
  processRow h peopleToGroup peopleToShift (Lift.acc a) r
  = Lift.outcome Lift.acc (Plain.Analytics.processRow h peopleToGroup peopleToShift a r).
Proof.
  intros H. destruct (ordinaryRow_keys r H) as (Hp & Hg & Hs & Hog & Hos).
  unfold processRow, Plain.Analytics.processRow.
  rewrite Hg, Hs. simpl.
  destruct (trackTruck r (Plain.Acc.truckIds a)) as [ids|e]; simpl; [|reflexivity].
  unfold Lift.acc. simpl.
  rewrite !bump_numbered, !accrue_numbered by assumption.
  destruct (truthy (Row.impounded r)); reflexivity.
Qed.

Lemma loop_acc rows : forall a,
  ordinaryKeys h peopleToGroup peopleToShift rows = true ->
  forOf (processRow h peopleToGroup peopleToShift) rows (Ok (Lift.acc a))
  = Lift.outcome Lift.acc
      (forOf (Plain.Analytics.processRow h peopleToGroup peopleToShift) rows (Ok a)).
Proof.
  induction rows as [|r rows IH]; simpl; intros a H; [reflexivity|].
  apply andb_true_iff in H as [Hr Hrows].
  rewrite (@processRow_acc a r Hr).
  destruct (Plain.Analytics.processRow h peopleToGroup peopleToShift a r) as [a1|e];
    simpl.
  - now apply IH.
  - now rewrite !Base.LoopFacts.forOf_Throw.
Qed.


(** *** From the accumulators to the report *)

Lemma gt_ofNat (n m : nat) :
  JsNumber.gt (JsNumber.ofNat n) (JsNumber.ofNat m) = (m <? n).
Proof.
  unfold JsNumber.gt, JsNumber.ofNat, Qle_bool. simpl.
  rewrite !Z.mul_1_r.
  destruct (Nat.ltb_spec m n) as [H | H].
  - apply negb_true_iff, Z.leb_gt. lia.
  - apply negb_false_iff, Z.leb_le. lia.
Qed.

Lemma count_gt_Num (n m : nat) : Count.gt h (Num n) (Num m) = (m <? n).
Proof. apply gt_ofNat. Qed.

Lemma peopleRows_acc a :
  (forall p, In p (keys (Plain.Acc.perPersonCounts a)) -> ordinary p = true) ->
  peopleRows peopleToGroup peopleToShift (Lift.acc a)
  = map Lift.row (Plain.Analytics.peopleRows peopleToGroup peopleToShift a).
Proof.
  intros Hk. unfold peopleRows, Plain.Analytics.peopleRows. simpl.
  rewrite keys_numbered, map_map. apply map_ext_in. intros p Hin.
  assert (Hp : ordinary p = true).
  { apply Hk. eapply Permutation_in;
      [symmetry; apply StringSort.Permuted_sort | exact Hin]. }
  unfold Lift.row. simpl.
  rewrite !assigned_ordinary, !valueAt_numbered, !orZero_Num, orZero_amount
    by assumption.
  reflexivity.
Qed.

Lemma uniquePeople_acc a :
  uniquePeople h (Lift.acc a) = Plain.Analytics.uniquePeople h a.
Proof.
  unfold uniquePeople, Plain.Analytics.uniquePeople. simpl.
  now rewrite keys_numbered.
Qed.

Lemma avgTrucksPerPerson_acc a :
  avgTrucksPerPerson h (Lift.acc a) = Plain.Analytics.avgTrucksPerPerson h a.
Proof.
  unfold avgTrucksPerPerson, Plain.Analytics.avgTrucksPerPerson.
  now rewrite uniquePeople_acc.
Qed.

Lemma moreTrucks_row m p :
  moreTrucks h (option_map Lift.row m) (Lift.row p)
  = option_map Lift.row (Plain.Analytics.moreTrucks m p).
Proof.
  unfold moreTrucks, Plain.Analytics.moreTrucks.
  destruct m as [m|]; simpl; rewrite count_gt_Num;
    destruct (_ <? _); reflexivity.
Qed.

Lemma fold_moreTrucks l : forall m,
  fold_left (moreTrucks h) (map Lift.row l) (option_map Lift.row m)
  = option_map Lift.row (fold_left Plain.Analytics.moreTrucks l m).
Proof.
  induction l as [|p l IH]; simpl; intros m; [reflexivity|].
  now rewrite moreTrucks_row, IH.
Qed.

Lemma topPerformer_acc a :
  (forall p, In p (keys (Plain.Acc.perPersonCounts a)) -> ordinary p = true) ->
  topPerformer h peopleToGroup peopleToShift (Lift.acc a)
  = option_map Lift.row
      (Plain.Analytics.topPerformer h peopleToGroup peopleToShift a).
Proof.
  intros Hk. unfold topPerformer, Plain.Analytics.topPerformer.
  rewrite (peopleRows_acc a Hk), Base.MoreAlertFacts.filter_map.
  apply (fold_moreTrucks _ None).
Qed.

Lemma moreCount_numbered (max e : string * nat) :
  moreCount h (fst max, Num (snd max)) (fst e, Num (snd e))
  = (fst (Plain.Analytics.moreCount max e), Num (snd (Plain.Analytics.moreCount max e))).
Proof.
  unfold moreCount, Plain.Analytics.moreCount. simpl. rewrite count_gt_Num.
  now destruct (_ <? _).
Qed.

Lemma fold_moreCount (l : list (string * nat)) : forall max,
  fold_left (moreCount h) (numbered l) (fst max, Num (snd max))
  = (fst (fold_left Plain.Analytics.moreCount l max),
     Num (snd (fold_left Plain.Analytics.moreCount l max))).
Proof.
  induction l as [|e l IH]; simpl; intros max; [reflexivity|].
  now rewrite moreCount_numbered, IH.
Qed.

Lemma topGroupEntry_acc a :
  topGroupEntry h (Lift.acc a)
  = (fst (Plain.Analytics.topGroupEntry a), Num (snd (Plain.Analytics.topGroupEntry a))).
Proof.
  unfold topGroupEntry, Plain.Analytics.topGroupEntry. simpl.
  rewrite entries_numbered. apply (fold_moreCount _ ("", 0)).
Qed.

Lemma moreRevenue_numbered (max e : string * number) :
  moreRevenue h (fst max, Num (snd max)) (fst e, Num (snd e))
  = (fst (Plain.Analytics.moreRevenue max e),
     Num (snd (Plain.Analytics.moreRevenue max e))).
Proof.
  unfold moreRevenue, Plain.Analytics.moreRevenue. simpl.
  destruct (JsNumber.truthy (snd max)); unfold Amount.gt, JsItem.gt; simpl;
    now destruct (JsNumber.gt _ _).
Qed.

Lemma fold_moreRevenue (l : list (string * number)) : forall max,
  fold_left (moreRevenue h) (numbered l) (fst max, Num (snd max))
  = (fst (fold_left Plain.Analytics.moreRevenue l max),
     Num (snd (fold_left Plain.Analytics.moreRevenue l max))).
Proof.
  induction l as [|e l IH]; simpl; intros max; [reflexivity|].
  now rewrite moreRevenue_numbered, IH.
Qed.

Lemma topRevenuePerformerEntry_acc a :
  topRevenuePerformerEntry h (Lift.acc a)
  = (fst (Plain.Analytics.topRevenuePerformerEntry h a),
     Num (snd (Plain.Analytics.topRevenuePerformerEntry h a))).
Proof.
  unfold topRevenuePerformerEntry, Plain.Analytics.topRevenuePerformerEntry. simpl.
  rewrite entries_numbered, (filter_numbered (namedPerson h)).
  apply (fold_moreRevenue _ ("", Fin 0)).
Qed.

Lemma underPerformers_acc a :
  (forall p, In p (keys (Plain.Acc.perPersonCounts a)) -> ordinary p = true) ->
  underPerformers h peopleToGroup peopleToShift (Lift.acc a)
  = map Lift.row (Plain.Analytics.underPerformers h peopleToGroup peopleToShift a).
Proof.
  intros Hk. unfold underPerformers, Plain.Analytics.underPerformers.
  rewrite (peopleRows_acc a Hk), Base.MoreAlertFacts.filter_map, avgTrucksPerPerson_acc.
  reflexivity.
Qed.

Lemma unassignedCount_acc a :
  (forall p, In p (keys (Plain.Acc.perPersonCounts a)) -> ordinary p = true) ->
  unassignedCount peopleToGroup peopleToShift (Lift.acc a)
  = Plain.Analytics.unassignedCount peopleToGroup peopleToShift a.
Proof.
  intros Hk. unfold unassignedCount, Plain.Analytics.unassignedCount.
  rewrite (peopleRows_acc a Hk), Base.MoreAlertFacts.filter_map, length_map.
  reflexivity.
Qed.

(** The report of lifted accumulators is the lifted report. *)
Lemma report_acc a :
  (forall p, In p (keys (Plain.Acc.perPersonCounts a)) -> ordinary p = true) ->
  Analytics.report h peopleToGroup peopleToShift (Lift.acc a)
  = Lift.report (Plain.Analytics.report h peopleToGroup peopleToShift a).
Proof.
  intros Hk.
  unfold Analytics.report, Plain.Analytics.report, Lift.report, Lift.basic, Lift.stats.
  simpl.
  rewrite (peopleRows_acc a Hk), uniquePeople_acc, avgTrucksPerPerson_acc,
    (topPerformer_acc a Hk).
  unfold topGroup, Plain.Analytics.topGroup, topRevenuePerformer,
    Plain.Analytics.topRevenuePerformer.
  rewrite topGroupEntry_acc, topRevenuePerformerEntry_acc. simpl.
  unfold alerts, Plain.Analytics.alerts, performanceAlert,
    Plain.Analytics.performanceAlert, assignmentAlert,
    Plain.Analytics.assignmentAlert.
  rewrite (underPerformers_acc a Hk), (unassignedCount_acc a Hk), length_map.
  f_equal. f_equal. f_equal.
  unfold JsNumber.orZero, Amount.orZero.
  now destruct (JsNumber.truthy _).
Qed.

(** On ordinary keys the code computes the report of the routine over
    finite maps. *)
Lemma refines rows :
  ordinaryKeys h peopleToGroup peopleToShift rows = true ->
  computeAdvancedAnalytics h peopleToGroup peopleToShift rows
  = Lift.outcome Lift.report
      (Plain.Analytics.computeAdvancedAnalytics h peopleToGroup peopleToShift rows).
Proof.
  intros Hord. unfold computeAdvancedAnalytics, Plain.Analytics.computeAdvancedAnalytics.
  change (Ok Acc.init) with (Ok (Lift.acc Plain.Acc.init)).
  rewrite (loop_acc rows Plain.Acc.init Hord).
  destruct (forOf (Plain.Analytics.processRow h peopleToGroup peopleToShift) rows
              (Ok Plain.Acc.init)) as [a|e] eqn:E; simpl; [|reflexivity].
  f_equal. apply report_acc. intros p Hp.
  apply (@Base.KeyFacts.person_key_In h peopleToGroup peopleToShift rows a E) in Hp
    as [r [Hr <-]].
  unfold ordinaryKeys in Hord. rewrite forallb_forall in Hord.
  now destruct (ordinaryRow_keys r (Hord r Hr)) as [H _].
Qed.

(** A report on ordinary keys, with the report over finite maps that it
    lifts. *)
Lemma returned rows rep :
  ordinaryKeys h peopleToGroup peopleToShift rows = true ->
  computeAdvancedAnalytics h peopleToGroup peopleToShift rows = Ok rep ->
  exists rep',
    Plain.Analytics.computeAdvancedAnalytics h peopleToGroup peopleToShift rows = Ok rep'
    /\ rep = Lift.report rep'.
Proof.
  intros Hord Hrep. rewrite (refines rows Hord) in Hrep.
  destruct (Plain.Analytics.computeAdvancedAnalytics h peopleToGroup peopleToShift rows)
    as [rep'|e]; simpl in Hrep; [|discriminate].
  injection Hrep as <-. eauto.
Qed.

End WithInputs.

End Refinement.

(** ** What does not go through a dictionary of counts *)

Module FieldFacts.

Import JsString JsNumber JsValue JsObject JsItem Analytics Spec Tally.
Local Open Scope string_scope.
Local Open Scope nat_scope.

Section WithInputs.

Variable h : Host.
Variables peopleToGroup peopleToShift : obj string.

Lemma processRow_agree a a' r :
  Lift.agree a a' ->
  match processRow h peopleToGroup peopleToShift a r,
        Plain.Analytics.processRow h peopleToGroup peopleToShift a' r with
  | Ok b, Ok b' => Lift.agree b b'
  | Throw e, Throw e' => e = e'
  | _, _ => False
  end.
Proof.
  intros (Ht & Hi & Hr & Hd & Hids).
  unfold processRow, Plain.Analytics.processRow. rewrite Hids.
  destruct (trackTruck r (Plain.Acc.truckIds a')) as [ids|e]; simpl; [|reflexivity].
  unfold Lift.agree. simpl. rewrite Ht, Hi, Hr, Hd. repeat split.
Qed.

(** The two loops end the same way, and agree on the totals, on the day
    buckets and on the truck numbers. *)
Lemma loop_agree rows : forall a a',
  Lift.agree a a' ->
  match forOf (processRow h peopleToGroup peopleToShift) rows (Ok a),
        forOf (Plain.Analytics.processRow h peopleToGroup peopleToShift) rows (Ok a')
  with
  | Ok b, Ok b' => Lift.agree b b'
  | Throw e, Throw e' => e = e'
  | _, _ => False
  end.
Proof.
  induction rows as [|r rows IH]; simpl; intros a a' H; [assumption|].
  pose proof (processRow_agree r H) as Hstep.
  destruct (processRow h peopleToGroup peopleToShift a r) as [b|e],
    (Plain.Analytics.processRow h peopleToGroup peopleToShift a' r) as [b'|e'];
    simpl; try contradiction.
  - now apply IH.
  - now rewrite !Base.LoopFacts.forOf_Throw.
Qed.

Lemma init_agree : Lift.agree Acc.init Plain.Acc.init.
Proof. repeat split. Qed.

(** A report of the code comes with a report over finite maps that
    agrees with it. *)
Lemma loop_Ok rows a :
  forOf (processRow h peopleToGroup peopleToShift) rows (Ok Acc.init) = Ok a ->
  exists a',
    forOf (Plain.Analytics.processRow h peopleToGroup peopleToShift) rows
      (Ok Plain.Acc.init) = Ok a'
    /\ Lift.agree a a'.
Proof.
  intros Hloop. pose proof (loop_agree rows init_agree) as H.
  rewrite Hloop in H.
  destruct (forOf (Plain.Analytics.processRow h peopleToGroup peopleToShift) rows
              (Ok Plain.Acc.init)) as [a'|e]; [eauto | contradiction].
Qed.

Lemma loop_Throw rows e :
  forOf (processRow h peopleToGroup peopleToShift) rows (Ok Acc.init) = Throw e ->
  forOf (Plain.Analytics.processRow h peopleToGroup peopleToShift) rows
    (Ok Plain.Acc.init) = Throw e.
Proof.
  intros Hloop. pose proof (loop_agree rows init_agree) as H.
  rewrite Hloop in H.
  destruct (forOf (Plain.Analytics.processRow h peopleToGroup peopleToShift) rows
              (Ok Plain.Acc.init)) as [a'|e']; [contradiction | now subst].
Qed.

Lemma compute_loop rows rep :
  computeAdvancedAnalytics h peopleToGroup peopleToShift rows = Ok rep ->
  exists a,
    forOf (processRow h peopleToGroup peopleToShift) rows (Ok Acc.init) = Ok a
    /\ rep = Analytics.report h peopleToGroup peopleToShift a.
Proof.
  unfold computeAdvancedAnalytics.
  destruct (forOf _ rows (Ok Acc.init)) as [a|e]; simpl; [|discriminate].
  intros [= <-]. eauto.
Qed.

(** The call returns exactly when the routine over finite maps does. *)
Lemma compute_same_outcome rows :
  match computeAdvancedAnalytics h peopleToGroup peopleToShift rows,
        Plain.Analytics.computeAdvancedAnalytics h peopleToGroup peopleToShift rows
  with
  | Ok _, Ok _ => True
  | Throw e, Throw e' => e = e'
  | _, _ => False
  end.
Proof.
  unfold computeAdvancedAnalytics, Plain.Analytics.computeAdvancedAnalytics.
  pose proof (loop_agree rows init_agree) as H.
  destruct (forOf (processRow h peopleToGroup peopleToShift) rows (Ok Acc.init)),
    (forOf (Plain.Analytics.processRow h peopleToGroup peopleToShift) rows
       (Ok Plain.Acc.init)); simpl; auto.
Qed.

(** The fields of the report that the agreeing accumulators decide. *)
Lemma report_agree a a' :
  Lift.agree a a' ->
  let rep := Analytics.report h peopleToGroup peopleToShift a in
  let rep' := Plain.Analytics.report h peopleToGroup peopleToShift a' in
  Basic.totalTrucks (Report.basic rep) = Plain.Basic.totalTrucks (Plain.Report.basic rep')
  /\ Basic.totalImpounded (Report.basic rep)
     = Plain.Basic.totalImpounded (Plain.Report.basic rep')
  /\ Basic.totalRevenue (Report.basic rep)
     = Plain.Basic.totalRevenue (Plain.Report.basic rep')
  /\ Stats.impoundedRate (Report.stats rep)
     = Plain.Stats.impoundedRate (Plain.Report.stats rep')
  /\ Stats.uniqueTrucks (Report.stats rep)
     = Plain.Stats.uniqueTrucks (Plain.Report.stats rep')
  /\ Report.trends rep = Plain.Report.trends rep'
  /\ Report.dailyActivity rep = Plain.Report.dailyActivity rep'
  /\ impoundAlert h a = Plain.Analytics.impoundAlert h a'.
Proof.
  intros (Ht & Hi & Hr & Hd & Hids). simpl.
  assert (Hrate : impoundedRate a = Plain.Analytics.impoundedRate a').
  { unfold impoundedRate, Plain.Analytics.impoundedRate. now rewrite Ht, Hi. }
  repeat split; try assumption.
  - now rewrite Hids.
  - unfold trends, Plain.Analytics.trends, sortedDates, Plain.Analytics.sortedDates,
      dayOf, Plain.Analytics.dayOf.
    now rewrite Hd.
  - unfold impoundAlert, Plain.Analytics.impoundAlert. now rewrite Hrate.
Qed.

End WithInputs.

End FieldFacts.

(** ** The dictionaries that the counting idiom builds *)

Module DictFacts.

Import JsString JsNumber JsValue JsObject JsItem Analytics Spec Tally Lift ItemFacts.
Import Base.ObjFacts.
Local Open Scope string_scope.
Local Open Scope nat_scope.

Section WithHost.

Variable h : Host.

Lemma counted_ordinary k n :
  inherited k = None -> counted h (k, n) = [(k, Num n)].
Proof. intros H. unfold counted. simpl. now rewrite H. Qed.

Lemma counted_proto n : counted h ("__proto__", n) = [].
Proof. reflexivity. Qed.

Lemma counted_builtin k name n :
  inherited k = Some (Builtin name) ->
  counted h (k, n)
  = [(k, Str (Nat.iter n (fun s => s ++ "1") (memberText h (Builtin name))))].
Proof. intros H. unfold counted. simpl. now rewrite H. Qed.

(** An entry is left out or kept under its key. *)
Lemma counted_cases (e : string * nat) :
  (fst e = "__proto__" /\ counted h e = [])
  \/ (fst e <> "__proto__" /\ exists c, counted h e = [(fst e, c)]).
Proof.
  destruct e as [k n]. simpl. unfold counted. simpl.
  destruct (inherited k) as [[|name]|] eqn:E.
  - left. split; [now apply inherited_proto | reflexivity].
  - right. split; [now apply inherited_Builtin in E | eauto].
  - right. split; [|eauto]. intros ->. discriminate E.
Qed.

Lemma fst_rendered (o : obj nat) :
  map fst (rendered h o)
  = filter (fun k => negb (String.eqb k "__proto__")) (map fst o).
Proof.
  induction o as [|e o IH]; simpl; [reflexivity|].
  rewrite map_app, IH.
  destruct (counted_cases e) as [[Hk ->] | [Hk [c ->]]].
  - rewrite Hk. reflexivity.
  - apply String.eqb_neq in Hk. now rewrite Hk.
Qed.

Lemma get_rendered k (o : obj nat) :
  get k (rendered h o)
  = match get k o with
    | Some n => match counted h (k, n) with
                | e :: _ => Some (snd e)
                | [] => None
                end
    | None => None
    end.
Proof.
  induction o as [|[k' n'] o IH]; simpl; [reflexivity|].
  destruct (String.eqb k k') eqn:E.
  - apply String.eqb_eq in E. subst k'.
    destruct (counted_cases (k, n')) as [[Hk ->] | [Hk [c ->]]]; simpl in *.
    + rewrite IH. subst k.
      destruct (get "__proto__" o); reflexivity.
    + now rewrite String.eqb_refl.
  - destruct (counted_cases (k', n')) as [[Hk ->] | [Hk [c ->]]]; simpl in *.
    + exact IH.
    + now rewrite E.
Qed.

Lemma set_rendered k n c (o : obj nat) :
  counted h (k, n) = [(k, c)] ->
  set k c (rendered h o) = rendered h (set k n o).
Proof.
  intros Hc. induction o as [|[k' n'] o IH]; simpl.
  - now rewrite Hc.
  - destruct (String.eqb k k') eqn:E.
    + apply String.eqb_eq in E. subst k'. simpl. rewrite Hc.
      destruct (counted_cases (k, n')) as [[Hk H0] | [Hk [c' ->]]]; simpl in *.
      * unfold counted in Hc. simpl in Hc. subst k. discriminate Hc.
      * now rewrite String.eqb_refl.
    + simpl.
      destruct (counted_cases (k', n')) as [[Hk ->] | [Hk [c' ->]]]; simpl in *.
      * exact IH.
      * rewrite E. now rewrite IH.
Qed.

Lemma rendered_set_proto n (o : obj nat) :
  rendered h (set "__proto__" n o) = rendered h o.
Proof.
  unfold rendered. induction o as [|[k' n'] o IH]; [reflexivity|].
  cbn [set]. destruct (String.eqb "__proto__" k') eqn:E.
  - apply String.eqb_eq in E. subst k'. reflexivity.
  - cbn [flat_map]. now rewrite IH.
Qed.

Lemma native_memberText name : native (memberText h (Builtin name)).
Proof. eexists. reflexivity. Qed.

Lemma native_app s t : native s -> native (s ++ t).
Proof.
  intros [u ->]. exists (u ++ t).
  change ("function" ++ u) with (String "f" (String "u" (String "n" (String "c"
    (String "t" (String "i" (String "o" (String "n" u)))))))).
  reflexivity.
Qed.

Lemma native_not_empty s : native s -> String.eqb s "" = false.
Proof. intros [u ->]. reflexivity. Qed.

Lemma native_iter n s : native s -> native (Nat.iter n (fun s => s ++ "1") s).
Proof.
  intros H. induction n as [|n IH]; simpl; [assumption | now apply native_app].
Qed.

(** One more record under a key, in the dictionary and in the table. *)
Lemma bump_rendered k (o : obj nat) :
  bump h k (rendered h o) = rendered h (Plain.Analytics.bump k o).
Proof.
  unfold bump, Plain.Analytics.bump, assign, valueAt.
  rewrite get_rendered.
  destruct (inherited k) as [[|name]|] eqn:E.
  - apply inherited_proto in E. subst k. simpl.
    now rewrite rendered_set_proto.
  - pose proof E as Hk. apply inherited_Builtin in Hk as [-> Hk].
    apply String.eqb_neq in Hk. rewrite Hk.
    destruct (get k o) as [n|] eqn:G.
    + rewrite (@counted_builtin k k n E). cbn [snd Count.orZero].
      rewrite (@native_not_empty _ (@native_iter n _ (native_memberText k))).
      cbn [Count.succ]. apply set_rendered.
      rewrite (@counted_builtin k k _ E), Nat.add_1_r. reflexivity.
    + cbn [option_map Count.orZero Count.succ]. apply set_rendered.
      rewrite (@counted_builtin k k _ E). reflexivity.
  - assert (Hk : String.eqb k "__proto__" = false)
      by (apply ordinary_not_proto, ordinary_inherited, E).
    rewrite Hk.
    destruct (get k o) as [n|] eqn:G.
    + rewrite (@counted_ordinary k n E). simpl. apply set_rendered.
      now rewrite (@counted_ordinary k _ E).
    + simpl. apply set_rendered. now rewrite (@counted_ordinary k _ E).
Qed.

Lemma countsBy_rendered key rows : forall o,
  countsBy h key rows (rendered h o) = rendered h (Plain.Spec.countsBy key rows o).
Proof.
  induction rows as [|r rows IH]; simpl; intros o; [reflexivity|].
  unfold countsBy, Plain.Spec.countsBy in *. simpl.
  now rewrite bump_rendered, IH.
Qed.

Lemma countsIf_rendered key rows : forall o,
  countsIf h key rows (rendered h o) = rendered h (Plain.Tally.countsIf key rows o).
Proof.
  induction rows as [|r rows IH]; simpl; intros o; [reflexivity|].
  unfold countsIf, Plain.Tally.countsIf in *. simpl.
  destruct (truthy (Row.impounded r)); [rewrite bump_rendered|]; apply IH.
Qed.

(** What a key holds after the records of a list. *)
Lemma get_counts key rows k :
  get k (countsBy h key rows [])
  = tally h k (List.length (recordsOf key k rows)).
Proof.
  change (@nil (string * item nat)) with (rendered h []).
  rewrite countsBy_rendered, get_rendered, Base.TallyFacts.countsBy_get_exact.
  destruct (recordsOf key k rows) as [|r l]; [reflexivity|].
  unfold tally, counted. cbn [List.length fst snd].
  destruct (inherited k) as [[|name]|]; reflexivity.
Qed.

End WithHost.

End DictFacts.

(** ** The accumulators of the code at the end of the loop *)

Module AccFacts.

Import JsString JsNumber JsValue JsObject JsItem Analytics Spec Tally Lift ItemFacts.
Import DictFacts.
Local Open Scope string_scope.
Local Open Scope nat_scope.

Section WithInputs.

Variable h : Host.
Variables peopleToGroup peopleToShift : obj string.

Lemma loop_dictionaries rows : forall a a',
  forOf (processRow h peopleToGroup peopleToShift) rows (Ok a) = Ok a' ->
  Acc.perPersonCounts a'
  = countsBy h (resolvePersonName h) rows (Acc.perPersonCounts a)
  /\ Acc.perGroupCounts a'
     = countsBy h (bucketOf h peopleToGroup) rows (Acc.perGroupCounts a)
  /\ Acc.perShiftCounts a'
     = countsBy h (bucketOf h peopleToShift) rows (Acc.perShiftCounts a)
  /\ Acc.perPersonImpounded a'
     = countsIf h (resolvePersonName h) rows (Acc.perPersonImpounded a)
  /\ Acc.impoundedByGroup a'
     = countsIf h (bucketOf h peopleToGroup) rows (Acc.impoundedByGroup a)
  /\ Acc.impoundedByShift a'
     = countsIf h (bucketOf h peopleToShift) rows (Acc.impoundedByShift a)
  /\ Acc.perPersonRevenue a'
     = revenueBy h (resolvePersonName h) rows (Acc.perPersonRevenue a)
  /\ Acc.perGroupRevenue a'
     = revenueBy h (bucketOf h peopleToGroup) rows (Acc.perGroupRevenue a)
  /\ Acc.perShiftRevenue a'
     = revenueBy h (bucketOf h peopleToShift) rows (Acc.perShiftRevenue a).
Proof.
  induction rows as [|r rows IH]; simpl; intros a a' H.
  - injection H as <-. repeat split.
  - destruct (processRow h peopleToGroup peopleToShift a r) as [a1|e1] eqn:E;
      simpl in H; [|rewrite Base.LoopFacts.forOf_Throw in H; discriminate].
    destruct (IH _ _ H) as (H1 & H2 & H3 & H4 & H5 & H6 & H7 & H8 & H9).
    unfold processRow in E.
    destruct (trackTruck r (Acc.truckIds a)) as [ids|]; simpl in E; [|discriminate].
    injection E as <-. simpl in *.
    unfold countsBy, countsIf, revenueBy, bucketOf in *. simpl.
    destruct (truthy (Row.impounded r)); repeat split; assumption.
Qed.

(** Each dictionary of counts holds what its table of counts renders
    to. *)
Lemma final_counts rows a :
  forOf (processRow h peopleToGroup peopleToShift) rows (Ok Acc.init) = Ok a ->
  Acc.perPersonCounts a
  = rendered h (Plain.Spec.countsBy (resolvePersonName h) rows [])
  /\ Acc.perGroupCounts a
     = rendered h (Plain.Spec.countsBy (bucketOf h peopleToGroup) rows [])
  /\ Acc.perShiftCounts a
     = rendered h (Plain.Spec.countsBy (bucketOf h peopleToShift) rows [])
  /\ Acc.perPersonImpounded a
     = rendered h (Plain.Tally.countsIf (resolvePersonName h) rows [])
  /\ Acc.impoundedByGroup a
     = rendered h (Plain.Tally.countsIf (bucketOf h peopleToGroup) rows [])
  /\ Acc.impoundedByShift a
     = rendered h (Plain.Tally.countsIf (bucketOf h peopleToShift) rows []).
Proof.
  intros H. apply loop_dictionaries in H.
  destruct H as (H1 & H2 & H3 & H4 & H5 & H6 & _).
  rewrite H1, H2, H3, H4, H5, H6. simpl.
  change (@nil (string * item nat)) with (rendered h []).
  now rewrite !countsBy_rendered, !countsIf_rendered.
Qed.

End WithInputs.

(** The revenue of a key is kept under the same keys as its count. *)
Lemma fst_assign (V W : Type) k (v : V) (w : W) (o : obj V) (o' : obj W) :
  map fst o = map fst o' -> map fst (assign k v o) = map fst (assign k w o').
Proof.
  intros H. unfold assign. destruct (String.eqb k "__proto__"); [assumption|].
  now rewrite !Base.ObjFacts.keys_set, H.
Qed.

Lemma fst_revenueBy h key rows : forall o o',
  map fst o = map fst o' ->
  map fst (revenueBy h key rows o) = map fst (countsBy h key rows o').
Proof.
  induction rows as [|r rows IH]; simpl; intros o o' H; [assumption|].
  unfold revenueBy, countsBy in *. simpl. apply IH.
  unfold accrue, bump. now apply fst_assign.
Qed.

Lemma In_set (V : Type) k (v : V) (o : obj V) k' v' :
  In (k', v') (set k v o) -> (k', v') = (k, v) \/ In (k', v') o.
Proof.
  induction o as [|[k0 v0] o IH]; simpl.
  - intros [H | []]. now left.
  - destruct (String.eqb k k0); simpl.
    + intros [H | H]; [now left | right; now right].
    + intros [H | H]; [right; now left|].
      destruct (IH H); [now left | right; now right].
Qed.

Lemma clean_accrue h k x (o : obj (item number)) :
  clean o -> clean (accrue h k x o).
Proof.
  intros Hc. unfold accrue, assign.
  destruct (String.eqb k "__proto__") eqn:Ek; [assumption|].
  intros k' c' Hin. apply In_set in Hin as [Heq | Hin]; [|exact (Hc _ _ Hin)].
  injection Heq as -> ->. unfold valueAt.
  destruct (get k o) as [c|] eqn:G.
  - apply Base.ObjFacts.get_Some_In in G. specialize (Hc _ _ G).
    destruct c as [v|s|m]; cbn [clean Amount.orZero Amount.plus].
    + now destruct (JsNumber.truthy v).
    + cbn in Hc. rewrite (native_not_empty Hc). cbn [Amount.plus].
      now apply native_app.
    + destruct Hc.
  - destruct (inherited k) as [[|name]|] eqn:E;
      cbn [option_map Amount.orZero Amount.plus]; [| |exact I].
    + apply inherited_proto in E. subst k. discriminate Ek.
    + apply native_app. eexists. reflexivity.
Qed.

Lemma clean_revenueBy h key rows : forall o,
  clean o -> clean (revenueBy h key rows o).
Proof.
  induction rows as [|r rows IH]; simpl; intros o H; [assumption|].
  unfold revenueBy in *. simpl. apply IH. now apply clean_accrue.
Qed.

Lemma clean_rendered h (o : obj nat) : clean (rendered h o).
Proof.
  intros k c Hin. unfold rendered in Hin. apply in_flat_map in Hin as [e [_ Hin]].
  unfold counted in Hin. destruct (inherited (fst e)) as [[|name]|]; simpl in Hin.
  - destruct Hin.
  - destruct Hin as [[= <- <-] | []]. apply native_iter. eexists. reflexivity.
  - destruct Hin as [[= <- <-] | []]. exact I.
Qed.

(** The text of a function is not a number. *)
Lemma trimEnd_head c s :
  isWhiteSpace c = false -> exists u, trimEnd (String c s) = String c u.
Proof. intros H. simpl. rewrite H. destruct (trimEnd s); eauto. Qed.

Lemma native_NaN s : native s -> StringToNumber s = NaN.
Proof.
  intros [t ->]. unfold StringToNumber, trim.
  change (trimStart ("function" ++ t)) with (String "f" ("unction" ++ t)).
  destruct (@trimEnd_head "f" ("unction" ++ t) eq_refl) as [u ->].
  reflexivity.
Qed.

End AccFacts.

(** ** [computeMetrics] *)

Module BasicFacts.

Import JsString JsNumber JsValue JsObject JsItem Analytics Spec Tally Lift ItemFacts.
Import DictFacts.
Local Open Scope string_scope.
Local Open Scope nat_scope.

Lemma countsBy_same_keys h key1 key2 rows :
  (forall r, In r rows -> key1 r = key2 r) ->
  forall o, countsBy h key1 rows o = countsBy h key2 rows o.
Proof.
  unfold countsBy. induction rows as [|r rows IH]; intros H o; [reflexivity|].
  simpl. rewrite (H r (or_introl eq_refl)). apply IH.
  intros r' Hr'. apply H. now right.
Qed.

Lemma countsIf_same_keys h key1 key2 rows :
  (forall r, In r rows -> key1 r = key2 r) ->
  forall o, countsIf h key1 rows o = countsIf h key2 rows o.
Proof.
  unfold countsIf. induction rows as [|r rows IH]; intros H o; [reflexivity|].
  simpl. rewrite (H r (or_introl eq_refl)). apply IH.
  intros r' Hr'. apply H. now right.
Qed.

Section WithInputs.

Variable h : Host.
Variables peopleToGroup peopleToShift : obj string.

(** What the loop of [computeMetrics] leaves in its accumulators. *)
Lemma basic_loop rows : forall a,
  let a' := fold_left (Insights.processRow h peopleToGroup peopleToShift) rows a in
  Insights.Acc.total a' = Insights.Acc.total a + List.length rows
  /\ Insights.Acc.totalImpounded a'
     = Insights.Acc.totalImpounded a + List.length (impoundedRows rows)
  /\ Insights.Acc.perPersonCounts a'
     = countsBy h (Insights.personOf h) rows (Insights.Acc.perPersonCounts a)
  /\ Insights.Acc.perPersonImpounded a'
     = countsIf h (Insights.personOf h) rows (Insights.Acc.perPersonImpounded a)
  /\ Insights.Acc.perGroupCounts a'
     = countsBy h (basicBucketOf h peopleToGroup) rows (Insights.Acc.perGroupCounts a)
  /\ Insights.Acc.perShiftCounts a'
     = countsBy h (basicBucketOf h peopleToShift) rows (Insights.Acc.perShiftCounts a).
Proof.
  induction rows as [|r rows IH]; simpl; intros a.
  - repeat split; lia.
  - destruct (IH (Insights.processRow h peopleToGroup peopleToShift a r))
      as (H1 & H2 & H3 & H4 & H5 & H6).
    rewrite H1, H2, H3, H4, H5, H6. unfold impoundedRows, countsIf, countsBy. simpl.
    destruct (truthy (Row.impounded r)); simpl; repeat split; lia.
Qed.

(** The fields of the result, as folds over the records. *)
Lemma metrics_fields rows :
  let m := Insights.computeMetrics h peopleToGroup peopleToShift rows in
  Insights.Metrics.totalTrucks m = List.length rows
  /\ Insights.Metrics.totalImpounded m = List.length (impoundedRows rows)
  /\ Insights.Metrics.perPerson m
     = rendered h (Plain.Spec.countsBy (Insights.personOf h) rows [])
  /\ Insights.Metrics.perGroup m
     = rendered h (Plain.Spec.countsBy (basicBucketOf h peopleToGroup) rows [])
  /\ Insights.Metrics.perShift m
     = rendered h (Plain.Spec.countsBy (basicBucketOf h peopleToShift) rows []).
Proof.
  intros m. subst m. unfold Insights.computeMetrics. simpl.
  destruct (basic_loop rows
              {| Insights.Acc.perPersonCounts := []; Insights.Acc.perPersonImpounded := [];
                 Insights.Acc.perGroupCounts := []; Insights.Acc.perShiftCounts := [];
                 Insights.Acc.total := 0; Insights.Acc.totalImpounded := 0 |})
    as (M1 & M2 & M3 & M4 & M5 & M6).
  cbv zeta in M1, M2, M3, M4, M5, M6. simpl in M1, M2, M3, M4, M5, M6.
  rewrite M1, M2, M3, M5, M6.
  change (@nil (string * item nat)) with (rendered h []).
  now rewrite !countsBy_rendered.
Qed.

(** The dictionaries and the table of the result. *)
Lemma metrics_dictionaries rows :
  let m := Insights.computeMetrics h peopleToGroup peopleToShift rows in
  Insights.Metrics.perPerson m = countsBy h (Insights.personOf h) rows []
  /\ Insights.Metrics.perGroup m = countsBy h (basicBucketOf h peopleToGroup) rows []
  /\ Insights.Metrics.perShift m = countsBy h (basicBucketOf h peopleToShift) rows []
  /\ Insights.Metrics.peopleRows m
     = map (fun p => {|
              Insights.PersonRow.person := p;
              Insights.PersonRow.group := assigned peopleToGroup p;
              Insights.PersonRow.shift := assigned peopleToShift p;
              Insights.PersonRow.trucks :=
                Count.orZero (valueAt p (countsBy h (Insights.personOf h) rows []));
              Insights.PersonRow.impounded :=
                Count.orZero (valueAt p (countsIf h (Insights.personOf h) rows [])) |})
           (StringSort.sort (keys (countsBy h (Insights.personOf h) rows []))).
Proof.
  intros m. subst m. unfold Insights.computeMetrics. simpl.
  destruct (basic_loop rows
              {| Insights.Acc.perPersonCounts := []; Insights.Acc.perPersonImpounded := [];
                 Insights.Acc.perGroupCounts := []; Insights.Acc.perShiftCounts := [];
                 Insights.Acc.total := 0; Insights.Acc.totalImpounded := 0 |})
    as (M1 & M2 & M3 & M4 & M5 & M6).
  cbv zeta in M1, M2, M3, M4, M5, M6. simpl in M1, M2, M3, M4, M5, M6.
  now rewrite M3, M4, M5, M6.
Qed.

Lemma ordinaryBasicRow_keys r :
  ordinaryBasicRow h peopleToGroup peopleToShift r = true ->
  ordinary (Insights.personOf h r) = true
  /\ keyOf h (assigned peopleToGroup (Insights.personOf h r))
     = Plain.Analytics.assigned peopleToGroup (Insights.personOf h r)
  /\ keyOf h (assigned peopleToShift (Insights.personOf h r))
     = Plain.Analytics.assigned peopleToShift (Insights.personOf h r)
  /\ ordinary (Plain.Analytics.assigned peopleToGroup (Insights.personOf h r)) = true
  /\ ordinary (Plain.Analytics.assigned peopleToShift (Insights.personOf h r)) = true.
Proof.
  unfold ordinaryBasicRow, basicBucketOf. intros H.
  apply andb_true_iff in H as [H Hs]. apply andb_true_iff in H as [Hp Hg].
  rewrite (@Refinement.assigned_ordinary peopleToGroup _ Hp) in Hg.
  rewrite (@Refinement.assigned_ordinary peopleToShift _ Hp) in Hs.
  rewrite !Refinement.assigned_ordinary by assumption. simpl in *. auto.
Qed.

Lemma processRow_basic a r :
  ordinaryBasicRow h peopleToGroup peopleToShift r = true ->
  Insights.processRow h peopleToGroup peopleToShift (Lift.basicAcc a) r
  = Lift.basicAcc (Plain.Insights.processRow h peopleToGroup peopleToShift a r).
Proof.
  intros H. destruct (ordinaryBasicRow_keys r H) as (Hp & Hg & Hs & Hog & Hos).
  unfold Insights.processRow, Plain.Insights.processRow.
  rewrite Hg, Hs. unfold Lift.basicAcc. simpl.
  rewrite !bump_numbered by assumption.
  destruct (truthy (Row.impounded r)); reflexivity.
Qed.

Lemma loop_basic rows : forall a,
  ordinaryBasicKeys h peopleToGroup peopleToShift rows = true ->
  fold_left (Insights.processRow h peopleToGroup peopleToShift) rows (Lift.basicAcc a)
  = Lift.basicAcc
      (fold_left (Plain.Insights.processRow h peopleToGroup peopleToShift) rows a).
Proof.
  induction rows as [|r rows IH]; simpl; intros a H; [reflexivity|].
  apply andb_true_iff in H as [Hr Hrows].
  rewrite (@processRow_basic a r Hr). now apply IH.
Qed.

(** On ordinary keys [computeMetrics] computes the result of the routine
    over finite maps. *)
Lemma metrics_refines rows :
  ordinaryBasicKeys h peopleToGroup peopleToShift rows = true ->
  Insights.computeMetrics h peopleToGroup peopleToShift rows
  = Lift.metrics (Plain.Insights.computeMetrics h peopleToGroup peopleToShift rows).
Proof.
  intros Hord. unfold Insights.computeMetrics, Plain.Insights.computeMetrics.
  set (a0 := {| Plain.Insights.Acc.perPersonCounts := [];
                Plain.Insights.Acc.perPersonImpounded := [];
                Plain.Insights.Acc.perGroupCounts := [];
                Plain.Insights.Acc.perShiftCounts := [];
                Plain.Insights.Acc.total := 0;
                Plain.Insights.Acc.totalImpounded := 0 |}).
  change {| Insights.Acc.perPersonCounts := []; Insights.Acc.perPersonImpounded := [];
            Insights.Acc.perGroupCounts := []; Insights.Acc.perShiftCounts := [];
            Insights.Acc.total := 0; Insights.Acc.totalImpounded := 0 |}
    with (Lift.basicAcc a0).
  rewrite (loop_basic rows a0 Hord).
  set (a := fold_left (Plain.Insights.processRow h peopleToGroup peopleToShift) rows a0).
  unfold Lift.metrics. simpl. f_equal.
  rewrite keys_numbered, map_map. apply map_ext_in. intros p Hin.
  assert (Hp : ordinary p = true).
  { apply (Permutation_in _ (Permutation_sym (StringSort.Permuted_sort _))) in Hin.
    apply (proj1 (Base.ObjFacts.keys_In p (Plain.Insights.Acc.perPersonCounts a)))
      in Hin.
    destruct (Base.MetricsFacts.metrics_loop h peopleToGroup peopleToShift rows a0)
      as (_ & _ & M3 & _).
    cbv zeta in M3. fold a in M3. rewrite M3 in Hin. simpl in Hin.
    apply Base.GroupFacts.countsBy_key_In in Hin as [r [Hr <-]].
    unfold ordinaryBasicKeys in Hord. rewrite forallb_forall in Hord.
    now destruct (ordinaryBasicRow_keys r (Hord r Hr)) as [H _]. }
  unfold Lift.basicRow. simpl.
  rewrite !Refinement.assigned_ordinary, !valueAt_numbered, !orZero_Num by assumption.
  reflexivity.
Qed.

End WithInputs.

End BasicFacts.

(** ** A returned report *)

Module OutcomeFacts.

Import JsString JsNumber JsValue JsObject JsItem Analytics Spec Tally Lift ItemFacts.
Import DictFacts.
Local Open Scope string_scope.
Local Open Scope nat_scope.

Section WithInputs.

Variable h : Host.
Variables peopleToGroup peopleToShift : obj string.

Lemma danger_outside_impound a :
  dangerAlerts (alerts h peopleToGroup peopleToShift a) = dangerAlerts (impoundAlert h a).
Proof.
  unfold alerts, dangerAlerts, performanceAlert, assignmentAlert.
  rewrite !filter_app.
  destruct (0 <? List.length (underPerformers h peopleToGroup peopleToShift a));
    destruct (0 <? unassignedCount peopleToGroup peopleToShift a); simpl;
    now rewrite app_nil_r.
Qed.

Lemma warning_outside_impound a :
  impoundWarnings (alerts h peopleToGroup peopleToShift a)
  = impoundWarnings (impoundAlert h a).
Proof.
  unfold alerts, impoundWarnings, performanceAlert, assignmentAlert.
  rewrite !filter_app.
  destruct (0 <? List.length (underPerformers h peopleToGroup peopleToShift a));
    destruct (0 <? unassignedCount peopleToGroup peopleToShift a); simpl;
    now rewrite app_nil_r.
Qed.

(** A returned report comes with its accumulators and with the report
    over finite maps, which agrees with it on the totals, the rate, the
    truck numbers, the day buckets and the impound alerts. *)
Lemma returned_fields rows rep :
  computeAdvancedAnalytics h peopleToGroup peopleToShift rows = Ok rep ->
  exists a rep',
    forOf (processRow h peopleToGroup peopleToShift) rows (Ok Acc.init) = Ok a
    /\ rep = Analytics.report h peopleToGroup peopleToShift a
    /\ Plain.Analytics.computeAdvancedAnalytics h peopleToGroup peopleToShift rows
       = Ok rep'
    /\ Basic.totalTrucks (Report.basic rep)
       = Plain.Basic.totalTrucks (Plain.Report.basic rep')
    /\ Basic.totalImpounded (Report.basic rep)
       = Plain.Basic.totalImpounded (Plain.Report.basic rep')
    /\ Basic.totalRevenue (Report.basic rep)
       = Plain.Basic.totalRevenue (Plain.Report.basic rep')
    /\ Stats.impoundedRate (Report.stats rep)
       = Plain.Stats.impoundedRate (Plain.Report.stats rep')
    /\ Stats.uniqueTrucks (Report.stats rep)
       = Plain.Stats.uniqueTrucks (Plain.Report.stats rep')
    /\ Report.trends rep = Plain.Report.trends rep'
    /\ Report.dailyActivity rep = Plain.Report.dailyActivity rep'
    /\ dangerAlerts (Report.alerts rep) = dangerAlerts (Plain.Report.alerts rep')
    /\ impoundWarnings (Report.alerts rep)
       = impoundWarnings (Plain.Report.alerts rep').
Proof.
  intros Hrep. apply FieldFacts.compute_loop in Hrep as [a [Hloop ->]].
  destruct (FieldFacts.loop_Ok h peopleToGroup peopleToShift rows Hloop)
    as [a' [Hloop' Hagree]].
  exists a, (Plain.Analytics.report h peopleToGroup peopleToShift a').
  split; [assumption|]. split; [reflexivity|]. split.
  { unfold Plain.Analytics.computeAdvancedAnalytics. now rewrite Hloop'. }
  destruct (FieldFacts.report_agree h peopleToGroup peopleToShift Hagree)
    as (H1 & H2 & H3 & H4 & H5 & H6 & H7 & H8).
  repeat (split; [assumption|]).
  change (Report.alerts (Analytics.report h peopleToGroup peopleToShift a))
    with (alerts h peopleToGroup peopleToShift a).
  change (Plain.Report.alerts (Plain.Analytics.report h peopleToGroup peopleToShift a'))
    with (Plain.Analytics.alerts h peopleToGroup peopleToShift a').
  rewrite danger_outside_impound, warning_outside_impound,
    Base.AlertFacts.dangerAlerts_alerts, Base.AlertFacts.impoundWarnings_alerts, H8.
  split; reflexivity.
Qed.

(** The same, for a report over finite maps that is at hand. *)
Lemma agreement rows rep rep' :
  computeAdvancedAnalytics h peopleToGroup peopleToShift rows = Ok rep ->
  Plain.Analytics.computeAdvancedAnalytics h peopleToGroup peopleToShift rows = Ok rep' ->
  Basic.totalTrucks (Report.basic rep)
  = Plain.Basic.totalTrucks (Plain.Report.basic rep')
  /\ Basic.totalImpounded (Report.basic rep)
     = Plain.Basic.totalImpounded (Plain.Report.basic rep')
  /\ Basic.totalRevenue (Report.basic rep)
     = Plain.Basic.totalRevenue (Plain.Report.basic rep')
  /\ Stats.impoundedRate (Report.stats rep)
     = Plain.Stats.impoundedRate (Plain.Report.stats rep')
  /\ Stats.uniqueTrucks (Report.stats rep)
     = Plain.Stats.uniqueTrucks (Plain.Report.stats rep')
  /\ Report.trends rep = Plain.Report.trends rep'
  /\ Report.dailyActivity rep = Plain.Report.dailyActivity rep'
  /\ dangerAlerts (Report.alerts rep) = dangerAlerts (Plain.Report.alerts rep')
  /\ impoundWarnings (Report.alerts rep)
     = impoundWarnings (Plain.Report.alerts rep').
Proof.
  intros Hrep Hrep'.
  destruct (@returned_fields rows rep Hrep) as (a & rep'' & _ & _ & Hrep'' & H).
  rewrite Hrep' in Hrep''. injection Hrep'' as <-. exact H.
Qed.

Lemma thrown rows e :
  computeAdvancedAnalytics h peopleToGroup peopleToShift rows = Throw e ->
  Plain.Analytics.computeAdvancedAnalytics h peopleToGroup peopleToShift rows = Throw e.
Proof.
  intros H. pose proof (FieldFacts.compute_same_outcome h peopleToGroup peopleToShift rows)
    as Hsame.
  rewrite H in Hsame.
  destruct (Plain.Analytics.computeAdvancedAnalytics h peopleToGroup peopleToShift rows);
    [contradiction | now subst].
Qed.

Lemma returns_with rows rep' :
  Plain.Analytics.computeAdvancedAnalytics h peopleToGroup peopleToShift rows = Ok rep' ->
  exists rep, computeAdvancedAnalytics h peopleToGroup peopleToShift rows = Ok rep.
Proof.
  intros H. pose proof (FieldFacts.compute_same_outcome h peopleToGroup peopleToShift rows)
    as Hsame.
  rewrite H in Hsame.
  destruct (computeAdvancedAnalytics h peopleToGroup peopleToShift rows);
    [eauto | contradiction].
Qed.

Lemma throws_with rows e :
  Plain.Analytics.computeAdvancedAnalytics h peopleToGroup peopleToShift rows = Throw e ->
  computeAdvancedAnalytics h peopleToGroup peopleToShift rows = Throw e.
Proof.
  intros H. pose proof (FieldFacts.compute_same_outcome h peopleToGroup peopleToShift rows)
    as Hsame.
  rewrite H in Hsame.
  destruct (computeAdvancedAnalytics h peopleToGroup peopleToShift rows);
    [contradiction | now subst].
Qed.

(** The totals of a returned report. *)
Lemma totals rows rep :
  computeAdvancedAnalytics h peopleToGroup peopleToShift rows = Ok rep ->
  Basic.totalTrucks (Report.basic rep) = List.length rows
  /\ Basic.totalImpounded (Report.basic rep) = List.length (impoundedRows rows).
Proof.
  intros Hrep.
  destruct (@returned_fields rows rep Hrep) as (a & rep' & _ & _ & Hrep' & F1 & F2 & _).
  destruct (Base.impounded_rate_is_percentage_on_maps h peopleToGroup peopleToShift rows)
    as [[rep'' (Hrep'' & Ht & Hi & _)] | [Hthrow _]];
    [|rewrite Hthrow in Hrep'; discriminate].
  rewrite Hrep' in Hrep''. injection Hrep'' as <-. now rewrite F1, F2.
Qed.

(** The dictionaries of a returned report. *)
Lemma dictionaries rows rep :
  computeAdvancedAnalytics h peopleToGroup peopleToShift rows = Ok rep ->
  Basic.perPerson (Report.basic rep)
  = rendered h (Plain.Spec.countsBy (resolvePersonName h) rows [])
  /\ Basic.perGroup (Report.basic rep)
     = rendered h (Plain.Spec.countsBy (bucketOf h peopleToGroup) rows [])
  /\ Basic.perShift (Report.basic rep)
     = rendered h (Plain.Spec.countsBy (bucketOf h peopleToShift) rows [])
  /\ Report.impoundedByGroup rep
     = rendered h (Plain.Tally.countsIf (bucketOf h peopleToGroup) rows [])
  /\ Report.impoundedByShift rep
     = rendered h (Plain.Tally.countsIf (bucketOf h peopleToShift) rows [])
  /\ Basic.perPersonRevenue (Report.basic rep)
     = revenueBy h (resolvePersonName h) rows []
  /\ Basic.perGroupRevenue (Report.basic rep)
     = revenueBy h (bucketOf h peopleToGroup) rows []
  /\ Basic.perShiftRevenue (Report.basic rep)
     = revenueBy h (bucketOf h peopleToShift) rows [].
Proof.
  intros Hrep. apply FieldFacts.compute_loop in Hrep as [a [Hloop ->]].
  destruct (AccFacts.final_counts h peopleToGroup peopleToShift rows Hloop)
    as (H1 & H2 & H3 & _ & H5 & H6).
  destruct (@AccFacts.loop_dictionaries h peopleToGroup peopleToShift rows _ _ Hloop)
    as (_ & _ & _ & _ & _ & _ & H7 & H8 & H9).
  simpl. auto 10.
Qed.

(** What a key of a returned report holds. *)
Lemma counts rows rep k :
  computeAdvancedAnalytics h peopleToGroup peopleToShift rows = Ok rep ->
  get k (Basic.perPerson (Report.basic rep))
  = tally h k (List.length (recordsOf (resolvePersonName h) k rows))
  /\ get k (Basic.perGroup (Report.basic rep))
     = tally h k (List.length (recordsOf (bucketOf h peopleToGroup) k rows))
  /\ get k (Basic.perShift (Report.basic rep))
     = tally h k (List.length (recordsOf (bucketOf h peopleToShift) k rows)).
Proof.
  intros Hrep. apply FieldFacts.compute_loop in Hrep as [a [Hloop ->]].
  destruct (@AccFacts.loop_dictionaries h peopleToGroup peopleToShift rows _ _ Hloop)
    as (H1 & H2 & H3 & _).
  simpl in *. rewrite H1, H2, H3. now rewrite !get_counts.
Qed.

End WithInputs.

End OutcomeFacts.

(** ** Reading a lifted report *)

Module LiftFacts.

Import JsString JsNumber JsValue JsObject JsItem Analytics Spec Tally Lift ItemFacts.
Local Open Scope string_scope.
Local Open Scope nat_scope.

Lemma countAt_numbered k (o : obj nat) :
  countAt k (numbered o) = Plain.Analytics.natOr0 (get k o).
Proof.
  unfold countAt, valueAt. rewrite get_numbered.
  destruct (get k o) as [n|]; [reflexivity|].
  now destruct (inherited k).
Qed.

Lemma sumOverKeys_numbered (o : obj nat) :
  sumOverKeys (numbered o) = Plain.Spec.sumOverKeys o.
Proof.
  unfold sumOverKeys, Plain.Spec.sumOverKeys. rewrite keys_numbered.
  f_equal. apply map_ext. intros k. apply countAt_numbered.
Qed.

Lemma get_numbered_Some (N : Type) k (o : obj N) c :
  get k (numbered o) = Some c -> exists n, c = Num n /\ get k o = Some n.
Proof.
  rewrite get_numbered. destruct (get k o) as [n|]; simpl; [|discriminate].
  intros [= <-]. eauto.
Qed.

Lemma impoundedSeries_report rep :
  map countOf (Display.impoundedSeries (Lift.report rep))
  = Plain.Display.impoundedSeries rep.
Proof.
  unfold Display.impoundedSeries, Plain.Display.impoundedSeries. simpl.
  rewrite keys_numbered, map_map. apply map_ext. intros k.
  apply countAt_numbered.
Qed.

Lemma successRate_row h p :
  Display.successRate h (Lift.row p) = Plain.Display.successRate p.
Proof. reflexivity. Qed.

Lemma row_In p l :
  In p (map Lift.row l) -> exists p', In p' l /\ p = Lift.row p'.
Proof. intros H. apply in_map_iff in H as [p' [<- H]]. eauto. Qed.


Lemma recordsOf_same_keys key1 key2 k (rows : list Row.t) :
  (forall r, In r rows -> key1 r = key2 r) ->
  recordsOf key1 k rows = recordsOf key2 k rows.
Proof.
  intros H. unfold recordsOf. apply filter_ext_in. intros r Hr. now rewrite (H r Hr).
Qed.

Lemma ordinaryKeys_person h g s rows r :
  ordinaryKeys h g s rows = true -> In r rows ->
  ordinary (resolvePersonName h r) = true.
Proof.
  unfold ordinaryKeys, ordinaryRow. rewrite forallb_forall. intros H Hr.
  specialize (H r Hr). apply andb_true_iff in H as [H _].
  now apply andb_true_iff in H as [H _].
Qed.

Lemma bucketOf_rows h g s mapping rows r :
  ordinaryKeys h g s rows = true -> In r rows ->
  bucketOf h mapping r = Plain.Spec.bucketOf h mapping r.
Proof.
  intros H Hr. apply Refinement.bucketOf_ordinary.
  exact (ordinaryKeys_person h g s rows r H Hr).
Qed.

Lemma recordsOf_bucket h g s mapping rows k :
  ordinaryKeys h g s rows = true ->
  recordsOf (bucketOf h mapping) k rows
  = recordsOf (Plain.Spec.bucketOf h mapping) k rows.
Proof.
  intros H. apply recordsOf_same_keys. intros r Hr.
  exact (bucketOf_rows h g s mapping rows r H Hr).
Qed.

Lemma recordsOf_bucket_impounded h g s mapping rows k :
  ordinaryKeys h g s rows = true ->
  recordsOf (bucketOf h mapping) k (impoundedRows rows)
  = recordsOf (Plain.Spec.bucketOf h mapping) k (impoundedRows rows).
Proof.
  intros H. apply recordsOf_same_keys. intros r Hr.
  apply filter_In in Hr as [Hr _].
  exact (bucketOf_rows h g s mapping rows r H Hr).
Qed.

Lemma existsb_same (A : Type) (f g : A -> bool) (l : list A) :
  (forall x, In x l -> f x = g x) -> existsb f l = existsb g l.
Proof.
  induction l as [|x l IH]; simpl; intros H; [reflexivity|].
  rewrite (H x (or_introl eq_refl)), IH; [reflexivity|].
  intros y Hy. apply H. now right.
Qed.

Lemma unassigned_ordinary g s p :
  ordinary p = true -> unassigned g s p = Plain.Tally.unassigned g s p.
Proof.
  intros H. unfold unassigned, Plain.Tally.unassigned.
  now rewrite !Refinement.assigned_ordinary by assumption.
Qed.

Lemma belowHalf_row people total p :
  belowHalf people total (Lift.row p) = Plain.Tally.belowHalf people total p.
Proof. reflexivity. Qed.

End LiftFacts.

(** ** The person keys and the selections of a returned report *)

Module PeopleFacts.

Import JsString JsNumber JsValue JsObject JsItem Analytics Spec Tally Lift ItemFacts.
Import DictFacts.
Local Open Scope string_scope.
Local Open Scope nat_scope.

Lemma Unknown_ordinary : inherited "Unknown" = None.
Proof. reflexivity. Qed.

Section WithInputs.

Variable h : Host.
Variables peopleToGroup peopleToShift : obj string.
Variable rows : list Row.t.
Variable rep : Report.t.
Hypothesis Hrep :
  computeAdvancedAnalytics h peopleToGroup peopleToShift rows = Ok rep.

(** The person keys are the names of the records in the order of their
    first record, [__proto__] apart. *)
Lemma person_names :
  map fst (Basic.perPerson (Report.basic rep))
  = filter (fun k => negb (String.eqb k "__proto__"))
           (firstSeen (map (resolvePersonName h) rows)).
Proof.
  destruct (OutcomeFacts.dictionaries h peopleToGroup peopleToShift rows Hrep)
    as (Hp & _).
  rewrite Hp, fst_rendered, Base.BucketFacts.countsBy_keys. reflexivity.
Qed.

Lemma person_names_distinct : NoDup (keys (Basic.perPerson (Report.basic rep))).
Proof.
  apply Base.ObjFacts.keys_NoDup. rewrite person_names.
  apply NoDup_filter, Base.BucketFacts.firstSeen_NoDup.
Qed.

Lemma person_name_records k :
  In k (keys (Basic.perPerson (Report.basic rep)))
  <-> k <> "__proto__" /\ exists r, In r rows /\ resolvePersonName h r = k.
Proof.
  rewrite Base.ObjFacts.keys_In, person_names, filter_In,
    Base.BucketFacts.firstSeen_In, in_map_iff, negb_true_iff, String.eqb_neq.
  split.
  - intros [[r [H1 H2]] Hk]. split; [assumption|]. exists r. auto.
  - intros [Hk [r [H1 H2]]]. split; [|assumption]. exists r. auto.
Qed.

Lemma revenue_names :
  map fst (Basic.perPersonRevenue (Report.basic rep))
  = map fst (Basic.perPerson (Report.basic rep))
  /\ map fst (Basic.perGroupRevenue (Report.basic rep))
     = map fst (Basic.perGroup (Report.basic rep))
  /\ map fst (Basic.perShiftRevenue (Report.basic rep))
     = map fst (Basic.perShift (Report.basic rep)).
Proof.
  apply FieldFacts.compute_loop in Hrep as [a [Hloop ->]].
  destruct (@AccFacts.loop_dictionaries h peopleToGroup peopleToShift rows _ _ Hloop)
    as (H1 & H2 & H3 & _ & _ & _ & H7 & H8 & H9).
  simpl in *. rewrite H1, H2, H3, H7, H8, H9.
  repeat split; now apply AccFacts.fst_revenueBy.
Qed.

Lemma revenue_clean : clean (Basic.perPersonRevenue (Report.basic rep)).
Proof.
  destruct (OutcomeFacts.dictionaries h peopleToGroup peopleToShift rows Hrep)
    as (_ & _ & _ & _ & _ & Hr & _).
  rewrite Hr. apply AccFacts.clean_revenueBy. intros k c [].
Qed.

(** The names of the per-person table. *)
Lemma table_names :
  map PersonRow.person (Basic.peopleRows (Report.basic rep))
  = StringSort.sort (keys (Basic.perPerson (Report.basic rep))).
Proof.
  apply FieldFacts.compute_loop in Hrep as [a [Hloop ->]]. simpl.
  unfold peopleRows. rewrite map_map. simpl. apply map_id.
Qed.

End WithInputs.

(** The truck-count reduction returns what it started from or a row of
    the list. *)
Lemma moreTrucks_from h (l : list PersonRow.t) : forall max w,
  fold_left (moreTrucks h) l max = Some w -> max = Some w \/ In w l.
Proof.
  induction l as [|x l IH]; simpl; intros max w H; [now left|].
  apply IH in H as [H | H]; [|right; now right].
  unfold moreTrucks in H. destruct (Count.gt h _ _).
  - injection H as <-. right. now left.
  - now left.
Qed.

(** A running maximum of the revenue reduction: the 0 it starts from or
    a positive number. *)
Lemma moreRevenue_keeps h (l : list (string * item number)) : forall m v,
  clean l ->
  snd m = Num v -> (v = Fin 0 \/ JsNumber.gt v (Fin 0) = true) ->
  (fold_left (moreRevenue h) l m = m \/ In (fold_left (moreRevenue h) l m) l)
  /\ exists w, snd (fold_left (moreRevenue h) l m) = Num w
               /\ (w = Fin 0 \/ JsNumber.gt w (Fin 0) = true).
Proof.
  induction l as [|x l IH]; intros m v Hc Hm Hv.
  - simpl. split; [now left | eauto].
  - assert (Hc' : clean l).
    { intros k c Hin. apply (Hc k c). now right. }
    assert (Hor : Amount.orZero (Some (snd m)) = Num v).
    { rewrite Hm. simpl. destruct Hv as [-> | Hv]; [reflexivity|].
      destruct v as [| | |q]; simpl in *; try discriminate; try reflexivity.
      apply Base.SelectionFacts.gtQ_iff in Hv.
      destruct (Qeq_bool q 0) eqn:E; [|reflexivity].
      apply Qeq_bool_eq in E. rewrite E in Hv. exfalso. exact (Qlt_irrefl _ Hv). }
    assert (Hstep : moreRevenue h m x
                    = if Amount.gt h (snd x) (Num v) then x else m).
    { unfold moreRevenue. now rewrite Hor. }
    cbn [fold_left]. rewrite Hstep.
    destruct (Amount.gt h (snd x) (Num v)) eqn:G.
    + destruct x as [k c]. cbn [snd] in G.
      assert (Hx : exists u, c = Num u /\ JsNumber.gt u v = true).
      { pose proof (Hc k c (or_introl eq_refl)) as Hk.
        destruct c as [u|s|mm]; simpl in Hk; [eauto | | contradiction].
        unfold Amount.gt, JsItem.gt in G. simpl in G.
        rewrite (AccFacts.native_NaN Hk) in G. discriminate G. }
      destruct Hx as [u [-> Hu]].
      assert (Hu0 : u = Fin 0 \/ JsNumber.gt u (Fin 0) = true).
      { right. destruct Hv as [-> | Hv]; [assumption|].
        now apply Base.SelectionFacts.gt_trans with v. }
      destruct (IH (k, Num u) u Hc' eq_refl Hu0) as [[He | He] Hw].
      * split; [|assumption]. right. left. now rewrite He.
      * split; [|assumption]. right. now right.
    + destruct (IH m v Hc' Hm Hv) as [[He | He] Hw].
      * split; [|assumption]. now left.
      * split; [|assumption]. right. now right.
Qed.

End PeopleFacts.

(** ** Keys that hold a number *)

Module KeyNameFacts.

Import JsString JsNumber JsValue JsObject JsItem Analytics Spec Tally Lift ItemFacts.
Local Open Scope string_scope.
Local Open Scope nat_scope.

(** A placeholder is not the name of a member of [Object.prototype]. *)
Lemma placeholder_ordinary h k :
  isPlaceholderName h (VStr k) = true -> ordinary k = true.
Proof.
  intros H. unfold ordinary, inherited.
  destruct (String.eqb k "__proto__") eqn:E.
  { apply String.eqb_eq in E. subst k. vm_compute in H. discriminate H. }
  destruct (existsb (String.eqb k) builtins) eqn:B; [|reflexivity].
  apply existsb_exists in B as [x [Hx Hk]]. apply String.eqb_eq in Hk. subst x.
  simpl in Hx.
  repeat (destruct Hx as [<- | Hx]; [vm_compute in H; discriminate H|]).
  destruct Hx.
Qed.

(** A record is counted, as a number, under its key when that is not such
    a name. *)
Lemma counted_under h key (rows : list Row.t) r k :
  In r rows -> key r = k -> ordinary k = true ->
  exists n, tally h k (List.length (recordsOf key k rows)) = Some (Num n) /\ 1 <= n.
Proof.
  intros Hr Hk Hord.
  assert (Hin : In r (recordsOf key k rows)).
  { apply filter_In. split; [assumption | now apply String.eqb_eq]. }
  destruct (recordsOf key k rows) as [|r0 l0]; [destruct Hin|].
  cbn [List.length tally]. apply ordinary_inherited in Hord. rewrite Hord.
  exists (S (List.length l0)). split; [reflexivity | lia].
Qed.

End KeyNameFacts.

(** ** "Unknown Date" among the day keys *)

Module DateOrderFacts.

Import JsString JsNumber JsValue JsDate JsObject Analytics Spec Tally.
Local Open Scope string_scope.
Local Open Scope nat_scope.

Lemma digitChar_before_U (z : Z) : Ascii.compare (digitChar z) "U" = Lt.
Proof.
  unfold digitChar.
  pose proof (Z.mod_pos_bound z 10 eq_refl) as Hb.
  assert (H : (z mod 10 = 0 \/ z mod 10 = 1 \/ z mod 10 = 2 \/ z mod 10 = 3
               \/ z mod 10 = 4 \/ z mod 10 = 5 \/ z mod 10 = 6 \/ z mod 10 = 7
               \/ z mod 10 = 8 \/ z mod 10 = 9)%Z) by lia.
  repeat (destruct H as [-> | H]; [reflexivity|]). now rewrite H.
Qed.

(** A date in the ISO format comes before "Unknown Date" in the order
    of the code units. *)
Lemma isoDate_before_Unknown (ymd : Z * Z * Z) :
  String.ltb (isoDate ymd) "Unknown Date" = true.
Proof.
  destruct ymd as [[y m] d]. unfold isoDate, String.ltb.
  destruct ((0 <=? y)%Z && (y <=? 9999)%Z).
  - unfold pad4. simpl. now rewrite digitChar_before_U.
  - now destruct (y <? 0)%Z.
Qed.

Lemma dayKey_cases h r :
  dayKey h r = "Unknown Date" \/ String.ltb (dayKey h r) "Unknown Date" = true.
Proof.
  unfold dayKey. destruct (truthy (dateStr r)); [|now left].
  destruct (newDate h (dateStr r)) as [t|]; [|now left].
  right. rewrite Base.DayKeyFacts.splitHead_toISOString.
  apply isoDate_before_Unknown.
Qed.

Lemma ltb_not_leb (x y : string) : String.ltb x y = true -> String.leb y x = false.
Proof.
  unfold String.ltb, String.leb. rewrite (String.compare_antisym x y).
  destruct (String.compare y x); simpl; intros H; try discriminate H; reflexivity.
Qed.

(** In a sorted list without repetition, an element that all the others
    come before is the last one. *)
Lemma sorted_last (u : string) (l : list string) :
  StronglySorted (fun x y => String.leb x y = true) l ->
  NoDup l -> In u l ->
  (forall x, In x l -> x <> u -> String.ltb x u = true) ->
  exists l', l = (l' ++ [u])%list /\ ~ In u l'.
Proof.
  induction 1 as [|x l Hl IH Hx]; intros Hnd Hin Hbefore; [destruct Hin|].
  inversion Hnd as [|? ? Hnot Hnd']; subst.
  destruct (string_dec x u) as [-> | Hne].
  - destruct l as [|y l].
    + exists []. split; [reflexivity | intros []].
    + exfalso. rewrite Forall_forall in Hx.
      assert (Hy : y <> u) by (intros ->; apply Hnot; now left).
      pose proof (Hbefore y (or_intror (or_introl eq_refl)) Hy) as Hlt.
      apply ltb_not_leb in Hlt. rewrite (Hx y (or_introl eq_refl)) in Hlt.
      discriminate Hlt.
  - destruct Hin as [Hin | Hin]; [contradiction|].
    destruct (IH Hnd' Hin) as [l' [-> Hl']].
    { intros z Hz. apply Hbefore. now right. }
    exists (x :: l'). split; [reflexivity|].
    intros [Hu | Hu]; [contradiction | now apply Hl'].
Qed.

Section WithInputs.

Variable h : Host.
Variables peopleToGroup peopleToShift : obj string.

(** In a trend series the label "Unknown Date" comes last, after the
    labels of the other day keys. *)
Lemma unknown_date_last rows rep' tr :
  Plain.Analytics.computeAdvancedAnalytics h peopleToGroup peopleToShift rows = Ok rep' ->
  Plain.Report.trends rep' = Some tr ->
  (exists r, In r rows /\ dayKey h r = "Unknown Date") ->
  exists days,
    Trends.dates tr = (map (dateLabel h) days ++ ["Unknown Date"])%list
    /\ forall d, In d days ->
         String.ltb d "Unknown Date" = true /\ exists r, In r rows /\ dayKey h r = d.
Proof.
  intros Hrep Htr Hex.
  apply Base.ReportFacts.compute_Ok in Hrep as [a [Hloop ->]]. simpl in Htr.
  destruct (@Base.DayFacts.trends_Some h peopleToGroup peopleToShift rows a Hloop tr Htr)
    as (_ & Hdates & _).
  pose proof (@Base.DayFacts.sortedDates_In h peopleToGroup peopleToShift rows a Hloop)
    as HIn.
  pose proof (@Base.DayFacts.sortedDates_perm h peopleToGroup peopleToShift rows a Hloop)
    as Hperm.
  destruct (@sorted_last "Unknown Date" (Plain.Analytics.sortedDates a))
    as [days [Hsplit Hnot]].
  - apply Base.OrderFacts.sort_StronglySorted.
  - eapply Permutation_NoDup; [symmetry; exact Hperm|].
    apply Base.BucketFacts.firstSeen_NoDup.
  - now apply HIn.
  - intros x Hx Hne. apply HIn in Hx as [r [_ <-]].
    destruct (dayKey_cases h r); [contradiction | assumption].
  - exists days. split.
    + rewrite Hdates, Hsplit, map_app. simpl. unfold dateLabel at 2.
      now rewrite String.eqb_refl.
    + intros d Hd.
      assert (Hd' : In d (Plain.Analytics.sortedDates a)).
      { rewrite Hsplit. apply in_or_app. now left. }
      apply HIn in Hd' as [r [Hr <-]].
      split; [|eauto].
      destruct (dayKey_cases h r) as [Hu | Hlt]; [|assumption].
      exfalso. apply Hnot. now rewrite <- Hu.
Qed.

End WithInputs.

End DateOrderFacts.

(** ** A top performer is selected *)

Module WinnerFacts.

Import JsString JsNumber JsValue JsObject Analytics Spec Tally.
Local Open Scope string_scope.
Local Open Scope nat_scope.

Section WithInputs.

Variable h : Host.
Variables peopleToGroup peopleToShift : obj string.
Variable rows : list Row.t.
Variable rep' : Plain.Report.t.
Hypothesis Hrep' :
  Plain.Analytics.computeAdvancedAnalytics h peopleToGroup peopleToShift rows = Ok rep'.



End WithInputs.

End WinnerFacts.

(** * The report of [computeAdvancedAnalytics] *)

Import Base.
Import JsString JsNumber JsValue JsDate JsObject JsItem Analytics Spec Tally.
Local Open Scope string_scope.
Local Open Scope nat_scope.

(** The report over finite maps that goes with a returned report, and
    the fields on which the two agree. *)
Ltac with_maps Hrep rep' Hrep' :=
  let a := fresh "a" in
  let H := fresh "Hfields" in
  destruct (@OutcomeFacts.returned_fields _ _ _ _ _ Hrep)
    as (a & rep' & _ & _ & Hrep' & H);
  destruct H as (?Ftotal & ?Fimpounded & ?Frevenue & ?Frate & ?Ftrucks & ?Ftrends
                 & ?Fdaily & ?Fdanger & ?Fwarning).

(** On ordinary keys, the report over finite maps that a returned report
    lifts. *)
Ltac on_ordinary Hord Hrep rep' Hrep' :=
  destruct (@Refinement.returned _ _ _ _ _ Hord Hrep) as [rep' [Hrep' ->]].

(** What a theorem over finite maps says of the report at hand. *)
Ltac from_maps thm Hrep' H := pose proof Hrep' as H; eapply thm in H.


(** C1.  The counts of a breakdown do not always add up to the total:
    the dictionaries are plain objects, and a key that names a member of
    [Object.prototype] does not hold a count.  On [Examples.sast], a
    record of a person named [__proto__] is counted in the total and
    under no person key, and two records of a person named
    [constructor] leave the source text of [Object] followed by two
    digits 1 under that key; in both reports the numbers under the
    person keys add up to 1, which is not the total. *)
Theorem person_counts_miss_prototype_names :
  (exists rep,
      computeAdvancedAnalytics Examples.sast [] [] Examples.protoAndJane = Ok rep
      /\ Basic.totalTrucks (Report.basic rep) = 2
      /\ Basic.perPerson (Report.basic rep) = [("Jane", Num 1)]
      /\ get "__proto__" (Basic.perPerson (Report.basic rep)) = None
      /\ sumOverKeys (Basic.perPerson (Report.basic rep)) = 1
      /\ sumOverKeys (Basic.perPerson (Report.basic rep))
         <> Basic.totalTrucks (Report.basic rep))
  /\ (exists rep,
         computeAdvancedAnalytics Examples.sast [] [] Examples.constructorTwice = Ok rep
         /\ Basic.totalTrucks (Report.basic rep) = 3
         /\ Basic.perPerson (Report.basic rep)
            = [("constructor", Str "function Object() { [native code] }11");
               ("Jane", Num 1)]
         /\ sumOverKeys (Basic.perPerson (Report.basic rep)) = 1
         /\ sumOverKeys (Basic.perPerson (Report.basic rep))
            <> Basic.totalTrucks (Report.basic rep)
         /\ sumOverKeys (Basic.perGroup (Report.basic rep)) = 3)
  /\ ordinaryKeys Examples.sast [] [] Examples.protoAndJane = false
  /\ ordinaryKeys Examples.sast [] [] Examples.constructorTwice = false.
Proof.
  split; [|split; [|split]].
  - eexists. split; [vm_compute; reflexivity|].
    repeat split; try (vm_compute; reflexivity). vm_compute. discriminate.
  - eexists. split; [vm_compute; reflexivity|].
    repeat split; try (vm_compute; reflexivity). vm_compute. discriminate.
  - vm_compute. reflexivity.
  - vm_compute. reflexivity.
Qed.

(** C7.  In the report returned for a record list, [impoundedRate] is
    the number of impounded records divided by the number of records,
    times 100, when there is at least one record, and 0 for the empty
    list; it is always a number between 0 and 100.  No report is
    returned only when the call throws on a [truckId] without [trim]. *)
Theorem impounded_rate_is_percentage
    (h : Host) (peopleToGroup peopleToShift : obj string) (rows : list Row.t) :
  (exists rep,
      computeAdvancedAnalytics h peopleToGroup peopleToShift rows = Ok rep
      /\ Basic.totalTrucks (Report.basic rep) = List.length rows
      /\ Basic.totalImpounded (Report.basic rep) = List.length (impoundedRows rows)
      /\ Stats.impoundedRate (Report.stats rep)
         = (if 0 <? List.length rows
            then Fin (inject_Z (Z.of_nat (List.length (impoundedRows rows)))
                      / inject_Z (Z.of_nat (List.length rows)) * 100)
            else Fin 0)
      /\ (rows = [] -> Stats.impoundedRate (Report.stats rep) = Fin 0)
      /\ exists q, Stats.impoundedRate (Report.stats rep) = Fin q
                   /\ (0 <= q <= 100)%Q)
  \/ (computeAdvancedAnalytics h peopleToGroup peopleToShift rows = Throw TypeError
      /\ exists r, In r rows /\ noTrim r = true).
Proof.
  destruct (impounded_rate_is_percentage_on_maps h peopleToGroup peopleToShift rows)
    as [[rep' (Hrep' & H)] | [Hthrow Hex]].
  - left. destruct (@OutcomeFacts.returns_with _ _ _ _ _ Hrep') as [rep Hrep].
    exists rep. split; [assumption|].
    destruct (@OutcomeFacts.agreement _ _ _ _ _ _ Hrep Hrep') as (F1 & F2 & _ & F4 & _).
    now rewrite F1, F2, F4.
  - right. split; [now apply OutcomeFacts.throws_with | assumption].
Qed.

(** C8.  The report carries one "danger" alert, the impound-rate one,
    when [impoundedRate > 15], otherwise one "warning" impound-rate alert
    when [impoundedRate > 10], otherwise neither, and never both.  For
    20 records that are all impounded the rate is 100, there is exactly
    one "danger" alert and no "warning" impound-rate alert. *)
Theorem impound_alert_tiers
    (h : Host) (peopleToGroup peopleToShift : obj string) (rows : list Row.t) :
  (exists rep,
      computeAdvancedAnalytics h peopleToGroup peopleToShift rows = Ok rep
      /\ List.length (dangerAlerts (Report.alerts rep))
         = (if JsNumber.gt (Stats.impoundedRate (Report.stats rep)) (Fin 15)
            then 1 else 0)
      /\ List.length (impoundWarnings (Report.alerts rep))
         = (if JsNumber.gt (Stats.impoundedRate (Report.stats rep)) (Fin 15)
            then 0
            else if JsNumber.gt (Stats.impoundedRate (Report.stats rep)) (Fin 10)
                 then 1 else 0)
      /\ (forall al, In al (dangerAlerts (Report.alerts rep)) ->
                     Alert.title al = "High Impound Rate Alert")
      /\ List.length (dangerAlerts (Report.alerts rep))
         + List.length (impoundWarnings (Report.alerts rep)) <= 1
      /\ (List.length rows = 20 ->
          (forall r, In r rows -> truthy (Row.impounded r) = true) ->
          (exists q, Stats.impoundedRate (Report.stats rep) = Fin q /\ (q == 100)%Q)
          /\ List.length (dangerAlerts (Report.alerts rep)) = 1
          /\ List.length (impoundWarnings (Report.alerts rep)) = 0))
  \/ (computeAdvancedAnalytics h peopleToGroup peopleToShift rows = Throw TypeError
      /\ exists r, In r rows /\ noTrim r = true).
Proof.
  destruct (impound_alert_tiers_on_maps h peopleToGroup peopleToShift rows)
    as [[rep' (Hrep' & H)] | [Hthrow Hex]].
  - left. destruct (@OutcomeFacts.returns_with _ _ _ _ _ Hrep') as [rep Hrep].
    exists rep. split; [assumption|].
    destruct (@OutcomeFacts.agreement _ _ _ _ _ _ Hrep Hrep')
      as (_ & _ & _ & F4 & _ & _ & _ & F8 & F9).
    now rewrite F4, F8, F9.
  - right. split; [now apply OutcomeFacts.throws_with | assumption].
Qed.

(** C9.  On the empty record list, with any assignment mappings, the call
    returns (it does not throw) the report in which every count and the
    revenue are zero, the per-person, per-group and per-shift mappings
    and the alert list are empty, and [uniquePeople],
    [avgTrucksPerPerson] and [impoundedRate] are 0. *)
Theorem empty_rows_give_zero_report
    (h : Host) (peopleToGroup peopleToShift : obj string) :
  computeAdvancedAnalytics h peopleToGroup peopleToShift [] = Ok emptyReport
  /\ Basic.totalTrucks (Report.basic emptyReport) = 0
  /\ Basic.totalImpounded (Report.basic emptyReport) = 0
  /\ Basic.totalRevenue (Report.basic emptyReport) = Fin 0
  /\ Basic.perPerson (Report.basic emptyReport) = []
  /\ Basic.perGroup (Report.basic emptyReport) = []
  /\ Basic.perShift (Report.basic emptyReport) = []
  /\ Report.alerts emptyReport = []
  /\ Stats.uniquePeople (Report.stats emptyReport) = 0
  /\ Stats.avgTrucksPerPerson (Report.stats emptyReport) = Fin 0
  /\ Stats.impoundedRate (Report.stats emptyReport) = Fin 0.
Proof. repeat split. Qed.


(** X1.  The call returns a report unless a record carries a truthy
    [truckId] that is not a string, and then it throws a [TypeError]
    whatever the other records are. *)
Theorem throws_exactly_on_truckId_without_trim
    (h : Host) (peopleToGroup peopleToShift : obj string) (rows : list Row.t) :
  if existsb noTrim rows
  then computeAdvancedAnalytics h peopleToGroup peopleToShift rows = Throw TypeError
  else exists rep,
         computeAdvancedAnalytics h peopleToGroup peopleToShift rows = Ok rep.
Proof.
  pose proof (throws_exactly_on_truckId_without_trim_on_maps
                h peopleToGroup peopleToShift rows) as H.
  destruct (existsb noTrim rows).
  - now apply OutcomeFacts.throws_with.
  - destruct H as [rep' Hrep']. exact (@OutcomeFacts.returns_with _ _ _ _ _ Hrep').
Qed.

(** X10.  The entry of [dailyActivity] under a day key holds the number of
    records of that day and the number of impounded ones among them, and
    a day without a record has no entry. *)
Theorem daily_activity_counts_the_days_records
    (h : Host) (peopleToGroup peopleToShift : obj string) (rows : list Row.t)
    (rep : Report.t) (k : string) :
  computeAdvancedAnalytics h peopleToGroup peopleToShift rows = Ok rep ->
  get k (Report.dailyActivity rep)
  = match recordsOf (dayKey h) k rows with
    | [] => None
    | r :: l =>
        Some {| DayActivity.total := List.length (r :: l);
                DayActivity.impounded := List.length (impoundedRows (r :: l)) |}
    end.
Proof.
  intros Hrep. with_maps Hrep rep' Hrep'. rewrite Fdaily.
  eapply daily_activity_counts_the_days_records_on_maps; exact Hrep'.
Qed.

(** X11.  A trend series accounts for every record: the daily counts add up
    to the total, the daily impounded counts to the impounded total, and
    on no day are there more impounded trucks than trucks. *)
Theorem trend_series_sum_to_totals
    (h : Host) (peopleToGroup peopleToShift : obj string) (rows : list Row.t)
    (rep : Report.t) (tr : Trends.t) :
  computeAdvancedAnalytics h peopleToGroup peopleToShift rows = Ok rep ->
  Report.trends rep = Some tr ->
  list_sum (Trends.dailyCounts tr) = Basic.totalTrucks (Report.basic rep)
  /\ list_sum (Trends.dailyImpounded tr) = Basic.totalImpounded (Report.basic rep)
  /\ Forall2 le (Trends.dailyImpounded tr) (Trends.dailyCounts tr).
Proof.
  intros Hrep Htr. with_maps Hrep rep' Hrep'. rewrite Ftrends in Htr.
  rewrite Ftotal, Fimpounded.
  eapply trend_series_sum_to_totals_on_maps; [exact Hrep' | exact Htr].
Qed.

(** X14.  [uniqueTrucks] is the number of distinct truck identifiers of the
    records, an identifier being the trimmed [truckId] string of a record
    when that is not empty; it never exceeds the number of records. *)
Theorem unique_trucks_counts_distinct_identifiers
    (h : Host) (peopleToGroup peopleToShift : obj string) (rows : list Row.t)
    (rep : Report.t) :
  computeAdvancedAnalytics h peopleToGroup peopleToShift rows = Ok rep ->
  Stats.uniqueTrucks (Report.stats rep) <= Basic.totalTrucks (Report.basic rep)
  /\ exists ids,
       List.length ids = Stats.uniqueTrucks (Report.stats rep)
       /\ NoDup ids
       /\ forall t,
            In t ids
            <-> exists r s,
                  In r rows /\ Row.truckId r = VStr s /\ trim s = t /\ t <> "".
Proof.
  intros Hrep. with_maps Hrep rep' Hrep'. rewrite Ftotal, Ftrucks.
  eapply unique_trucks_counts_distinct_identifiers_on_maps; exact Hrep'.
Qed.

(** X20.  The rate badge is coloured 'danger' exactly when the report holds
    an impound alert of either severity, the 'warning' alert included;
    with a 'warning' or 'success' badge there is no impound alert. *)
Theorem danger_badge_goes_with_an_impound_alert
    (h : Host) (peopleToGroup peopleToShift : obj string) (rows : list Row.t)
    (rep : Report.t) :
  computeAdvancedAnalytics h peopleToGroup peopleToShift rows = Ok rep ->
  List.length (dangerAlerts (Report.alerts rep))
  + List.length (impoundWarnings (Report.alerts rep))
  = if String.eqb (Display.rateVariant (Stats.impoundedRate (Report.stats rep)))
                  "danger"
    then 1 else 0.
Proof.
  intros Hrep. with_maps Hrep rep' Hrep'. rewrite Fdanger, Fwarning, Frate.
  eapply danger_badge_goes_with_an_impound_alert_on_maps; exact Hrep'.
Qed.

(** X28.  The Insights page fails on a sheet with a truck number that is
    not text.  On the records of [parseExcelFile],
    [computeAdvancedAnalytics] throws a [TypeError] exactly when, in some
    row, the first truthy cell among the mapped truck column, 'Truck',
    'Truck No' and 'Truck ID' is a number or a boolean; otherwise it
    returns a report. *)
Theorem numeric_truck_cell_makes_the_analytics_throw
    (h : Host) (peopleToGroup peopleToShift : obj string) (json : list (obj value)) :
  if existsb (fun row => truthyNonString (truckCell (headerMapOf json) row)) json
  then computeAdvancedAnalytics h peopleToGroup peopleToShift (Excel.parseRows h json)
       = Throw TypeError
  else exists rep,
         computeAdvancedAnalytics h peopleToGroup peopleToShift (Excel.parseRows h json)
         = Ok rep.
Proof.
  pose proof (numeric_truck_cell_makes_the_analytics_throw_on_maps
                h peopleToGroup peopleToShift json) as H.
  destruct (existsb _ json).
  - now apply OutcomeFacts.throws_with.
  - destruct H as [rep' Hrep']. exact (@OutcomeFacts.returns_with _ _ _ _ _ Hrep').
Qed.

(** X29.  [normalizeBool] makes [impounded] a boolean: [true] for the cell
    [true], for a number other than 0 (NaN included) and for a string
    that is yes, true, 1 or y up to case and surrounding white space.
    So a report on the records of [parseExcelFile] counts as impounded
    the rows whose detention cell is one of these. *)
Theorem impounded_flag_of_a_parsed_row
    (h : Host) (peopleToGroup peopleToShift : obj string) (json : list (obj value))
    (rep : Report.t) :
  computeAdvancedAnalytics h peopleToGroup peopleToShift (Excel.parseRows h json)
  = Ok rep ->
  Basic.totalTrucks (Report.basic rep) = List.length json
  /\ Basic.totalImpounded (Report.basic rep)
     = List.length
         (filter (fun row => Excel.normalizeBool h (detentionCell (headerMapOf json) row))
                 json)
  /\ (forall s, Excel.normalizeBool h (VStr s)
                = includes yesWords (toLowerCase (trim s)))
  /\ (forall x, Excel.normalizeBool h (VNum x)
                = match x with Fin q => negb (Qeq_bool q 0) | _ => true end)
  /\ (forall b, Excel.normalizeBool h (VBool b) = b)
  /\ Excel.normalizeBool h VUndefined = false
  /\ Excel.normalizeBool h VNull = false.
Proof.
  intros Hrep. with_maps Hrep rep' Hrep'. rewrite Ftotal, Fimpounded.
  eapply impounded_flag_of_a_parsed_row_on_maps; exact Hrep'.
Qed.

(** C5.  For a record whose date parses, to the time value [t], the
    day-bucket key is the calendar date of [t] in UTC, whatever the time
    of day and the local time zone, written [YYYY-MM-DD] when the year
    is between 0 and 9999. *)
Theorem day_key_is_utc_date (h : Host) (r : Row.t) (t : Z) :
  truthy (dateStr r) = true ->
  newDate h (dateStr r) = Some t ->
  dayKey h r = isoDate (utcDate t)
  /\ (forall y m d,
        utcDate t = (y, m, d) -> (0 <= y <= 9999)%Z ->
        dayKey h r = pad4 y ++ "-" ++ pad2 m ++ "-" ++ pad2 d).
Proof.
  intros Htruthy Hdate.
  assert (Hkey : dayKey h r = isoDate (utcDate t)).
  { unfold dayKey. rewrite Htruthy, Hdate. apply DayKeyFacts.splitHead_toISOString. }
  split; [assumption|].
  intros y m d Hymd [Hy0 Hy1]. rewrite Hkey, Hymd. unfold isoDate.
  apply Z.leb_le in Hy0. apply Z.leb_le in Hy1. now rewrite Hy0, Hy1.
Qed.

(** On a host two hours ahead of UTC, the record of half past midnight
    on 2024-01-01, local time, is put in the bucket of 2023-12-31, which
    is not its local calendar date. *)
Lemma day_key_not_local_date :
  truthy (dateStr Examples.newYearNight) = true
  /\ newDate Examples.sast (dateStr Examples.newYearNight) = Some 1704061800000%Z
  /\ dayKey Examples.sast Examples.newYearNight = "2023-12-31"
  /\ isoDate (localDate Examples.sast 1704061800000) = "2024-01-01"
  /\ dayKey Examples.sast Examples.newYearNight
     <> isoDate (localDate Examples.sast 1704061800000).
Proof.
  split; [reflexivity|]. split; [vm_compute; reflexivity|].
  split; [vm_compute; reflexivity|]. split; [vm_compute; reflexivity|].
  vm_compute. discriminate.
Qed.

(** C6.  The revenue of a row is the sum of the amounts of its eight
    fine and amount fields ([amountDue], [gvmFine], [d1Fine], [d2Fine],
    [d3Fine], [d4Fine], [awkwardLoadFine], [amountDueDriver]).  The
    amount of a field is never [NaN]: it is 0 when the field and its raw
    column are missing and when the value does not convert to a number,
    and the converted number otherwise.  A row with all eight fields
    missing has revenue 0; a row with [amountDue] 100, [gvmFine] 50 and
    the other six missing has revenue 150. *)
Theorem row_revenue_sums_fine_fields (r : Row.t) :
  rowRevenue r
  = match map (fun p => amount (fst p) (snd p)) (fineFields r) with
    | x :: l => sumFrom x l
    | [] => Fin 0
    end
  /\ (forall f fb,
        In (f, fb) (fineFields r) ->
        JsNumber.isNaN (amount f fb) = false
        /\ (missing f fb -> amount f fb = Fin 0)
        /\ (ToNumber (chosen f fb) = NaN -> amount f fb = Fin 0)
        /\ (JsNumber.truthy (ToNumber (chosen f fb)) = true ->
            amount f fb = ToNumber (chosen f fb)))
  /\ ((forall f fb, In (f, fb) (fineFields r) -> missing f fb) ->
      rowRevenue r = Fin 0)
  /\ (Row.amountDue r = VNum (Fin 100) ->
      Row.gvmFine r = VNum (Fin 50) ->
      (forall f fb, In (f, fb) (skipn 2 (fineFields r)) -> missing f fb) ->
      rowRevenue r = Fin 150).
Proof.
  split; [reflexivity|]. split; [|split].
  - intros f fb _. split; [apply RevenueFacts.amount_not_NaN|].
    split; [apply RevenueFacts.amount_missing|].
    split; [|apply RevenueFacts.amount_truthy].
    intros H. apply RevenueFacts.amount_falsy. now rewrite H.
  - intros H. unfold rowRevenue.
    rewrite !RevenueFacts.amount_missing by (apply H; simpl; tauto).
    reflexivity.
  - intros Ha Hg H. unfold rowRevenue.
    rewrite (RevenueFacts.amount_missing (f:=Row.d1Fine r)) by (apply H; simpl; tauto).
    rewrite (RevenueFacts.amount_missing (f:=Row.d2Fine r)) by (apply H; simpl; tauto).
    rewrite (RevenueFacts.amount_missing (f:=Row.d3Fine r)) by (apply H; simpl; tauto).
    rewrite (RevenueFacts.amount_missing (f:=Row.d4Fine r)) by (apply H; simpl; tauto).
    rewrite (RevenueFacts.amount_missing (f:=Row.awkwardLoadFine r))
      by (apply H; simpl; tauto).
    rewrite (RevenueFacts.amount_missing (f:=Row.amountDueDriver r))
      by (apply H; simpl; tauto).
    rewrite Ha, Hg. reflexivity.
Qed.

(** X16.  The name of a record is taken from the first of its six
    candidates, [person] and then the raw columns in their order, that is
    truthy and not a placeholder; it is "Unknown" only when there is none.
    The name is never empty and has no white space around it. *)
Theorem person_name_is_first_accepted_candidate (h : Host) (r : Row.t) :
  ((resolvePersonName h r = "Unknown"
    /\ forall c, In c (candidates r) -> rejected h c)
   \/ exists pre c post,
        candidates r = (pre ++ c :: post)%list
        /\ (forall c', In c' pre -> rejected h c')
        /\ truthy c = true /\ isPlaceholderName h c = false
        /\ resolvePersonName h r = trim (ToString h c)
        /\ resolvePersonName h r <> "Unknown")
  /\ resolvePersonName h r <> ""
  /\ trim (resolvePersonName h r) = resolvePersonName h r.
Proof.
  unfold resolvePersonName.
  destruct (NameFacts.firstName_first h (candidates r))
    as [[Hu Hall] | (pre & c & post & Hc & Hpre & Ht & Hp & Hn)].
  - split; [now left|]. rewrite Hu. split; [discriminate | reflexivity].
  - split; [|split].
    + right. exists pre, c, post. repeat split; try assumption.
      rewrite Hn. intros E.
      destruct (PersonFacts.accepted_name h c Hp) as (_ & _ & Hacc).
      contradiction.
    + rewrite Hn. now apply NameFacts.accepted_not_empty.
    + rewrite Hn. apply PersonFacts.trim_idem.
Qed.

(** X17.  The placeholder test looks at a string only up to the white space
    around it and the case of its letters. *)
Theorem placeholder_test_ignores_case_and_padding (h : Host) (s1 s2 : string) :
  toLowerCase (trim s1) = toLowerCase (trim s2) ->
  isPlaceholderName h (VStr s1) = isPlaceholderName h (VStr s2).
Proof.
  intros H. rewrite !PlaceholderFacts.isPlaceholderName_text. now rewrite H.
Qed.

(** X22.  A date given as [YYYY-MM-DD], a valid date of a year from 0000 to
    9999, is its own day key on every host: the string is read as
    midnight UTC and the key is the UTC date. *)
Theorem date_only_string_is_its_own_day_key
    (h : Host) (r : Row.t) (y m d : Z) :
  (0 <= y <= 9999)%Z ->
  validDate (y, m, d) = true ->
  dateStr r = VStr (isoDate (y, m, d)) ->
  dayKey h r = isoDate (y, m, d).
Proof.
  intros Hy Hv Hr. unfold dayKey. rewrite Hr.
  unfold truthy. rewrite IsoFacts.isoDate_not_empty. cbn [negb].
  rewrite (@IsoFacts.newDate_date_only h y m d Hy Hv).
  rewrite DayKeyFacts.splitHead_toISOString. unfold utcDate, Day.
  rewrite Z.div_mul by discriminate.
  now rewrite CalendarFacts.civil_round_trip.
Qed.

(** X26.  [pickFirstNonEmpty] returns the first of its arguments that is
    neither [undefined] nor [null] and whose string form has more than
    white space, unchanged; it returns the empty string when there is
    none. *)
Theorem pick_first_non_empty_is_first_filled_cell (h : Host) (vs : list value) :
  (Excel.pickFirstNonEmpty h vs = VStr ""
   /\ forall v, In v vs -> blankCell h v = true)
  \/ exists pre v post,
       vs = (pre ++ v :: post)%list
       /\ (forall x, In x pre -> blankCell h x = true)
       /\ blankCell h v = false
       /\ Excel.pickFirstNonEmpty h vs = v.
Proof.
  induction vs as [|v vs IH].
  - left. split; [reflexivity | intros v []].
  - destruct (blankCell h v) eqn:Eb.
    + assert (Hskip : Excel.pickFirstNonEmpty h (v :: vs) = Excel.pickFirstNonEmpty h vs).
      { unfold blankCell in Eb. simpl.
        destruct v; try reflexivity; rewrite ExcelFacts.length_empty, Eb; reflexivity. }
      rewrite Hskip.
      destruct IH as [[Hu Hall] | (pre & x & post & -> & Hpre & Hx & Hres)].
      * left. split; [assumption|]. intros x [<- | Hx]; auto.
      * right. exists (v :: pre), x, post. simpl.
        split; [reflexivity|]. split; [|auto].
        intros y [<- | Hy]; auto.
    + right. exists [], v, vs.
      split; [reflexivity|]. split; [intros x []|]. split; [exact Eb|].
      unfold blankCell in Eb. simpl.
      destruct v; try discriminate; rewrite ExcelFacts.length_empty, Eb; reflexivity.
Qed.

(** X27.  A header that [buildHeaderMap] finds for a field is a header of
    the first row, under its own spelling, whose lower case includes one
    of the field's candidates: the first such header, for the first
    candidate that any header includes.  The field is [undefined] only
    when no header includes any candidate. *)
Theorem header_map_finds_first_matching_header
    (sample : obj value) (candidates : list string) :
  match Excel.find sample candidates with
  | Some k =>
      exists cs c cs' pre post,
        candidates = (cs ++ c :: cs')%list
        /\ keys sample = (pre ++ k :: post)%list
        /\ Excel.contains c (toLowerCase k) = true
        /\ (forall k', In k' pre -> Excel.contains c (toLowerCase k') = false)
        /\ forall c' k', In c' cs -> In k' (keys sample) ->
                         Excel.contains c' (toLowerCase k') = false
  | None =>
      forall c k, In c candidates -> In k (keys sample) ->
                  Excel.contains c (toLowerCase k) = false
  end.
Proof.
  induction candidates as [|c cs IH]; simpl.
  - intros c k [].
  - destruct (Excel.findIndex (Excel.contains c) (map toLowerCase (keys sample)))
      as [i|] eqn:E.
    + apply ExcelFacts.findIndex_Some in E as (pre & x & post & Hl & Hlen & Hx & Hpre).
      apply map_eq_app in Hl as (kpre & krest & Hk & Hkpre & Hrest).
      apply map_eq_cons in Hrest as (k & kpost & -> & Hkx & Hkpost).
      rewrite Hk, nth_error_app2 by (rewrite <- Hlen, <- Hkpre, length_map; lia).
      replace (i - List.length kpre) with 0
        by (rewrite <- Hlen, <- Hkpre, length_map; lia).
      simpl. exists [], c, cs, kpre, kpost. simpl.
      split; [reflexivity|]. split; [reflexivity|]. split; [now rewrite Hkx|].
      split; [|intros c' k' []].
      intros k' Hk'. apply Hpre. rewrite <- Hkpre. now apply in_map.
    + pose proof (ExcelFacts.findIndex_None _ _ E) as Hnone.
      destruct (Excel.find sample cs) as [k|].
      * destruct IH as (cs0 & c0 & cs' & pre & post & -> & Hk & Hc & Hpre & Hcs).
        exists (c :: cs0), c0, cs', pre, post. simpl.
        split; [reflexivity|]. split; [assumption|]. split; [assumption|].
        split; [assumption|].
        intros c' k' [<- | Hc'] Hk'; [|now apply Hcs].
        apply Hnone. now apply in_map.
      * intros c' k [<- | Hc'] Hk; [|now apply IH].
        apply Hnone. now apply in_map.
Qed.
(** ** Counts per key *)

(** X2.  In a returned report a person, group or shift key holds what the
    records that resolve to it leave there: nothing when there is none
    and, under a key that is not the name of a member of
    [Object.prototype], their number.  When no record has a person, a
    group or a shift of such a name, the counts of each breakdown add
    up to the total. *)
Theorem bucket_count_is_number_of_records
    (h : Host) (peopleToGroup peopleToShift : obj string) (rows : list Row.t)
    (rep : Report.t) (k : string) :
  computeAdvancedAnalytics h peopleToGroup peopleToShift rows = Ok rep ->
  get k (Basic.perPerson (Report.basic rep))
  = tally h k (List.length (recordsOf (resolvePersonName h) k rows))
  /\ get k (Basic.perGroup (Report.basic rep))
     = tally h k (List.length (recordsOf (bucketOf h peopleToGroup) k rows))
  /\ get k (Basic.perShift (Report.basic rep))
     = tally h k (List.length (recordsOf (bucketOf h peopleToShift) k rows))
  /\ (ordinary k = true ->
      get k (Basic.perPerson (Report.basic rep))
      = match recordsOf (resolvePersonName h) k rows with
        | [] => None
        | l => Some (Num (List.length l))
        end
      /\ get k (Basic.perGroup (Report.basic rep))
         = match recordsOf (bucketOf h peopleToGroup) k rows with
           | [] => None
           | l => Some (Num (List.length l))
           end
      /\ get k (Basic.perShift (Report.basic rep))
         = match recordsOf (bucketOf h peopleToShift) k rows with
           | [] => None
           | l => Some (Num (List.length l))
           end)
  /\ (ordinaryKeys h peopleToGroup peopleToShift rows = true ->
      Basic.totalTrucks (Report.basic rep) = List.length rows
      /\ sumOverKeys (Basic.perPerson (Report.basic rep))
         = Basic.totalTrucks (Report.basic rep)
      /\ sumOverKeys (Basic.perGroup (Report.basic rep))
         = Basic.totalTrucks (Report.basic rep)
      /\ sumOverKeys (Basic.perShift (Report.basic rep))
         = Basic.totalTrucks (Report.basic rep)).
Proof.
  intros Hrep.
  destruct (@OutcomeFacts.counts h peopleToGroup peopleToShift rows rep k Hrep)
    as (Hp & Hg & Hs).
  split; [assumption|]. split; [assumption|]. split; [assumption|]. split.
  - intros Hk. apply ItemFacts.ordinary_inherited in Hk.
    rewrite Hp, Hg, Hs. unfold tally. rewrite Hk.
    repeat split;
      match goal with
      | |- context [recordsOf ?key k rows] => now destruct (recordsOf key k rows)
      end.
  - intros Hord. on_ordinary Hord Hrep rep' Hrep'. simpl.
    rewrite !LiftFacts.sumOverKeys_numbered.
    destruct (bucket_counts_sum_to_total_on_maps h peopleToGroup peopleToShift rows)
      as [[rep'' (Hrep'' & Ht & H1 & H2 & H3 & _)] | [Hthrow _]];
      [|rewrite Hthrow in Hrep'; discriminate].
    rewrite Hrep' in Hrep''. injection Hrep'' as <-. auto.
Qed.


(** X4.  The totals and the per-key counts of a report do not depend on
    the order of the records. *)
Theorem counts_ignore_record_order
    (h : Host) (peopleToGroup peopleToShift : obj string)
    (rows rows' : list Row.t) (rep : Report.t) :
  Permutation rows rows' ->
  computeAdvancedAnalytics h peopleToGroup peopleToShift rows = Ok rep ->
  exists rep',
    computeAdvancedAnalytics h peopleToGroup peopleToShift rows' = Ok rep'
    /\ Basic.totalTrucks (Report.basic rep') = Basic.totalTrucks (Report.basic rep)
    /\ Basic.totalImpounded (Report.basic rep')
       = Basic.totalImpounded (Report.basic rep)
    /\ forall k,
         get k (Basic.perPerson (Report.basic rep'))
         = get k (Basic.perPerson (Report.basic rep))
         /\ get k (Basic.perGroup (Report.basic rep'))
            = get k (Basic.perGroup (Report.basic rep))
         /\ get k (Basic.perShift (Report.basic rep'))
            = get k (Basic.perShift (Report.basic rep)).
Proof.
  intros HP Hrep. with_maps Hrep prep Hprep.
  destruct (@counts_ignore_record_order_on_maps
              h peopleToGroup peopleToShift rows rows' prep HP Hprep)
    as (prep' & Hprep' & Ht & Hi & _).
  destruct (@OutcomeFacts.returns_with _ _ _ _ _ Hprep') as [rep' Hrep'].
  exists rep'. split; [assumption|].
  destruct (@OutcomeFacts.agreement _ _ _ _ _ _ Hrep' Hprep') as (F1 & F2 & _).
  split; [congruence|]. split; [congruence|].
  intros k.
  destruct (@OutcomeFacts.counts h peopleToGroup peopleToShift rows rep k Hrep)
    as (Hp & Hg & Hs).
  destruct (@OutcomeFacts.counts h peopleToGroup peopleToShift rows' rep' k Hrep')
    as (Hp' & Hg' & Hs').
  rewrite Hp, Hg, Hs, Hp', Hg', Hs'. unfold recordsOf.
  repeat split; f_equal; symmetry;
    now apply Permutation_length, CountFacts.Permutation_filter.
Qed.

(** ** Impounded records *)

(** X5.  The impounded trucks are part of the trucks.  When no record
    has a person, a group or a shift named as a member of
    [Object.prototype] is, the total, and each group's and each shift's
    impounded count, is at most the matching count of all records; such
    a count is the number of impounded records of that bucket, and the
    counts of either breakdown add up to the impounded total. *)
Theorem impounded_counts_are_within_counts
    (h : Host) (peopleToGroup peopleToShift : obj string) (rows : list Row.t)
    (rep : Report.t) :
  ordinaryKeys h peopleToGroup peopleToShift rows = true ->
  computeAdvancedAnalytics h peopleToGroup peopleToShift rows = Ok rep ->
  Basic.totalImpounded (Report.basic rep) <= Basic.totalTrucks (Report.basic rep)
  /\ sumOverKeys (Report.impoundedByGroup rep) = Basic.totalImpounded (Report.basic rep)
  /\ sumOverKeys (Report.impoundedByShift rep) = Basic.totalImpounded (Report.basic rep)
  /\ forall k,
       countAt k (Report.impoundedByGroup rep)
       = List.length (recordsOf (bucketOf h peopleToGroup) k (impoundedRows rows))
       /\ countAt k (Report.impoundedByGroup rep)
          <= countAt k (Basic.perGroup (Report.basic rep))
       /\ countAt k (Report.impoundedByShift rep)
          = List.length (recordsOf (bucketOf h peopleToShift) k (impoundedRows rows))
       /\ countAt k (Report.impoundedByShift rep)
          <= countAt k (Basic.perShift (Report.basic rep)).
Proof.
  intros Hord Hrep. on_ordinary Hord Hrep rep' Hrep'. simpl.
  from_maps impounded_counts_are_within_counts_on_maps Hrep' Hm.
  destruct Hm as (H1 & H2 & H3 & Hk).
  rewrite !LiftFacts.sumOverKeys_numbered.
  split; [assumption|]. split; [assumption|]. split; [assumption|].
  intros k. rewrite !LiftFacts.countAt_numbered.
  rewrite !(LiftFacts.recordsOf_bucket_impounded h peopleToGroup peopleToShift _ rows k
              Hord).
  apply Hk.
Qed.

(** X6.  The impounded series of the shift chart, which reads
    [impoundedByShift] at the keys of [perShift], has one entry for each
    shift; when no record has a person, a group or a shift named as a
    member of [Object.prototype] is, its entries are numbers that add up
    to the impounded total. *)
Theorem shift_chart_shows_every_impounded_truck
    (h : Host) (peopleToGroup peopleToShift : obj string) (rows : list Row.t)
    (rep : Report.t) :
  computeAdvancedAnalytics h peopleToGroup peopleToShift rows = Ok rep ->
  List.length (Display.impoundedSeries rep)
  = List.length (keys (Basic.perShift (Report.basic rep)))
  /\ (ordinaryKeys h peopleToGroup peopleToShift rows = true ->
      (forall c, In c (Display.impoundedSeries rep) -> exists n, c = Num n)
      /\ list_sum (map countOf (Display.impoundedSeries rep))
         = Basic.totalImpounded (Report.basic rep)).
Proof.
  intros Hrep. split; [apply length_map|].
  intros Hord. on_ordinary Hord Hrep rep' Hrep'. split.
  - intros c Hc. unfold Display.impoundedSeries in Hc. simpl in Hc.
    apply in_map_iff in Hc as [k [<- Hk]].
    rewrite ItemFacts.keys_numbered in Hk.
    unfold valueAt. rewrite ItemFacts.get_numbered.
    destruct (get k (Plain.Report.impoundedByShift rep')) as [n|] eqn:G;
      simpl; [eauto|].
    assert (Hok : ordinary k = true).
    { destruct (@bucket_count_is_number_of_records_on_maps
                  h peopleToGroup peopleToShift rows rep' k Hrep') as (_ & _ & Hs).
      apply (proj1 (ObjFacts.keys_In k (Plain.Basic.perShift (Plain.Report.basic rep'))))
        in Hk.
      destruct (recordsOf (Plain.Spec.bucketOf h peopleToShift) k rows) as [|r l] eqn:R.
      - apply ObjFacts.get_None_iff in Hs. contradiction.
      - assert (Hr : In r (recordsOf (Plain.Spec.bucketOf h peopleToShift) k rows))
          by (rewrite R; now left).
        apply filter_In in Hr as [Hr Hkey]. apply String.eqb_eq in Hkey.
        pose proof Hord as Hall. unfold ordinaryKeys in Hall.
        rewrite forallb_forall in Hall.
        destruct (Refinement.ordinaryRow_keys _ _ _ _ (Hall r Hr))
          as (_ & _ & _ & _ & Hos).
        unfold Plain.Spec.bucketOf in Hkey. now rewrite Hkey in Hos. }
    apply ItemFacts.ordinary_inherited in Hok. rewrite Hok. simpl. eauto.
  - rewrite LiftFacts.impoundedSeries_report. simpl.
    from_maps shift_chart_shows_every_impounded_truck_on_maps Hrep' Hm.
    now destruct Hm.
Qed.

(** ** Records without a usable name *)

(** C2.  A record whose person name resolves to "Unknown", which is what
    every rejected candidate (empty, white space, [n/a], [na], [none],
    [unknown], [-] in any case) leads to, is counted under the person key
    "Unknown".  That key is left out of [uniquePeople], which counts all
    the other keys, and out of the selection of [topPerformer] and of
    [topRevenuePerformer] (whose name is "Unknown" only as the default of
    an empty selection, with revenue 0); the record is still counted in
    [totalTrucks], and the per-person table has a row for "Unknown". *)
Theorem unknown_person_bucket
    (h : Host) (peopleToGroup peopleToShift : obj string) (rows : list Row.t)
    (rep : Report.t) (r : Row.t) :
  computeAdvancedAnalytics h peopleToGroup peopleToShift rows = Ok rep ->
  In r rows ->
  resolvePersonName h r = "Unknown"
  \/ isPlaceholderName h (VStr (resolvePersonName h r)) = true
  \/ (forall c, In c (candidates r) -> rejected h c) ->
  resolvePersonName h r = "Unknown"
  /\ Basic.totalTrucks (Report.basic rep) = List.length rows
  /\ (exists n,
        get "Unknown" (Basic.perPerson (Report.basic rep)) = Some (Num n) /\ 1 <= n
        /\ exists row,
             In row (Basic.peopleRows (Report.basic rep))
             /\ PersonRow.person row = "Unknown" /\ PersonRow.trucks row = Num n)
  /\ In "Unknown" (keys (Basic.perPerson (Report.basic rep)))
  /\ Stats.uniquePeople (Report.stats rep) + 1
     = List.length (keys (Basic.perPerson (Report.basic rep)))
  /\ (forall w,
        Stats.topPerformer (Report.stats rep) = Some w ->
        PersonRow.person w <> "Unknown"
        /\ isPlaceholderName h (VStr (PersonRow.person w)) = false)
  /\ ((TopRevenue.name (Stats.topRevenuePerformer (Report.stats rep)) = "Unknown"
       /\ TopRevenue.revenue (Stats.topRevenuePerformer (Report.stats rep))
          = Num (Fin 0))
      \/ (TopRevenue.name (Stats.topRevenuePerformer (Report.stats rep)) <> "Unknown"
          /\ isPlaceholderName h
               (VStr (TopRevenue.name (Stats.topRevenuePerformer (Report.stats rep))))
             = false
          /\ In (TopRevenue.name (Stats.topRevenuePerformer (Report.stats rep)),
                 TopRevenue.revenue (Stats.topRevenuePerformer (Report.stats rep)))
                (Basic.perPersonRevenue (Report.basic rep)))).
Proof.
  intros Hrep Hr Hcase.
  assert (Hu : resolvePersonName h r = "Unknown")
    by now apply PersonFacts.resolved_placeholder.
  split; [assumption|].
  split; [now destruct (@OutcomeFacts.totals h peopleToGroup peopleToShift rows rep Hrep)|].
  destruct (@OutcomeFacts.counts h peopleToGroup peopleToShift rows rep "Unknown" Hrep)
    as (Hp & _).
  assert (Hin : In r (recordsOf (resolvePersonName h) "Unknown" rows)).
  { apply filter_In. split; [assumption | now apply String.eqb_eq]. }
  destruct (recordsOf (resolvePersonName h) "Unknown" rows) as [|r0 l0] eqn:R;
    [destruct Hin|].
  cbn [List.length tally] in Hp. rewrite PeopleFacts.Unknown_ordinary in Hp.
  assert (Hkey : In "Unknown" (keys (Basic.perPerson (Report.basic rep)))).
  { apply ObjFacts.keys_In. destruct (ObjFacts.get_None_iff "Unknown"
      (Basic.perPerson (Report.basic rep))) as [_ Hnone].
    destruct (in_dec string_dec "Unknown" (map fst (Basic.perPerson (Report.basic rep))))
      as [H | H]; [assumption|].
    rewrite (Hnone H) in Hp. discriminate Hp. }
  pose proof (@PeopleFacts.person_names_distinct h peopleToGroup peopleToShift rows rep Hrep) as Hnd.
  pose proof (@PeopleFacts.person_name_records h peopleToGroup peopleToShift rows rep Hrep) as Hrec.
  pose proof (@PeopleFacts.revenue_clean h peopleToGroup peopleToShift rows rep Hrep) as Hclean.
  pose proof Hrep as Hopen.
  apply FieldFacts.compute_loop in Hopen as [a [Hloop ->]].
  cbn [Analytics.report Report.basic Report.stats Basic.perPerson Basic.peopleRows
       Basic.perPersonRevenue Stats.uniquePeople Stats.topPerformer
       Stats.topRevenuePerformer] in *.
  split; [|split; [assumption|split; [|split]]].
  - exists (S (List.length l0)). split; [assumption|]. split; [lia|].
    eexists. split.
    { unfold peopleRows. apply in_map_iff. exists "Unknown". split; [reflexivity|].
      eapply Permutation_in; [apply StringSort.Permuted_sort | exact Hkey]. }
    split; [reflexivity|].
    cbn [PersonRow.trucks]. unfold valueAt. now rewrite Hp.
  - unfold uniquePeople. apply PersonFacts.filter_all_but_one with (x := "Unknown").
    + assumption.
    + assumption.
    + now rewrite String.eqb_refl, andb_false_r.
    + intros y Hy Hne. apply Hrec in Hy as [_ [r' [_ <-]]].
      destruct (PersonFacts.resolved_cases h r') as [H | H]; [contradiction|].
      apply PersonFacts.namedPerson_not_Unknown in H as [H1 H2].
      apply String.eqb_neq in H1. now rewrite H1, H2.
  - intros w Hw. unfold topPerformer in Hw.
    apply PeopleFacts.moreTrucks_from in Hw as [Hw | Hw]; [discriminate|].
    apply filter_In in Hw as [_ Hw].
    now apply PersonFacts.namedPerson_not_Unknown.
  - unfold topRevenuePerformer, topRevenuePerformerEntry. simpl.
    set (l := filter (fun e => namedPerson h (fst e))
                     (entries (Acc.perPersonRevenue a))).
    assert (Hl : forall e, In e l -> In e (Acc.perPersonRevenue a)
                                     /\ namedPerson h (fst e) = true).
    { intros e He. apply filter_In in He as [He Hn]. split; [|assumption].
      eapply Permutation_in; [apply ObjFacts.entries_perm | exact He]. }
    assert (Hcl : Lift.clean l).
    { intros k c Hkc. apply (Hclean k c). now apply Hl in Hkc as [Hkc _]. }
    destruct (@PeopleFacts.moreRevenue_keeps h l ("", Num (Fin 0)) (Fin 0) Hcl eq_refl
                (or_introl eq_refl)) as [[He | He] [w [Hw Hpos]]].
    + left. rewrite He. split; reflexivity.
    + right. set (e := fold_left (moreRevenue h) l ("", Num (Fin 0))) in *.
      destruct (Hl e He) as [Hine Hn].
      pose proof Hn as Hn'. unfold namedPerson in Hn'.
      apply andb_true_iff in Hn' as [Hn' _]. apply andb_true_iff in Hn' as [Hne _].
      apply negb_true_iff in Hne. rewrite Hne.
      destruct (PersonFacts.namedPerson_not_Unknown h (fst e) Hn) as [H1 H2].
      split; [assumption|]. split; [assumption|].
      assert (Hval : Amount.orZero (Some (snd e)) = snd e).
      { rewrite Hw. simpl. destruct Hpos as [-> | Hpos]; [reflexivity|].
        destruct w as [| | |q]; simpl in *; try discriminate; try reflexivity.
        apply SelectionFacts.gtQ_iff in Hpos.
        destruct (Qeq_bool q 0) eqn:E; [|reflexivity].
        apply Qeq_bool_eq in E. rewrite E in Hpos. exfalso.
        exact (Qlt_irrefl _ Hpos). }
      change (In (fst e, Amount.orZero (Some (snd e))) (Acc.perPersonRevenue a)).
      rewrite Hval. now destruct e.
Qed.

(** ** The per-person table *)

(** X7.  The per-person table has one row for each person that some record
    resolves to, the name [__proto__] apart, which no key of the
    per-person counts can be, in strictly ascending order of the names,
    so no name comes twice. *)
Theorem people_table_lists_each_person_once
    (h : Host) (peopleToGroup peopleToShift : obj string) (rows : list Row.t)
    (rep : Report.t) :
  computeAdvancedAnalytics h peopleToGroup peopleToShift rows = Ok rep ->
  StronglySorted (fun x y => String.compare x y = Lt)
    (map PersonRow.person (Basic.peopleRows (Report.basic rep)))
  /\ (forall k,
        In k (map PersonRow.person (Basic.peopleRows (Report.basic rep)))
        <-> k <> "__proto__" /\ exists r, In r rows /\ resolvePersonName h r = k)
  /\ List.length (Basic.peopleRows (Report.basic rep))
     = List.length (keys (Basic.perPerson (Report.basic rep))).
Proof.
  intros Hrep.
  pose proof (@PeopleFacts.table_names h peopleToGroup peopleToShift rows rep Hrep)
    as Hnames.
  pose proof (@PeopleFacts.person_names_distinct h peopleToGroup peopleToShift rows rep
                Hrep) as Hnd.
  pose proof (@PeopleFacts.person_name_records h peopleToGroup peopleToShift rows rep
                Hrep) as Hrec.
  split; [|split].
  - rewrite Hnames. apply TableFacts.StronglySorted_strict.
    + apply OrderFacts.sort_StronglySorted.
    + eapply Permutation_NoDup; [apply StringSort.Permuted_sort | exact Hnd].
  - intros k. rewrite Hnames, <- Hrec. split; intros Hk.
    + eapply Permutation_in; [symmetry; apply StringSort.Permuted_sort | exact Hk].
    + eapply Permutation_in; [apply StringSort.Permuted_sort | exact Hk].
  - rewrite <- (length_map PersonRow.person), Hnames.
    apply Permutation_length. symmetry. apply StringSort.Permuted_sort.
Qed.

(** X8.  When no record has a person, a group or a shift named as a
    member of [Object.prototype] is, a row of the per-person table holds
    the number of the person's records and the number of the impounded
    ones among them: at least one truck, and no more impounded trucks
    than trucks.  The truck column of the table adds up to the total and
    the impounded column to the impounded total. *)
Theorem people_table_row_counts
    (h : Host) (peopleToGroup peopleToShift : obj string) (rows : list Row.t)
    (rep : Report.t) :
  ordinaryKeys h peopleToGroup peopleToShift rows = true ->
  computeAdvancedAnalytics h peopleToGroup peopleToShift rows = Ok rep ->
  (forall p,
     In p (Basic.peopleRows (Report.basic rep)) ->
     PersonRow.trucks p
     = Num (List.length (recordsOf (resolvePersonName h) (PersonRow.person p) rows))
     /\ PersonRow.impounded p
        = Num (List.length
                 (recordsOf (resolvePersonName h) (PersonRow.person p)
                            (impoundedRows rows)))
     /\ 1 <= List.length (recordsOf (resolvePersonName h) (PersonRow.person p) rows)
     /\ List.length
          (recordsOf (resolvePersonName h) (PersonRow.person p) (impoundedRows rows))
        <= List.length (recordsOf (resolvePersonName h) (PersonRow.person p) rows))
  /\ list_sum (map (fun p => countOf (PersonRow.trucks p))
                   (Basic.peopleRows (Report.basic rep)))
     = Basic.totalTrucks (Report.basic rep)
  /\ list_sum (map (fun p => countOf (PersonRow.impounded p))
                   (Basic.peopleRows (Report.basic rep)))
     = Basic.totalImpounded (Report.basic rep).
Proof.
  intros Hord Hrep. on_ordinary Hord Hrep rep' Hrep'.
  from_maps people_table_row_counts_on_maps Hrep' Hm.
  destruct Hm as (Hrows & Ht & Hi). simpl.
  split; [|split].
  - intros p Hp. apply LiftFacts.row_In in Hp as [p' [Hp' ->]]. simpl.
    destruct (Hrows p' Hp') as (H1 & H2 & H3 & H4).
    rewrite <- H1, <- H2. auto.
  - rewrite map_map. exact Ht.
  - rewrite map_map. exact Hi.
Qed.

(** X9.  When no record has a person, a group or a shift named as a
    member of [Object.prototype] is, the success rate that the table
    shows for a person, [(trucks - impounded) / trucks * 100], divides by
    a count that is not zero: it is a number from 0 to 100, and 100
    exactly when none of the person's trucks was impounded. *)
Theorem success_rate_is_a_percentage
    (h : Host) (peopleToGroup peopleToShift : obj string) (rows : list Row.t)
    (rep : Report.t) (p : PersonRow.t) :
  ordinaryKeys h peopleToGroup peopleToShift rows = true ->
  computeAdvancedAnalytics h peopleToGroup peopleToShift rows = Ok rep ->
  In p (Basic.peopleRows (Report.basic rep)) ->
  exists q, Display.successRate h p = Fin q
            /\ (0 <= q <= 100)%Q
            /\ ((q == 100)%Q <-> PersonRow.impounded p = Num 0).
Proof.
  intros Hord Hrep Hp. on_ordinary Hord Hrep rep' Hrep'.
  apply LiftFacts.row_In in Hp as [p' [Hp' ->]].
  destruct (@success_rate_is_a_percentage_on_maps
              h peopleToGroup peopleToShift rows rep' p' Hrep' Hp')
    as (q & Hq & Hb & Hiff).
  exists q. rewrite LiftFacts.successRate_row. split; [assumption|].
  split; [assumption|]. rewrite Hiff. simpl. split; [now intros -> | now intros [= ->]].
Qed.

(** ** Statistics *)

(** X12.  When there are records, and none has a person, a group or a
    shift named as a member of [Object.prototype] is, [topGroup] is a
    group of the greatest record count, first among the groups of that
    count in the order in which [Object.entries(perGroupCounts)] lists
    them; it has at least one truck, and its percentage of the total is
    above 0 and at most 100. *)
Theorem top_group_has_the_most_trucks
    (h : Host) (peopleToGroup peopleToShift : obj string) (rows : list Row.t)
    (rep : Report.t) :
  ordinaryKeys h peopleToGroup peopleToShift rows = true ->
  computeAdvancedAnalytics h peopleToGroup peopleToShift rows = Ok rep ->
  rows <> [] ->
  let top := Stats.topGroup (Report.stats rep) in
  exists n,
    TopGroup.trucks top = Num n
    /\ get (TopGroup.name top) (Basic.perGroup (Report.basic rep)) = Some (Num n)
    /\ 1 <= n <= Basic.totalTrucks (Report.basic rep)
    /\ (forall g c,
          get g (Basic.perGroup (Report.basic rep)) = Some c ->
          exists m,
            c = Num m /\ m <= n
            /\ (m = n -> g <> TopGroup.name top ->
                before (keys (Basic.perGroup (Report.basic rep))) (TopGroup.name top) g))
    /\ exists q, TopGroup.percentage top = Fin q /\ (0 < q <= 100)%Q.
Proof.
  intros Hord Hrep Hne. on_ordinary Hord Hrep rep' Hrep'.
  destruct (@top_group_has_the_most_trucks_on_maps
              h peopleToGroup peopleToShift rows rep' Hrep' Hne)
    as (Hget & Hbounds & Hmax & Hq).
  cbv zeta. simpl.
  exists (Plain.TopGroup.trucks (Plain.Stats.topGroup (Plain.Report.stats rep'))).
  split; [reflexivity|]. split; [now rewrite ItemFacts.get_numbered, Hget|].
  split; [assumption|]. split; [|assumption].
  intros g c Hc. apply LiftFacts.get_numbered_Some in Hc as [m [-> Hm]].
  exists m. split; [reflexivity|]. rewrite ItemFacts.keys_numbered. now apply Hmax.
Qed.

(** X13.  When no record has a person, a group or a shift named as a
    member of [Object.prototype] is, [uniquePeople] never exceeds the
    number of records.  When no record resolves to a name other than
    "Unknown" it is 0 and the average is 0; otherwise the average is the
    quotient of the total number of records, those of "Unknown"
    included, by the number of named persons, and is at least 1. *)
Theorem average_is_zero_or_at_least_one
    (h : Host) (peopleToGroup peopleToShift : obj string) (rows : list Row.t)
    (rep : Report.t) :
  ordinaryKeys h peopleToGroup peopleToShift rows = true ->
  computeAdvancedAnalytics h peopleToGroup peopleToShift rows = Ok rep ->
  Stats.uniquePeople (Report.stats rep) <= Basic.totalTrucks (Report.basic rep)
  /\ ((Stats.uniquePeople (Report.stats rep) = 0
       /\ Stats.avgTrucksPerPerson (Report.stats rep) = Fin 0
       /\ forall r, In r rows -> resolvePersonName h r = "Unknown")
      \/ (0 < Stats.uniquePeople (Report.stats rep)
          /\ (exists r, In r rows /\ resolvePersonName h r <> "Unknown")
          /\ Stats.avgTrucksPerPerson (Report.stats rep)
             = JsNumber.div
                 (JsNumber.ofNat (Basic.totalTrucks (Report.basic rep)))
                 (JsNumber.ofNat (Stats.uniquePeople (Report.stats rep)))
          /\ exists q,
               Stats.avgTrucksPerPerson (Report.stats rep) = Fin q
               /\ (1 <= q)%Q)).
Proof.
  intros Hord Hrep. on_ordinary Hord Hrep rep' Hrep'.
  destruct (@average_is_zero_or_at_least_one_on_maps
              h peopleToGroup peopleToShift rows rep' Hrep')
    as (Hle & [(H0 & Havg & Hall) | (Hpos & Hex & q & Hq & _ & H1)]).
  - simpl. split; [assumption|]. left. auto.
  - simpl. split; [assumption|]. right. split; [assumption|]. split; [assumption|].
    split; [|eauto].
    apply ReportFacts.compute_Ok in Hrep' as [a [Hloop ->]]. simpl in *.
    unfold Plain.Analytics.avgTrucksPerPerson.
    apply Nat.ltb_lt in Hpos. now rewrite Hpos.
Qed.

(** X15.  The revenue breakdowns follow the count breakdowns: each person,
    group and shift with a count has a revenue entry and the other way
    round, the keys coming in the same order; the total revenue is the
    sum of the row revenues, added from the left to 0 in the order of the
    records. *)
Theorem revenue_breakdowns_follow_the_counts
    (h : Host) (peopleToGroup peopleToShift : obj string) (rows : list Row.t)
    (rep : Report.t) :
  computeAdvancedAnalytics h peopleToGroup peopleToShift rows = Ok rep ->
  keys (Basic.perPersonRevenue (Report.basic rep))
  = keys (Basic.perPerson (Report.basic rep))
  /\ keys (Basic.perGroupRevenue (Report.basic rep))
     = keys (Basic.perGroup (Report.basic rep))
  /\ keys (Basic.perShiftRevenue (Report.basic rep))
     = keys (Basic.perShift (Report.basic rep))
  /\ Basic.totalRevenue (Report.basic rep) = sumFrom (Fin 0) (map rowRevenue rows).
Proof.
  intros Hrep.
  destruct (@PeopleFacts.revenue_names h peopleToGroup peopleToShift rows rep Hrep)
    as (H1 & H2 & H3).
  split; [now apply RevenueKeyFacts.keys_agree|].
  split; [now apply RevenueKeyFacts.keys_agree|].
  split; [now apply RevenueKeyFacts.keys_agree|].
  with_maps Hrep rep' Hrep'. rewrite Frevenue.
  from_maps revenue_breakdowns_follow_the_counts_on_maps Hrep' Hm.
  now destruct Hm as (_ & _ & _ & Hm).
Qed.

(** ** Alerts *)

(** X18.  When no record has a person, a group or a shift named as a
    member of [Object.prototype] is, an alert titled "Assignment Needed"
    is raised exactly when some record resolves to a person, "Unknown"
    included, that the group or the shift mapping leaves unassigned; its
    message counts these persons, not their records.  A report has at
    most three alerts. *)
Theorem assignment_alert_counts_unassigned_people
    (h : Host) (peopleToGroup peopleToShift : obj string) (rows : list Row.t)
    (rep : Report.t) :
  ordinaryKeys h peopleToGroup peopleToShift rows = true ->
  computeAdvancedAnalytics h peopleToGroup peopleToShift rows = Ok rep ->
  List.length (Report.alerts rep) <= 3
  /\ List.length (assignmentAlerts (Report.alerts rep))
     = (if existsb (fun r => unassigned peopleToGroup peopleToShift
                               (resolvePersonName h r)) rows
        then 1 else 0)
  /\ forall al,
       In al (assignmentAlerts (Report.alerts rep)) ->
       Alert.type al = "info"
       /\ Alert.message al
          = JsString.ofNat
              (List.length (filter (unassigned peopleToGroup peopleToShift)
                                   (firstSeen (map (resolvePersonName h) rows))))
            ++ " team members need group or shift assignments for better organization.".
Proof.
  intros Hord Hrep. on_ordinary Hord Hrep rep' Hrep'.
  from_maps assignment_alert_counts_unassigned_people_on_maps Hrep' Hm.
  destruct Hm as (H3 & Hcount & Hmsg). simpl.
  assert (Hsame : forall r, In r rows ->
            unassigned peopleToGroup peopleToShift (resolvePersonName h r)
            = Plain.Tally.unassigned peopleToGroup peopleToShift (resolvePersonName h r)).
  { intros r Hr. apply LiftFacts.unassigned_ordinary.
    exact (LiftFacts.ordinaryKeys_person h peopleToGroup peopleToShift rows r Hord Hr). }
  rewrite (LiftFacts.existsb_same _ _ rows Hsame).
  rewrite (filter_ext_in (unassigned peopleToGroup peopleToShift)
             (Plain.Tally.unassigned peopleToGroup peopleToShift)).
  - auto.
  - intros p Hp. apply BucketFacts.firstSeen_In, in_map_iff in Hp as [r [<- Hr]].
    now apply Hsame.
Qed.

(** X19.  When there are records, and none has a person, a group or a
    shift named as a member of [Object.prototype] is, an alert titled
    "Performance Gap Identified" is raised exactly when there is a named
    person and some row of the per-person table has fewer than half of
    [total / uniquePeople] trucks, which is
    [2 * uniquePeople * trucks < total]; this is never the case of every
    row. *)
Theorem performance_alert_is_below_half_the_average
    (h : Host) (peopleToGroup peopleToShift : obj string) (rows : list Row.t)
    (rep : Report.t) :
  ordinaryKeys h peopleToGroup peopleToShift rows = true ->
  computeAdvancedAnalytics h peopleToGroup peopleToShift rows = Ok rep ->
  rows <> [] ->
  let below :=
    belowHalf (Stats.uniquePeople (Report.stats rep))
              (Basic.totalTrucks (Report.basic rep)) in
  List.length (performanceAlerts (Report.alerts rep))
  = (if existsb below (Basic.peopleRows (Report.basic rep)) then 1 else 0)
  /\ exists p, In p (Basic.peopleRows (Report.basic rep)) /\ below p = false.
Proof.
  intros Hord Hrep Hne. on_ordinary Hord Hrep rep' Hrep'.
  destruct (@performance_alert_is_below_half_the_average_on_maps
              h peopleToGroup peopleToShift rows rep' Hrep' Hne) as (Hcount & p & Hp & Hb).
  cbv zeta in *. simpl. split.
  - rewrite MoreAlertFacts.existsb_map. exact Hcount.
  - exists (Lift.row p). split; [now apply in_map | exact Hb].
Qed.

(** X21.  The overview cards.  The object in [stats.topPerformer] has no
    property [name], so the card of the top performer always shows
    'N/A', and the name of the top earner is never empty, so its
    fallback is never shown.  When no record has a person, a group or a
    shift named as a member of [Object.prototype] is, the card of the
    top performer shows the performer's truck count, and the name of the
    most productive group is empty, and replaced by 'N/A', only when
    there are no records. *)
Theorem top_performer_card_never_shows_a_name
    (h : Host) (peopleToGroup peopleToShift : obj string) (rows : list Row.t)
    (rep : Report.t) :
  computeAdvancedAnalytics h peopleToGroup peopleToShift rows = Ok rep ->
  Display.topPerformerName rep = Str "N/A"
  /\ Display.topEarnerName rep
     = Str (TopRevenue.name (Stats.topRevenuePerformer (Report.stats rep)))
  /\ (ordinaryKeys h peopleToGroup peopleToShift rows = true ->
      Display.topPerformerTrucks rep
      = Num (JsNumber.ofNat
               match Stats.topPerformer (Report.stats rep) with
               | Some w => countOf (PersonRow.trucks w)
               | None => 0
               end)
      /\ Display.topGroupName rep
         = match rows with
           | [] => Str "N/A"
           | _ => Str (TopGroup.name (Stats.topGroup (Report.stats rep)))
           end).
Proof.
  intros Hrep. split; [|split].
  - unfold Display.topPerformerName, Display.topPerformerObject.
    now destruct (Stats.topPerformer (Report.stats rep)).
  - apply FieldFacts.compute_loop in Hrep as [a [Hloop ->]].
    unfold Display.topEarnerName. simpl. unfold topRevenuePerformer. simpl.
    destruct (String.eqb (fst (topRevenuePerformerEntry h a)) "") eqn:E;
      [reflexivity|]. now rewrite E.
  - intros Hord. on_ordinary Hord Hrep rep' Hrep'.
    from_maps top_performer_card_never_shows_a_name_on_maps Hrep' Hm.
    destruct Hm as (_ & _ & _ & Hgroup). split.
    + unfold Display.topPerformerTrucks, Display.topPerformerObject. simpl.
      destruct (Plain.Stats.topPerformer (Plain.Report.stats rep')) as [w|];
        [|reflexivity].
      simpl. destruct (Plain.PersonRow.trucks w) as [|n]; [reflexivity|].
      now rewrite (@RateFacts.ofNat_nonzero (S n)) by lia.
    + unfold Display.topGroupName, Plain.Display.topGroupName, or in *. simpl in *.
      destruct (String.eqb (Plain.TopGroup.name
                              (Plain.Stats.topGroup (Plain.Report.stats rep'))) "");
        destruct rows; simpl in *; congruence.
Qed.

(** * The basic Insights page *)

(** X23.  [computeMetrics] of the basic page and [computeAdvancedAnalytics]
    report the same totals; when the [person] field of every record is
    truthy and not a placeholder they also build the same per-person,
    per-group and per-shift counts, in the same key order, and the same
    per-person table up to the revenue column. *)
Theorem basic_metrics_agree_with_advanced_report
    (h : Host) (peopleToGroup peopleToShift : obj string) (rows : list Row.t)
    (rep : Report.t) :
  computeAdvancedAnalytics h peopleToGroup peopleToShift rows = Ok rep ->
  let m := Insights.computeMetrics h peopleToGroup peopleToShift rows in
  Insights.Metrics.totalTrucks m = Basic.totalTrucks (Report.basic rep)
  /\ Insights.Metrics.totalImpounded m = Basic.totalImpounded (Report.basic rep)
  /\ (forallb (usablePerson h) rows = true ->
      Insights.Metrics.perPerson m = Basic.perPerson (Report.basic rep)
      /\ Insights.Metrics.perGroup m = Basic.perGroup (Report.basic rep)
      /\ Insights.Metrics.perShift m = Basic.perShift (Report.basic rep)
      /\ Insights.Metrics.peopleRows m
         = map basicRow (Basic.peopleRows (Report.basic rep))).
Proof.
  intros Hrep m.
  destruct (@OutcomeFacts.totals h peopleToGroup peopleToShift rows rep Hrep)
    as (Ht & Hi).
  destruct (BasicFacts.metrics_fields h peopleToGroup peopleToShift rows)
    as (Mt & Mi & _).
  destruct (BasicFacts.metrics_dictionaries h peopleToGroup peopleToShift rows)
    as (Mp & Mg & Ms & Mrows).
  fold m in Mt, Mi, Mp, Mg, Ms, Mrows.
  split; [congruence|]. split; [congruence|].
  intros Hall. rewrite forallb_forall in Hall.
  assert (Hkey : forall r, In r rows -> Insights.personOf h r = resolvePersonName h r).
  { intros r Hr. apply MetricsFacts.personOf_resolve. now apply Hall. }
  apply FieldFacts.compute_loop in Hrep as [a [Hloop ->]].
  destruct (@AccFacts.loop_dictionaries h peopleToGroup peopleToShift rows _ _ Hloop)
    as (H1 & H2 & H3 & H4 & _).
  cbn [Analytics.report Report.basic Basic.perPerson Basic.perGroup Basic.perShift
       Basic.peopleRows Acc.init Acc.perPersonCounts Acc.perGroupCounts
       Acc.perShiftCounts Acc.perPersonImpounded] in *.
  rewrite Mp, Mg, Ms, Mrows.
  rewrite (BasicFacts.countsBy_same_keys h _ _ rows Hkey).
  rewrite (BasicFacts.countsIf_same_keys h _ _ rows Hkey).
  rewrite (BasicFacts.countsBy_same_keys h (basicBucketOf h peopleToGroup)
             (bucketOf h peopleToGroup) rows)
    by (intros r Hr; unfold basicBucketOf, bucketOf; now rewrite Hkey).
  rewrite (BasicFacts.countsBy_same_keys h (basicBucketOf h peopleToShift)
             (bucketOf h peopleToShift) rows)
    by (intros r Hr; unfold basicBucketOf, bucketOf; now rewrite Hkey).
  rewrite <- H1, <- H2, <- H3, <- H4.
  repeat split. unfold peopleRows. now rewrite map_map.
Qed.

(** X24.  The basic page does not look for placeholders.  A record whose
    [person] is truthy but a placeholder, and whose raw columns offer no
    name, resolves to "Unknown" and is counted under that key in the
    report of [computeAdvancedAnalytics]; in the result of
    [computeMetrics] it is counted under the trimmed placeholder
    itself. *)
Theorem basic_page_keeps_placeholder_names
    (h : Host) (peopleToGroup peopleToShift : obj string) (rows : list Row.t)
    (rep : Report.t) (r : Row.t) :
  computeAdvancedAnalytics h peopleToGroup peopleToShift rows = Ok rep ->
  In r rows ->
  truthy (Row.person r) = true ->
  (forall c, In c (candidates r) -> rejected h c) ->
  resolvePersonName h r = "Unknown"
  /\ Insights.personOf h r = trim (ToString h (Row.person r))
  /\ isPlaceholderName h (VStr (Insights.personOf h r)) = true
  /\ (exists n,
        get "Unknown" (Basic.perPerson (Report.basic rep)) = Some (Num n) /\ 1 <= n)
  /\ (exists n,
        get (Insights.personOf h r)
            (Insights.Metrics.perPerson
               (Insights.computeMetrics h peopleToGroup peopleToShift rows))
        = Some (Num n)
        /\ 1 <= n).
Proof.
  intros Hrep Hr Ht Hrej.
  destruct (@basic_page_keeps_placeholder_names_on_maps h r Ht Hrej) as (Hu & Hp & Hph).
  split; [assumption|]. split; [assumption|]. split; [assumption|]. split.
  - destruct (@OutcomeFacts.counts h peopleToGroup peopleToShift rows rep "Unknown" Hrep)
      as (Hget & _).
    rewrite Hget.
    now apply KeyNameFacts.counted_under with (r := r).
  - destruct (BasicFacts.metrics_dictionaries h peopleToGroup peopleToShift rows)
      as (Mp & _).
    cbv zeta in Mp. rewrite Mp, DictFacts.get_counts.
    apply KeyNameFacts.counted_under with (r := r); [assumption | reflexivity|].
    now apply KeyNameFacts.placeholder_ordinary with (h := h).
Qed.

(** X25.  In the result of [computeMetrics], which never throws, the
    totals are the numbers of records and of impounded records, and a
    key holds what the records under it leave there, the key of a record
    being its trimmed [person], or "Unknown" when that is falsy.  When
    no record has a person, a group or a shift named as a member of
    [Object.prototype] is, a row of the table holds the person's records
    and the impounded ones among them, and the columns of the table add
    up to the totals. *)
Theorem basic_metrics_count_records
    (h : Host) (peopleToGroup peopleToShift : obj string) (rows : list Row.t) :
  let m := Insights.computeMetrics h peopleToGroup peopleToShift rows in
  Insights.Metrics.totalTrucks m = List.length rows
  /\ Insights.Metrics.totalImpounded m = List.length (impoundedRows rows)
  /\ (forall k,
        get k (Insights.Metrics.perPerson m)
        = tally h k (List.length (recordsOf (Insights.personOf h) k rows))
        /\ get k (Insights.Metrics.perGroup m)
           = tally h k
               (List.length (recordsOf (basicBucketOf h peopleToGroup) k rows))
        /\ get k (Insights.Metrics.perShift m)
           = tally h k
               (List.length (recordsOf (basicBucketOf h peopleToShift) k rows)))
  /\ (ordinaryBasicKeys h peopleToGroup peopleToShift rows = true ->
      (forall p,
         In p (Insights.Metrics.peopleRows m) ->
         Insights.PersonRow.trucks p
         = Num (List.length (recordsOf (Insights.personOf h)
                                       (Insights.PersonRow.person p) rows))
         /\ Insights.PersonRow.impounded p
            = Num (List.length (recordsOf (Insights.personOf h)
                                          (Insights.PersonRow.person p)
                                          (impoundedRows rows)))
         /\ List.length (recordsOf (Insights.personOf h)
                                   (Insights.PersonRow.person p) (impoundedRows rows))
            <= List.length (recordsOf (Insights.personOf h)
                                      (Insights.PersonRow.person p) rows))
      /\ list_sum (map (fun p => countOf (Insights.PersonRow.trucks p))
                       (Insights.Metrics.peopleRows m))
         = List.length rows
      /\ list_sum (map (fun p => countOf (Insights.PersonRow.impounded p))
                       (Insights.Metrics.peopleRows m))
         = List.length (impoundedRows rows)).
Proof.
  intros m.
  destruct (BasicFacts.metrics_fields h peopleToGroup peopleToShift rows)
    as (Mt & Mi & _).
  destruct (BasicFacts.metrics_dictionaries h peopleToGroup peopleToShift rows)
    as (Mp & Mg & Ms & _).
  fold m in Mt, Mi, Mp, Mg, Ms.
  split; [assumption|]. split; [assumption|]. split.
  - intros k. rewrite Mp, Mg, Ms. now rewrite !DictFacts.get_counts.
  - intros Hord. subst m.
    rewrite (BasicFacts.metrics_refines h peopleToGroup peopleToShift rows Hord).
    destruct (basic_metrics_count_records_on_maps h peopleToGroup peopleToShift rows)
      as (_ & _ & _ & Hrows & Hts & His).
    cbv zeta in Hrows, Hts, His. simpl. split; [|split].
    + intros p Hp. apply in_map_iff in Hp as [p' [<- Hp']]. simpl.
      destruct (Hrows p' Hp') as (H1 & H2 & H3).
      rewrite <- H1, <- H2. auto.
    + rewrite map_map. exact Hts.
    + rewrite map_map. exact His.
Qed.

(** * The spreadsheet parser and the pages *)

(** X30.  A row of the sheet whose 'User Full Name' cell is truthy and
    not a placeholder becomes a record of that person: both pages name
    it by the trimmed string of that cell, whatever the other columns
    hold, and, when that string is not the name of a member of
    [Object.prototype], count it under that key. *)
Theorem user_full_name_cell_names_the_record
    (h : Host) (peopleToGroup peopleToShift : obj string)
    (json : list (obj value)) (row : obj value) (rep : Report.t) :
  computeAdvancedAnalytics h peopleToGroup peopleToShift (Excel.parseRows h json)
  = Ok rep ->
  In row json ->
  truthy (Excel.cell row "User Full Name") = true ->
  isPlaceholderName h (Excel.cell row "User Full Name") = false ->
  let name := trim (ToString h (Excel.cell row "User Full Name")) in
  let r := Excel.parseRow h (headerMapOf json) row in
  Row.person r = Excel.cell row "User Full Name"
  /\ resolvePersonName h r = name
  /\ Insights.personOf h r = name
  /\ (ordinary name = true ->
      (exists n,
         get name (Basic.perPerson (Report.basic rep)) = Some (Num n) /\ 1 <= n)
      /\ exists n,
           get name
               (Insights.Metrics.perPerson
                  (Insights.computeMetrics h peopleToGroup peopleToShift
                     (Excel.parseRows h json)))
           = Some (Num n)
           /\ 1 <= n).
Proof.
  intros Hrep Hrow Ht Hp name r.
  destruct (@user_full_name_cell_names_the_record_on_maps h (headerMapOf json) row Ht Hp)
    as (H1 & H2 & H3).
  fold r in H1, H2, H3. fold name in H2, H3.
  split; [assumption|]. split; [assumption|]. split; [assumption|].
  intros Hord.
  assert (Hr : In r (Excel.parseRows h json)).
  { unfold Excel.parseRows. now apply in_map. }
  split.
  - destruct (@OutcomeFacts.counts h peopleToGroup peopleToShift _ rep name Hrep)
      as (Hget & _).
    rewrite Hget. now apply KeyNameFacts.counted_under with (r := r).
  - destruct (BasicFacts.metrics_dictionaries h peopleToGroup peopleToShift
                (Excel.parseRows h json)) as (Mp & _).
    cbv zeta in Mp. rewrite Mp, DictFacts.get_counts.
    now apply KeyNameFacts.counted_under with (r := r).
Qed.

(** * Dates and selections *)

(** C3.  Records whose date is missing or does not parse fall in the
    "Unknown Date" bucket and still count toward [totalTrucks].  The
    bucket is not left out of the trend series: when the report has a
    series, "Unknown Date" is one of its labels, the last one, after the
    labels of the other day keys, which all come before it in the order
    of the code units; it is absent only when [trends] is [null].  A
    single record with date "not-a-date", on a host that does not parse
    it, is counted, has day key "Unknown Date", and [trends] is
    [null]. *)
Theorem unknown_date_bucket
    (h : Host) (peopleToGroup peopleToShift : obj string) (rows : list Row.t)
    (rep : Report.t) :
  computeAdvancedAnalytics h peopleToGroup peopleToShift rows = Ok rep ->
  Basic.totalTrucks (Report.basic rep) = List.length rows
  /\ (forall r,
        In r rows ->
        truthy (dateStr r) = false \/ newDate h (dateStr r) = None ->
        dayKey h r = "Unknown Date"
        /\ In "Unknown Date" (keys (Report.dailyActivity rep))
        /\ (forall tr,
              Report.trends rep = Some tr ->
              In "Unknown Date" (Trends.dates tr)
              /\ exists days,
                   Trends.dates tr
                   = (map (dateLabel h) days ++ ["Unknown Date"])%list
                   /\ forall d,
                        In d days ->
                        String.ltb d "Unknown Date" = true
                        /\ exists r', In r' rows /\ dayKey h r' = d))
  /\ (forall r,
        rows = [r] ->
        Row.date r = VStr "not-a-date" ->
        legacyDateParse h "not-a-date" = None ->
        Basic.totalTrucks (Report.basic rep) = 1
        /\ dayKey h r = "Unknown Date"
        /\ Report.trends rep = None).
Proof.
  intros Hrep. with_maps Hrep rep' Hrep'. rewrite Ftotal, Ftrends, Fdaily.
  from_maps unknown_date_bucket_on_maps Hrep' Hm.
  destruct Hm as (Ht & Hbucket & Hsingle).
  split; [assumption|]. split; [|assumption].
  intros r Hr Hbad. destruct (Hbucket r Hr Hbad) as (Hkey & Hin & Hlabel).
  split; [assumption|]. split; [assumption|].
  intros tr Htr. split; [now apply Hlabel|].
  apply (@DateOrderFacts.unknown_date_last h peopleToGroup peopleToShift rows rep' tr
           Hrep' Htr).
  eauto.
Qed.

(** On [Examples.sast] the record with date "not-a-date" and the record
    of 2024-01-01 give a trend series of two entries, the second of them
    labelled "Unknown Date". *)
Lemma unknown_date_in_trend_series :
  exists rep tr,
    computeAdvancedAnalytics Examples.sast [] [] Examples.mixedDates = Ok rep
    /\ Report.trends rep = Some tr
    /\ Trends.dates tr = ["2024/01/01"; "Unknown Date"]
    /\ Trends.dailyCounts tr = [1; 1]
    /\ In "Unknown Date" (Trends.dates tr).
Proof.
  eexists. eexists. split; [vm_compute; reflexivity|].
  split; [reflexivity|]. split; [reflexivity|]. split; [reflexivity|].
  right. now left.
Qed.



(** * The properties on sample inputs *)

Ltac sample_report rep E :=
  match goal with
  | |- context [computeAdvancedAnalytics ?h ?g ?s ?rows] =>
      destruct (computeAdvancedAnalytics h g s rows) as [rep|?e] eqn:E;
      [|vm_compute in E; discriminate E]
  end.

Lemma unknown_person_bucket_witness :
  exists rep,
    computeAdvancedAnalytics Examples.sast [] [] Examples.withPlaceholders = Ok rep
    /\ get "Unknown" (Basic.perPerson (Report.basic rep)) = Some (Num 2)
    /\ Stats.uniquePeople (Report.stats rep) + 1
       = List.length (keys (Basic.perPerson (Report.basic rep)))
    /\ Basic.totalTrucks (Report.basic rep) = 3
    /\ TopRevenue.name (Stats.topRevenuePerformer (Report.stats rep)) = "Jane".
Proof.
  sample_report rep E. exists rep. split; [reflexivity|].
  destruct (@unknown_person_bucket Examples.sast [] [] Examples.withPlaceholders rep
              (Examples.fined "N/A" (VNum (Fin 500)) VUndefined) E)
    as (_ & Ht & _ & _ & Hu & _); [simpl; auto | left; reflexivity |].
  rewrite Hu, Ht. vm_compute in E. injection E as <-. repeat split.
Defined.

Lemma unknown_date_bucket_witness :
  exists rep,
    computeAdvancedAnalytics Examples.sast [] []
      [Examples.entry "John" "not-a-date" false] = Ok rep
    /\ Basic.totalTrucks (Report.basic rep) = 1
    /\ dayKey Examples.sast (Examples.entry "John" "not-a-date" false) = "Unknown Date"
    /\ Report.trends rep = None.
Proof.
  sample_report rep E. exists rep. split; [reflexivity|].
  destruct (@unknown_date_bucket Examples.sast [] []
              [Examples.entry "John" "not-a-date" false] rep E)
    as (_ & _ & H).
  exact (H (Examples.entry "John" "not-a-date" false) eq_refl eq_refl eq_refl).
Defined.


Lemma day_key_is_utc_date_witness :
  dayKey Examples.sast Examples.newYearNight = isoDate (utcDate 1704061800000)
  /\ dayKey Examples.sast Examples.newYearNight = "2023-12-31".
Proof.
  destruct (@day_key_is_utc_date Examples.sast Examples.newYearNight 1704061800000%Z)
    as [Hkey Hfmt]; [reflexivity | vm_compute; reflexivity |].
  split; [exact Hkey|].
  rewrite (Hfmt 2023%Z 12%Z 31%Z); [reflexivity | vm_compute; reflexivity | lia].
Defined.

Lemma row_revenue_sums_fine_fields_witness :
  rowRevenue (Examples.fined "John" (VNum (Fin 100)) (VNum (Fin 50))) = Fin 150
  /\ rowRevenue Examples.blank = Fin 0.
Proof.
  split.
  - apply (proj2 (proj2 (proj2 (row_revenue_sums_fine_fields
                                 (Examples.fined "John" (VNum (Fin 100)) (VNum (Fin 50))))))).
    + reflexivity.
    + reflexivity.
    + intros f fb Hin. simpl in Hin.
      repeat (destruct Hin as [Hin | Hin];
              [injection Hin as <- <-; split; reflexivity|]).
      destruct Hin.
  - apply (proj1 (proj2 (proj2 (row_revenue_sums_fine_fields Examples.blank)))).
    intros f fb Hin. simpl in Hin.
    repeat (destruct Hin as [Hin | Hin];
            [injection Hin as <- <-; split; reflexivity|]).
    destruct Hin.
Defined.

Lemma impounded_rate_is_percentage_witness :
  exists rep q,
    computeAdvancedAnalytics Examples.sast [] [] Examples.scenario = Ok rep
    /\ Stats.impoundedRate (Report.stats rep) = Fin q
    /\ (q == 100 # 3)%Q /\ (0 <= q <= 100)%Q.
Proof.
  destruct (impounded_rate_is_percentage Examples.sast [] [] Examples.scenario)
    as [[rep (Hrep & _ & _ & Hrate & _ & _)] | [Hthrow _]];
    [|vm_compute in Hthrow; discriminate Hthrow].
  exists rep. eexists. split; [exact Hrep|]. split; [exact Hrate|].
  split; [reflexivity|]. split; discriminate.
Defined.

Lemma impound_alert_tiers_witness :
  exists rep,
    computeAdvancedAnalytics Examples.sast [] [] Examples.twentyImpounded = Ok rep
    /\ List.length (dangerAlerts (Report.alerts rep)) = 1
    /\ List.length (impoundWarnings (Report.alerts rep)) = 0.
Proof.
  destruct (impound_alert_tiers Examples.sast [] [] Examples.twentyImpounded)
    as [[rep (Hrep & _ & _ & _ & _ & H20)] | [Hthrow _]];
    [|vm_compute in Hthrow; discriminate Hthrow].
  exists rep. split; [exact Hrep|].
  destruct H20 as (_ & Hd & Hw); [reflexivity | | auto].
  intros r Hr. apply repeat_spec in Hr. now subst r.
Defined.


(** *** Further samples *)

(** Fines found in the raw columns, text that is not a number counting
    for 0. *)
Example rowRevenue_raw_columns :
  exists q, rowRevenue Examples.rawFines = Fin q /\ (q == 251 # 2)%Q.
Proof. eexists. split; [vm_compute; reflexivity | reflexivity]. Qed.

(** The one way to a revenue that is not a number: infinities of both
    signs among the fields. *)
Example rowRevenue_opposite_infinities :
  rowRevenue (Examples.fined "John" (VNum PosInf) (VStr "-Infinity")) = NaN.
Proof. reflexivity. Qed.

(** A truck number that is a number stops the whole computation. *)
Example numeric_truckId_throws :
  computeAdvancedAnalytics Examples.sast [] [] [Examples.numberedTruck]
  = Throw TypeError.
Proof. reflexivity. Qed.

(** The placeholder test on the names of the specification. *)
Example placeholder_names :
  map (fun s => resolvePersonName Examples.sast (Examples.entry s "" false))
      ["N/A"; "none"; ""; "-"; "  "; "n.a."; "NA"; "Unknown"; " Jane "; "Nan"]
  = ["Unknown"; "Unknown"; "Unknown"; "Unknown"; "Unknown"; "Unknown";
     "Unknown"; "Unknown"; "Jane"; "Nan"].
Proof. reflexivity. Qed.

(** A date alone is read as UTC and keeps its day on every host. *)
Example date_only_key :
  dayKey Examples.sast (Examples.entry "John" "2024-01-01" false) = "2024-01-01".
Proof. vm_compute. reflexivity. Qed.

(** The group of a person named as an inherited function is, and what
    the revenue of such a person becomes. *)
Example inherited_function_as_group :
  exists rep,
    computeAdvancedAnalytics Examples.sast [] [] Examples.constructorTwice = Ok rep
    /\ Basic.perGroup (Report.basic rep)
       = [("function Object() { [native code] }", Num 2); ("Unassigned", Num 1)]
    /\ Basic.perPersonRevenue (Report.basic rep)
       = [("constructor", Str "function Object() { [native code] }00");
          ("Jane", Num (Fin 0))]
    /\ Stats.uniquePeople (Report.stats rep) = 2
    /\ option_map PersonRow.person (Stats.topPerformer (Report.stats rep))
       = Some "Jane".
Proof. eexists. split; [vm_compute; reflexivity|]. repeat split. Qed.

(** * The further properties on sample inputs *)

Lemma bucket_count_is_number_of_records_witness :
  exists rep,
    computeAdvancedAnalytics Examples.sast [] [] Examples.scenario = Ok rep
    /\ get "John" (Basic.perPerson (Report.basic rep)) = Some (Num 2)
    /\ get "Unassigned" (Basic.perGroup (Report.basic rep)) = Some (Num 3)
    /\ get "Unassigned" (Basic.perShift (Report.basic rep)) = Some (Num 3)
    /\ sumOverKeys (Basic.perPerson (Report.basic rep)) = 3.
Proof.
  sample_report rep E. exists rep. split; [reflexivity|].
  destruct (@bucket_count_is_number_of_records Examples.sast [] [] Examples.scenario
              rep "John" E) as (HJ & _ & _ & _ & Hsum).
  destruct (@bucket_count_is_number_of_records Examples.sast [] [] Examples.scenario
              rep "Unassigned" E) as (_ & HG & HS & _).
  destruct Hsum as (Ht & Hp & _); [vm_compute; reflexivity|].
  rewrite HJ, HG, HS, Hp, Ht. repeat split.
Defined.


Lemma counts_ignore_record_order_witness :
  exists rep rep',
    computeAdvancedAnalytics Examples.sast [] [] Examples.bobThenAlice = Ok rep
    /\ computeAdvancedAnalytics Examples.sast [] [] (rev Examples.bobThenAlice)
       = Ok rep'
    /\ Basic.totalTrucks (Report.basic rep') = Basic.totalTrucks (Report.basic rep)
    /\ get "Bob" (Basic.perPerson (Report.basic rep'))
       = get "Bob" (Basic.perPerson (Report.basic rep)).
Proof.
  sample_report rep E.
  destruct (@counts_ignore_record_order Examples.sast [] []
              Examples.bobThenAlice (rev Examples.bobThenAlice) rep
              (Permutation_rev Examples.bobThenAlice) E)
    as (rep' & Hrep' & Ht & _ & Hk).
  exists rep, rep'. split; [reflexivity|]. split; [exact Hrep'|].
  split; [exact Ht|]. exact (proj1 (Hk "Bob")).
Defined.

Lemma impounded_counts_are_within_counts_witness :
  exists rep,
    computeAdvancedAnalytics Examples.sast [] [] Examples.scenario = Ok rep
    /\ Basic.totalImpounded (Report.basic rep) <= Basic.totalTrucks (Report.basic rep)
    /\ sumOverKeys (Report.impoundedByGroup rep)
       = Basic.totalImpounded (Report.basic rep)
    /\ sumOverKeys (Report.impoundedByShift rep)
       = Basic.totalImpounded (Report.basic rep)
    /\ countAt "Unassigned" (Report.impoundedByGroup rep) = 1.
Proof.
  sample_report rep E. exists rep. split; [reflexivity|].
  assert (Hord : ordinaryKeys Examples.sast [] [] Examples.scenario = true)
    by (vm_compute; reflexivity).
  destruct (@impounded_counts_are_within_counts Examples.sast [] []
              Examples.scenario rep Hord E) as (H1 & H2 & H3 & Hk).
  split; [exact H1|]. split; [exact H2|]. split; [exact H3|].
  rewrite (proj1 (Hk "Unassigned")). reflexivity.
Defined.

Lemma shift_chart_shows_every_impounded_truck_witness :
  exists rep,
    computeAdvancedAnalytics Examples.sast [] [] Examples.scenario = Ok rep
    /\ List.length (Display.impoundedSeries rep)
       = List.length (keys (Basic.perShift (Report.basic rep)))
    /\ list_sum (map countOf (Display.impoundedSeries rep))
       = Basic.totalImpounded (Report.basic rep).
Proof.
  sample_report rep E. exists rep. split; [reflexivity|].
  destruct (@shift_chart_shows_every_impounded_truck Examples.sast [] []
              Examples.scenario rep E) as (Hlen & Hsum).
  split; [exact Hlen|].
  destruct Hsum as (_ & Hsum); [vm_compute; reflexivity | exact Hsum].
Defined.

Lemma people_table_lists_each_person_once_witness :
  exists rep,
    computeAdvancedAnalytics Examples.sast [] [] Examples.scenario = Ok rep
    /\ map PersonRow.person (Basic.peopleRows (Report.basic rep)) = ["Jane"; "John"]
    /\ StronglySorted (fun x y => String.compare x y = Lt)
         (map PersonRow.person (Basic.peopleRows (Report.basic rep)))
    /\ List.length (Basic.peopleRows (Report.basic rep))
       = List.length (keys (Basic.perPerson (Report.basic rep))).
Proof.
  sample_report rep E. exists rep. split; [reflexivity|].
  destruct (@people_table_lists_each_person_once Examples.sast [] []
              Examples.scenario rep E) as (H1 & _ & H3).
  split; [|split; [exact H1 | exact H3]].
  vm_compute in E. injection E as <-. reflexivity.
Defined.

Lemma people_table_row_counts_witness :
  exists rep,
    computeAdvancedAnalytics Examples.sast [] [] Examples.scenario = Ok rep
    /\ In Samples.janeRow (Basic.peopleRows (Report.basic rep))
    /\ PersonRow.trucks Samples.janeRow
       = Num (List.length (recordsOf (resolvePersonName Examples.sast) "Jane"
                                     Examples.scenario))
    /\ list_sum (map (fun p => countOf (PersonRow.trucks p))
                     (Basic.peopleRows (Report.basic rep)))
       = Basic.totalTrucks (Report.basic rep)
    /\ list_sum (map (fun p => countOf (PersonRow.impounded p))
                     (Basic.peopleRows (Report.basic rep)))
       = Basic.totalImpounded (Report.basic rep).
Proof.
  sample_report rep E. exists rep. split; [reflexivity|].
  assert (Hin : In Samples.janeRow (Basic.peopleRows (Report.basic rep))).
  { pose proof E as E'. vm_compute in E'. injection E' as <-. left. reflexivity. }
  assert (Hord : ordinaryKeys Examples.sast [] [] Examples.scenario = true)
    by (vm_compute; reflexivity).
  destruct (@people_table_row_counts Examples.sast [] [] Examples.scenario rep Hord E)
    as (Hrow & Ht & Hi).
  split; [exact Hin|]. split; [|split; [exact Ht | exact Hi]].
  exact (proj1 (Hrow Samples.janeRow Hin)).
Defined.

Lemma success_rate_is_a_percentage_witness :
  exists rep q,
    computeAdvancedAnalytics Examples.sast [] [] Examples.scenario = Ok rep
    /\ In Samples.janeRow (Basic.peopleRows (Report.basic rep))
    /\ Display.successRate Examples.sast Samples.janeRow = Fin q
    /\ (0 <= q <= 100)%Q.
Proof.
  sample_report rep E.
  assert (Hin : In Samples.janeRow (Basic.peopleRows (Report.basic rep))).
  { pose proof E as E'. vm_compute in E'. injection E' as <-. left. reflexivity. }
  assert (Hord : ordinaryKeys Examples.sast [] [] Examples.scenario = true)
    by (vm_compute; reflexivity).
  destruct (@success_rate_is_a_percentage Examples.sast [] [] Examples.scenario rep
              Samples.janeRow Hord E Hin) as (q & Hq & Hb & _).
  exists rep, q. split; [reflexivity|]. split; [exact Hin|].
  split; [exact Hq | exact Hb].
Defined.

Lemma daily_activity_counts_the_days_records_witness :
  exists rep,
    computeAdvancedAnalytics Examples.sast [] [] Examples.scenario = Ok rep
    /\ get "2024-01-01" (Report.dailyActivity rep)
       = Some {| DayActivity.total := 2; DayActivity.impounded := 1 |}
    /\ get "2024-01-03" (Report.dailyActivity rep) = None.
Proof.
  sample_report rep E. exists rep. split; [reflexivity|].
  rewrite (@daily_activity_counts_the_days_records Examples.sast [] []
             Examples.scenario rep "2024-01-01" E).
  rewrite (@daily_activity_counts_the_days_records Examples.sast [] []
             Examples.scenario rep "2024-01-03" E).
  split; vm_compute; reflexivity.
Defined.

Lemma trend_series_sum_to_totals_witness :
  exists rep tr,
    computeAdvancedAnalytics Examples.sast [] [] Examples.scenario = Ok rep
    /\ Report.trends rep = Some tr
    /\ list_sum (Trends.dailyCounts tr) = Basic.totalTrucks (Report.basic rep)
    /\ list_sum (Trends.dailyImpounded tr) = Basic.totalImpounded (Report.basic rep)
    /\ Forall2 le (Trends.dailyImpounded tr) (Trends.dailyCounts tr).
Proof.
  sample_report rep E.
  destruct (Report.trends rep) as [tr|] eqn:Etr;
    [|vm_compute in E; injection E as <-; discriminate Etr].
  exists rep, tr. split; [reflexivity|]. split; [exact Etr|].
  exact (@trend_series_sum_to_totals Examples.sast [] [] Examples.scenario rep tr
           E Etr).
Defined.

Lemma top_group_has_the_most_trucks_witness :
  exists rep n,
    computeAdvancedAnalytics Examples.sast [] [] Examples.scenario = Ok rep
    /\ TopGroup.trucks (Stats.topGroup (Report.stats rep)) = Num n
    /\ get (TopGroup.name (Stats.topGroup (Report.stats rep)))
           (Basic.perGroup (Report.basic rep))
       = Some (Num n)
    /\ 1 <= n <= Basic.totalTrucks (Report.basic rep)
    /\ exists q, TopGroup.percentage (Stats.topGroup (Report.stats rep)) = Fin q
                 /\ (0 < q <= 100)%Q.
Proof.
  sample_report rep E.
  assert (Hne : Examples.scenario <> []) by discriminate.
  assert (Hord : ordinaryKeys Examples.sast [] [] Examples.scenario = true)
    by (vm_compute; reflexivity).
  destruct (@top_group_has_the_most_trucks Examples.sast [] [] Examples.scenario
              rep Hord E Hne) as (n & H0 & H1 & H2 & _ & H4).
  exists rep, n. split; [reflexivity|]. split; [exact H0|]. split; [exact H1|].
  split; [exact H2 | exact H4].
Defined.

Lemma average_is_zero_or_at_least_one_witness :
  exists rep,
    computeAdvancedAnalytics Examples.sast [] [] Examples.withPlaceholders = Ok rep
    /\ Stats.uniquePeople (Report.stats rep) = 1
    /\ Stats.uniquePeople (Report.stats rep) <= Basic.totalTrucks (Report.basic rep)
    /\ exists q, Stats.avgTrucksPerPerson (Report.stats rep) = Fin q /\ (1 <= q)%Q.
Proof.
  sample_report rep E. exists rep. split; [reflexivity|].
  assert (Hu : Stats.uniquePeople (Report.stats rep) = 1).
  { pose proof E as E'. vm_compute in E'. injection E' as <-. reflexivity. }
  assert (Hord : ordinaryKeys Examples.sast [] [] Examples.withPlaceholders = true)
    by (vm_compute; reflexivity).
  destruct (@average_is_zero_or_at_least_one Examples.sast [] []
              Examples.withPlaceholders rep Hord E)
    as (Hle & [(Hz & _) | (_ & _ & _ & q & Hq & H1)]).
  - rewrite Hu in Hz. discriminate Hz.
  - split; [exact Hu|]. split; [exact Hle|]. exists q. split; [exact Hq | exact H1].
Defined.

Lemma unique_trucks_counts_distinct_identifiers_witness :
  exists rep,
    computeAdvancedAnalytics Examples.sast [] [] Samples.trucks = Ok rep
    /\ Stats.uniqueTrucks (Report.stats rep) = 1
    /\ Stats.uniqueTrucks (Report.stats rep) <= Basic.totalTrucks (Report.basic rep).
Proof.
  sample_report rep E. exists rep. split; [reflexivity|].
  destruct (@unique_trucks_counts_distinct_identifiers Examples.sast [] []
              Samples.trucks rep E) as (Hle & _).
  split; [|exact Hle].
  vm_compute in E. injection E as <-. reflexivity.
Defined.

Lemma revenue_breakdowns_follow_the_counts_witness :
  exists rep,
    computeAdvancedAnalytics Examples.sast [] [] Examples.scenario = Ok rep
    /\ keys (Basic.perPersonRevenue (Report.basic rep))
       = keys (Basic.perPerson (Report.basic rep))
    /\ keys (Basic.perGroupRevenue (Report.basic rep))
       = keys (Basic.perGroup (Report.basic rep))
    /\ keys (Basic.perShiftRevenue (Report.basic rep))
       = keys (Basic.perShift (Report.basic rep))
    /\ Basic.totalRevenue (Report.basic rep)
       = sumFrom (Fin 0) (map rowRevenue Examples.scenario).
Proof.
  sample_report rep E. exists rep. split; [reflexivity|].
  exact (@revenue_breakdowns_follow_the_counts Examples.sast [] []
           Examples.scenario rep E).
Defined.

Lemma placeholder_test_ignores_case_and_padding_witness :
  toLowerCase (trim " N/A ") = toLowerCase (trim "n/a")
  /\ isPlaceholderName Examples.sast (VStr " N/A ")
     = isPlaceholderName Examples.sast (VStr "n/a").
Proof.
  split; [reflexivity|].
  apply (@placeholder_test_ignores_case_and_padding Examples.sast " N/A " "n/a").
  reflexivity.
Defined.

Lemma assignment_alert_counts_unassigned_people_witness :
  exists rep,
    computeAdvancedAnalytics Examples.sast [("Jane", "Alpha")] [("Jane", "Day")]
      Examples.scenario = Ok rep
    /\ List.length (Report.alerts rep) <= 3
    /\ List.length (assignmentAlerts (Report.alerts rep)) = 1.
Proof.
  sample_report rep E. exists rep. split; [reflexivity|].
  assert (Hord : ordinaryKeys Examples.sast [("Jane", "Alpha")] [("Jane", "Day")]
                   Examples.scenario = true)
    by (vm_compute; reflexivity).
  destruct (@assignment_alert_counts_unassigned_people Examples.sast
              [("Jane", "Alpha")] [("Jane", "Day")] Examples.scenario rep Hord E)
    as (H3 & H1 & _).
  split; [exact H3|]. rewrite H1. reflexivity.
Defined.

Lemma performance_alert_is_below_half_the_average_witness :
  exists rep,
    computeAdvancedAnalytics Examples.sast [] [] Samples.uneven = Ok rep
    /\ List.length (performanceAlerts (Report.alerts rep)) = 1
    /\ exists p,
         In p (Basic.peopleRows (Report.basic rep))
         /\ belowHalf (Stats.uniquePeople (Report.stats rep))
                      (Basic.totalTrucks (Report.basic rep)) p = false.
Proof.
  sample_report rep E. exists rep. split; [reflexivity|].
  assert (Hne : Samples.uneven <> []) by discriminate.
  assert (Hord : ordinaryKeys Examples.sast [] [] Samples.uneven = true)
    by (vm_compute; reflexivity).
  destruct (@performance_alert_is_below_half_the_average Examples.sast [] []
              Samples.uneven rep Hord E Hne) as (H1 & H2).
  split; [|exact H2].
  rewrite H1. vm_compute in E. injection E as <-. reflexivity.
Defined.

Lemma danger_badge_goes_with_an_impound_alert_witness :
  exists rep,
    computeAdvancedAnalytics Examples.sast [] [] Examples.scenario = Ok rep
    /\ Display.rateVariant (Stats.impoundedRate (Report.stats rep)) = "danger"
    /\ List.length (dangerAlerts (Report.alerts rep))
       + List.length (impoundWarnings (Report.alerts rep)) = 1.
Proof.
  sample_report rep E. exists rep. split; [reflexivity|].
  assert (Hv : Display.rateVariant (Stats.impoundedRate (Report.stats rep)) = "danger").
  { pose proof E as E'. vm_compute in E'. injection E' as <-. reflexivity. }
  split; [exact Hv|].
  rewrite (@danger_badge_goes_with_an_impound_alert Examples.sast [] []
             Examples.scenario rep E).
  now rewrite Hv.
Defined.

Lemma top_performer_card_never_shows_a_name_witness :
  exists rep,
    computeAdvancedAnalytics Examples.sast [] [] Examples.scenario = Ok rep
    /\ option_map PersonRow.person (Stats.topPerformer (Report.stats rep))
       = Some "John"
    /\ Display.topPerformerName rep = Str "N/A"
    /\ Display.topPerformerTrucks rep = Num (JsNumber.ofNat 2)
    /\ Display.topGroupName rep = Str "Unassigned".
Proof.
  sample_report rep E. exists rep. split; [reflexivity|].
  destruct (@top_performer_card_never_shows_a_name Examples.sast [] []
              Examples.scenario rep E) as (H1 & _ & H3).
  destruct H3 as (H3 & H4); [vm_compute; reflexivity|].
  assert (Hp : Stats.topPerformer (Report.stats rep)
               = Some {| PersonRow.person := "John";
                         PersonRow.group := Name "Unassigned";
                         PersonRow.shift := Name "Unassigned";
                         PersonRow.trucks := Num 2;
                         PersonRow.impounded := Num 0;
                         PersonRow.revenue := Num (Fin 150) |}).
  { pose proof E as E'. vm_compute in E'. injection E' as <-. reflexivity. }
  split; [now rewrite Hp|]. split; [exact H1|].
  split; [rewrite H3, Hp; reflexivity|].
  rewrite H4. vm_compute in E. injection E as <-. reflexivity.
Defined.

Lemma date_only_string_is_its_own_day_key_witness :
  validDate (2024, 2, 29)%Z = true
  /\ dateStr Samples.leapDay = VStr (isoDate (2024, 2, 29)%Z)
  /\ dayKey Examples.sast Samples.leapDay = "2024-02-29".
Proof.
  split; [reflexivity|]. split; [reflexivity|].
  rewrite (@date_only_string_is_its_own_day_key Examples.sast Samples.leapDay
             2024 2 29); [reflexivity | lia | reflexivity | reflexivity].
Defined.

Lemma basic_metrics_agree_with_advanced_report_witness :
  exists rep,
    computeAdvancedAnalytics Examples.sast [] [] Examples.scenario = Ok rep
    /\ forallb (usablePerson Examples.sast) Examples.scenario = true
    /\ Insights.Metrics.totalTrucks
         (Insights.computeMetrics Examples.sast [] [] Examples.scenario)
       = Basic.totalTrucks (Report.basic rep)
    /\ Insights.Metrics.perPerson
         (Insights.computeMetrics Examples.sast [] [] Examples.scenario)
       = Basic.perPerson (Report.basic rep)
    /\ Insights.Metrics.peopleRows
         (Insights.computeMetrics Examples.sast [] [] Examples.scenario)
       = map basicRow (Basic.peopleRows (Report.basic rep)).
Proof.
  sample_report rep E. exists rep. split; [reflexivity|].
  assert (Hall : forallb (usablePerson Examples.sast) Examples.scenario = true)
    by reflexivity.
  destruct (@basic_metrics_agree_with_advanced_report Examples.sast [] []
              Examples.scenario rep E) as (Ht & _ & Hsame).
  destruct (Hsame Hall) as (Hp & _ & _ & Hrows).
  split; [exact Hall|]. split; [exact Ht|]. split; [exact Hp | exact Hrows].
Defined.

Lemma basic_page_keeps_placeholder_names_witness :
  exists rep,
    computeAdvancedAnalytics Examples.sast [] [] [Samples.notApplicable] = Ok rep
    /\ truthy (Row.person Samples.notApplicable) = true
    /\ resolvePersonName Examples.sast Samples.notApplicable = "Unknown"
    /\ Insights.personOf Examples.sast Samples.notApplicable = "N/A"
    /\ get "Unknown" (Basic.perPerson (Report.basic rep)) = Some (Num 1)
    /\ get "N/A"
           (Insights.Metrics.perPerson
              (Insights.computeMetrics Examples.sast [] [] [Samples.notApplicable]))
       = Some (Num 1).
Proof.
  sample_report rep E. exists rep. split; [reflexivity|].
  split; [reflexivity|].
  destruct (@basic_page_keeps_placeholder_names Examples.sast [] []
              [Samples.notApplicable] rep Samples.notApplicable E)
    as (H1 & H2 & _ & (n & Hn & _) & (m & Hm & _)).
  - now left.
  - reflexivity.
  - intros c Hc. simpl in Hc.
    destruct Hc as [<- | Hc]; [right; reflexivity|].
    repeat (destruct Hc as [<- | Hc]; [left; reflexivity|]). destruct Hc.
  - split; [exact H1|]. split; [rewrite H2; reflexivity|].
    split; [|vm_compute; reflexivity].
    pose proof E as E'. vm_compute in E'. injection E' as <-. reflexivity.
Defined.

Lemma basic_metrics_count_records_witness :
  ordinaryBasicKeys Examples.sast [] [] Examples.scenario = true
  /\ Insights.Metrics.totalTrucks
       (Insights.computeMetrics Examples.sast [] [] Examples.scenario) = 3
  /\ list_sum (map (fun p => countOf (Insights.PersonRow.trucks p))
                   (Insights.Metrics.peopleRows
                      (Insights.computeMetrics Examples.sast [] [] Examples.scenario)))
     = 3.
Proof.
  assert (Hord : ordinaryBasicKeys Examples.sast [] [] Examples.scenario = true)
    by (vm_compute; reflexivity).
  destruct (basic_metrics_count_records Examples.sast [] [] Examples.scenario)
    as (Ht & _ & _ & Hrows).
  destruct (Hrows Hord) as (_ & Hsum & _).
  split; [exact Hord|]. split; [exact Ht | exact Hsum].
Defined.

Lemma impounded_flag_of_a_parsed_row_witness :
  exists rep,
    computeAdvancedAnalytics Examples.sast [] []
      (Excel.parseRows Examples.sast Samples.sheet) = Ok rep
    /\ Basic.totalTrucks (Report.basic rep) = 2
    /\ Basic.totalImpounded (Report.basic rep) = 1.
Proof.
  sample_report rep E. exists rep. split; [reflexivity|].
  destruct (@impounded_flag_of_a_parsed_row Examples.sast [] [] Samples.sheet rep E)
    as (Ht & Hi & _).
  rewrite Ht, Hi. split; reflexivity.
Defined.

Lemma user_full_name_cell_names_the_record_witness :
  exists rep n,
    computeAdvancedAnalytics Examples.sast [] []
      (Excel.parseRows Examples.sast Samples.sheet) = Ok rep
    /\ truthy (Excel.cell (hd [] Samples.sheet) "User Full Name") = true
    /\ isPlaceholderName Examples.sast
         (Excel.cell (hd [] Samples.sheet) "User Full Name") = false
    /\ resolvePersonName Examples.sast
         (Excel.parseRow Examples.sast (headerMapOf Samples.sheet)
            (hd [] Samples.sheet))
       = "John"
    /\ get "John" (Basic.perPerson (Report.basic rep)) = Some (Num n)
    /\ 1 <= n.
Proof.
  sample_report rep E.
  destruct (@user_full_name_cell_names_the_record Examples.sast [] [] Samples.sheet
              (hd [] Samples.sheet) rep E (or_introl eq_refl) eq_refl eq_refl)
    as (_ & Hres & _ & Hcount).
  destruct Hcount as ((n & Hn & Hpos) & _); [reflexivity|].
  exists rep, n. split; [reflexivity|]. split; [reflexivity|]. split; [reflexivity|].
  split; [rewrite Hres; reflexivity|]. split; [exact Hn | exact Hpos].
Defined.

(** *** Samples of the parser *)

(** A truck number typed as a number stops the advanced page. *)
Example numbered_sheet_throws :
  computeAdvancedAnalytics Examples.sast [] []
    (Excel.parseRows Examples.sast Samples.numberedSheet) = Throw TypeError.
Proof. vm_compute. reflexivity. Qed.

(** The headers that the map finds in the sample sheet. *)
Example sample_header_map :
  Excel.HeaderMap.person (headerMapOf Samples.sheet) = Some "User Full Name"
  /\ Excel.HeaderMap.impounded (headerMapOf Samples.sheet) = Some "In Detention"
  /\ Excel.HeaderMap.date (headerMapOf Samples.sheet) = Some "W Date Time"
  /\ Excel.HeaderMap.truck (headerMapOf Samples.sheet) = Some "Truck No"
  /\ Excel.HeaderMap.amountDue (headerMapOf Samples.sheet) = None.
Proof. repeat split; vm_compute; reflexivity. Qed.

(** [parseFloat] reads the longest numeric prefix. *)
Example parseFloat_prefix :
  (exists q, Excel.parseFloat Examples.sast (VStr " 12.5 ZAR") = Fin q
             /\ (q == 25 # 2)%Q)
  /\ Excel.parseFloat Examples.sast (VStr "R 100") = NaN
  /\ (exists q, Excel.parseFloat Examples.sast (VStr "-1e2x") = Fin q
                /\ (q == -100 # 1)%Q)
  /\ Excel.parseFloat Examples.sast (VStr ".") = NaN
  /\ Excel.parseFloat Examples.sast (VStr "Infinity and beyond") = PosInf.
Proof.
  split; [eexists; split; [vm_compute; reflexivity | reflexivity]|].
  split; [vm_compute; reflexivity|].
  split; [eexists; split; [vm_compute; reflexivity | reflexivity]|].
  split; vm_compute; reflexivity.
Qed.
